(* ===== verification/_CoqProject ===== *)
-Q . S2P
Prelude.v
Tasks.v
Json.v
TsTypes.v
Http.v
Endpoint.v
ApiError.v
ApiService.v
EventLoop.v
NetworkStatus.v
NetInfo.v
Calendar.v
JsonCodec.v
Contexts.v
ReservationModal.v
ReservationsScreen.v
View.v
Dashboard.v
DashboardView.v
WizardView.v
ReservationsView.v
ReservationsLoop.v
LoginProfile.v
ProfileView.v
LoginView.v
Interfaces.v
Notifications.v
Navigation.v
BuildTools.v
