(* ===== verification/Prelude.v ===== *)
(** * A verification development of the APP1 facility-reservation client

    The repository is a React Native client for a facility-reservation
    backend.  The API access layer [src/src/services/api-service.ts] keeps
    the active backend base URL in two places (the exported binding
    [ACTIVE_API_URL] and the axios instance's [api.defaults.baseURL]),
    adopts a persisted "last working" URL at startup, probes a fixed list
    of candidate URLs when a login hits a transport failure, retries the
    login once against the URL it found, and turns failures into
    user-facing [Error]s ([handleApiError]).  The contexts and screens call
    it; the network-status provider, the refresh hook and the offline
    banner react to connectivity; the create-reservation wizard drives
    [getAvailableTimeSlots] and [createReservation] from three steps of UI.

    ** Files, in dependency order

    - [Prelude] (this file): the result type [res], a state-and-error monad
      [ST] with its notation in [st_scope]; [preserves] (a state invariant
      kept by a computation) and [returns] (a property of the value it
      returns), with the tactics [preserves_solve] and [returns_solve] and
      the hint database [st]; list lemmas the components share.
    - [Tasks]: cooperative tasks on one event loop.  A task is a
      resumption [Res] whose atomic actions are [ST] computations (the code
      between two [await]s); [run_seq] runs one alone, [pstep] is the event
      loop picking any task with an action left, [run_schedule] follows a
      given schedule.  Every run of the loop is finite ([pool_wf]) and an
      invariant kept by every action holds in every reachable
      configuration ([pool_invariant]).
    - [Json]: JSON values as the code sees them ([response.data],
      [response.json()]), field access with JSON.parse's last-key-wins
      rule, JavaScript truthiness and [String(v)].
    - [TsTypes]: the small type language [ty] in which the TypeScript
      interfaces are written (strings, numbers, booleans, string literal
      unions, arrays, objects with required and optional fields), its
      structural meaning [has_type] on JSON values (extra fields allowed,
      optional fields absent or undefined), and [subtype], the
      assignability check tsc performs on such types (width and depth),
      proved sound ([subtype_sound]).
    - [Http]: the environment.  A [World] holds the durable key-value store
      (AsyncStorage, through the class [KVStore] and its laws, instantiated
      by [gmap string string]), the two copies of the active URL, the log
      of requests sent, the alerts shown, and the network as an oracle
      [w_net : nat -> Request -> Outcome] (the answer to the n-th request).
      axios is modelled by [api_request]/[axios_send] (URL combination,
      timeout, 2xx validation, the [AxiosError] shapes), [fetch] by
      [fetch_send] and [response_json].
    - [Endpoint]: [API_URLS], [urlsToTry], [testApiUrl], [findWorkingApiUrl]
      ([find_working]), [updateApiBaseUrl] and the startup adoption of the
      persisted URL.  An abstract resolver [resolve_spec] (the first
      candidate whose probe answers 2xx) and the refinement theorem that
      [find_working] computes it, persists it and sends exactly the probes
      up to it.
    - [ApiError]: [handleApiError], next to the spec's error classifier.
    - [ApiService]: [login] (its inner try, the re-resolution and the one
      retry), [verifyToken], [logout], [getUserProfile],
      [updateUserProfile], [fetchUserDashboardData], [getUserReservations],
      [createReservation], [cancelReservation] (with its fallback),
      [getAvailableTimeSlots]; the calls as an inductive [ApiCall] and the
      worlds reachable by any sequence of them.
    - [EventLoop]: every entry point of [api-service.ts] as a task split
      at the awaits after which it changes the world again (the startup
      task, login's probes, persist and retry, cancel's fallback), with
      the theorem that run alone each is the atomic model.
    - [NetworkStatus]: [utils/network-status.tsx], [hooks/useNetworkRefresh.ts]
      and [components/network-alert-banner.tsx] as one state record
      [NetState] and a step function over [NetEvent]s (a NetInfo report,
      the end of an animation, the settling of a refresh, the reset timer);
      React's effect re-runs and batched updates are written out.
    - [NetInfo]: the provider's mount effect with its two sources of
      status, the NetInfo listener and the initial [NetInfo.fetch()],
      against the device's actual connectivity ([env_step]).
    - [Calendar]: JavaScript dates ([toISOString], [new Date("YYYY-MM-DD")],
      [new Date(v)] of a JSON value as [js_date], the local getters) over
      day numbers, with the proleptic Gregorian conversion.
    - [JsonCodec]: [JSON.stringify] as a printer [emit] and [JSON.parse] as
      a recursive-descent parser with fuel, on the values of [Json].
    - [Contexts]: [contexts/auth-context.tsx] and
      [contexts/reservation-context.tsx]; their React state is the record
      [Session], threaded with the [World] by the monad [App], so that a
      state update made before a rejected [await] is kept.
    - [ReservationModal]: [components/create-reservation-modal.tsx], its
      state as the record [Wizard], each handler and effect as an [Api]
      computation returning the next state, and the JSX's onPress handlers
      as a reducer [wizard_event] over UI events.
    - [ReservationsScreen]: [screens/reservations-screen.tsx] (the
      upcoming/past filter, loading, [handleCancelReservation]) and
      [components/reservation-item.tsx] (the cancel button, the shown date).
    - [View]: rendering.  A screen's JSX is a list of [Elem]s (texts,
      icons, buttons carrying the action of their [onPress], inputs,
      switches, badges, spinners, modals) or [None] when the render
      throws; [jsx_text] is what a [Text] shows of a JavaScript value.
    - [Dashboard]: [screens/dashboard-screen.tsx]: its state [DashState],
      [loadDashboardData] and [onRefresh], the upcoming list (filter,
      stable sort by date as an insertion sort, the first four), the icon
      and badge helpers.  [DashboardView]: its JSX, its events and the
      en-GB [formatDate], whose text reads back as the day shown.
    - [WizardView]: the create-reservation modal's JSX, whose buttons
      carry the [ReservationModal] reducer's events; dates in en-US.
    - [ReservationsView]: the reservations screen's own state, events and
      JSX, and the list item's JSX.  [ReservationsLoop]: its handlers split
      at their awaits as tasks of [Tasks] over the contexts and the
      screen's state, and the mounted screen as a step relation [rl_step]
      whose presses are the buttons the render offers and the
      confirmation dialog's answers.
    - [LoginProfile]: [screens/login-screen.tsx] ([handleLogin]) and
      [screens/profile-screen.tsx] (its state as the record [Profile], each
      handler as an [App] computation).  [ProfileView]: its UI events and
      its JSX.  [LoginView]: the login screen's state, its JSX with the
      [LoadingSpinner] early return ([components/loading-spinner.tsx]),
      [handleLogin] split at its [await] ([login_press], [login_settle])
      and the mounted screen as a step relation [login_step] whose UI
      events are the actions the render offers ([View.offered]).
    - [Interfaces]: the TypeScript interfaces the code declares for the
      backend's answers and for the reservation request ([User],
      [Reservation], [LoginResponse], [ReservationCreateData],
      [DashboardData], the auth context's [User], the wizard's
      [Facility], the dashboard screen's own [DashboardData] and the
      list item's [reservation] prop) as values of [TsTypes.ty].
    - [Notifications]: [utils/notifications.tsx] (the reminder's content,
      [scheduleNotification], [registerForPushNotifications] over what the
      platform answers), [components/notification-center.tsx] (the
      listeners, its buttons and its JSX) and the dashboard's
      [handleNotificationPress].
    - [Navigation]: [App.tsx] and [navigation/main-tabs.tsx]: the root
      stack's initial route and its moves, the tab navigator's JSX with
      the tab icons, the offline banner's JSX
      ([components/network-alert-banner.tsx]) and the unused
      [DashboardCard] ([components/dashboard-card.tsx]).
    - [BuildTools]: [check-install.js] as a function from an environment
      oracle to its coloured report, and of [metro.config.js] the dev
      server's middleware and the worker count.

    ** What the theorems show

    - The login executor: which requests a login sends (one attempt, probes
      of a prefix of the candidates, at most one retry to a probed URL),
      when it retries and with what result, and that it does not retry on
      anything but a transport failure (ApiService).
    - The resolver refines its specification and what it leaves in the
      store and the two URL copies; any sequence of API calls keeps the two
      copies equal; startup adopts a persisted URL (Endpoint).
    - How every axios failure is turned into a message, next to the spec's
      five kinds (ApiError); the cancel fallback and the dashboard counts
      (ApiService).
    - The banner is shown while offline for every sequence of boolean
      reports, and is not with a null report in between; the refresh hook
      refreshes exactly on recovery (NetworkStatus).  The provider's
      status follows the device once the initial fetch has resolved, unless
      the device changed while it was pending, in which case the fetch's
      old answer overwrites the newer one (NetInfo).
    - [JSON.parse] inverts [JSON.stringify]; a login's session is restored
      at the next start when the backend confirms the token, and erased
      when the verify request fails; logout always clears the session;
      the reservation context's token guard and cancel bookkeeping
      (JsonCodec, Contexts).
    - The ISO date round trip; the wizard's step stays within 1..3; submit
      sends one well-formed request and only when its guards hold; the
      date sent is the previous day early in the morning east of UTC; a
      slot chosen for one facility survives the choice of any other
      facility and reaches the confirmation step, whatever slots the
      backend lists for it (Calendar, ReservationModal).
    - The screens: a reservation made for today is listed under "past" in
      the morning; the date shown west of UTC is the previous day; a failed
      cancel reports what the context left; the dashboard's upcoming list is
      at most four reservations of the list with status "confirmed" or
      "pending", and with valid dates the earliest ones in date order,
      past ones included; the login outcome; the profile is saved only when
      valid and "cancel" after a save restores stale values; the app's own
      notification never navigates (ReservationsScreen, Dashboard,
      LoginProfile, Notifications).
    - The install report says "All checks passed" exactly when every check
      passed, and the script cannot run without [chalk] (BuildTools).
    - Concurrency: run alone, every entry point's task equals the atomic
      model; the two URL copies agree in every interleaving of any calls;
      every run of the event loop ends with every call settled; for every
      run of the other calls, an interleaving in which the startup task
      writes the URL it read before them after them, overwriting the URL
      a login found and persisted (EventLoop).
    - Rendering: the dashboard shows only its spinner forever for a user
      record without [_id], and otherwise lists as many upcoming
      reservations as its "Active" count, cut to four; the profile screen
      renders exactly for user records of the expected shape; the
      modal's summary shows the local day while the request carries the
      day before; the reservations list shows a cancel button for every
      upcoming item and none under "past", and throws on a reservation
      with 0 attendees; the notification list shows one unread dot per
      unread notification and a press marks its notification read
      (DashboardView, ProfileView, WizardView, ReservationsView,
      Notifications).
    - Types: the declarations are compatible where values flow between
      modules (an API [User] is an auth-context and a dashboard [User],
      every declared [Reservation] is a valid list-item prop), but the
      auth context's [User] lacks the [phone] the profile reads; answers
      of the declared types make the dashboard and the
      profile screen render; a reservation list of the declared type
      renders exactly when no shown reservation has 0 attendees, which
      the type admits; the request has the declared type exactly when the
      attendees text parses; against a backend whose login answers have
      the declared type, a login that navigates leaves a user for whom the
      profile screen renders, through the login screen, the auth context
      and the API module's login with its retry (Interfaces).
    - The reservations screen: run without interruption, the split "Yes"
      handler is [handleCancelReservation]; while the list is empty the
      spinner hides every button, but a non-empty list stays on screen
      while a cancellation is in flight: from any state that offers a
      reservation's cancel button, two cancellations of it can be in
      flight at once (ReservationsLoop).
    - The login screen: [loading] is set exactly while a login is in
      flight, the screen then offers no action, so no second login can
      start, and the pending login can always settle; run without
      interruption, the split handler is [handleLogin] (LoginView).

    ** Bounds and fuel

    [banner_settle] follows the chain of stopped-animation callbacks with
    fuel 3: a callback starts no animation, so one round is enough, and
    the others are spare.  The calendar conversion is checked day by day
    over one 400-year era (146097 days) by evaluation, which covers every
    day number since the conversion is periodic in eras.  The ISO date
    round trip holds for years 0 to 9999, the range where [toISOString]
    prints four digits.  [JSON_parse] runs the parser with one unit of
    fuel per input character, which the size bound [jsize_emit] shows is
    enough for every printed value.

    ** What is not modelled

    Styling and layout (the [StyleSheet]s), the navigation library,
    console logging, the axios debug interceptors (observability only),
    the expo-notifications and expo-device calls themselves (the
    environment of [registerForPushNotifications]), and the bundler's
    resolver settings in [metro.config.js].  The digits of
    [toLocaleDateString()] without a locale are left abstract (the local
    calendar day is modelled).
    JSON numbers are integers [Z] (a fraction or exponent does not parse);
    daylight saving time is not modelled.
    Outside [EventLoop] and [LoginView], each handler runs to completion
    without another task interleaving between its awaits; in [LoginView]
    the auth context's [login] is one step of the screen.

    ** Further work

    - The profile and dashboard screens' handlers split at their awaits,
      as [LoginView] and [ReservationsLoop] do, so that a second press
      while a request is in flight can be stated for them too.
    - The reservations screen's race between a reload started before a
      cancel and the cancel's own update of the list, which needs a
      backend whose state changes between a request and its answer. *)

From stdpp Require Export base list strings gmap.
From stdpp Require Import pretty.

(** ** Results and the state-and-error monad *)

Inductive res (E A : Type) : Type :=
| Ok (a : A)
| Err (e : E).
Arguments Ok {E A} a.
Arguments Err {E A} e.

(** A computation reads and writes a state [S] and either returns an [A]
    or throws an [E]; the state it leaves behind is kept in both cases,
    as effects done before a [throw] are not undone in JavaScript. *)
Definition ST (S E A : Type) : Type := S -> res E A * S.

Section Monad.
Context {S E : Type}.

Definition sret {A} (a : A) : ST S E A := fun s => (Ok a, s).
Definition sthrow {A} (e : E) : ST S E A := fun s => (Err e, s).
Definition sbind {A B} (c : ST S E A) (k : A -> ST S E B) : ST S E B :=
  fun s => match c s with
           | (Ok a, s') => k a s'
           | (Err e, s') => (Err e, s')
           end.
(** [try { c } catch (e) { h(e) }] *)
Definition scatch {A} (c : ST S E A) (h : E -> ST S E A) : ST S E A :=
  fun s => match c s with
           | (Ok a, s') => (Ok a, s')
           | (Err e, s') => h e s'
           end.
Definition sget : ST S E S := fun s => (Ok s, s).
Definition smodify (f : S -> S) : ST S E unit := fun s => (Ok tt, f s).
End Monad.

Declare Scope st_scope.
Delimit Scope st_scope with st.
Notation "x <- c1 ;; c2" := (sbind c1 (fun x => c2))
  (at level 100, c1 at next level, right associativity) : st_scope.
Notation "c1 ;; c2" := (sbind c1 (fun _ => c2))
  (at level 100, right associativity) : st_scope.

(** ** Running computations *)

Section MonadLaws.
Context {S E : Type}.

Lemma sbind_ok {A B} (c : ST S E A) (k : A -> ST S E B) s a s' :
  c s = (Ok a, s') -> sbind c k s = k a s'.
Proof. intros H. unfold sbind. by rewrite H. Qed.

Lemma sbind_err {A B} (c : ST S E A) (k : A -> ST S E B) s e s' :
  c s = (Err e, s') -> sbind c k s = (Err e, s').
Proof. intros H. unfold sbind. by rewrite H. Qed.

Lemma scatch_ok {A} (c : ST S E A) h s a s' :
  c s = (Ok a, s') -> scatch c h s = (Ok a, s').
Proof. intros H. unfold scatch. by rewrite H. Qed.

Lemma scatch_err {A} (c : ST S E A) h s e s' :
  c s = (Err e, s') -> scatch c h s = h e s'.
Proof. intros H. unfold scatch. by rewrite H. Qed.

Lemma sbind_assoc {A B C} (c : ST S E A) (f : A -> ST S E B) (g : B -> ST S E C) s :
  sbind (sbind c f) g s = sbind c (fun a => sbind (f a) g) s.
Proof. unfold sbind. by destruct (c s) as [[a|e] s']. Qed.

(** Computations that agree on every state give binds and catches that
    agree: the congruence used to compare two models of the same code. *)
Lemma sbind_ext {A B} (c c' : ST S E A) (k k' : A -> ST S E B) s :
  (forall s, c s = c' s) -> (forall a s, k a s = k' a s) -> sbind c k s = sbind c' k' s.
Proof. intros Hc Hk. unfold sbind. rewrite Hc. by destruct (c' s) as [[a|e] s']. Qed.

Lemma scatch_ext {A} (c c' : ST S E A) (h h' : E -> ST S E A) s :
  (forall s, c s = c' s) -> (forall e s, h e s = h' e s) -> scatch c h s = scatch c' h' s.
Proof. intros Hc Hh. unfold scatch. rewrite Hc. by destruct (c' s) as [[a|e] s']. Qed.

(** A property [P] of the states that every step preserves holds of
    the final state of a bind, whatever branch is taken. *)
Definition preserves {A} (P : S -> Prop) (c : ST S E A) : Prop :=
  forall s, P s -> P (snd (c s)).

Lemma preserves_ret {A} P (a : A) : preserves P (sret a).
Proof. by intros s Hs. Qed.

Lemma preserves_throw {A} P (e : E) : preserves P (@sthrow S E A e).
Proof. by intros s Hs. Qed.

Lemma preserves_bind {A B} P (c : ST S E A) (k : A -> ST S E B) :
  preserves P c -> (forall a, preserves P (k a)) -> preserves P (sbind c k).
Proof.
  intros Hc Hk s Hs. unfold sbind.
  specialize (Hc s Hs). destruct (c s) as [[a|e] s']; simpl in *; auto.
  by apply Hk.
Qed.

Lemma preserves_catch {A} P (c : ST S E A) h :
  preserves P c -> (forall e, preserves P (h e)) -> preserves P (scatch c h).
Proof.
  intros Hc Hh s Hs. unfold scatch.
  specialize (Hc s Hs). destruct (c s) as [[a|e] s']; simpl in *; auto.
  by apply Hh.
Qed.

Lemma preserves_get P : preserves P (@sget S E).
Proof. by intros s Hs. Qed.

(** An invariant established by the first part of a run is kept by the rest. *)
Lemma preserves_bind_from {A B} P (c : ST S E A) (k : A -> ST S E B) s :
  P (snd (c s)) -> (forall a, preserves P (k a)) -> P (snd (sbind c k s)).
Proof. intros Hc Hk. unfold sbind. destruct (c s) as [[a|e] s']; [by apply Hk|done]. Qed.

Lemma preserves_catch_from {A} P (c : ST S E A) h s :
  P (snd (c s)) -> (forall e, preserves P (h e)) -> P (snd (scatch c h s)).
Proof. intros Hc Hh. unfold scatch. destruct (c s) as [[a|e] s']; [done|by apply Hh]. Qed.

(** [Q] holds of the value [c] returns, whenever it returns one. *)
Definition returns {A} (Q : A -> Prop) (c : ST S E A) : Prop :=
  forall s, match fst (c s) with Ok a => Q a | Err _ => True end.

Lemma returns_ret {A} (Q : A -> Prop) a : Q a -> returns Q (sret a).
Proof. by intros H s. Qed.

Lemma returns_throw {A} (Q : A -> Prop) e : returns Q (sthrow e).
Proof. by intros s. Qed.

Lemma returns_bind {A B} (Q : B -> Prop) (c : ST S E A) (k : A -> ST S E B) :
  (forall a, returns Q (k a)) -> returns Q (sbind c k).
Proof. intros Hk s. unfold sbind. destruct (c s) as [[a|e] s']; [apply Hk|done]. Qed.

(** The continuation may rely on what the first computation returned. *)
Lemma returns_bind_from {A B} (P : A -> Prop) (Q : B -> Prop) (c : ST S E A) (k : A -> ST S E B) :
  returns P c -> (forall a, P a -> returns Q (k a)) -> returns Q (sbind c k).
Proof.
  intros Hc Hk s. unfold sbind. specialize (Hc s).
  destruct (c s) as [[a|e] s']; [by apply Hk|done].
Qed.

Lemma returns_catch {A} (Q : A -> Prop) (c : ST S E A) h :
  returns Q c -> (forall e, returns Q (h e)) -> returns Q (scatch c h).
Proof.
  intros Hc Hh s. unfold scatch. specialize (Hc s).
  destruct (c s) as [[a|e] s']; [done|apply Hh].
Qed.

Lemma returns_run {A} (Q : A -> Prop) c s a s' : returns Q c -> c s = (Ok a, s') -> Q a.
Proof. intros H Hc. specialize (H s). by rewrite Hc in H. Qed.

(** [c] returns, from every state, a value of which [Q] holds: total
    correctness, where [returns] is partial. *)
Definition succeeds {A} (Q : A -> Prop) (c : ST S E A) : Prop :=
  forall s, exists a, fst (c s) = Ok a /\ Q a.

Lemma succeeds_ret {A} (Q : A -> Prop) a : Q a -> succeeds Q (sret a).
Proof. intros H s. by exists a. Qed.

Lemma succeeds_modify (f : S -> S) : succeeds (fun _ => True) (smodify (E:=E) f).
Proof. intros s. by exists tt. Qed.

Lemma succeeds_bind {A B} (P : A -> Prop) (Q : B -> Prop) (c : ST S E A) (k : A -> ST S E B) :
  succeeds P c -> (forall a, P a -> succeeds Q (k a)) -> succeeds Q (sbind c k).
Proof.
  intros Hc Hk s. unfold sbind. destruct (Hc s) as (a & Ha & HP).
  destruct (c s) as [r s']. cbn in Ha. subst r. apply Hk, HP.
Qed.

(** A [catch] whose handler always returns makes a computation total. *)
Lemma succeeds_catch {A} (Q : A -> Prop) (c : ST S E A) h :
  returns Q c -> (forall e, succeeds Q (h e)) -> succeeds Q (scatch c h).
Proof.
  intros Hc Hh s. unfold scatch. specialize (Hc s).
  destruct (c s) as [[a|e] s']; [by exists a|apply Hh].
Qed.

Lemma succeeds_run {A} (Q : A -> Prop) (c : ST S E A) s :
  succeeds Q c -> exists a s', c s = (Ok a, s') /\ Q a.
Proof. intros H. destruct (H s) as (a & Ha & HQ). destruct (c s) as [r s']. cbn in Ha. subst. eauto. Qed.
End MonadLaws.

(** A property every step keeps holds along every run. *)
Lemma rtc_inv {A} (R : relation A) (P : A -> Prop) :
  (forall x y, P x -> R x y -> P y) -> forall x y, rtc R x y -> P x -> P y.
Proof. intros Hstep x y H. induction H; eauto. Qed.

Create HintDb st discriminated.
Create Rewrite HintDb st_rw.
#[export] Hint Resolve returns_ret returns_throw returns_bind returns_catch : st.
#[export] Hint Resolve preserves_ret preserves_throw preserves_bind
  preserves_catch preserves_get : st.

(** [st_simpl] unfolds the monad's plumbing so that a concrete run
    computes and a symbolic run exposes the code's branches. *)
Ltac st_simpl :=
  cbn [sbind scatch sret sthrow sget smodify fst snd] in *.

(** [preserves_solve] proves that a composite computation preserves an
    invariant from the preservation facts of its leaves. *)
Ltac preserves_solve :=
  repeat match goal with
  | |- preserves _ (sbind _ _) => apply preserves_bind; [|intro]
  | |- preserves _ (scatch _ _) => apply preserves_catch; [|intro]
  | |- preserves _ (match ?x with _ => _ end) => destruct x
  | |- preserves _ (if ?b then _ else _) => destruct b
  | |- preserves _ _ => eauto with st
  end.

(** [returns_solve] proves a property of what a computation returns by
    following its binds, catches and branches down to the returned values. *)
Ltac returns_solve :=
  repeat match goal with
  | |- returns _ (sbind _ _) => apply returns_bind; intro
  | |- returns _ (scatch _ _) => apply returns_catch; [|intro]
  | |- returns _ (match ?x with _ => _ end) => destruct x
  | |- returns _ (if ?b then _ else _) => destruct b
  | |- returns _ (sret _) => apply returns_ret
  | |- returns _ (sthrow _) => apply returns_throw
  end.

(** ** Shared list lemmas *)

Lemma length_filter_le {A} (P : A -> Prop) `{!forall x, Decision (P x)} (l : list A) :
  length (filter P l) <= length l.
Proof.
  induction l as [|x l IH]; [done|]. rewrite filter_cons.
  case_decide; simpl; lia.
Qed.

(** Two filters whose predicates exclude each other count at most the list. *)
Lemma length_filter_disjoint {A} (P Q : A -> Prop)
    `{!forall x, Decision (P x)} `{!forall x, Decision (Q x)} (l : list A) :
  (forall x, P x -> Q x -> False) ->
  length (filter P l) + length (filter Q l) <= length l.
Proof.
  intros Hex. induction l as [|x l IH]; [done|]. rewrite !filter_cons.
  repeat case_decide; simpl; try lia. exfalso. eauto.
Qed.

(** A property of every element holds of every element [List.filter] keeps. *)
Lemma Forall_list_filter {A} (P : A -> Prop) (f : A -> bool) l :
  Forall P l -> Forall P (List.filter f l).
Proof. induction 1 as [|x l Hx _ IH]; cbn; [done|]. destruct (f x); [by constructor|done]. Qed.
