(* ===== verification/Tasks.v ===== *)
(** * Cooperative tasks on one event loop

    JavaScript runs one task at a time and switches tasks only at an
    [await].  A task is a resumption [Res]: either finished with a result,
    or an atomic action [c] (the code from one [await] to the next, a
    computation of the [ST] monad) followed by a continuation that
    receives the action's result.  [rbind] and [rcatch] are [await] inside
    [async] code and [try]/[catch] around awaits.

    [run_seq] runs a task to the end without interleaving: the lemmas
    [run_seq_bind] and [run_seq_catch] make it a monad morphism into
    [ST], which is how a segmented model is shown equal to the atomic
    one.  [pstep] is the event loop: it picks any task of a pool that has
    an action left and runs that action.  Every run of the loop is
    finite ([pool_wf]), and a state invariant kept by every action of
    every task holds in every configuration the loop reaches
    ([pool_invariant]). *)

From S2P Require Import Prelude.

Section Resumption.
Context {S E : Type}.

Inductive Res (A : Type) : Type :=
| RDone (r : res E A)
| RAct {B : Type} (c : ST S E B) (k : res E B -> Res A).
Arguments RDone {A} r.
Arguments RAct {A B} c k.

Definition rret {A} (a : A) : Res A := RDone (Ok a).
Definition rthrow {A} (e : E) : Res A := RDone (Err e).

(** One atomic action, then a suspension point. *)
Definition atomic {A} (c : ST S E A) : Res A := RAct c RDone.

Fixpoint rbind {A B} (m : Res A) (f : A -> Res B) : Res B :=
  match m with
  | RDone (Ok a) => f a
  | RDone (Err e) => RDone (Err e)
  | RAct c k => RAct c (fun r => rbind (k r) f)
  end.

Fixpoint rcatch {A} (m : Res A) (h : E -> Res A) : Res A :=
  match m with
  | RDone (Ok a) => RDone (Ok a)
  | RDone (Err e) => h e
  | RAct c k => RAct c (fun r => rcatch (k r) h)
  end.

(** Running a task alone, every action right after the previous one. *)
Fixpoint run_seq {A} (m : Res A) : ST S E A :=
  match m with
  | RDone r => fun s => (r, s)
  | RAct c k => fun s => let '(r, s') := c s in run_seq (k r) s'
  end.

(** ** [run_seq] is a monad morphism *)

Lemma run_seq_ret {A} (a : A) s : run_seq (rret a) s = sret a s.
Proof. reflexivity. Qed.

Lemma run_seq_throw {A} (e : E) s : run_seq (@rthrow A e) s = sthrow e s.
Proof. reflexivity. Qed.

Lemma run_seq_atomic {A} (c : ST S E A) s : run_seq (atomic c) s = c s.
Proof. simpl. by destruct (c s). Qed.

Lemma run_seq_bind {A B} (m : Res A) (f : A -> Res B) s :
  run_seq (rbind m f) s = sbind (run_seq m) (fun a => run_seq (f a)) s.
Proof.
  revert s. induction m as [[a|e]|C c k IH]; intros s; [done|done|].
  simpl. unfold sbind. destruct (c s) as [r s']. apply IH.
Qed.

Lemma run_seq_bind_atomic {A B} (c : ST S E A) (f : A -> Res B) s :
  run_seq (rbind (atomic c) f) s = sbind c (fun a => run_seq (f a)) s.
Proof. simpl. unfold sbind. by destruct (c s) as [[a|e] s']. Qed.

Lemma run_seq_catch {A} (m : Res A) (h : E -> Res A) s :
  run_seq (rcatch m h) s = scatch (run_seq m) (fun e => run_seq (h e)) s.
Proof.
  revert s. induction m as [[a|e]|C c k IH]; intros s; [done|done|].
  simpl. unfold scatch. destruct (c s) as [r s']. apply IH.
Qed.

(** ** The event loop *)

(** The tasks a pool runs return nothing. *)
Definition Task := Res unit.

Inductive pstep : S * list Task -> S * list Task -> Prop :=
| pstep_run s ts i B (c : ST S E B) k :
    ts !! i = Some (RAct c k) ->
    pstep (s, ts) (snd (c s), <[i := k (fst (c s))]> ts).

Lemma pstep_run_eq s ts i B (c : ST S E B) k s' ts' :
  ts !! i = Some (RAct c k) -> s' = snd (c s) -> ts' = <[i := k (fst (c s))]> ts ->
  pstep (s, ts) (s', ts').
Proof. intros Hi -> ->. by constructor. Qed.

(** A task added in front that does not run leaves the others' runs as
    they were. *)
Lemma pstep_cons t x y : pstep x y -> pstep (x.1, t :: x.2) (y.1, t :: y.2).
Proof. destruct 1 as [s ts i B c k Hi]. exact (pstep_run s (t :: ts) (Datatypes.S i) B c k Hi). Qed.

Lemma rtc_pstep_cons t x y : rtc pstep x y -> rtc pstep (x.1, t :: x.2) (y.1, t :: y.2).
Proof. induction 1 as [|x y z Hxy _ IH]; [done|]. eapply rtc_l; [by apply pstep_cons|exact IH]. Qed.

(** A task is one of the continuations of another. *)
Definition rsub (t t' : Task) : Prop :=
  match t' with RDone _ => False | RAct c k => exists r, t = k r end.

Lemma rsub_wf : well_founded rsub.
Proof.
  intros t. induction t as [r|B c k IH]; constructor; intros t' Ht; [done|].
  destruct Ht as [r ->]. apply IH.
Qed.

(** One task of the pool replaced by one of its continuations. *)
Inductive pool_sub : list Task -> list Task -> Prop :=
| pool_sub_here t t' ts : rsub t' t -> pool_sub (t' :: ts) (t :: ts)
| pool_sub_later t ts ts' : pool_sub ts' ts -> pool_sub (t :: ts') (t :: ts).

Lemma pool_sub_wf : well_founded pool_sub.
Proof.
  intros ts. induction ts as [|t ts IHts].
  - constructor. intros ts' H. inversion H.
  - revert ts IHts. induction (rsub_wf t) as [t _ IHt]. intros ts IHts.
    induction IHts as [ts Hacc IHts']. constructor. intros ts' H.
    inversion H as [? t' ? Hsub|? ? ts'' Hsub]; subst.
    + exact (IHt t' Hsub ts (Acc_intro ts Hacc)).
    + exact (IHts' ts'' Hsub).
Qed.

Lemma pstep_pool_sub s ts s' ts' : pstep (s, ts) (s', ts') -> pool_sub ts' ts.
Proof.
  inversion 1 as [? ? i B c k Hi]; subst. clear H.
  revert ts Hi. induction i as [|i IH]; intros [|t ts] Hi; simplify_eq/=.
  - constructor. by exists (fst (c s)).
  - constructor. by apply IH.
Qed.

(** No run of the event loop is infinite: from any configuration, every
    sequence of steps ends. *)
Lemma pool_wf s ts : Acc (flip pstep) (s, ts).
Proof.
  revert s. induction (pool_sub_wf ts) as [ts _ IH]. intros s.
  constructor. intros [s' ts'] H. apply IH. by eapply pstep_pool_sub.
Qed.

(** ** Invariants of the event loop *)

(** Every action a task may still run keeps [P]. *)
Fixpoint task_preserves (P : S -> Prop) {A} (m : Res A) : Prop :=
  match m with
  | RDone _ => True
  | RAct c k => preserves P c /\ forall r, task_preserves P (k r)
  end.

Lemma task_preserves_bind P {A B} (m : Res A) (f : A -> Res B) :
  task_preserves P m -> (forall a, task_preserves P (f a)) -> task_preserves P (rbind m f).
Proof.
  intros Hm Hf. induction m as [[a|e]|C c k IH]; simpl in *; [done|done|].
  destruct Hm as [Hc Hk]. split; [done|]. intros r. by apply IH.
Qed.

Lemma task_preserves_catch P {A} (m : Res A) (h : E -> Res A) :
  task_preserves P m -> (forall e, task_preserves P (h e)) -> task_preserves P (rcatch m h).
Proof.
  intros Hm Hh. induction m as [[a|e]|C c k IH]; simpl in *; [done|done|].
  destruct Hm as [Hc Hk]. split; [done|]. intros r. by apply IH.
Qed.

Lemma task_preserves_atomic P {A} (c : ST S E A) :
  preserves P c -> task_preserves P (atomic c).
Proof. done. Qed.

Lemma task_preserves_ret P {A} (a : A) : task_preserves P (rret a).
Proof. done. Qed.

Lemma task_preserves_throw P {A} (e : E) : task_preserves P (@rthrow A e).
Proof. done. Qed.

Lemma pstep_preserves P s ts s' ts' :
  Forall (task_preserves P) ts -> P s -> pstep (s, ts) (s', ts') ->
  Forall (task_preserves P) ts' /\ P s'.
Proof.
  intros Hts Hs Hstep. inversion Hstep as [? ? i B c k Hi]; subst.
  pose proof (proj1 (Forall_lookup _ _) Hts i _ Hi) as [Hc Hk].
  split; [|by apply Hc]. apply Forall_insert; [done|apply Hk].
Qed.

(** An invariant kept by every action of every task holds in every
    configuration the event loop reaches. *)
Lemma pool_invariant P cfg cfg' :
  rtc pstep cfg cfg' -> Forall (task_preserves P) cfg.2 -> P cfg.1 ->
  Forall (task_preserves P) cfg'.2 /\ P cfg'.1.
Proof.
  induction 1 as [|[s ts] [s' ts'] cfg'' Hstep _ IH]; [done|]. intros Hts Hs.
  apply IH; by apply (pstep_preserves P s ts s' ts').
Qed.

(** A task that has no action left. *)
Definition finished (t : Task) : bool := match t with RDone _ => true | RAct _ _ => false end.

(** A configuration with no step left has only finished tasks. *)
Lemma stuck_finished s ts :
  (forall cfg', ~ pstep (s, ts) cfg') -> Forall (fun t => finished t = true) ts.
Proof.
  intros Hstuck. apply Forall_lookup. intros i [r|B c k] Hi; [done|].
  destruct (Hstuck _ (pstep_run s ts i B c k Hi)).
Qed.

(** The event loop following a given schedule: the index of the task to
    resume at each step; [None] when the schedule names a task with no
    action left. *)
Fixpoint run_schedule (sched : list nat) (cfg : S * list Task) : option (S * list Task) :=
  match sched with
  | [] => Some cfg
  | i :: rest =>
      match cfg.2 !! i with
      | Some (RAct c k) => run_schedule rest (snd (c cfg.1), <[i := k (fst (c cfg.1))]> cfg.2)
      | _ => None
      end
  end.

Lemma run_schedule_rtc sched cfg cfg' : run_schedule sched cfg = Some cfg' -> rtc pstep cfg cfg'.
Proof.
  revert cfg. induction sched as [|i sched IH]; intros [s ts]; simpl; [intros [= ->]; done|].
  destruct (ts !! i) as [[r|B c k]|] eqn:Hi; try discriminate.
  intros H. eapply rtc_l; [by apply pstep_run|]. by apply IH.
Qed.

(** What a computed schedule ends in is reachable. *)
Lemma schedule_reaches sched cfg (P : S * list Task -> Prop) :
  match run_schedule sched cfg with Some cfg' => P cfg' | None => False end ->
  exists cfg', rtc pstep cfg cfg' /\ P cfg'.
Proof.
  destruct (run_schedule sched cfg) as [cfg'|] eqn:Hrun; [|done].
  intros HP. exists cfg'. split; [exact (run_schedule_rtc sched cfg cfg' Hrun)|done].
Qed.
End Resumption.

Arguments Res : clear implicits.
Arguments Task : clear implicits.
Arguments RDone {S E A} r.
Arguments RAct {S E A B} c k.

(** [task_solve] reduces [task_preserves P t] to the preservation of
    [P] by the atomic actions of [t], and proves those it can with
    [preserves_solve]. *)
Ltac task_solve :=
  repeat match goal with
  | |- task_preserves _ (rbind _ _) => apply task_preserves_bind; [|intro]
  | |- task_preserves _ (rcatch _ _) => apply task_preserves_catch; [|intro]
  | |- task_preserves _ (atomic _) => apply task_preserves_atomic
  | |- task_preserves _ (rret _) => apply task_preserves_ret
  | |- task_preserves _ (rthrow _) => apply task_preserves_throw
  | |- task_preserves _ (match ?x with _ => _ end) => destruct x
  | |- task_preserves _ (if ?b then _ else _) => destruct b
  | |- preserves _ _ => progress preserves_solve
  end.

#[export] Hint Resolve task_preserves_bind task_preserves_catch task_preserves_atomic
  task_preserves_ret task_preserves_throw : st.
