(* ===== verification/Json.v ===== *)
(** * JSON values as the client's JavaScript sees them

    [response.data] (axios) and the value of [response.json()] (fetch) are
    JavaScript values parsed from JSON.  This file gives their shape, the
    property access [v.k] / [v?.k] the code performs, JavaScript
    truthiness (used by [a || b] in [handleApiError] and by the
    [catch] blocks of [api-service.ts]) and the [String(v)] conversion that
    [new Error(v)] applies.  Numbers are integers. *)

From S2P Require Import Prelude.
From stdpp Require Import pretty.

Inductive json : Type :=
| JNull
| JBool (b : bool)
| JNum (n : Z)
| JStr (s : string)
| JArr (l : list json)
| JObj (fields : list (string * json)).

(** JSON.parse keeps the last of duplicated keys. *)
Definition obj_get (k : string) (fields : list (string * json)) : option json :=
  fold_left (fun acc kv => if String.eqb kv.1 k then Some kv.2 else acc) fields None.

(** [v?.k]: [undefined] (here [None]) unless [v] is an object with key [k]. *)
Definition json_get (k : string) (v : json) : option json :=
  match v with
  | JObj fs => obj_get k fs
  | _ => None
  end.

(** JavaScript truthiness of a possibly-undefined value. *)
Definition truthy (v : option json) : bool :=
  match v with
  | None | Some JNull => false
  | Some (JBool b) => b
  | Some (JNum n) => negb (Z.eqb n 0)
  | Some (JStr s) => negb (String.eqb s "")
  | Some (JArr _) | Some (JObj _) => true
  end.

Fixpoint join_strings (sep : string) (l : list string) : string :=
  match l with
  | [] => ""
  | [x] => x
  | x :: l' => x +:+ sep +:+ join_strings sep l'
  end.

(** [String(v)]; inside an array, [null] elements print as the empty
    string (Array.prototype.join). *)
Fixpoint js_String (v : json) : string :=
  match v with
  | JNull => "null"
  | JBool b => if b then "true" else "false"
  | JNum n => pretty n
  | JStr s => s
  | JArr l => join_strings ","
      ((fix go (l : list json) : list string :=
          match l with
          | [] => []
          | JNull :: l' => "" :: go l'
          | x :: l' => js_String x :: go l'
          end) l)
  | JObj _ => "[object Object]"
  end.

(** [new Error(v || dflt).message] *)
Definition or_message (v : option json) (dflt : string) : string :=
  if truthy v then match v with Some x => js_String x | None => dflt end else dflt.

(** [v.k === s] for a string literal [s]. *)
Definition field_is (k s : string) (v : json) : bool :=
  match json_get k v with
  | Some (JStr s') => String.eqb s' s
  | _ => false
  end.

(** [`${v}`] of a possibly-undefined value. *)
Definition template (v : option json) : string :=
  match v with Some x => js_String x | None => "undefined" end.

(** The JavaScript truthiness of an optional string. *)
Definition str_truthy (o : option string) : bool :=
  match o with Some s => negb (String.eqb s "") | None => false end.

(** ** Lemmas *)

Lemma obj_get_app k fs1 fs2 :
  obj_get k (fs1 ++ fs2) =
  fold_left (fun acc kv => if String.eqb kv.1 k then Some kv.2 else acc) fs2 (obj_get k fs1).
Proof. unfold obj_get. by rewrite fold_left_app. Qed.

Lemma obj_get_snoc_eq k v fs : obj_get k (fs ++ [(k, v)]) = Some v.
Proof. rewrite obj_get_app. simpl. by rewrite String.eqb_refl. Qed.

Lemma or_message_string s dflt :
  s <> "" -> or_message (Some (JStr s)) dflt = s.
Proof.
  intros Hs. unfold or_message. simpl.
  destruct (String.eqb_spec s ""); [done|reflexivity].
Qed.

Lemma or_message_falsy v dflt : truthy v = false -> or_message v dflt = dflt.
Proof. intros H. unfold or_message. by rewrite H. Qed.

Lemma or_message_undefined dflt : or_message None dflt = dflt.
Proof. reflexivity. Qed.

#[export] Hint Rewrite obj_get_snoc_eq or_message_undefined : st_rw.
