(* ===== verification/TsTypes.v ===== *)
(** * TypeScript's structural types over JSON values

    A type annotation of the code is a [ty]: string, number and boolean,
    a union of string literals, an array, an object type whose fields are
    required or optional ([k?: T]).  [has_type] is its meaning on a JSON
    value, with TypeScript's structural reading: an object may carry more
    fields than its type names, an optional field may be absent.
    [subtype] decides the structural subtyping of two such types, and
    [subtype_sound] shows that a value of the smaller one has the larger
    one.  The lemmas read the fields of a value of a concrete object
    type. *)

From S2P Require Import Prelude Json.

#[local] Set Warnings "-register-all".

Inductive ty :=
| TString | TNumber | TBool
| TLit (members : list string)                  (** ['a' | 'b' | ...] *)
| TArr (elem : ty)                              (** [T[]] *)
| TObj (fields : list (string * bool * ty)).    (** [{k: T; k?: T; ...}]: name, optional, type *)

Fixpoint has_type (t : ty) (v : json) {struct t} : bool :=
  match t, v with
  | TString, JStr _ => true
  | TNumber, JNum _ => true
  | TBool, JBool _ => true
  | TLit ms, JStr s => bool_decide (s ∈ ms)
  | TArr t', JArr l => forallb (has_type t') l
  | TObj fs, JObj _ =>
      (fix go (fs : list (string * bool * ty)) : bool :=
         match fs with
         | [] => true
         | (k, opt, t') :: fs' =>
             match json_get k v with Some x => has_type t' x | None => opt end && go fs'
         end) fs
  | _, _ => false
  end.

(** ** Reading a typed object *)

Lemma has_type_obj fs v :
  has_type (TObj fs) v = true <->
  (exists kvs, v = JObj kvs) /\
  Forall (fun '(k, opt, t) => match json_get k v with Some x => has_type t x = true | None => opt = true end) fs.
Proof.
  destruct v as [| | | | |kvs]; cbn; try (split; [done|]; intros [[? ?] _]; done).
  split.
  - intros H. split; [eauto|]. induction fs as [|[[k opt] t] fs IH]; [constructor|].
    apply andb_true_iff in H as [Hk Hfs]. constructor; [|by apply IH].
    cbn in *. by destruct (obj_get k kvs).
  - intros [_ H]. induction fs as [|[[k opt] t] fs IH]; [done|].
    apply Forall_cons in H as [Hk Hfs]. apply andb_true_iff. split; [|by apply IH].
    cbn in *. by destruct (obj_get k kvs).
Qed.

(** The value of a field of a typed object. *)
Lemma has_type_field fs v k opt t :
  has_type (TObj fs) v = true -> (k, opt, t) ∈ fs ->
  match json_get k v with Some x => has_type t x = true | None => opt = true end.
Proof.
  intros H Hin. apply has_type_obj in H as [_ H].
  by apply (Forall_forall _ _) with (x := (k, opt, t)) in H.
Qed.

(** A required field of a typed object is there, with its type. *)
Lemma has_type_required fs v k t :
  has_type (TObj fs) v = true -> (k, false, t) ∈ fs -> exists x, json_get k v = Some x /\ has_type t x = true.
Proof. intros H Hin. pose proof (has_type_field _ _ _ _ _ H Hin) as Hf. destruct (json_get k v); [eauto|done]. Qed.

Lemma has_type_string v : has_type TString v = true <-> exists s, v = JStr s.
Proof. destruct v; cbn; split; try done; try (intros [? ?]; done); eauto. Qed.

(** A named field of a concrete interface. *)
Ltac field_in := repeat (first [apply elem_of_cons; left; reflexivity | apply elem_of_cons; right]).

(** The string a required string field of a typed object holds. *)
Lemma typed_string fs v k :
  has_type (TObj fs) v = true -> (k, false, TString) ∈ fs -> exists s, json_get k v = Some (JStr s).
Proof.
  intros H Hin. destruct (has_type_required _ _ _ _ H Hin) as (x & Hx & Ht).
  apply has_type_string in Ht as [s ->]. eauto.
Qed.

(** An optional number field is absent or a number. *)
Lemma typed_opt_number fs v k :
  has_type (TObj fs) v = true -> (k, true, TNumber) ∈ fs ->
  json_get k v = None \/ exists n, json_get k v = Some (JNum n).
Proof.
  intros H Hin. pose proof (has_type_field _ _ _ _ _ H Hin) as Hf.
  destruct (json_get k v) as [[]|]; try done; eauto.
Qed.

Lemma typed_lit fs v k ms :
  has_type (TObj fs) v = true -> (k, false, TLit ms) ∈ fs -> exists s, json_get k v = Some (JStr s).
Proof.
  intros H Hin. destruct (has_type_required _ _ _ _ H Hin) as ([] & Hx & Ht); try done. eauto.
Qed.

Lemma typed_object fs v : has_type (TObj fs) v = true -> truthy (Some v) = true.
Proof. by destruct v. Qed.

Lemma has_type_arr t l : has_type (TArr t) (JArr l) = true <-> Forall (fun x => has_type t x = true) l.
Proof. cbn. induction l as [|x l IH]; cbn; [split; [constructor|done]|]. by rewrite andb_true_iff, Forall_cons, IH. Qed.

Lemma opt_string_typed (o : option json) :
  match o with Some x => has_type TString x = true | None => false = true end <-> exists s, o = Some (JStr s).
Proof.
  destruct o as [x|]; [rewrite has_type_string|]; split.
  - intros [s ->]. eauto.
  - intros [s [= ->]]. eauto.
  - done.
  - by intros [s ?].
Qed.


(** ** Structural subtyping *)

(** Induction on a type, through the fields of its object types. *)
Fixpoint ty_nested_ind (P : ty -> Prop) (HS : P TString) (HN : P TNumber) (HB : P TBool)
    (HL : forall ms, P (TLit ms)) (HA : forall t, P t -> P (TArr t))
    (HO : forall fs, Forall (fun f : string * bool * ty => P f.2) fs -> P (TObj fs)) (t : ty) {struct t} : P t :=
  match t with
  | TString => HS
  | TNumber => HN
  | TBool => HB
  | TLit ms => HL ms
  | TArr t' => HA t' (ty_nested_ind P HS HN HB HL HA HO t')
  | TObj fs =>
      HO fs ((fix go (fs : list (string * bool * ty)) : Forall (fun f : string * bool * ty => P f.2) fs :=
                match fs return Forall (fun f : string * bool * ty => P f.2) fs with
                | [] => List.Forall_nil _
                | (k, o, t0) :: fs' =>
                    List.Forall_cons _ (k, o, t0) fs' (ty_nested_ind P HS HN HB HL HA HO t0) (go fs')
                end) fs)
  end.

(** The first declaration of a field, as [has_type] reads it. *)
Fixpoint ty_field (k : string) (fs : list (string * bool * ty)) : option (bool * ty) :=
  match fs with
  | [] => None
  | (k', o, t) :: fs' => if String.eqb k' k then Some (o, t) else ty_field k fs'
  end.

(** [t1] is assignable to [t2]: a literal union to [string] or to a
    larger union, arrays element-wise, and an object type to one whose
    every field it declares, with a type assignable to that field's,
    required where the other requires it. *)
Fixpoint subtype (t1 t2 : ty) {struct t2} : bool :=
  match t2 with
  | TString => match t1 with TString | TLit _ => true | _ => false end
  | TNumber => match t1 with TNumber => true | _ => false end
  | TBool => match t1 with TBool => true | _ => false end
  | TLit ms2 => match t1 with TLit ms1 => forallb (fun m => bool_decide (m ∈ ms2)) ms1 | _ => false end
  | TArr e2 => match t1 with TArr e1 => subtype e1 e2 | _ => false end
  | TObj fs2 =>
      match t1 with
      | TObj fs1 =>
          (fix go (fs2 : list (string * bool * ty)) : bool :=
             match fs2 with
             | [] => true
             | (k, o2, T2) :: fs2' =>
                 match ty_field k fs1 with
                 | Some (o1, T1) => (o2 || negb o1) && subtype T1 T2
                 | None => false
                 end && go fs2'
             end) fs2
      | _ => false
      end
  end.

Lemma ty_field_in k fs o t : ty_field k fs = Some (o, t) -> (k, o, t) ∈ fs.
Proof.
  induction fs as [|[[k' o'] t'] fs IH]; cbn; [done|].
  destruct (String.eqb_spec k' k) as [->|]; [intros [= -> ->]; by left|]. intros H. right. by apply IH.
Qed.

Lemma subtype_obj_fields fs1 fs2 v :
  Forall (fun f : string * bool * ty => forall t1 v, subtype t1 f.2 = true -> has_type t1 v = true -> has_type f.2 v = true) fs2 ->
  subtype (TObj fs1) (TObj fs2) = true ->
  Forall (fun '(k, opt, t) => match json_get k v with Some x => has_type t x = true | None => opt = true end) fs1 ->
  Forall (fun '(k, opt, t) => match json_get k v with Some x => has_type t x = true | None => opt = true end) fs2.
Proof.
  intros IH Hsub Hf1. induction fs2 as [|[[k o2] T2] fs2 IHfs]; [constructor|].
  cbn in Hsub. apply andb_true_iff in Hsub as [Hk Hrest]. apply Forall_cons in IH as [IHk IHrest].
  constructor; [|by apply IHfs].
  destruct (ty_field k fs1) as [[o1 T1]|] eqn:Hl; [|discriminate]. apply andb_true_iff in Hk as [Ho HT].
  apply ty_field_in in Hl. apply (Forall_forall _ _) with (x := (k, o1, T1)) in Hf1; [|done].
  destruct (json_get k v) as [x|]; [by apply (IHk T1 x)|]. subst o1. by destruct o2.
Qed.

(** The subtyping check is sound: a value of a type is a value of every
    type the check declares larger. *)
Theorem subtype_sound t1 t2 v : subtype t1 t2 = true -> has_type t1 v = true -> has_type t2 v = true.
Proof.
  revert t1 v. induction t2 as [| | |ms2|e2 IH|fs2 IH] using ty_nested_ind; intros t1 v Hsub Hv.
  - destruct t1, v; try discriminate; done.
  - destruct t1, v; try discriminate; done.
  - destruct t1, v; try discriminate; done.
  - destruct t1 as [| | |ms1| |], v; try discriminate. cbn in *.
    apply bool_decide_eq_true_2. apply bool_decide_eq_true in Hv.
    apply forallb_forall with (x := s) in Hsub; [by apply bool_decide_eq_true in Hsub|by apply list_elem_of_In].
  - destruct t1 as [| | | |e1|], v as [| | | |l|]; try discriminate.
    apply has_type_arr. apply has_type_arr in Hv. eapply Forall_impl; [exact Hv|]. intros x Hx. by apply (IH e1).
  - destruct t1 as [| | | | |fs1]; try discriminate.
    apply has_type_obj in Hv as [Hobj Hf1]. apply has_type_obj. split; [done|].
    by apply (subtype_obj_fields fs1).
Qed.

(** An object whose status is one of two literals, with an optional
    note, is an object whose status is a string. *)
Example subtype_literal_to_string :
  subtype (TObj [("status", false, TLit ["pending"; "confirmed"]); ("note", true, TString);
                 ("extra", true, TNumber)])
          (TObj [("status", false, TString); ("note", true, TString)]) = true /\
  subtype (TObj [("status", false, TString)]) (TObj [("status", false, TLit ["pending"])]) = false.
Proof. split; vm_compute; reflexivity. Qed.
