(* ===== verification/Http.v ===== *)
(** * The environment of the API layer: store, network, axios and fetch

    [World] is the state every operation of [api-service.ts] threads:
    - [w_store]: AsyncStorage, reached through the [KVStore] interface;
    - [w_active]: the exported binding [ACTIVE_API_URL] (read by the
      [fetch]-based operations and by [create-reservation-modal.tsx]);
    - [w_base]: [api.defaults.baseURL] of the axios instance (read by the
      axios-based operations);
    - [w_sent]: every HTTP request sent so far, in order;
    - [w_alerts]: the [Alert.alert] dialogs shown, in order;
    - [w_net]: the network, an oracle giving the outcome of the n-th
      request sent ([n] is the length of [w_sent] when it is sent), so
      that theorems hold for every behaviour of the servers, including
      ones that change over time;
    - [w_latency]: the settling delay of the n-th request (only
      [Promise.all] observes it).

    [axios_send] follows axios 1.x: [buildFullPath]/[combineURLs] join
    the base URL and the path, the request carries the instance timeout,
    a response outside 2xx rejects with "Request failed with status code
    N", no response rejects with "Network Error", a timeout with
    "timeout of Nms exceeded"; a body that is not JSON stays a string.
    [fetch_send] follows [fetch]: it rejects only when no response
    arrives, and [response_json] rejects on a body that is not JSON. *)

From S2P Require Import Prelude Json.
From stdpp Require Import pretty.
From Stdlib Require Import Ascii.

(** ** The durable key-value store (spec §6) *)

Class KVStore (T : Type) := {
  kv_get : T -> string -> option string;
  kv_set : string -> string -> T -> T;
  kv_remove : string -> T -> T;
}.

Class KVStoreLaws (T : Type) `{!KVStore T} := {
  kv_get_set_eq : forall t k v, kv_get (kv_set k v t) k = Some v;
  kv_get_set_ne : forall t k k' v, k <> k' -> kv_get (kv_set k v t) k' = kv_get t k';
  kv_get_remove_eq : forall t k, kv_get (kv_remove k t) k = None;
  kv_get_remove_ne : forall t k k', k <> k' -> kv_get (kv_remove k t) k' = kv_get t k';
}.

#[export] Instance gmap_KVStore : KVStore (gmap string string) := {
  kv_get t k := t !! k;
  kv_set k v t := <[k:=v]> t;
  kv_remove k t := delete k t;
}.

#[export] Instance gmap_KVStoreLaws : KVStoreLaws (gmap string string).
Proof.
  split; simpl; intros.
  - apply lookup_insert_eq.
  - by apply lookup_insert_ne.
  - apply lookup_delete_eq.
  - by apply lookup_delete_ne.
Qed.

(** ** Requests, responses, errors *)

Inductive Method := GET | POST | PUT | PATCH.

Record Request := mkRequest {
  rq_method : Method;
  rq_url : string;
  rq_auth : option string;     (** the [Authorization] header's value *)
  rq_body : option json;
  rq_timeout : option nat;     (** milliseconds; [fetch] has none *)
}.

Inductive Body :=
| BJson (v : json)             (** a body that parses as JSON *)
| BText (s : string).          (** any other body *)

Inductive Outcome :=
| NoResponse                   (** DNS failure, refused or dropped connection *)
| TimedOut                     (** no response within the timeout *)
| Answer (status : Z) (body : Body).

(** What the code can catch. *)
Inductive Exn :=
| AxiosError (message : string) (response : option (Z * json))
| JsError (message : string)   (** [new Error(message)] *)
| FetchFailed                  (** [fetch]'s TypeError, no response *)
| JsonParseError               (** [response.json()] on a non-JSON body *)
| TypeError (message : string).

Definition exn_message (e : Exn) : string :=
  match e with
  | AxiosError m _ => m
  | JsError m => m
  | FetchFailed => "Network request failed"
  | JsonParseError => "JSON Parse error"
  | TypeError m => m
  end.

(** [error.response] *)
Definition exn_response (e : Exn) : option (Z * json) :=
  match e with AxiosError _ r => r | _ => None end.

(** ** The world *)

Record World (Store : Type) := mkWorld {
  w_store : Store;
  w_active : string;
  w_base : string;
  w_sent : list Request;
  w_alerts : list (string * string);
  w_net : nat -> Request -> Outcome;
  w_latency : nat -> nat;
}.
Arguments mkWorld {Store}.
Arguments w_store {Store}. Arguments w_active {Store}. Arguments w_base {Store}.
Arguments w_sent {Store}. Arguments w_alerts {Store}. Arguments w_net {Store}.
Arguments w_latency {Store}.

(** A computation of the API layer over a store of type [Store]. *)
Definition Api (Store A : Type) : Type := ST (World Store) Exn A.

Section World.
Context {Store : Type} `{!KVStore Store}.

Definition set_store (t : Store) (w : World Store) : World Store :=
  mkWorld t (w_active w) (w_base w) (w_sent w) (w_alerts w) (w_net w) (w_latency w).
Definition set_urls (active base : string) (w : World Store) : World Store :=
  mkWorld (w_store w) active base (w_sent w) (w_alerts w) (w_net w) (w_latency w).
Definition push_sent (r : Request) (w : World Store) : World Store :=
  mkWorld (w_store w) (w_active w) (w_base w) (w_sent w ++ [r]) (w_alerts w) (w_net w) (w_latency w).
Definition push_alert (a : string * string) (w : World Store) : World Store :=
  mkWorld (w_store w) (w_active w) (w_base w) (w_sent w) (w_alerts w ++ [a]) (w_net w) (w_latency w).

Definition getItem (k : string) : Api Store (option string) :=
  fun w => (Ok (kv_get (w_store w) k), w).
Definition setItem (k v : string) : Api Store unit :=
  smodify (fun w => set_store (kv_set k v (w_store w)) w).
Definition removeItem (k : string) : Api Store unit :=
  smodify (fun w => set_store (kv_remove k (w_store w)) w).
Definition alert (title message : string) : Api Store unit :=
  smodify (push_alert (title, message)).

(** Send a request: it is logged and the network answers it. *)
Definition send (r : Request) : Api Store Outcome :=
  fun w => (Ok (w_net w (length (w_sent w)) r), push_sent r w).
End World.

(** ** URLs as axios builds them *)

Definition is_alpha (c : ascii) : bool :=
  let n := nat_of_ascii c in ((65 <=? n) && (n <=? 90)) || ((97 <=? n) && (n <=? 122)).
Definition is_digit (c : ascii) : bool :=
  let n := nat_of_ascii c in (48 <=? n) && (n <=? 57).
Definition is_scheme_char (c : ascii) : bool :=
  is_alpha c || is_digit c || (c =? "+")%char || (c =? "-")%char || (c =? ".")%char.

Fixpoint after_scheme (l : list ascii) : bool :=
  match l with
  | ":" :: "/" :: "/" :: _ => true
  | c :: l' => is_scheme_char c && after_scheme l'
  | [] => false
  end%char.

(** [isAbsoluteURL]: [/^([a-z][a-z\d+\-.]*:)?\/\//i] *)
Definition isAbsoluteURL (s : string) : bool :=
  match String.list_ascii_of_string s with
  | "/" :: "/" :: _ => true
  | c :: l => is_alpha c && after_scheme l
  | [] => false
  end%char.

Fixpoint strip_leading_slashes (s : string) : string :=
  match s with
  | String "/" s' => strip_leading_slashes s'
  | _ => s
  end%char.

(** [s.replace(/\/?\/$/, '')]: drops one or two trailing slashes. *)
Definition strip_trailing_slashes (s : string) : string :=
  match rev (String.list_ascii_of_string s) with
  | "/" :: "/" :: l => String.string_of_list_ascii (rev l)
  | "/" :: l => String.string_of_list_ascii (rev l)
  | _ => s
  end%char.

Definition combineURLs (base rel : string) : string :=
  if String.eqb rel "" then base
  else strip_trailing_slashes base +:+ "/" +:+ strip_leading_slashes rel.

Definition buildFullPath (base rel : string) : string :=
  if negb (String.eqb base "") && negb (isAbsoluteURL rel) then combineURLs base rel else rel.

(** ** axios and fetch *)

Definition is_2xx (status : Z) : bool := (200 <=? status)%Z && (status <? 300)%Z.

(** What [response.data] holds: a body that is not JSON stays a string. *)
Definition axios_data (b : Body) : json :=
  match b with BJson v => v | BText s => JStr s end.

Definition bearer (token : string) : string := "Bearer " +:+ token.

Section Transport.
Context {Store : Type} `{!KVStore Store}.

(** How an axios request settles on an outcome: statuses outside 2xx
    reject ([validateStatus]). *)
Definition axios_settle (timeout : nat) (o : Outcome) : res Exn json :=
  match o with
  | NoResponse => Err (AxiosError "Network Error" None)
  | TimedOut => Err (AxiosError ("timeout of " +:+ pretty timeout +:+ "ms exceeded") None)
  | Answer st b =>
      if is_2xx st then Ok (axios_data b)
      else Err (AxiosError ("Request failed with status code " +:+ pretty st)
                           (Some (st, axios_data b)))
  end.

Definition of_res {A} (r : res Exn A) : Api Store A := fun w => (r, w).

Definition axios_config (base : string) (timeout : nat) (m : Method) (path : string)
    (body : option json) (token : option string) : Request :=
  mkRequest m (buildFullPath base path) (bearer <$> token) body (Some timeout).

(** A request through an axios instance with [baseURL := base] and
    [timeout := timeout]. *)
Definition axios_send (base : string) (timeout : nat) (m : Method) (path : string)
    (body : option json) (token : option string) : Api Store json :=
  (o <- send (axios_config base timeout m path body token) ;;
   of_res (axios_settle timeout o))%st.

(** The module's instance [api]: its base URL is read when the request
    is made, its timeout is 15 s. *)
Definition api_request (m : Method) (path : string) (body : option json)
    (token : option string) : Api Store json :=
  (w <- sget ;; axios_send (w_base w) 15000 m path body token)%st.

(** [fetch(url, ...)]: resolves with the status and body of any response. *)
Definition fetch_send (m : Method) (url : string) (token : option string)
    (body : option json) : Api Store (Z * Body) :=
  (o <- send (mkRequest m url (bearer <$> token) body None) ;;
   match o with
   | Answer st b => sret (st, b)
   | _ => sthrow FetchFailed
   end)%st.

Definition response_json (b : Body) : Api Store json :=
  match b with BJson v => sret v | BText _ => sthrow JsonParseError end.
End Transport.

(** ** Frame lemmas *)

Section Frames.
Context {Store : Type} `{!KVStore Store}.

(** The log only grows. *)
Definition sent_grows (w0 : World Store) (w : World Store) : Prop :=
  exists l, w_sent w = w_sent w0 ++ l.

(** The network is never changed by the code. *)
Definition same_env (w0 w : World Store) : Prop :=
  w_net w = w_net w0 /\ w_latency w = w_latency w0.

Lemma send_run (r : Request) (w : World Store) :
  send r w = (Ok (w_net w (length (w_sent w)) r), push_sent r w).
Proof. reflexivity. Qed.

Lemma axios_send_run base timeout m path body token (w : World Store) :
  axios_send base timeout m path body token w =
  (axios_settle timeout (w_net w (length (w_sent w)) (axios_config base timeout m path body token)),
   push_sent (axios_config base timeout m path body token) w).
Proof. reflexivity. Qed.
End Frames.

(** ** The two copies of the active URL *)

Section Agree.
Context {Store : Type} `{!KVStore Store}.

(** [ACTIVE_API_URL] and [api.defaults.baseURL] hold the same URL. *)
Definition urls_agree (w : World Store) : Prop := w_active w = w_base w.

Lemma send_agree r : preserves urls_agree (@send Store r).
Proof. by intros w H. Qed.
Lemma of_res_agree {A} (r : res Exn A) : preserves urls_agree (@of_res Store A r).
Proof. by intros w H. Qed.
Lemma getItem_agree k : preserves urls_agree (@getItem Store _ k).
Proof. by intros w H. Qed.
Lemma setItem_agree k v : preserves urls_agree (@setItem Store _ k v).
Proof. by intros w H. Qed.
Lemma removeItem_agree k : preserves urls_agree (@removeItem Store _ k).
Proof. by intros w H. Qed.
Lemma alert_agree t m : preserves urls_agree (@alert Store t m).
Proof. by intros w H. Qed.
Lemma set_urls_agree u : preserves urls_agree (smodify (E:=Exn) (@set_urls Store u u)).
Proof. by intros w H. Qed.
End Agree.

#[export] Hint Resolve send_agree of_res_agree getItem_agree setItem_agree removeItem_agree
  alert_agree set_urls_agree : st.

Section AgreeTransport.
Context {Store : Type} `{!KVStore Store}.

Lemma axios_send_agree base timeout m path body token :
  preserves urls_agree (@axios_send Store base timeout m path body token).
Proof. unfold axios_send. preserves_solve. Qed.

Lemma api_request_agree m path body token :
  preserves urls_agree (@api_request Store m path body token).
Proof. unfold api_request. preserves_solve. Qed.

Lemma fetch_send_agree m url token body :
  preserves urls_agree (@fetch_send Store m url token body).
Proof. unfold fetch_send. preserves_solve. Qed.

Lemma response_json_agree b : preserves urls_agree (@response_json Store b).
Proof. unfold response_json. preserves_solve. Qed.
End AgreeTransport.

#[export] Hint Resolve axios_send_agree api_request_agree fetch_send_agree
  response_json_agree : st.
