(* ===== verification/Endpoint.v ===== *)
(** * Endpoint registry and resolver ([api-service.ts], lines 5-88)

    The candidate URLs ([API_URLS]), the probe order ([urlsToTry] in
    [findWorkingApiUrl]), the probe [testApiUrl] (a GET of ["/"] through a
    fresh axios instance with a 3 s timeout: true exactly when the answer
    is 2xx, since axios rejects other statuses), the resolver
    [findWorkingApiUrl] (first candidate whose probe succeeds, persisted
    under ["WORKING_API_URL"]), [updateApiBaseUrl], and the startup task
    that adopts a persisted URL ([init_saved_url], the [setTimeout] body).

    The abstract resolver [resolve_spec] returns the first candidate
    accepted by a test; [find_working_refines] shows that the code
    computes it with the probe test, sends exactly the probes up to it, in
    order, and changes nothing but the log and, on success, the persisted
    record. *)

From S2P Require Import Prelude Json Http.

Definition API_URLS_localNetwork : string := "http://192.168.100.27:5000/api".
Definition API_URLS_emulator : string := "http://10.0.2.2:5000/api".
Definition API_URLS_production : string := "https://your-production-server.com/api".
Definition API_URLS_localhost : string := "http://localhost:5000/api".

(** The probe order of [findWorkingApiUrl]. *)
Definition urlsToTry : list string :=
  [API_URLS_localNetwork; API_URLS_emulator; API_URLS_localhost; API_URLS_production].

Definition WORKING_API_URL : string := "WORKING_API_URL".

(** The module's state when it is loaded: both copies of the active URL
    are the local-network candidate. *)
Definition initial_world {Store} (store : Store) (net : nat -> Request -> Outcome)
    (lat : nat -> nat) : World Store :=
  mkWorld store API_URLS_localNetwork API_URLS_localNetwork [] [] net lat.

Section Resolver.
Context {Store : Type} `{!KVStore Store}.

(** [testApiUrl]: any rejection is caught and gives [false]. *)
Definition testApiUrl (url : string) : Api Store bool :=
  scatch (axios_send url 3000 GET "/" None None ;; sret true)%st (fun _ => sret false).

Fixpoint find_working (urls : list string) : Api Store (option string) :=
  match urls with
  | [] => sret None
  | url :: rest =>
      (ok <- testApiUrl url ;;
       if ok then (setItem WORKING_API_URL url ;; sret (Some url))
       else find_working rest)%st
  end.

Definition findWorkingApiUrl : Api Store (option string) := find_working urlsToTry.

Definition updateApiBaseUrl (newUrl : string) : Api Store unit :=
  smodify (set_urls newUrl newUrl).

(** The [setTimeout] body: [if (savedUrl)] skips a missing or empty value. *)
Definition init_saved_url : Api Store unit :=
  (saved <- getItem WORKING_API_URL ;;
   match saved with
   | Some url => if String.eqb url "" then sret tt else smodify (set_urls url url)
   | None => sret tt
   end)%st.
End Resolver.

(** ** The abstract resolver *)

Definition probe_request (url : string) : Request :=
  mkRequest GET (buildFullPath url "/") None None (Some 3000).

(** Whether the probe of [url], sent as the [t]-th request, answers 2xx. *)
Definition probe_answers (net : nat -> Request -> Outcome) (t : nat) (url : string) : bool :=
  match net t (probe_request url) with
  | Answer st _ => is_2xx st
  | _ => false
  end.

(** The first candidate accepted by [ok], the [i]-th one tested at time [t + i]. *)
Fixpoint resolve_spec (ok : nat -> string -> bool) (t : nat) (urls : list string) : option string :=
  match urls with
  | [] => None
  | u :: rest => if ok t u then Some u else resolve_spec ok (S t) rest
  end.

(** The candidates tested, in order: all up to the first accepted one. *)
Fixpoint probed_spec (ok : nat -> string -> bool) (t : nat) (urls : list string) : list string :=
  match urls with
  | [] => []
  | u :: rest => u :: (if ok t u then [] else probed_spec ok (S t) rest)
  end.

Section Frame.
Context {Store : Type} `{!KVStore Store}.

Definition push_sents (l : list Request) (w : World Store) : World Store :=
  foldl (fun w r => push_sent r w) w l.

Definition persist_result (r : option string) (t : Store) : Store :=
  match r with Some u => kv_set WORKING_API_URL u t | None => t end.

Lemma push_sents_sent l (w : World Store) : w_sent (push_sents l w) = w_sent w ++ l.
Proof.
  revert w. induction l as [|r l IH]; intros w; simpl.
  - by rewrite app_nil_r.
  - unfold push_sents in *. simpl. rewrite IH. simpl. by rewrite <-app_assoc.
Qed.

Lemma push_sents_cons r l (w : World Store) :
  push_sents (r :: l) w = push_sents l (push_sent r w).
Proof. reflexivity. Qed.

Lemma push_sents_frame l (w : World Store) :
  w_active (push_sents l w) = w_active w /\ w_base (push_sents l w) = w_base w /\
  w_store (push_sents l w) = w_store w.
Proof.
  revert w. induction l as [|r l IH]; intros w; [done|].
  rewrite push_sents_cons. by destruct (IH (push_sent r w)) as (-> & -> & ->).
Qed.

Lemma push_sents_net l (w : World Store) : w_net (push_sents l w) = w_net w.
Proof. revert w. induction l as [|r l IH]; intros w; [done|]. by rewrite push_sents_cons, IH. Qed.

Lemma testApiUrl_run url (w : World Store) :
  testApiUrl url w =
  (Ok (probe_answers (w_net w) (length (w_sent w)) url), push_sent (probe_request url) w).
Proof.
  unfold testApiUrl, probe_answers, scatch, sbind. rewrite axios_send_run.
  unfold probe_request, axios_settle. destruct (w_net w _ _) as [| |st b]; try reflexivity.
  by destruct (is_2xx st).
Qed.
End Frame.

#[export] Hint Rewrite @push_sents_sent @testApiUrl_run : st_rw.

(** ** The resolver refines [resolve_spec] *)

Section Refinement.
Context {Store : Type} `{!KVStore Store}.

(** C2. [findWorkingApiUrl] (on any candidate list) returns the first
    candidate whose probe, sent at its turn, answers 2xx; it sends the
    probes of the candidates up to that one and no other request, in
    order; it persists the winner under [WORKING_API_URL] and leaves
    everything else, the active URL included, unchanged. *)
Theorem find_working_refines (urls : list string) (w : World Store) :
  let ok := probe_answers (w_net w) in
  let r := resolve_spec ok (length (w_sent w)) urls in
  find_working urls w =
  (Ok r, set_store (persist_result r (w_store w))
           (push_sents (map probe_request (probed_spec ok (length (w_sent w)) urls)) w)).
Proof.
  revert w. induction urls as [|u rest IH]; intros w; simpl; [by destruct w|].
  unfold sbind. rewrite testApiUrl_run.
  destruct (probe_answers (w_net w) (length (w_sent w)) u) eqn:Hok; [done|].
  rewrite IH. simpl. by rewrite length_app, Nat.add_1_r.
Qed.

(** The same equation, for the proofs that rewrite with it. *)
Lemma find_working_eq (urls : list string) (w : World Store) :
  find_working urls w =
  (Ok (resolve_spec (probe_answers (w_net w)) (length (w_sent w)) urls),
   set_store (persist_result (resolve_spec (probe_answers (w_net w)) (length (w_sent w)) urls) (w_store w))
     (push_sents (map probe_request (probed_spec (probe_answers (w_net w)) (length (w_sent w)) urls)) w)).
Proof.
  revert w. induction urls as [|u rest IH]; intros w; simpl; [by destruct w|].
  unfold sbind. rewrite testApiUrl_run.
  destruct (probe_answers (w_net w) (length (w_sent w)) u) eqn:Hok; [done|].
  rewrite IH. simpl. by rewrite length_app, Nat.add_1_r.
Qed.

Lemma probed_spec_length ok t urls : length (probed_spec ok t urls) <= length urls.
Proof.
  revert t. induction urls as [|u rest IH]; intros t; simpl; [lia|].
  destruct (ok t u); simpl; [lia|]. specialize (IH (S t)). lia.
Qed.

Lemma resolve_spec_none ok t urls :
  (forall i u, urls !! i = Some u -> ok (t + i) u = false) ->
  resolve_spec ok t urls = None /\ probed_spec ok t urls = urls.
Proof.
  revert t. induction urls as [|u rest IH]; intros t Hall; simpl; [done|].
  assert (ok t u = false) as -> by (rewrite <-(Nat.add_0_r t); by apply Hall).
  destruct (IH (S t)) as [-> ->]; [|done].
  intros i v Hi. rewrite <-(Hall (S i) v Hi). f_equal. lia.
Qed.

(** On a network whose answers do not depend on time, the result is
    the first candidate that answers. *)
Lemma resolve_spec_static (ok : nat -> string -> bool) t urls :
  (forall t t' u, ok t u = ok t' u) ->
  resolve_spec ok t urls = List.find (ok 0) urls.
Proof.
  intros Hst. revert t. induction urls as [|u rest IH]; intros t; simpl; [done|].
  rewrite (Hst t 0). by destruct (ok 0 u).
Qed.
End Refinement.

Section Corollaries.
Context {Store : Type} `{!KVStore Store} `{!KVStoreLaws Store}.

(** C3. When no candidate's probe answers 2xx, [findWorkingApiUrl]
    returns [None] after probing every candidate once, in order, and
    the store, the active URL and the axios base URL are unchanged. *)
Theorem find_working_unreachable (urls : list string) (w : World Store) :
  (forall i u, urls !! i = Some u ->
     probe_answers (w_net w) (length (w_sent w) + i) u = false) ->
  exists w', find_working urls w = (Ok None, w') /\
    w_store w' = w_store w /\ w_active w' = w_active w /\ w_base w' = w_base w /\
    w_sent w' = w_sent w ++ map probe_request urls.
Proof.
  intros Hall. destruct (resolve_spec_none _ _ _ Hall) as [Hr Hp].
  eexists. rewrite find_working_eq, Hr, Hp. split; [reflexivity|].
  cbn [set_store w_store w_active w_base w_sent]. rewrite push_sents_sent. clear.
  by destruct (push_sents_frame (map probe_request urls) w) as (-> & -> & _).
Qed.

(** On a network whose answers do not change over time, the URL
    [findWorkingApiUrl] returns is the first candidate, in the order
    [urlsToTry], whose probe answers 2xx, and the store then maps
    [WORKING_API_URL] to it. *)
Theorem find_working_static (w : World Store) :
  (forall t t' r, w_net w t r = w_net w t' r) ->
  forall u, List.find (probe_answers (w_net w) 0) urlsToTry = Some u ->
  exists w', findWorkingApiUrl w = (Ok (Some u), w') /\
    kv_get (w_store w') WORKING_API_URL = Some u.
Proof.
  intros Hst u Hu. unfold findWorkingApiUrl. rewrite find_working_eq.
  rewrite resolve_spec_static, Hu.
  - eexists. split; [reflexivity|]. simpl.
    (* the store of the final world is set after the probes are logged *)
    apply kv_get_set_eq.
  - intros t t' v. unfold probe_answers. by rewrite (Hst t t').
Qed.
End Corollaries.

Section EndpointAgree.
Context {Store : Type} `{!KVStore Store}.

Lemma testApiUrl_agree url : preserves urls_agree (testApiUrl (Store:=Store) url).
Proof. unfold testApiUrl. preserves_solve. Qed.

Lemma find_working_agree urls : preserves urls_agree (find_working (Store:=Store) urls).
Proof.
  induction urls as [|u rest IH]; simpl; [eauto with st|].
  apply preserves_bind; [apply testApiUrl_agree|]. intros []; preserves_solve.
Qed.

Lemma updateApiBaseUrl_agree u : preserves urls_agree (updateApiBaseUrl (Store:=Store) u).
Proof. unfold updateApiBaseUrl. eauto with st. Qed.

Lemma init_saved_url_agree : preserves urls_agree (init_saved_url (Store:=Store)).
Proof. unfold init_saved_url. preserves_solve. Qed.
End EndpointAgree.

#[export] Hint Resolve testApiUrl_agree find_working_agree updateApiBaseUrl_agree
  init_saved_url_agree : st.

(** ** Restart, and what the probe accepts *)

Section Restart.
Context {Store : Type} `{!KVStore Store} `{!KVStoreLaws Store}.

(** A process restart: the durable store survives, the module state is
    re-initialised. *)
Definition restart (w : World Store) : World Store :=
  initial_world (w_store w) (w_net w) (w_latency w).

(** C11. A URL the resolver found survives a restart: the startup task
    adopts it for both copies of the active URL, without sending any
    request (the persisted URL is not probed again). *)
Theorem restart_adopts_resolved urls (w w' : World Store) u :
  find_working urls w = (Ok (Some u), w') -> String.eqb u "" = false ->
  let w'' := snd (init_saved_url (restart w')) in
  w_active w'' = u /\ w_base w'' = u /\ w_sent w'' = [].
Proof.
  rewrite find_working_eq. intros [= Hr <-] Hu. simpl.
  unfold init_saved_url, sbind, getItem. simpl. rewrite Hr. simpl.
  rewrite kv_get_set_eq. simpl. by rewrite Hu.
Qed.

(** The probe needs a 2xx answer: a backend that answers its
    root with any other status (a 404 for an unrouted [/api/], say) is
    reported unreachable, and the resolver moves on to the next candidate. *)
Theorem testApiUrl_non_2xx url (w : World Store) st b :
  w_net w (length (w_sent w)) (probe_request url) = Answer st b -> is_2xx st = false ->
  testApiUrl url w = (Ok false, push_sent (probe_request url) w).
Proof. intros H Hx. rewrite testApiUrl_run. unfold probe_answers. by rewrite H, Hx. Qed.
End Restart.

(** ** Witnesses on a concrete network and an AsyncStorage [gmap] *)

(** A network on which only the emulator address answers: its root with
    200, its login with a token; the local-network address answers 404. *)
Definition demo_net : nat -> Request -> Outcome := fun _ r =>
  if String.eqb (rq_url r) (buildFullPath API_URLS_emulator "/") then Answer 200 (BJson JNull)
  else if String.eqb (rq_url r) (buildFullPath API_URLS_emulator "/auth/login")
  then Answer 200 (BJson (JObj [("token", JStr "t1")]))
  else if String.eqb (rq_url r) (buildFullPath API_URLS_localNetwork "/")
  then Answer 404 (BText "Not Found")
  else NoResponse.

Definition demo_world : World (gmap string string) := initial_world ∅ demo_net (fun _ => 0).

Definition dead_world : World (gmap string string) :=
  initial_world ∅ (fun _ _ => NoResponse) (fun _ => 0).

Lemma find_working_unreachable_witness :
  exists w', find_working urlsToTry dead_world = (Ok None, w') /\
    w_store w' = w_store dead_world /\ w_active w' = w_active dead_world /\
    w_base w' = w_base dead_world /\ w_sent w' = w_sent dead_world ++ map probe_request urlsToTry.
Proof. apply find_working_unreachable. intros i u _. reflexivity. Defined.

Lemma find_working_static_witness :
  exists w', findWorkingApiUrl demo_world = (Ok (Some API_URLS_emulator), w') /\
    kv_get (w_store w') WORKING_API_URL = Some API_URLS_emulator.
Proof.
  apply find_working_static.
  - intros t t' r. reflexivity.
  - vm_compute. reflexivity.
Defined.

Lemma restart_adopts_resolved_witness :
  match findWorkingApiUrl demo_world with
  | (Ok (Some u), w') =>
      let w'' := snd (init_saved_url (restart w')) in
      w_active w'' = u /\ w_base w'' = u /\ w_sent w'' = []
  | _ => False
  end.
Proof.
  unfold findWorkingApiUrl. destruct (find_working urlsToTry demo_world) as [[[u|]|e] w'] eqn:E;
    try (vm_compute in E; discriminate).
  apply (restart_adopts_resolved urlsToTry demo_world w' u E).
  vm_compute in E. injection E as <- _. reflexivity.
Defined.

Lemma testApiUrl_non_2xx_witness :
  testApiUrl API_URLS_localNetwork demo_world =
  (Ok false, push_sent (probe_request API_URLS_localNetwork) demo_world).
Proof. apply (testApiUrl_non_2xx _ _ 404 (BText "Not Found")); reflexivity. Defined.
