(* ===== verification/ApiError.v ===== *)
(** * Error handling ([api-service.ts], [handleApiError], lines 90-116)

    [handleApiError] turns a caught value into the [Error] the caller sees:
    a transport failure ([error.message === 'Network Error']) gets a fixed
    guidance message and a "Connection Error" alert; an error with a
    response gets the response body's [message] field when it is truthy,
    else the caller's message; anything else gets the caller's message.

    The spec (§4.5) describes a classifier with five kinds; [spec_kind]
    states it, and the theorems of this file relate the code to it: the
    code distinguishes only the transport failure, so a timeout and a 401
    come out as a server or custom message (see [handleApiError_axios]). *)

From S2P Require Import Prelude Json Http.
From Stdlib Require Import Ascii.

Definition newline : string := String "010"%char EmptyString.

Definition network_error_message : string :=
  "Cannot connect to server. Please check that:" +:+ newline +:+
  "1. The backend server is running" +:+ newline +:+
  "2. Your device is connected to the network" +:+ newline +:+
  "3. The server IP address is correct".

Definition is_network_error (e : Exn) : bool := String.eqb (exn_message e) "Network Error".

Section Handle.
Context {Store : Type} `{!KVStore Store}.

Definition handleApiError (error : Exn) (customMessage : string) : Api Store Exn :=
  if is_network_error error then
    (alert "Connection Error" network_error_message ;; sret (JsError network_error_message))%st
  else
    match exn_response error with
    | Some (_, data) => sret (JsError (or_message (json_get "message" data) customMessage))
    | None => sret (JsError customMessage)
    end.
End Handle.

(** ** The classifier of the spec (§4.5), for comparison *)

Inductive ErrorKind :=
| NetworkUnreachable
| Timeout
| Unauthorized
| ServerError (status : Z)
| UnknownError.

Fixpoint starts_with (p s : string) : bool :=
  match p, s with
  | EmptyString, _ => true
  | String a p', String b s' => Ascii.eqb a b && starts_with p' s'
  | String _ _, EmptyString => false
  end.

Definition is_timeout_message (m : string) : bool := starts_with "timeout of " m.

Definition spec_kind (e : Exn) : ErrorKind :=
  match e with
  | AxiosError m None =>
      if String.eqb m "Network Error" then NetworkUnreachable
      else if is_timeout_message m then Timeout else UnknownError
  | AxiosError _ (Some (st, _)) =>
      if (Z.eqb st 401 || Z.eqb st 403)%bool then Unauthorized else ServerError st
  | FetchFailed => NetworkUnreachable
  | _ => UnknownError
  end.

(** ** Lemmas *)

Section Lemmas.
Context {Store : Type} `{!KVStore Store}.

Lemma handleApiError_network e m (w : World Store) :
  is_network_error e = true ->
  handleApiError e m w =
  (Ok (JsError network_error_message), push_alert ("Connection Error", network_error_message) w).
Proof. intros H. unfold handleApiError. by rewrite H. Qed.

Lemma handleApiError_other e m (w : World Store) :
  is_network_error e = false ->
  handleApiError e m w =
  (Ok (JsError (match exn_response e with
                | Some (_, data) => or_message (json_get "message" data) m
                | None => m end)), w).
Proof. intros H. unfold handleApiError. rewrite H. by destruct (exn_response e) as [[]|]. Qed.

(** [handleApiError] never throws, and changes the world only by the
    alert of a transport failure. *)
Lemma handleApiError_frame e m (w : World Store) :
  exists msg, handleApiError e m w =
    (Ok (JsError msg),
     if is_network_error e then push_alert ("Connection Error", network_error_message) w else w).
Proof.
  destruct (is_network_error e) eqn:H.
  - rewrite handleApiError_network by done. eauto.
  - rewrite handleApiError_other by done. eauto.
Qed.
End Lemmas.

Section VersusSpec.
Context {Store : Type} `{!KVStore Store}.

(** C6. For every way an axios request can fail, what [handleApiError]
    produces, next to the kind the spec's classifier assigns: only a
    transport failure ([NetworkUnreachable]) gets the connection
    guidance and an alert; a timeout gets the caller's message; a
    response with a status outside 2xx (401 and 403 included) gets the
    body's [message] field when it is truthy, else the caller's message. *)
Theorem handleApiError_axios timeout o e m (w : World Store) :
  axios_settle timeout o = Err e ->
  match o with
  | NoResponse =>
      spec_kind e = NetworkUnreachable /\
      handleApiError e m w =
        (Ok (JsError network_error_message), push_alert ("Connection Error", network_error_message) w)
  | TimedOut =>
      spec_kind e = Timeout /\ handleApiError e m w = (Ok (JsError m), w)
  | Answer st b =>
      spec_kind e = (if (Z.eqb st 401 || Z.eqb st 403)%bool then Unauthorized else ServerError st) /\
      handleApiError e m w = (Ok (JsError (or_message (json_get "message" (axios_data b)) m)), w)
  end.
Proof.
  intros H. destruct o as [| |st b]; simpl in H.
  - injection H as <-. split; [done|]. by apply handleApiError_network.
  - injection H as <-. split; [done|]. by apply handleApiError_other.
  - destruct (is_2xx st); [done|]. injection H as <-. split; [done|].
    by apply handleApiError_other.
Qed.
End VersusSpec.

Lemma handleApiError_agree {Store} `{!KVStore Store} e m :
  preserves urls_agree (handleApiError (Store:=Store) e m).
Proof. unfold handleApiError. preserves_solve. Qed.
#[export] Hint Resolve handleApiError_agree : st.

Lemma handleApiError_axios_witness :
  spec_kind (AxiosError "Request failed with status code 401"
               (Some (401%Z, JObj [("message", JStr "Invalid credentials")]))) = Unauthorized /\
  handleApiError (Store:=gmap string string)
    (AxiosError "Request failed with status code 401"
       (Some (401%Z, JObj [("message", JStr "Invalid credentials")]))) "Login failed"
    (mkWorld ∅ "" "" [] [] (fun _ _ => NoResponse) (fun _ => 0)) =
  (Ok (JsError "Invalid credentials"), mkWorld ∅ "" "" [] [] (fun _ _ => NoResponse) (fun _ => 0)).
Proof.
  apply (handleApiError_axios 15000 (Answer 401 (BJson (JObj [("message", JStr "Invalid credentials")])))).
  reflexivity.
Defined.
