(* ===== verification/ApiService.v ===== *)
(** * The exported operations of [api-service.ts] (lines 217-436)

    Each operation is one definition over the [Api] monad, in the order of
    the source.  The axios-based ones ([login], [verifyToken], [logout],
    [getUserProfile], [updateUserProfile], [fetchUserDashboardData]) send
    to [api.defaults.baseURL] ([w_base]); the fetch-based ones
    ([getUserReservations], [createReservation], [cancelReservation],
    [getAvailableTimeSlots]) to [ACTIVE_API_URL] ([w_active]).  Only
    [login] re-resolves the endpoint: on a transport failure it runs
    [findWorkingApiUrl] and, if a URL is found, switches to it and posts
    once more.  A [catch] block that only logs and rethrows is the identity
    and is left out. *)

From S2P Require Import Prelude Json Http Endpoint ApiError.
From stdpp Require Import pretty.

(** [error.response?.data?.message] *)
Definition response_message (e : Exn) : option json :=
  match exn_response e with Some (_, data) => json_get "message" data | None => None end.

Definition login_body (identifier password : string) : json :=
  JObj [("identifier", JStr identifier); ("password", JStr password)].

(** The request a login sends through an axios instance based at [base]. *)
Definition login_request (base identifier password : string) : Request :=
  axios_config base 15000 POST "/auth/login" (Some (login_body identifier password)) None.

Section Service.
Context {Store : Type} `{!KVStore Store}.

Definition login_post (identifier password : string) : Api Store json :=
  api_request POST "/auth/login" (Some (login_body identifier password)) None.

(** The inner [try]: post, and on a transport failure re-resolve and
    post once more. *)
Definition login_attempt (identifier password : string) : Api Store json :=
  scatch (login_post identifier password)
    (fun error =>
       if is_network_error error then
         (workingUrl <- findWorkingApiUrl ;;
          match workingUrl with
          | Some url =>
              if String.eqb url "" then sthrow error
              else (updateApiBaseUrl url ;; login_post identifier password)
          | None => sthrow error
          end)%st
       else sthrow error).

Definition login_handler (error : Exn) : Api Store json :=
  (e <- handleApiError error "Login failed" ;; sthrow e)%st.

Definition login (identifier password : string) : Api Store json :=
  scatch (login_attempt identifier password) login_handler.

Definition verifyToken (token : string) : Api Store json :=
  scatch (api_request GET "/auth/verify" None (Some token))
    (fun _ => sret (JObj [("valid", JBool false)])).

Definition logout (token : string) : Api Store unit :=
  scatch (api_request POST "/auth/logout" (Some (JObj [])) (Some token) ;; sret tt)%st
    (fun _ => sret tt).

Definition getUserProfile (token : string) : Api Store json :=
  scatch (api_request GET "/users/profile" None (Some token))
    (fun error => sthrow (JsError (or_message (response_message error) "Failed to fetch user profile"))).

Definition updateUserProfile (profileData : json) (token : string) : Api Store json :=
  scatch (api_request PUT "/users/profile" (Some profileData) (Some token))
    (fun error => sthrow (JsError (or_message (response_message error) "Failed to update profile"))).
End Service.

(** ** Running [login] *)

Section LoginRun.
Context {Store : Type} `{!KVStore Store}.

Lemma api_request_run m path body token (w : World Store) :
  api_request m path body token w =
  (axios_settle 15000 (w_net w (length (w_sent w)) (axios_config (w_base w) 15000 m path body token)),
   push_sent (axios_config (w_base w) 15000 m path body token) w).
Proof. reflexivity. Qed.

Lemma login_post_run identifier password (w : World Store) :
  login_post identifier password w =
  (axios_settle 15000 (w_net w (length (w_sent w)) (login_request (w_base w) identifier password)),
   push_sent (login_request (w_base w) identifier password) w).
Proof. reflexivity. Qed.

Lemma updateApiBaseUrl_run url (w : World Store) :
  updateApiBaseUrl url w = (Ok tt, set_urls url url w).
Proof. reflexivity. Qed.

(** The error branch of [login] ends in [handleApiError], which throws
    nothing but may alert. *)
Lemma login_handler_run e (w : World Store) :
  exists e' w', login_handler e w = (Err e', w') /\
    w_sent w' = w_sent w /\ w_active w' = w_active w /\ w_base w' = w_base w /\
    w_store w' = w_store w.
Proof.
  destruct (handleApiError_frame e "Login failed" w) as [msg Hm].
  unfold login_handler, sbind. rewrite Hm. exists (JsError msg).
  eexists. split; [reflexivity|]. by destruct (is_network_error e).
Qed.

(** [login] sends what [login_attempt] sends and leaves the URLs and
    the store as it leaves them; only its result differs. *)
Lemma login_frame identifier password (w : World Store) :
  let w1 := snd (login_attempt identifier password w) in
  let w2 := snd (login identifier password w) in
  w_sent w2 = w_sent w1 /\ w_active w2 = w_active w1 /\ w_base w2 = w_base w1 /\
  w_store w2 = w_store w1.
Proof.
  simpl. unfold login, scatch.
  destruct (login_attempt identifier password w) as [[a|e] w1]; [done|].
  destruct (login_handler_run e w1) as (e' & w' & -> & H). exact H.
Qed.
End LoginRun.

Lemma probed_spec_prefix ok t urls : probed_spec ok t urls `prefix_of` urls.
Proof.
  revert t. induction urls as [|u rest IH]; intros t; simpl; [done|].
  destruct (ok t u); [apply prefix_cons, prefix_nil|apply prefix_cons, IH].
Qed.

Lemma resolve_spec_probed ok t urls u :
  resolve_spec ok t urls = Some u -> u ∈ probed_spec ok t urls.
Proof.
  revert t. induction urls as [|v rest IH]; intros t; simpl; [done|].
  destruct (ok t v); [intros [= ->]; set_solver|]. intros H. apply IH in H. set_solver.
Qed.

(** ** [login] sends at most two login requests *)

(** Normalise the log and URLs of a world built by the steps of [login]. *)
Ltac login_norm :=
  cbn [snd fst sthrow sret set_store set_urls w_sent w_base push_sent];
  rewrite ?push_sents_sent;
  repeat rewrite (proj1 (proj2 (push_sents_frame _ _)));
  cbn [w_sent w_base push_sent];
  rewrite ?app_nil_r, <-?app_assoc.

Section LoginRetry.
Context {Store : Type} `{!KVStore Store}.

(** C1. A [login] sends one login request to the current base URL;
    after it, only probes of a prefix of [urlsToTry], in order; and at
    most one more login request, to a URL it has just probed.  So no
    call makes more than two attempts, whatever the network does. *)
Theorem login_requests identifier password (w : World Store) :
  exists ps extra,
    w_sent (snd (login identifier password w)) =
      w_sent w ++ login_request (w_base w) identifier password :: map probe_request ps ++ extra /\
    ps `prefix_of` urlsToTry /\
    (extra = [] \/ exists u, u ∈ ps /\ extra = [login_request u identifier password]).
Proof.
  destruct (login_frame identifier password w) as [-> _].
  unfold login_attempt, scatch. rewrite login_post_run.
  destruct (axios_settle _ _) as [a|e]; simpl.
  { exists [], []. rewrite app_nil_r. split; [done|]. split; [apply prefix_nil|by left]. }
  destruct (is_network_error e); simpl;
    [|exists [], []; rewrite app_nil_r; split; [done|]; split; [apply prefix_nil|by left]].
  unfold sbind, findWorkingApiUrl. rewrite find_working_eq.
  set (ps := probed_spec _ _ urlsToTry).
  assert (Hpre : ps `prefix_of` urlsToTry) by apply probed_spec_prefix.
  destruct (resolve_spec _ _ urlsToTry) as [u|] eqn:Hr.
  - destruct (String.eqb u "").
    + exists ps, []. login_norm. split; [done|]. split; [done|by left].
    + exists ps, [login_request u identifier password].
      rewrite updateApiBaseUrl_run, login_post_run. login_norm.
      split; [done|]. split; [done|].
      right. exists u. split; [by apply resolve_spec_probed|done].
  - exists ps, []. login_norm. split; [done|]. split; [done|by left].
Qed.
End LoginRetry.

Lemma resolve_spec_in ok t urls u : resolve_spec ok t urls = Some u -> u ∈ urls.
Proof.
  revert t. induction urls as [|v rest IH]; intros t; simpl; [done|].
  destruct (ok t v); [intros [= ->]; set_solver|]. intros H. apply IH in H. set_solver.
Qed.

Lemma urlsToTry_nonempty u : u ∈ urlsToTry -> String.eqb u "" = false.
Proof. intros Hu. repeat (apply elem_of_cons in Hu as [->|Hu]; [reflexivity|]). set_solver. Qed.

Section LoginOutcomes.
Context {Store : Type} `{!KVStore Store} `{!KVStoreLaws Store}.

(** C5. When the first login request gets no response, the resolver
    finds [u], and the retry to [u] answers 2xx, [login] returns that
    answer's data, both copies of the active URL are [u], and [u] is
    persisted. *)
Theorem login_retry_success identifier password (w : World Store) u st b :
  let t := length (w_sent w) in
  let ok := probe_answers (w_net w) in
  w_net w t (login_request (w_base w) identifier password) = NoResponse ->
  resolve_spec ok (S t) urlsToTry = Some u ->
  w_net w (S t + length (probed_spec ok (S t) urlsToTry)) (login_request u identifier password)
    = Answer st b ->
  is_2xx st = true ->
  exists w', login identifier password w = (Ok (axios_data b), w') /\
    w_active w' = u /\ w_base w' = u /\ kv_get (w_store w') WORKING_API_URL = Some u.
Proof.
  intros t ok H1 Hr H3 H2x.
  unfold login, login_attempt, scatch, sbind. rewrite login_post_run. fold t. rewrite H1.
  cbn [axios_settle]. change (is_network_error (AxiosError "Network Error" None)) with true.
  cbv iota beta.
  unfold findWorkingApiUrl. rewrite find_working_eq. cbn [w_net w_sent push_sent].
  rewrite length_app, Nat.add_1_r. fold t ok. rewrite Hr.
  rewrite (urlsToTry_nonempty u) by (by eapply resolve_spec_in).
  rewrite updateApiBaseUrl_run, login_post_run. cbn [w_net w_sent w_base set_urls set_store].
  rewrite push_sents_sent, length_app, length_map. cbn [w_net w_sent push_sent].
  rewrite push_sents_net. cbn [w_net push_sent]. rewrite length_app. cbn [length].
  rewrite Nat.add_1_r. fold t. rewrite H3. cbn [axios_settle]. rewrite H2x.
  eexists. split; [reflexivity|]. cbn. split; [done|]. split; [done|].
  apply kv_get_set_eq.
Qed.

(** C7. When the first login request fails in any other way than "no
    response" (a timeout, or an answer outside 2xx such as a 401 for a
    bad password), [login] sends nothing more (no probe, no retry),
    leaves the URLs and the store as they were, and throws
    [Error(data.message || "Login failed")]. *)
Theorem login_no_retry identifier password (w : World Store) o e :
  let r := login_request (w_base w) identifier password in
  w_net w (length (w_sent w)) r = o -> o <> NoResponse ->
  axios_settle 15000 o = Err e ->
  login identifier password w =
    (Err (JsError (or_message (response_message e) "Login failed")), push_sent r w).
Proof.
  intros r Ho Hno He.
  assert (Hnet : is_network_error e = false).
  { destruct o as [| |st b']; [done| |]; simpl in He.
    - by injection He as <-.
    - destruct (is_2xx st); [done|]. by injection He as <-. }
  unfold login, login_attempt, scatch. rewrite login_post_run. fold r. rewrite Ho, He.
  rewrite Hnet. cbn. unfold login_handler, sbind. rewrite handleApiError_other by done.
  unfold response_message. by destruct (exn_response e) as [[? ?]|].
Qed.
End LoginOutcomes.

(** ** The dashboard and reservation operations *)

(** [DashboardData] *)
Record DashboardData := mkDashboard {
  dd_user : json;
  dd_reservations : list json;
  dd_activeReservations : nat;
  dd_completedReservations : nat;
}.

(** [res.status === "confirmed" || res.status === "pending"] *)
Definition is_active_reservation (r : json) : bool :=
  field_is "status" "confirmed" r || field_is "status" "pending" r.

Definition is_completed_reservation (r : json) : bool := field_is "status" "completed" r.

(** [token ? authHeader(token) : {}]: an empty token is falsy. *)
Definition auth_if (token : option string) : option string :=
  match token with Some t => if String.eqb t "" then None else Some t | None => None end.

(** [res.status] on a [null] element throws; on other values it is a lookup. *)
Definition has_null (l : list json) : bool :=
  existsb (fun r => match r with JNull => true | _ => false end) l.

(** The body of the [try] after [Promise.all]: [reservations.filter] needs
    an array. *)
Definition dashboard_of (profile reservations : json) : res Exn DashboardData :=
  match reservations with
  | JArr l =>
      if has_null l then Err (TypeError "Cannot read property 'status' of null")
      else Ok (mkDashboard profile l (length (filter (fun r => is_active_reservation r = true) l))
                 (length (filter (fun r => is_completed_reservation r = true) l)))
  | _ => Err (TypeError "reservations.filter is not a function")
  end.

(** [Promise.all] of two settled requests sent at [t] and [t+1]: it
    rejects with the rejection that settles first (the first one on a tie). *)
Definition promise_all2 {A B} (lat : nat -> nat) (t : nat) (r1 : res Exn A) (r2 : res Exn B)
    : res Exn (A * B) :=
  match r1, r2 with
  | Ok a, Ok b => Ok (a, b)
  | Err e, Ok _ => Err e
  | Ok _, Err e => Err e
  | Err e1, Err e2 => if lat t <=? lat (S t) then Err e1 else Err e2
  end.

Section Reservations.
Context {Store : Type} `{!KVStore Store}.

Definition fetchUserDashboardData (userId : string) (token : option string)
    : Api Store DashboardData :=
  scatch
    (w <- sget ;;
     let t := length (w_sent w) in
     let r1 := axios_config (w_base w) 15000 GET "/users/profile" None (auth_if token) in
     let r2 := axios_config (w_base w) 15000 GET ("/reservations/user/" +:+ userId) None
                 (auth_if token) in
     o1 <- send r1 ;;
     o2 <- send r2 ;;
     resp <- of_res (promise_all2 (w_latency w) t (axios_settle 15000 o1) (axios_settle 15000 o2)) ;;
     let '(p, rs) := resp in
     of_res (dashboard_of p rs))%st
    (fun error =>
       sthrow (JsError (or_message (response_message error) "Failed to fetch dashboard data"))).

Definition getUserReservations (userId : string) (token : string) : Api Store json :=
  if String.eqb userId "" then sret (JArr [])
  else
    (w <- sget ;;
     resp <- fetch_send GET (w_active w +:+ "/reservations/user/" +:+ userId) (Some token) None ;;
     let '(st, b) := resp in
     if is_2xx st then response_json b
     else sthrow (JsError ("HTTP error! Status: " +:+ pretty st)))%st.

Definition createReservation (reservationData : json) (token : string) : Api Store json :=
  (w <- sget ;;
   resp <- fetch_send POST (w_active w +:+ "/reservations") (Some token) (Some reservationData) ;;
     let '(st, b) := resp in
   if is_2xx st then response_json b
   else sthrow (JsError ("HTTP error! Status: " +:+ pretty st)))%st.

Definition cancelReservation (reservationId : string) (token : string) : Api Store json :=
  (w <- sget ;;
   resp <- fetch_send PATCH (w_active w +:+ "/reservations/" +:+ reservationId +:+ "/cancel")
                 (Some token) None ;;
     let '(st, b) := resp in
   if is_2xx st then response_json b
   else
     (w' <- sget ;;
      resp <- fetch_send PATCH (w_active w' +:+ "/reservations/" +:+ reservationId)
                      (Some token) (Some (JObj [("status", JStr "cancelled")])) ;;
     let '(st', b') := resp in
      if is_2xx st' then response_json b'
      else sthrow (JsError ("Failed to cancel reservation: " +:+ pretty st'))))%st.

(** [data.availableSlots]: [undefined] ([None]) unless [data] is an object
    with that key; [null.availableSlots] throws. *)
Definition getAvailableTimeSlots (facilityId date token : string) : Api Store (option json) :=
  (w <- sget ;;
   resp <- fetch_send GET (w_active w +:+ "/facilities/" +:+ facilityId
                               +:+ "/available-slots?date=" +:+ date) (Some token) None ;;
     let '(st, b) := resp in
   if is_2xx st then
     (data <- response_json b ;;
      match data with
      | JNull => sthrow (TypeError "Cannot read property 'availableSlots' of null")
      | _ => sret (json_get "availableSlots" data)
      end)
   else sthrow (JsError ("Failed to fetch available time slots: " +:+ pretty st)))%st.
End Reservations.

(** ** Any sequence of calls keeps the two active-URL copies equal *)

(** The module's entry points: the startup task and the exported functions. *)
Inductive ApiCall :=
| CallStartup
| CallLogin (identifier password : string)
| CallVerifyToken (token : string)
| CallLogout (token : string)
| CallGetUserProfile (token : string)
| CallUpdateUserProfile (profileData : json) (token : string)
| CallFetchUserDashboardData (userId : string) (token : option string)
| CallGetUserReservations (userId token : string)
| CallCreateReservation (reservationData : json) (token : string)
| CallCancelReservation (reservationId token : string)
| CallGetAvailableTimeSlots (facilityId date token : string).

Section Calls.
Context {Store : Type} `{!KVStore Store}.

Definition run_call (c : ApiCall) : Api Store unit :=
  match c with
  | CallStartup => init_saved_url
  | CallLogin i p => (_ <- login i p ;; sret tt)%st
  | CallVerifyToken t => (_ <- verifyToken t ;; sret tt)%st
  | CallLogout t => logout t
  | CallGetUserProfile t => (_ <- getUserProfile t ;; sret tt)%st
  | CallUpdateUserProfile d t => (_ <- updateUserProfile d t ;; sret tt)%st
  | CallFetchUserDashboardData u t => (_ <- fetchUserDashboardData u t ;; sret tt)%st
  | CallGetUserReservations u t => (_ <- getUserReservations u t ;; sret tt)%st
  | CallCreateReservation d t => (_ <- createReservation d t ;; sret tt)%st
  | CallCancelReservation r t => (_ <- cancelReservation r t ;; sret tt)%st
  | CallGetAvailableTimeSlots f d t => (_ <- getAvailableTimeSlots f d t ;; sret tt)%st
  end.

(** The worlds reachable from the module's initial state by a sequence
    of calls, each run to completion. *)
Inductive reachable : World Store -> Prop :=
| reach_init store net lat : reachable (initial_world store net lat)
| reach_call w c : reachable w -> reachable (snd (run_call c w)).

Lemma run_call_agree c : preserves urls_agree (run_call c).
Proof.
  destruct c; simpl;
    unfold login, login_attempt, login_handler, login_post, findWorkingApiUrl, verifyToken,
      logout, getUserProfile, updateUserProfile, fetchUserDashboardData,
      getUserReservations, createReservation, cancelReservation, getAvailableTimeSlots;
    preserves_solve.
Qed.

(** In every reachable world, [ACTIVE_API_URL] (read by the fetch
    calls) and [api.defaults.baseURL] (read by the axios calls) hold
    the same URL: every writer updates both. *)
Theorem reachable_urls_agree (w : World Store) : reachable w -> w_active w = w_base w.
Proof.
  induction 1 as [store net lat|w c _ IH]; [reflexivity|].
  by apply run_call_agree.
Qed.
End Calls.

(** ** Cancel, dashboard *)

Definition cancel_request (active reservationId token : string) : Request :=
  mkRequest PATCH (active +:+ "/reservations/" +:+ reservationId +:+ "/cancel")
    (Some (bearer token)) None None.

Definition cancel_update_request (active reservationId token : string) : Request :=
  mkRequest PATCH (active +:+ "/reservations/" +:+ reservationId)
    (Some (bearer token)) (Some (JObj [("status", JStr "cancelled")])) None.

Lemma dashboard_of_counts p rs d :
  dashboard_of p rs = Ok d ->
  dd_activeReservations d + dd_completedReservations d <= length (dd_reservations d).
Proof.
  unfold dashboard_of. destruct rs as [| | | |l|]; try done.
  destruct (has_null l); [done|]. intros [= <-]. simpl.
  apply length_filter_disjoint. intros r.
  unfold is_active_reservation, is_completed_reservation, field_is.
  destruct (json_get "status" r) as [[]|]; try done.
  destruct (String.eqb_spec s "completed") as [->|]; [done|]. done.
Qed.

Section CancelDashboard.
Context {Store : Type} `{!KVStore Store}.

(** C9. When the dedicated cancel request answers outside 2xx (a 404,
    say), [cancelReservation] sends the generic update with body
    [{status: "cancelled"}] to the same reservation and, if that one
    answers 2xx with JSON [v], returns [v]; exactly these two requests
    are sent, in this order. *)
Theorem cancel_fallback reservationId token (w : World Store) st b st' v :
  let t := length (w_sent w) in
  let r1 := cancel_request (w_active w) reservationId token in
  let r2 := cancel_update_request (w_active w) reservationId token in
  w_net w t r1 = Answer st b -> is_2xx st = false ->
  w_net w (S t) r2 = Answer st' (BJson v) -> is_2xx st' = true ->
  cancelReservation reservationId token w = (Ok v, push_sent r2 (push_sent r1 w)).
Proof.
  intros t r1 r2 H1 H1x H2 H2x.
  unfold cancelReservation, fetch_send, send, sget, sret, sthrow, sbind.
  change (bearer <$> Some token) with (Some (bearer token)).
  subst t r1 r2. unfold cancel_request, cancel_update_request in *. cbv beta iota. rewrite H1, H1x.
  cbn [w_active w_sent w_net push_sent]. rewrite length_app, Nat.add_1_r, H2, H2x.
  unfold response_json. reflexivity.
Qed.

(** C10. A dashboard [fetchUserDashboardData] returns has at most as
    many active plus completed reservations as reservations, and the
    call sends exactly the profile and reservations requests. *)
Theorem dashboard_counts userId token (w w' : World Store) d :
  fetchUserDashboardData userId token w = (Ok d, w') ->
  dd_activeReservations d + dd_completedReservations d <= length (dd_reservations d) /\
  w_sent w' = w_sent w ++
    [axios_config (w_base w) 15000 GET "/users/profile" None (auth_if token);
     axios_config (w_base w) 15000 GET ("/reservations/user/" +:+ userId) None (auth_if token)].
Proof.
  unfold fetchUserDashboardData, scatch, sbind, sget, send, of_res.
  destruct (promise_all2 _ _ _ _) as [[p rs]|e]; [|done].
  destruct (dashboard_of p rs) as [d'|e] eqn:Hd; [|done].
  intros [= <- <-]. split; [by eapply dashboard_of_counts|]. simpl. by rewrite <-app_assoc.
Qed.
End CancelDashboard.

(** ** Witnesses *)

(** Every request is answered 401 with a message. *)
Definition reject_net : nat -> Request -> Outcome := fun _ _ =>
  Answer 401 (BJson (JObj [("message", JStr "Invalid credentials")])).

Definition reject_world : World (gmap string string) := initial_world ∅ reject_net (fun _ => 0).

(** The cancel route answers 404, the generic update answers 200. *)
Definition cancel_net : nat -> Request -> Outcome := fun _ r =>
  if String.eqb (rq_url r) (API_URLS_localNetwork +:+ "/reservations/r1/cancel")
  then Answer 404 (BText "Not Found")
  else Answer 200 (BJson (JObj [("_id", JStr "r1"); ("status", JStr "cancelled")])).

Definition cancel_world : World (gmap string string) := initial_world ∅ cancel_net (fun _ => 0).

(** Profile and reservation list both answer. *)
Definition dash_net : nat -> Request -> Outcome := fun _ r =>
  if String.eqb (rq_url r) (API_URLS_localNetwork +:+ "/users/profile")
  then Answer 200 (BJson (JObj [("_id", JStr "u1")]))
  else Answer 200 (BJson (JArr [JObj [("status", JStr "pending")]; JObj [("status", JStr "completed")];
                                JObj [("status", JStr "cancelled")]])).

Definition dash_world : World (gmap string string) := initial_world ∅ dash_net (fun _ => 0).

Lemma login_retry_success_witness :
  exists w', login "user@x.com" "pw" demo_world = (Ok (JObj [("token", JStr "t1")]), w') /\
    w_active w' = API_URLS_emulator /\ w_base w' = API_URLS_emulator /\
    kv_get (w_store w') WORKING_API_URL = Some API_URLS_emulator.
Proof.
  apply (login_retry_success "user@x.com" "pw" demo_world API_URLS_emulator 200
           (BJson (JObj [("token", JStr "t1")]))); vm_compute; reflexivity.
Defined.

Lemma login_no_retry_witness :
  login "user@x.com" "bad-password" reject_world =
  (Err (JsError "Invalid credentials"),
   push_sent (login_request (w_base reject_world) "user@x.com" "bad-password") reject_world).
Proof.
  erewrite (login_no_retry "user@x.com" "bad-password" reject_world
             (reject_net 0 (login_request API_URLS_localNetwork "user@x.com" "bad-password"))
             (AxiosError ("Request failed with status code " +:+ pretty 401%Z)
                (Some (401%Z, JObj [("message", JStr "Invalid credentials")]))));
    [vm_compute; reflexivity|reflexivity|discriminate|reflexivity].
Defined.

Lemma reachable_urls_agree_witness :
  let w := snd (run_call (CallLogin "user@x.com" "pw") (snd (run_call CallStartup demo_world))) in
  w_active w = w_base w.
Proof.
  apply reachable_urls_agree. apply reach_call, reach_call, reach_init.
Defined.

Lemma cancel_fallback_witness :
  cancelReservation "r1" "tok" cancel_world =
  (Ok (JObj [("_id", JStr "r1"); ("status", JStr "cancelled")]),
   push_sent (cancel_update_request (w_active cancel_world) "r1" "tok")
     (push_sent (cancel_request (w_active cancel_world) "r1" "tok") cancel_world)).
Proof.
  apply (cancel_fallback "r1" "tok" cancel_world 404 (BText "Not Found") 200); reflexivity.
Defined.

Lemma dashboard_counts_witness :
  match fetchUserDashboardData "u1" (Some "tok") dash_world with
  | (Ok d, w') =>
      dd_activeReservations d + dd_completedReservations d <= length (dd_reservations d) /\
      w_sent w' = w_sent dash_world ++
        [axios_config (w_base dash_world) 15000 GET "/users/profile" None (auth_if (Some "tok"));
         axios_config (w_base dash_world) 15000 GET ("/reservations/user/" +:+ "u1") None
           (auth_if (Some "tok"))]
  | _ => False
  end.
Proof.
  destruct (fetchUserDashboardData "u1" (Some "tok") dash_world) as [[d|e] w'] eqn:E;
    [|vm_compute in E; discriminate].
  exact (dashboard_counts "u1" (Some "tok") dash_world w' d E).
Defined.
