(* ===== verification/EventLoop.v ===== *)
(** * The API module's tasks on the event loop ([services/api-service.ts])

    Every entry point of the module as a task of [Tasks], split where the
    code awaits and then changes the world again:
    - the startup task (the [setTimeout] body, lines 33-44): it reads
      [WORKING_API_URL] and, once [getItem] has resolved, sets both URL
      copies;
    - [login] (lines 227-254): the post; on a network error each probe
      of [findWorkingApiUrl], the [setItem] of the URL found, then
      [updateApiBaseUrl] together with the retried post (they run in one
      synchronous stretch);
    - [cancelReservation] (lines 380-415): the cancel request, then the
      fallback update, which reads [ACTIVE_API_URL] again.
    A request is sent and answered in one step: the answer is an oracle of
    the request's index, and what the code does with it before its next
    [await] reads nothing of the world, so it does not matter which tasks
    run in between.  The other entry points send one request and only
    inspect the response after it, and are one step each.

    [run_seq_task_of_call] shows that a task run alone is the atomic model
    of [ApiService]; [pool_urls_agree] extends the agreement of the two
    URL copies to every interleaving of any calls; [pool_terminates] that
    every run of the event loop over them ends, with every task finished.
    [startup_stale_last]: whatever run the other calls make, the startup
    task can read the saved URL before them and write it after them, so
    the app ends on that URL while AsyncStorage names the one a login
    found; [startup_race_run] is such a run. *)

From S2P Require Import Prelude Json Http Endpoint ApiError ApiService Tasks.
From stdpp Require Import pretty.

Section Segmented.
Context {Store : Type} `{!KVStore Store}.

Local Abbreviation Job := (Res (World Store) Exn).

(** The [setTimeout] body (lines 33-44). *)
Definition startup_task : Job unit :=
  rbind (atomic (getItem WORKING_API_URL)) (fun saved =>
    match saved with
    | Some url => if String.eqb url "" then rret tt else atomic (smodify (set_urls url url))
    | None => rret tt
    end).

(** [testApiUrl] (lines 47-59). *)
Definition testApiUrl_task (url : string) : Job bool :=
  rcatch (rbind (atomic (axios_send url 3000 GET "/" None None)) (fun _ => rret true))
    (fun _ => rret false).

(** The loop of [findWorkingApiUrl] (lines 62-80). *)
Fixpoint find_working_task (urls : list string) : Job (option string) :=
  match urls with
  | [] => rret None
  | url :: rest =>
      rbind (testApiUrl_task url) (fun ok =>
        if ok then rbind (atomic (setItem WORKING_API_URL url)) (fun _ => rret (Some url))
        else find_working_task rest)
  end.

(** [login] (lines 227-254): the inner [try] and the outer one. *)
Definition login_attempt_task (identifier password : string) : Job json :=
  rcatch (atomic (login_post identifier password))
    (fun error =>
       if is_network_error error then
         rbind (find_working_task urlsToTry) (fun workingUrl =>
           match workingUrl with
           | Some url =>
               if String.eqb url "" then rthrow error
               else atomic (updateApiBaseUrl url ;; login_post identifier password)%st
           | None => rthrow error
           end)
       else rthrow error).

Definition login_task (identifier password : string) : Job json :=
  rcatch (login_attempt_task identifier password) (fun e => atomic (login_handler e)).

(** [cancelReservation] (lines 380-415): the fallback reads the active
    URL after the first request has settled. *)
Definition cancel_task (reservationId token : string) : Job json :=
  rbind (atomic (w <- sget ;;
                 fetch_send PATCH (w_active w +:+ "/reservations/" +:+ reservationId +:+ "/cancel")
                   (Some token) None)%st)
    (fun resp =>
       let '(st, b) := resp in
       if is_2xx st then atomic (response_json b)
       else atomic (w' <- sget ;;
                    resp <- fetch_send PATCH (w_active w' +:+ "/reservations/" +:+ reservationId)
                              (Some token) (Some (JObj [("status", JStr "cancelled")])) ;;
                    let '(st', b') := resp in
                    if is_2xx st' then response_json b'
                    else sthrow (JsError ("Failed to cancel reservation: " +:+ pretty st')))%st).

Definition discard {A} (m : Job A) : Job unit := rbind m (fun _ => rret tt).

(** Each entry point as a task of the event loop. *)
Definition task_of_call (c : ApiCall) : Job unit :=
  match c with
  | CallStartup => startup_task
  | CallLogin i p => discard (login_task i p)
  | CallCancelReservation r t => discard (cancel_task r t)
  | c => atomic (run_call c)
  end.
End Segmented.

(** ** A task run alone is the atomic model *)

Section Equivalence.
Context {Store : Type} `{!KVStore Store}.

Lemma run_seq_testApiUrl url (s : World Store) : run_seq (testApiUrl_task url) s = testApiUrl url s.
Proof.
  unfold testApiUrl_task, testApiUrl. rewrite run_seq_catch. apply scatch_ext; [|done].
  intros s'. by rewrite run_seq_bind_atomic.
Qed.

Lemma run_seq_find_working urls (s : World Store) :
  run_seq (find_working_task urls) s = find_working urls s.
Proof.
  revert s. induction urls as [|u us IH]; intros s; [done|]. cbn [find_working_task find_working].
  rewrite run_seq_bind. apply sbind_ext; [apply run_seq_testApiUrl|]. intros [|] s'; [|apply IH].
  by rewrite run_seq_bind_atomic.
Qed.

Lemma run_seq_login_attempt i p (s : World Store) :
  run_seq (login_attempt_task i p) s = login_attempt i p s.
Proof.
  unfold login_attempt_task, login_attempt, findWorkingApiUrl. rewrite run_seq_catch.
  apply scatch_ext; [apply run_seq_atomic|]. intros e s'. destruct (is_network_error e); [|done].
  rewrite run_seq_bind. apply sbind_ext; [apply run_seq_find_working|]. intros [u|] s''; [|done].
  destruct (String.eqb u ""); [done|apply run_seq_atomic].
Qed.

Lemma run_seq_discard {A} (m : Res (World Store) Exn A) s :
  run_seq (discard m) s = sbind (run_seq m) (fun _ => sret tt) s.
Proof. unfold discard. by rewrite run_seq_bind. Qed.

(** Run without interleaving, the task of every entry point does what
    the atomic model of the call does: the same requests, the same
    store, URLs and alerts, the same result. *)
Theorem run_seq_task_of_call c (s : World Store) : run_seq (task_of_call c) s = run_call c s.
Proof.
  destruct c; cbn [task_of_call run_call]; try apply run_seq_atomic.
  - unfold startup_task, init_saved_url. rewrite run_seq_bind_atomic.
    apply sbind_ext; [done|]. intros [u|] s'; [|done].
    destruct (String.eqb u ""); [done|apply run_seq_atomic].
  - rewrite run_seq_discard. apply sbind_ext; [|done]. intros s'. unfold login_task, login.
    rewrite run_seq_catch. apply scatch_ext; [apply run_seq_login_attempt|intros; apply run_seq_atomic].
  - rewrite run_seq_discard. apply sbind_ext; [|done]. intros s'.
    unfold cancel_task, cancelReservation. rewrite run_seq_bind_atomic, sbind_assoc.
    apply sbind_ext; [done|]. intros w s''. apply sbind_ext; [done|]. intros [st b] s3.
    cbv beta iota. destruct (is_2xx st); apply run_seq_atomic.
Qed.
End Equivalence.

(** ** Every interleaving *)

Section Interleaving.
Context {Store : Type} `{!KVStore Store}.

Lemma find_working_task_agree urls :
  task_preserves urls_agree (find_working_task (Store:=Store) urls).
Proof. induction urls as [|u us IH]; cbn [find_working_task]; unfold testApiUrl_task; task_solve; apply IH. Qed.

Lemma task_of_call_agree c : task_preserves urls_agree (task_of_call (Store:=Store) c).
Proof.
  destruct c; cbn [task_of_call]; try (apply task_preserves_atomic, run_call_agree);
    unfold startup_task, discard, login_task, login_attempt_task, login_post, login_handler,
      cancel_task;
    task_solve; apply find_working_task_agree.
Qed.

Lemma tasks_of_calls_agree cs : Forall (task_preserves urls_agree) (map (task_of_call (Store:=Store)) cs).
Proof. induction cs; constructor; auto using task_of_call_agree. Qed.

(** The start of the module: the URL copies as initialised, the tasks of
    the calls not yet resumed. *)
Definition start_pool (store : Store) net lat (cs : list ApiCall)
    : World Store * list (Res (World Store) Exn unit) :=
  (initial_world store net lat, map task_of_call cs).

(** C8. Whatever calls the app makes and however the event loop
    interleaves them with the startup task and with each other,
    [ACTIVE_API_URL] (read by the fetch calls) and
    [api.defaults.baseURL] (read by the axios calls) hold the same URL
    in every configuration: every writer updates both in one step. *)
Theorem pool_urls_agree store net lat cs cfg :
  rtc pstep (start_pool store net lat cs) cfg -> w_active cfg.1 = w_base cfg.1.
Proof.
  intros H. apply (pool_invariant urls_agree _ _ H); [apply tasks_of_calls_agree|reflexivity].
Qed.

(** No interleaving of the module's calls runs forever, and when the
    event loop has nothing left to resume every call has settled. *)
Theorem pool_terminates store net lat cs :
  Acc (flip pstep) (start_pool store net lat cs) /\
  forall cfg, rtc pstep (start_pool store net lat cs) cfg -> (forall cfg', ~ pstep cfg cfg') ->
  Forall (fun t => finished t = true) cfg.2.
Proof. split; [apply pool_wf|]. intros [s ts] _. apply stuck_finished. Qed.
End Interleaving.

(** ** The startup task's late write *)

Section StaleStartup.
Context {Store : Type} `{!KVStore Store}.

(** C12. The startup task's write can come after everything else:
    whatever run the other calls make (a login that finds another URL
    and persists it included), there is an interleaving in which the
    startup task reads the saved URL [s] before them and sets both URL
    copies to [s] after them.  The app then uses [s], while AsyncStorage
    and the requests sent are those of that run. *)
Theorem startup_stale_last (store : Store) net lat cs s cfg :
  kv_get store WORKING_API_URL = Some s -> s <> "" ->
  rtc pstep (start_pool store net lat cs) cfg ->
  exists cfg', rtc pstep (start_pool store net lat (CallStartup :: cs)) cfg' /\
    cfg'.2 = RDone (Ok tt) :: cfg.2 /\ w_active cfg'.1 = s /\ w_base cfg'.1 = s /\
    w_store cfg'.1 = w_store cfg.1 /\ w_sent cfg'.1 = w_sent cfg.1.
Proof.
  intros Hs Hne Hrun. set (T := atomic (smodify (set_urls s s)) : Res (World Store) Exn unit).
  exists (set_urls s s cfg.1, RDone (Ok tt) :: cfg.2). split; [|done].
  apply (rtc_l _ _ (initial_world store net lat, T :: map task_of_call cs)).
  { eapply (pstep_run_eq _ _ 0); [reflexivity|reflexivity|]. cbn. rewrite Hs.
    replace (String.eqb s "") with false by (symmetry; by apply String.eqb_neq). reflexivity. }
  eapply rtc_r; [exact (rtc_pstep_cons T _ _ Hrun)|].
  destruct cfg as [w ts]. by eapply (pstep_run_eq _ _ 0).
Qed.
End StaleStartup.

(** ** The startup task racing with a login *)

(** AsyncStorage holds the production URL from an earlier run; on
    [demo_net] only the emulator address answers. *)
Definition stale_store : gmap string string := <[WORKING_API_URL := API_URLS_production]> ∅.

Definition race_pool :=
  start_pool stale_store demo_net (fun _ => 0) [CallStartup; CallLogin "ann" "secret"].

(** The outcome depends on the interleaving.  If the startup task
    reads the stale URL, the login then fails over to the emulator,
    persists it and succeeds there, and only then does the startup task
    resume, the app is left using the stale production URL while
    AsyncStorage names the emulator; had the startup task run first,
    both would name the emulator. *)
Example startup_race_run :
  (exists cfg, rtc pstep race_pool cfg /\ Forall (fun t => finished t = true) cfg.2 /\
     w_active cfg.1 = API_URLS_production /\
     kv_get (w_store cfg.1) WORKING_API_URL = Some API_URLS_emulator) /\
  (exists cfg, rtc pstep race_pool cfg /\ Forall (fun t => finished t = true) cfg.2 /\
     w_active cfg.1 = API_URLS_emulator /\
     kv_get (w_store cfg.1) WORKING_API_URL = Some API_URLS_emulator).
Proof.
  split; [apply (schedule_reaches [0; 1; 1; 1; 1; 1; 0])|apply (schedule_reaches [0; 0; 1; 1; 1; 1; 1])];
    vm_compute; (split; [repeat constructor|]); split; reflexivity.
Qed.

Lemma pool_urls_agree_witness :
  match run_schedule [0; 1; 1; 1; 1; 1; 0] race_pool with
  | Some cfg => w_active cfg.1 = w_base cfg.1
  | None => False
  end.
Proof.
  destruct (run_schedule _ race_pool) as [cfg|] eqn:Hrun; [|vm_compute in Hrun; discriminate].
  exact (pool_urls_agree stale_store demo_net (fun _ => 0) [CallStartup; CallLogin "ann" "secret"] cfg
           (run_schedule_rtc _ _ _ Hrun)).
Defined.

(** The login alone, run to its end on [demo_net]: it fails over to the
    emulator and persists it. *)
Definition login_alone :=
  match run_schedule [0; 0; 0; 0; 0]
          (start_pool stale_store demo_net (fun _ => 0) [CallLogin "ann" "secret"]) with
  | Some cfg => cfg
  | None => start_pool stale_store demo_net (fun _ => 0) [CallLogin "ann" "secret"]
  end.

Lemma startup_stale_last_witness :
  exists cfg', rtc pstep (start_pool stale_store demo_net (fun _ => 0) [CallStartup; CallLogin "ann" "secret"]) cfg' /\
    cfg'.2 = RDone (Ok tt) :: login_alone.2 /\ w_active cfg'.1 = API_URLS_production /\
    w_base cfg'.1 = API_URLS_production /\ w_store cfg'.1 = w_store login_alone.1 /\
    w_sent cfg'.1 = w_sent login_alone.1.
Proof.
  apply startup_stale_last; [reflexivity|discriminate|].
  apply (run_schedule_rtc [0; 0; 0; 0; 0]). vm_compute. reflexivity.
Defined.
