(* ===== verification/NetworkStatus.v ===== *)
(** * Connectivity: provider, refresh hook and offline banner

    [utils/network-status.tsx] keeps [{isConnected, isInternetReachable}]
    from NetInfo and alerts "No Connection" when [isConnected] becomes
    [false].  [hooks/useNetworkRefresh.ts] remembers in the ref
    [wasOffline] that the device went offline and calls the refresh
    callback when [isConnected] becomes [true] again.
    [components/network-alert-banner.tsx] slides a banner in while offline
    and out when back online.

    The three are one reducer [step] over [NetEvent]s.  A NetInfo update
    commits the new status; each effect runs when one of its dependencies
    changed since its last run (React's rule), and the banner's effect,
    which depends on its own [visible] state, runs again until [visible]
    is stable ([banner_settle]).  Animations are events: starting one
    stops the running one, and a stopped hide animation still calls its
    completion callback (the code ignores [finished]). *)

From S2P Require Import Prelude.

Inductive Anim := NoAnim | Showing | Hiding.

#[export] Instance option_bool_eq_dec : EqDecision (option bool) := _.
#[export] Instance Anim_eq_dec : EqDecision Anim.
Proof. solve_decision. Defined.

Record NetState := mkNet {
  ns_connected : option bool;        (** [networkStatus.isConnected] *)
  ns_reachable : option bool;        (** [networkStatus.isInternetReachable] *)
  ns_alerts : nat;                   (** "No Connection" alerts shown *)
  hk_wasOffline : bool;              (** [wasOffline.current] *)
  hk_refreshing : bool;              (** [refreshing] *)
  hk_inflight : nat;                 (** refresh callbacks not yet settled *)
  hk_refreshes : nat;                (** calls of [refreshCallback] *)
  bn_visible : bool;                 (** the banner's [visible] *)
  bn_anim : Anim;                    (** the animation running on [translateY] *)
}.

Inductive NetEvent :=
| NetInfoChange (isConnected isInternetReachable : option bool)
| AnimationEnd                        (** the running animation finishes *)
| RefreshSettled                      (** a [refreshCallback()] promise settles *)
| ResetRefresh.                       (** [resetRefresh()] *)

Definition net_initial : NetState := mkNet None None 0 false false 0 0 false NoAnim.

(** ** The provider's effect: alert on [isConnected === false] *)
Definition provider_effect (s : NetState) : NetState :=
  if decide (ns_connected s = Some false) then
    mkNet (ns_connected s) (ns_reachable s) (S (ns_alerts s)) (hk_wasOffline s) (hk_refreshing s)
      (hk_inflight s) (hk_refreshes s) (bn_visible s) (bn_anim s)
  else s.

(** ** The hook *)

(** [handleRefresh]: returns at once unless connected; otherwise sets
    [refreshing] and calls the callback. *)
Definition handleRefresh (s : NetState) : NetState :=
  if decide (ns_connected s = Some true) then
    mkNet (ns_connected s) (ns_reachable s) (ns_alerts s) (hk_wasOffline s) true
      (S (hk_inflight s)) (S (hk_refreshes s)) (bn_visible s) (bn_anim s)
  else s.

Definition set_wasOffline (b : bool) (s : NetState) : NetState :=
  mkNet (ns_connected s) (ns_reachable s) (ns_alerts s) b (hk_refreshing s)
    (hk_inflight s) (hk_refreshes s) (bn_visible s) (bn_anim s).

Definition hook_effect (s : NetState) : NetState :=
  let shouldRefresh := hk_wasOffline s && bool_decide (ns_connected s = Some true) in
  if decide (ns_connected s = Some false) then set_wasOffline true s
  else if shouldRefresh then set_wasOffline false (handleRefresh s)
  else s.

(** [finally { setRefreshing(false) }] *)
Definition refresh_settled (s : NetState) : NetState :=
  mkNet (ns_connected s) (ns_reachable s) (ns_alerts s) (hk_wasOffline s) false
    (pred (hk_inflight s)) (hk_refreshes s) (bn_visible s) (bn_anim s).

(** ** The banner *)

Definition set_banner (v : bool) (a : Anim) (s : NetState) : NetState :=
  mkNet (ns_connected s) (ns_reachable s) (ns_alerts s) (hk_wasOffline s) (hk_refreshing s)
    (hk_inflight s) (hk_refreshes s) v a.

(** Starting an animation stops the running one; a stopped hide
    animation runs its callback [setVisible(false)]. *)
Definition start_anim (a : Anim) (v : bool) (old : Anim) : bool * Anim :=
  match old with Hiding => (false, a) | _ => (v, a) end.

(** One run of the banner's effect. *)
Definition banner_effect (s : NetState) : NetState :=
  if decide (ns_connected s = Some false) then
    let '(v, a) := start_anim Showing true (bn_anim s) in set_banner v a s
  else if bool_decide (ns_connected s = Some true) && bn_visible s then
    let '(v, a) := start_anim Hiding (bn_visible s) (bn_anim s) in set_banner v a s
  else s.

(** The effect runs again while it changes [visible], its own dependency. *)
Fixpoint banner_settle (fuel : nat) (s : NetState) : NetState :=
  match fuel with
  | 0 => s
  | S n => let s' := banner_effect s in
           if decide (bn_visible s' = bn_visible s) then s' else banner_settle n s'
  end.

(** [Animated.timing(...).start(cb)] finishing: the hide animation's
    callback hides the banner, which re-runs the effect. *)
Definition animation_end (s : NetState) : NetState :=
  match bn_anim s with
  | Hiding => banner_settle 3 (set_banner false NoAnim s)
  | _ => set_banner (bn_visible s) NoAnim s
  end.

(** ** A NetInfo update and the effects it triggers *)

Definition set_status (c r : option bool) (s : NetState) : NetState :=
  mkNet c r (ns_alerts s) (hk_wasOffline s) (hk_refreshing s)
    (hk_inflight s) (hk_refreshes s) (bn_visible s) (bn_anim s).

Definition netinfo_change (c r : option bool) (s : NetState) : NetState :=
  let s1 := set_status c r s in
  if decide (c = ns_connected s) then s1
  else banner_settle 3 (hook_effect (provider_effect s1)).

Definition step (s : NetState) (e : NetEvent) : NetState :=
  match e with
  | NetInfoChange c r => netinfo_change c r s
  | AnimationEnd => animation_end s
  | RefreshSettled => refresh_settled s
  | ResetRefresh => set_wasOffline false s
  end.

Definition run_events (s : NetState) (es : list NetEvent) : NetState := foldl step s es.

(** ** The banner while offline *)

(** A NetInfo update whose [isConnected] is [null] (NetInfo's "unknown"). *)
Definition no_null (e : NetEvent) : bool :=
  match e with NetInfoChange None _ => false | _ => true end.

(** While offline the banner is visible and not hiding; a hiding banner
    is visible and online. *)
Definition banner_inv (s : NetState) : Prop :=
  (ns_connected s = Some false -> bn_visible s = true /\ bn_anim s <> Hiding) /\
  (bn_anim s = Hiding -> bn_visible s = true /\ ns_connected s = Some true).

(** Split a state into its finite fields and compute. *)
Ltac net_brute :=
  repeat match goal with
  | s : NetState |- _ => destruct s as [[[]|] ? ? [] ? ? ? [] []]
  | o : option bool |- _ => destruct o as [[]|]
  end; vm_compute; intuition congruence.

Lemma step_banner_inv s e : no_null e = true -> banner_inv s -> banner_inv (step s e).
Proof. destruct e; unfold banner_inv; net_brute. Qed.

Lemma run_banner_inv s es :
  Forall (fun e => no_null e = true) es -> banner_inv s -> banner_inv (run_events s es).
Proof.
  revert s. induction es as [|e es IH]; intros s Hes Hs; [done|].
  inversion Hes; subst. apply IH; [done|]. by apply step_banner_inv.
Qed.

(** C13. On any sequence of NetInfo updates, animation ends and refresh
    events in which NetInfo never reports [isConnected: null], the banner
    is visible whenever the device is offline. *)
Theorem banner_shown_offline (es : list NetEvent) :
  Forall (fun e => no_null e = true) es ->
  ns_connected (run_events net_initial es) = Some false ->
  bn_visible (run_events net_initial es) = true.
Proof.
  intros Hes Hoff. destruct (run_banner_inv net_initial es Hes) as [H _].
  - split; simpl; [done|]. intros; discriminate.
  - by apply H.
Qed.

(** With a [null] report in between, the banner can stay hidden
    while offline: online with the hide animation running, [null], online
    again (the hide restarts, and the stopped one's callback hides the
    banner), then offline: [setVisible(true)] and the stopped animation's
    [setVisible(false)] batch to no change, so the effect does not run
    again. *)
Example banner_hidden_offline :
  let s := run_events net_initial
             [NetInfoChange (Some false) None; AnimationEnd; NetInfoChange (Some true) None;
              NetInfoChange None None; NetInfoChange (Some true) None;
              NetInfoChange (Some false) None; AnimationEnd] in
  ns_connected s = Some false /\ bn_visible s = false.
Proof. vm_compute. split; reflexivity. Qed.

(** ** The refresh hook *)

Definition is_reset (e : NetEvent) : bool := match e with ResetRefresh => true | _ => false end.
Definition goes_offline (e : NetEvent) : bool :=
  match e with NetInfoChange (Some false) _ => true | _ => false end.

Lemma step_offline_flag s e :
  is_reset e = false -> (ns_connected s = Some false -> hk_wasOffline s = true) ->
  ns_connected (step s e) = Some false -> hk_wasOffline (step s e) = true.
Proof. destruct e; net_brute. Qed.

Lemma step_no_refresh s e :
  goes_offline e = false -> hk_wasOffline s = false /\ hk_refreshes s = 0 ->
  hk_wasOffline (step s e) = false /\ hk_refreshes (step s e) = 0.
Proof. destruct e; net_brute. Qed.

Lemma run_offline_flag s es :
  Forall (fun e => is_reset e = false) es ->
  (ns_connected s = Some false -> hk_wasOffline s = true) ->
  ns_connected (run_events s es) = Some false -> hk_wasOffline (run_events s es) = true.
Proof.
  revert s. induction es as [|e es IH]; intros s Hes Hs; [done|].
  inversion Hes; subst. apply IH; [done|]. intros. by apply step_offline_flag.
Qed.

(** C15. After any sequence of events without [resetRefresh()] that
    leaves the device offline, the update that brings it back online
    calls the refresh callback exactly once and clears [wasOffline]. *)
Theorem refresh_on_recovery (es : list NetEvent) r :
  Forall (fun e => is_reset e = false) es ->
  let s := run_events net_initial es in
  ns_connected s = Some false ->
  hk_refreshes (step s (NetInfoChange (Some true) r)) = S (hk_refreshes s) /\
  hk_wasOffline (step s (NetInfoChange (Some true) r)) = false.
Proof.
  intros Hes s Hoff. assert (Hw : hk_wasOffline s = true).
  { apply run_offline_flag; [done|discriminate|done]. }
  clearbody s. destruct s as [[[]|] ? ? [] ? ? ? [] []]; vm_compute in Hoff, Hw;
    try discriminate; vm_compute; auto.
Qed.

(** C40. Without an offline report there is no refresh: if no NetInfo
    update says [isConnected: false], the callback is never called. *)
Theorem no_refresh_without_offline (es : list NetEvent) :
  Forall (fun e => goes_offline e = false) es ->
  hk_refreshes (run_events net_initial es) = 0.
Proof.
  intros Hes. enough (H : forall s, hk_wasOffline s = false /\ hk_refreshes s = 0 ->
                        hk_refreshes (run_events s es) = 0) by (apply H; done).
  induction es as [|e es IH]; intros s Hs; [apply Hs|].
  inversion Hes; subst. apply IH; [done|]. by apply step_no_refresh.
Qed.

(** The [refreshing] flag is cleared by the first refresh to settle,
    while a second refresh started by a second recovery is still running. *)
Example refreshing_cleared_early :
  let s := run_events net_initial
             [NetInfoChange (Some false) None; NetInfoChange (Some true) None;
              NetInfoChange (Some false) None; NetInfoChange (Some true) None; RefreshSettled] in
  hk_refreshing s = false /\ hk_inflight s = 1.
Proof. vm_compute. split; reflexivity. Qed.

(** ** Witnesses *)

Lemma banner_shown_offline_witness :
  bn_visible (run_events net_initial
    [NetInfoChange (Some false) None; AnimationEnd; NetInfoChange (Some true) None;
     NetInfoChange (Some false) None]) = true.
Proof. apply banner_shown_offline; [repeat constructor | reflexivity]. Defined.

Lemma refresh_on_recovery_witness :
  let s := run_events net_initial [NetInfoChange (Some false) (Some false); RefreshSettled] in
  hk_refreshes (step s (NetInfoChange (Some true) (Some true))) = S (hk_refreshes s) /\
  hk_wasOffline (step s (NetInfoChange (Some true) (Some true))) = false.
Proof. apply refresh_on_recovery; [repeat constructor | reflexivity]. Defined.

Lemma no_refresh_without_offline_witness :
  hk_refreshes (run_events net_initial
    [NetInfoChange (Some true) None; NetInfoChange None None; NetInfoChange (Some true) None]) = 0.
Proof. apply no_refresh_without_offline. repeat constructor. Defined.
