(* ===== verification/NetInfo.v ===== *)
(** * The provider's two sources of connectivity ([utils/network-status.tsx], lines 32-53)

    [NetworkProvider]'s mount effect subscribes to NetInfo
    ([addEventListener], whose listener runs on every change of the
    device's connectivity) and asks once for the current state
    ([NetInfo.fetch().then(...)]).  Both end in [setNetworkStatus], the
    [NetInfoChange] event of [NetworkStatus].  The configuration
    [NetCfg] adds to the provider's state the device's actual
    connectivity and the answer the initial fetch will deliver, read when
    it was called; [env_step] is one event of the environment: the device
    changing (the listener reports it), the fetch's promise resolving, or
    one of the screen's own events (an animation ending, a refresh
    settling, [resetRefresh()]).

    [status_tracks_device] shows that the provider's [isConnected] is the
    device's once the fetch has resolved, if the device did not change
    while it was pending; [stale_fetch_overwrites] is the run in which it
    did: the late answer overwrites the listener's newer report, and the
    app believes it is online, with the banner hidden, while the device
    is offline. *)

From S2P Require Import Prelude NetworkStatus.

Record Device := mkDevice {
  dv_connected : option bool;
  dv_reachable : option bool;
}.

Record NetCfg := mkNetCfg {
  nc_device : Device;            (** what NetInfo would report now *)
  nc_fetch : option Device;      (** the pending [NetInfo.fetch()] and what it read *)
  nc_state : NetState;           (** the provider, the refresh hook and the banner *)
}.

Inductive EnvEvent :=
| DeviceChange (isConnected isInternetReachable : option bool)   (** the listener runs *)
| FetchResolved                                                  (** [NetInfo.fetch().then(...)] *)
| ScreenEvent (e : NetEvent).     (** an animation end, a refresh settling, [resetRefresh()] *)

(** The status a listener or the fetch passes to [setNetworkStatus]
    (lines 35-38 and 43-46). *)
Definition report (d : Device) : NetEvent := NetInfoChange (dv_connected d) (dv_reachable d).

(** The mount effect (lines 32-47): the subscription and the fetch, which
    reads the device as it is. *)
Definition net_mount (d : Device) : NetCfg := mkNetCfg d (Some d) net_initial.

(** Only NetInfo calls [setNetworkStatus]; the screen's own events are
    the others. *)
Definition screen_event (e : NetEvent) : bool :=
  match e with NetInfoChange _ _ => false | _ => true end.

Definition env_step (c : NetCfg) (e : EnvEvent) : NetCfg :=
  match e with
  | DeviceChange cn rn =>
      let d := mkDevice cn rn in mkNetCfg d (nc_fetch c) (step (nc_state c) (report d))
  | FetchResolved =>
      match nc_fetch c with
      | Some d => mkNetCfg (nc_device c) None (step (nc_state c) (report d))
      | None => c
      end
  | ScreenEvent e => if screen_event e then mkNetCfg (nc_device c) (nc_fetch c) (step (nc_state c) e) else c
  end.

Definition env_run (c : NetCfg) (es : list EnvEvent) : NetCfg := foldl env_step c es.

Definition is_device_change (e : EnvEvent) : bool :=
  match e with DeviceChange _ _ => true | _ => false end.

(** ** Theorems *)

(** A report sets [isConnected]; the screen's events keep it. *)
Lemma step_connected_report s c r : ns_connected (step s (NetInfoChange c r)) = c.
Proof. net_brute. Qed.

Lemma step_connected_screen s e : screen_event e = true -> ns_connected (step s e) = ns_connected s.
Proof. destruct e; [done| | |]; net_brute. Qed.

(** While the fetch is pending it still holds the device's state; once it
    has resolved, the provider holds it. *)
Definition tracks (c : NetCfg) : Prop :=
  match nc_fetch c with
  | Some d => d = nc_device c
  | None => ns_connected (nc_state c) = dv_connected (nc_device c)
  end.

Lemma env_step_fetch_none c e : nc_fetch c = None -> nc_fetch (env_step c e) = None.
Proof. intros H. destruct e as [cn rn| |e]; cbn; rewrite ?H; [done|done|]. by destruct (screen_event e). Qed.

(** Every event keeps [tracks], except a change of the device while the
    fetch is pending. *)
Lemma env_step_tracks c e :
  tracks c -> (is_device_change e = true -> nc_fetch c = None) -> tracks (env_step c e).
Proof.
  unfold tracks. intros Hc Hdc. destruct e as [cn rn| |e]; cbn -[step].
  - rewrite (Hdc eq_refl). cbn -[step]. apply step_connected_report.
  - destruct (nc_fetch c) as [d|] eqn:Hf; cbn -[step]; [|by rewrite Hf]. subst d. apply step_connected_report.
  - destruct (screen_event e) eqn:He; cbn; [|done].
    destruct (nc_fetch c); [done|]. by rewrite step_connected_screen.
Qed.

Lemma env_run_tracks_pending c es :
  Forall (fun e => is_device_change e = false) es -> tracks c -> tracks (env_run c es).
Proof.
  revert c. induction es as [|e es IH]; intros c Hes Hc; [done|]. apply Forall_cons in Hes as [He Hes].
  apply IH; [done|]. apply env_step_tracks; [done|]. by rewrite He.
Qed.

Lemma env_run_tracks_resolved c es :
  nc_fetch c = None -> tracks c -> nc_fetch (env_run c es) = None /\ tracks (env_run c es).
Proof.
  revert c. induction es as [|e es IH]; intros c Hf Hc; [done|]. cbn. apply IH.
  - by apply env_step_fetch_none.
  - by apply env_step_tracks.
Qed.

(** C14. When the device does not change between the mount and the resolution
    of the initial fetch, from then on the provider's [isConnected] is
    the device's, whatever happens after. *)
Theorem status_tracks_device d0 pre post :
  Forall (fun e => is_device_change e = false) pre ->
  let c := env_run (net_mount d0) (pre ++ FetchResolved :: post) in
  nc_fetch c = None /\ ns_connected (nc_state c) = dv_connected (nc_device c).
Proof.
  intros Hpre. unfold env_run. rewrite foldl_app. cbn [foldl].
  pose proof (env_run_tracks_pending (net_mount d0) pre Hpre eq_refl) as H1.
  fold (env_run (net_mount d0) pre) in *. set (c1 := env_run (net_mount d0) pre) in *.
  assert (H2 : nc_fetch (env_step c1 FetchResolved) = None /\ tracks (env_step c1 FetchResolved)).
  { split; [cbn; destruct (nc_fetch c1) eqn:E; [done|exact E]|]. apply env_step_tracks; [done|discriminate]. }
  destruct H2 as [H2f H2t]. destruct (env_run_tracks_resolved _ post H2f H2t) as [Hf Ht].
  unfold tracks, env_run in *. rewrite Hf in Ht. by split.
Qed.

(** The device goes offline after the mount but before the initial
    fetch resolves: the listener reports it (the banner slides in, the
    provider alerts), then the fetch delivers the online state it read
    at the mount.  The provider now says online, the banner slides out
    and the refresh hook refreshes, while the device stays offline and,
    as it does not change, NetInfo reports nothing more. *)
Example stale_fetch_overwrites :
  let c := env_run (net_mount (mkDevice (Some true) (Some true)))
             [DeviceChange (Some false) (Some false); FetchResolved; ScreenEvent AnimationEnd] in
  dv_connected (nc_device c) = Some false /\ ns_connected (nc_state c) = Some true /\
  bn_visible (nc_state c) = false /\ nc_fetch c = None /\ hk_refreshes (nc_state c) = 1%nat.
Proof. vm_compute. repeat split. Qed.

Lemma status_tracks_device_witness :
  let c := env_run (net_mount (mkDevice (Some true) (Some true)))
             ([ScreenEvent AnimationEnd] ++ FetchResolved :: [DeviceChange (Some false) None; ScreenEvent AnimationEnd]) in
  nc_fetch c = None /\ ns_connected (nc_state c) = dv_connected (nc_device c).
Proof. apply status_tracks_device. repeat constructor. Defined.
