(* ===== verification/Calendar.v ===== *)
(** * JavaScript dates as the screens use them

    A [Date] is a time value [t] in milliseconds since 1970-01-01T00:00Z.
    The code reads it in two ways: [toISOString()] (UTC), whose first ten
    characters the wizard sends as the reservation date, and the local
    getters [getDate]/[getMonth]/[getFullYear], which it shows and compares.
    [new Date("YYYY-MM-DD")] parses a date-only string as UTC midnight.
    The local time zone is an offset [tz] in minutes east of UTC (daylight
    saving time is not modelled).  Calendar arithmetic is the proleptic
    Gregorian conversion between day numbers and (year, month, day)
    ([civil_from_days], [days_from_civil]). *)

From S2P Require Import Prelude Json.
From Stdlib Require Import Ascii ZArith.

Open Scope Z_scope.

Definition ms_per_day : Z := 86400000.

(** ** Day numbers and civil dates *)

(** Within a 400-year era starting on March 1st of year 0 of the era:
    day of era [doe] to (year of era, month, day), and back. *)
Definition civil_of_doe (doe : Z) : Z * Z * Z :=
  let yoe := (doe - doe / 1460 + doe / 36524 - doe / 146096) / 365 in
  let doy := doe - (365 * yoe + yoe / 4 - yoe / 100) in
  let mp := (5 * doy + 2) / 153 in
  let d := doy - (153 * mp + 2) / 5 + 1 in
  let m := if mp <? 10 then mp + 3 else mp - 9 in
  (yoe, m, d).

Definition doe_of_civil (yoe m d : Z) : Z :=
  let doy := (153 * (if 2 <? m then m - 3 else m + 9) + 2) / 5 + d - 1 in
  yoe * 365 + yoe / 4 - yoe / 100 + doy.

(** January and February belong to the previous March-based year. *)
Definition jan_feb (m : Z) : Z := if m <=? 2 then 1 else 0.

Definition civil_from_days (z0 : Z) : Z * Z * Z :=
  let z := z0 + 719468 in
  let era := z / 146097 in
  let '(yoe, m, d) := civil_of_doe (z - era * 146097) in
  (yoe + era * 400 + jan_feb m, m, d).

Definition days_from_civil (y0 m d : Z) : Z :=
  let y := y0 - jan_feb m in
  let era := y / 400 in
  era * 146097 + doe_of_civil (y - era * 400) m d - 719468.

Definition era_ok (doe : Z) : bool :=
  let '(yoe, m, d) := civil_of_doe doe in
  (0 <=? yoe) && (yoe <? 400) && (1 <=? m) && (m <=? 12) && (1 <=? d) && (d <=? 31) &&
  Z.eqb (doe_of_civil yoe m d) doe.

Fixpoint all_from (fuel : nat) (z : Z) (f : Z -> bool) : bool :=
  match fuel with O => true | S n => f z && all_from n (z + 1) f end.

Lemma all_from_spec fuel z f x :
  all_from fuel z f = true -> z <= x < z + Z.of_nat fuel -> f x = true.
Proof.
  revert z. induction fuel as [|n IH]; intros z H Hx; [lia|].
  simpl in H. apply andb_true_iff in H as [Hz Hn].
  destruct (Z.eq_dec x z) as [->|]; [done|]. apply (IH (z + 1)); [done|lia].
Qed.

Lemma era_ok_all : all_from 146097 0 era_ok = true.
Proof. vm_compute. reflexivity. Qed.

Lemma era_ok_range doe : 0 <= doe < 146097 -> era_ok doe = true.
Proof.
  intros H. apply (all_from_spec _ _ _ _ era_ok_all).
  assert (E : Z.of_nat 146097 = 146097) by reflexivity. lia.
Qed.

(** Every day number is a valid date and converts back to itself. *)
Lemma civil_from_days_spec z :
  let '(y, m, d) := civil_from_days z in
  1 <= m <= 12 /\ 1 <= d <= 31 /\ days_from_civil y m d = z.
Proof.
  unfold civil_from_days.
  set (era := (z + 719468) / 146097).
  set (doe := z + 719468 - era * 146097).
  assert (Hdoe : 0 <= doe < 146097) by (subst doe era; pose proof (Z.mod_pos_bound (z + 719468) 146097); rewrite Z.mod_eq in *; lia).
  pose proof (era_ok_range doe Hdoe) as Hok. unfold era_ok in Hok.
  destruct (civil_of_doe doe) as [[yoe m] d].
  repeat rewrite andb_true_iff in Hok. rewrite Z.eqb_eq in Hok.
  destruct Hok as [[[[[[H1 H2] H3] H4] H5] H6] H7].
  apply Z.leb_le in H1, H3, H4, H5, H6. apply Z.ltb_lt in H2.
  split; [lia|]. split; [lia|].
  unfold days_from_civil.
  replace (yoe + era * 400 + jan_feb m - jan_feb m) with (yoe + era * 400) by lia.
  rewrite Z.div_add, (Z.div_small yoe 400) by lia.
  replace (yoe + era * 400 - (0 + era) * 400) with yoe by lia.
  rewrite H7. subst doe. lia.
Qed.

(** ** [toISOString().split('T')[0]] and [new Date("YYYY-MM-DD")] *)

Definition digit_char (n : Z) : ascii := ascii_of_nat (48 + Z.to_nat n).

(** The last [k] decimal digits of [n], zero-padded. *)
Fixpoint dec_digits (k : nat) (n : Z) : list ascii :=
  match k with
  | O => []
  | S k' => dec_digits k' (n / 10) ++ [digit_char (n mod 10)]
  end.

Definition char_digit (c : ascii) : option Z :=
  let n := Z.of_nat (nat_of_ascii c) in
  if (48 <=? n) && (n <=? 57) then Some (n - 48) else None.

Fixpoint parse_digits_acc (acc : Z) (l : list ascii) : option Z :=
  match l with
  | [] => Some acc
  | c :: l' => match char_digit c with
               | Some v => parse_digits_acc (acc * 10 + v) l'
               | None => None
               end
  end.

(** The date part of [toISOString()] (years 0 to 9999). *)
Definition iso_date_chars (t : Z) : list ascii :=
  let '(y, m, d) := civil_from_days (t / ms_per_day) in
  dec_digits 4 y ++ ["-"%char] ++ dec_digits 2 m ++ ["-"%char] ++ dec_digits 2 d.

Definition iso_date (t : Z) : string := String.string_of_list_ascii (iso_date_chars t).

(** [new Date("YYYY-MM-DD")]: UTC midnight of that date, or an invalid
    date ([None]) for any other shape or an out-of-range month or day. *)
Definition parse_iso_date_chars (l : list ascii) : option Z :=
  match l with
  | [y1; y2; y3; y4; "-"; m1; m2; "-"; d1; d2]%char =>
      match parse_digits_acc 0 [y1; y2; y3; y4], parse_digits_acc 0 [m1; m2],
            parse_digits_acc 0 [d1; d2] with
      | Some y, Some m, Some d =>
          if (1 <=? m) && (m <=? 12) && (1 <=? d) && (d <=? 31)
          then Some (days_from_civil y m d * ms_per_day) else None
      | _, _, _ => None
      end
  | _ => None
  end.

Definition parse_iso_date (s : string) : option Z :=
  parse_iso_date_chars (String.list_ascii_of_string s).

(** The full [toISOString()] form [YYYY-MM-DDTHH:mm:ss.sssZ]. *)
Definition parse_iso_datetime_chars (l : list ascii) : option Z :=
  match l with
  | [y1; y2; y3; y4; "-"; m1; m2; "-"; d1; d2; "T"; h1; h2; ":"; n1; n2; ":"; s1; s2; "."; f1; f2; f3; "Z"]%char =>
      match parse_iso_date_chars [y1; y2; y3; y4; "-"; m1; m2; "-"; d1; d2]%char,
            parse_digits_acc 0 [h1; h2], parse_digits_acc 0 [n1; n2], parse_digits_acc 0 [s1; s2],
            parse_digits_acc 0 [f1; f2; f3] with
      | Some day, Some h, Some mi, Some sec, Some ms =>
          if (h <? 24) && (mi <? 60) && (sec <? 60)
          then Some (day + ((h * 60 + mi) * 60 + sec) * 1000 + ms) else None
      | _, _, _, _, _ => None
      end
  | _ => None
  end.

(** A date string in one of the two ISO forms the backend sends. *)
Definition parse_date_chars (l : list ascii) : option Z :=
  if (length l =? 24)%nat then parse_iso_datetime_chars l else parse_iso_date_chars l.

(** [new Date(v).getTime()] for the values a JSON field can hold: [None]
    is an invalid date ([NaN]).  A string is parsed in the two ISO forms
    above; the other string forms an engine may accept, and arrays and
    objects, are taken as invalid. *)
Definition js_date (v : option json) : option Z :=
  match v with
  | Some JNull => Some 0
  | Some (JBool b) => Some (if b then 1 else 0)
  | Some (JNum n) => if Z.abs n <=? 8640000000000000 then Some n else None
  | Some (JStr s) => parse_date_chars (String.list_ascii_of_string s)
  | _ => None
  end.

(** The local calendar date of [t] in a zone [tz] minutes east of UTC,
    as [getFullYear()], [getMonth() + 1], [getDate()] read it. *)
Definition local_day (tz t : Z) : Z := (t + tz * 60000) / ms_per_day.
Definition local_civil (tz t : Z) : Z * Z * Z := civil_from_days (local_day tz t).

(** ** Round trip *)

Lemma char_digit_digit_char n : 0 <= n < 10 -> char_digit (digit_char n) = Some n.
Proof.
  intros H. unfold char_digit, digit_char.
  rewrite nat_ascii_embedding by lia.
  replace (Z.of_nat (48 + Z.to_nat n)) with (48 + n) by lia.
  replace ((48 <=? 48 + n) && (48 + n <=? 57)) with true by (symmetry; apply andb_true_iff; lia).
  f_equal. lia.
Qed.

Lemma parse_digits_acc_app acc l1 l2 :
  parse_digits_acc acc (l1 ++ l2) =
  match parse_digits_acc acc l1 with Some a => parse_digits_acc a l2 | None => None end.
Proof.
  revert acc. induction l1 as [|c l1 IH]; intros acc; [done|].
  simpl. destruct (char_digit c); [apply IH|done].
Qed.

Lemma parse_dec_digits k n acc :
  0 <= n ->
  parse_digits_acc acc (dec_digits k n) = Some (acc * 10 ^ Z.of_nat k + n mod 10 ^ Z.of_nat k).
Proof.
  revert n acc. induction k as [|k IH]; intros n acc Hn.
  - simpl. rewrite Z.mod_1_r. f_equal. lia.
  - simpl dec_digits. rewrite parse_digits_acc_app, IH by (apply Z.div_pos; lia).
    cbn [parse_digits_acc]. rewrite char_digit_digit_char by (apply Z.mod_pos_bound; lia). f_equal.
    rewrite Nat2Z.inj_succ, Z.pow_succ_r by lia.
    pose proof (Z.pow_pos_nonneg 10 (Z.of_nat k)) as Hp.
    rewrite Z.rem_mul_r by lia.
    ring.
Qed.

(** A number with at most [k] digits reads back from its [k] digits. *)
Lemma parse_dec_digits_exact k n :
  0 <= n < 10 ^ Z.of_nat k -> parse_digits_acc 0 (dec_digits k n) = Some n.
Proof. intros Hn. rewrite parse_dec_digits by lia. f_equal. rewrite Z.mod_small by lia. lia. Qed.

Lemma length_dec_digits k n : length (dec_digits k n) = k.
Proof.
  revert n. induction k as [|k IH]; intros n; [done|]. cbn [dec_digits]. rewrite length_app, IH. simpl. lia.
Qed.

(** Cut a list of known length into its elements. *)
Ltac split_digits H :=
  match type of H with
  | ?l = dec_digits ?k ?n =>
      let Hl := fresh in
      pose proof (length_dec_digits k n) as Hl; rewrite <-H in Hl;
      destruct l as [|? [|? [|? [|? [|? ?]]]]]; simpl in Hl; try discriminate
  end.

(** For a date in the years 0 to 9999, parsing the date part of
    [toISOString()] with [new Date(...)] gives back UTC midnight of that
    day: the date string the wizard sends names the UTC day of the
    instant it was made from. *)
Theorem iso_date_roundtrip t :
  let '(y, _, _) := civil_from_days (t / ms_per_day) in
  0 <= y <= 9999 -> parse_iso_date (iso_date t) = Some (t / ms_per_day * ms_per_day).
Proof.
  pose proof (civil_from_days_spec (t / ms_per_day)) as Hspec.
  unfold parse_iso_date, iso_date. rewrite String.list_ascii_of_string_of_list_ascii.
  unfold iso_date_chars.
  destruct (civil_from_days (t / ms_per_day)) as [[y m] d]. intros Hy.
  destruct Hspec as (Hm & Hd & Hback).
  remember (dec_digits 4 y) as ly eqn:Ey. remember (dec_digits 2 m) as lm eqn:Em.
  remember (dec_digits 2 d) as ld eqn:Ed.
  split_digits Ey. split_digits Em. split_digits Ed.
  cbn [app parse_iso_date_chars]. rewrite Ey, Em, Ed, !parse_dec_digits by lia.
  rewrite !(Z.mod_small y), !(Z.mod_small m), !(Z.mod_small d) by (simpl; lia).
  replace ((1 <=? 0 * 10 ^ Z.of_nat 2 + m) && (0 * 10 ^ Z.of_nat 2 + m <=? 12) &&
           (1 <=? 0 * 10 ^ Z.of_nat 2 + d) && (0 * 10 ^ Z.of_nat 2 + d <=? 31)) with true
    by (symmetry; repeat rewrite andb_true_iff; simpl; lia).
  simpl. rewrite <-Hback. reflexivity.
Qed.

Lemma iso_date_roundtrip_witness :
  parse_iso_date (iso_date 1700000000000) = Some (1700000000000 / ms_per_day * ms_per_day).
Proof.
  generalize (iso_date_roundtrip 1700000000000). vm_compute. intros H. apply H.
  split; discriminate.
Defined.
