(* ===== verification/JsonCodec.v ===== *)
(** * [JSON.stringify] and [JSON.parse]

    The auth context caches the signed-in user in AsyncStorage as
    [JSON.stringify(response.user)] and restores it with
    [JSON.parse(storedUser)] ([contexts/auth-context.tsx]).  This file
    gives both functions on the [json] values of [Json]: the printer
    [emit] (written with a continuation, [JSON_stringify v = emit v []])
    and a recursive-descent parser [pvalue] with fuel, run by
    [JSON_parse] with one unit of fuel per input character.

    The printer escapes as the standard's QuoteJSONString does: the two-
    character escapes for backspace, tab, newline, form feed, carriage
    return, quote and backslash, [\u00xx] (lowercase hex) for the other
    control characters.  The parser accepts the JSON grammar on the
    values the model has: integers without leading zeros, strings whose
    [\u] escapes denote a character below 256.  Numbers with a fraction or
    an exponent are outside the model and do not parse.  A JavaScript
    object is represented by its list of fields in order; its printing
    agrees with [JSON.stringify] when the keys are distinct and none is an
    array index (which JavaScript would list first).

    The main theorem is the round trip [JSON_parse (JSON_stringify v) =
    Some v]; the per-character step of the string escaping is checked by
    evaluation over the 256 characters. *)

From S2P Require Import Prelude Json.
From Stdlib Require Import Ascii Decimal DecimalFacts DecimalPos DecimalZ.

Local Open Scope char_scope.

(** ** Characters *)

Definition is_ws (c : ascii) : bool :=
  Ascii.eqb c " " || Ascii.eqb c "009" || Ascii.eqb c "010" || Ascii.eqb c "013".

Fixpoint skip_ws (l : list ascii) : list ascii :=
  match l with c :: l' => if is_ws c then skip_ws l' else l | [] => [] end.

Definition digit_val (c : ascii) : option nat :=
  let n := nat_of_ascii c in if (48 <=? n)%nat && (n <=? 57)%nat then Some (n - 48)%nat else None.

Definition hex_val (c : ascii) : option nat :=
  let n := nat_of_ascii c in
  if (48 <=? n)%nat && (n <=? 57)%nat then Some (n - 48)%nat
  else if (97 <=? n)%nat && (n <=? 102)%nat then Some (n - 87)%nat
  else if (65 <=? n)%nat && (n <=? 70)%nat then Some (n - 55)%nat
  else None.

Definition hex_char (n : nat) : ascii :=
  if (n <? 10)%nat then ascii_of_nat (48 + n) else ascii_of_nat (87 + n).

(** ** The printer *)

Definition escape_char (c : ascii) : list ascii :=
  let n := nat_of_ascii c in
  if (n =? 8)%nat then ["092"; "b"]
  else if (n =? 9)%nat then ["092"; "t"]
  else if (n =? 10)%nat then ["092"; "n"]
  else if (n =? 12)%nat then ["092"; "f"]
  else if (n =? 13)%nat then ["092"; "r"]
  else if (n =? 34)%nat then ["092"; "034"]
  else if (n =? 92)%nat then ["092"; "092"]
  else if (n <? 32)%nat then ["092"; "u"; "0"; "0"; hex_char (n / 16); hex_char (n mod 16)]
  else [c].

Definition escape_k (l k : list ascii) : list ascii :=
  fold_right (fun c acc => escape_char c ++ acc) k l.

Definition quote_k (s : string) (k : list ascii) : list ascii :=
  "034" :: escape_k (String.list_ascii_of_string s) ("034" :: k).

Fixpoint uint_chars_k (u : uint) (k : list ascii) : list ascii :=
  match u with
  | Nil => k
  | D0 u => "0" :: uint_chars_k u k | D1 u => "1" :: uint_chars_k u k
  | D2 u => "2" :: uint_chars_k u k | D3 u => "3" :: uint_chars_k u k
  | D4 u => "4" :: uint_chars_k u k | D5 u => "5" :: uint_chars_k u k
  | D6 u => "6" :: uint_chars_k u k | D7 u => "7" :: uint_chars_k u k
  | D8 u => "8" :: uint_chars_k u k | D9 u => "9" :: uint_chars_k u k
  end.

(** [String(n)] of an integer: its decimal digits, with a minus sign. *)
Definition num_chars_k (n : Z) (k : list ascii) : list ascii :=
  match Z.to_int n with
  | Decimal.Pos u => uint_chars_k u k
  | Decimal.Neg u => "-" :: uint_chars_k u k
  end.

(** Elements separated by commas and closed by [close]. *)
Fixpoint sep_list {A} (f : A -> list ascii -> list ascii) (close : ascii) (l : list A)
    (k : list ascii) : list ascii :=
  match l with
  | [] => close :: k
  | y :: l' => "," :: f y (sep_list f close l' k)
  end.

Fixpoint emit (v : json) (k : list ascii) {struct v} : list ascii :=
  match v with
  | JNull => "n" :: "u" :: "l" :: "l" :: k
  | JBool true => "t" :: "r" :: "u" :: "e" :: k
  | JBool false => "f" :: "a" :: "l" :: "s" :: "e" :: k
  | JNum n => num_chars_k n k
  | JStr s => quote_k s k
  | JArr [] => "[" :: "]" :: k
  | JArr (x :: l) =>
      "[" :: emit x
        ((fix elems (l : list json) : list ascii :=
            match l with [] => "]" :: k | y :: l' => "," :: emit y (elems l') end) l)
  | JObj [] => "{" :: "}" :: k
  | JObj ((key, x) :: fs) =>
      "{" :: quote_k key (":" :: emit x
        ((fix members (fs : list (string * json)) : list ascii :=
            match fs with
            | [] => "}" :: k
            | (key', y) :: fs' => "," :: quote_k key' (":" :: emit y (members fs'))
            end) fs))
  end.

Definition emit_member (kv : string * json) (k : list ascii) : list ascii :=
  quote_k kv.1 (":" :: emit kv.2 k).

Definition JSON_stringify (v : json) : string := String.string_of_list_ascii (emit v []).

(** ** The parser *)

Fixpoint strip (p l : list ascii) : option (list ascii) :=
  match p, l with
  | [], _ => Some l
  | a :: p', b :: l' => if Ascii.eqb a b then strip p' l' else None
  | _ :: _, [] => None
  end.

Definition unescape_simple (e : ascii) : option ascii :=
  let n := nat_of_ascii e in
  if (n =? 34)%nat || (n =? 92)%nat || (n =? 47)%nat then Some e
  else if Ascii.eqb e "b" then Some "008"
  else if Ascii.eqb e "f" then Some "012"
  else if Ascii.eqb e "n" then Some "010"
  else if Ascii.eqb e "r" then Some "013"
  else if Ascii.eqb e "t" then Some "009"
  else None.

Definition cons_fst {A B} (a : A) (p : option (list A * B)) : option (list A * B) :=
  match p with Some (l, r) => Some (a :: l, r) | None => None end.

(** The characters of a string literal after its opening quote, up to
    and without the closing one, unescaped; then the rest of the input. *)
Fixpoint pstring (l : list ascii) : option (list ascii * list ascii) :=
  match l with
  | [] => None
  | c :: r =>
      if Ascii.eqb c "034" then Some ([], r)
      else if Ascii.eqb c "092" then
        match r with
        | [] => None
        | e :: r' =>
            if Ascii.eqb e "u" then
              match r' with
              | h1 :: h2 :: h3 :: h4 :: r'' =>
                  match hex_val h1, hex_val h2, hex_val h3, hex_val h4 with
                  | Some x1, Some x2, Some x3, Some x4 =>
                      let n := (((x1 * 16 + x2) * 16 + x3) * 16 + x4)%nat in
                      if (n <? 256)%nat then cons_fst (ascii_of_nat n) (pstring r'') else None
                  | _, _, _, _ => None
                  end
              | _ => None
              end
            else match unescape_simple e with
                 | Some ch => cons_fst ch (pstring r')
                 | None => None
                 end
        end
      else if (nat_of_ascii c <? 32)%nat then None
      else cons_fst c (pstring r)
  end.

Definition d_cons (d : nat) (u : uint) : uint :=
  match d with
  | 0 => D0 u | 1 => D1 u | 2 => D2 u | 3 => D3 u | 4 => D4 u
  | 5 => D5 u | 6 => D6 u | 7 => D7 u | 8 => D8 u | _ => D9 u
  end%nat.

Fixpoint pdigits (l : list ascii) : uint * list ascii :=
  match l with
  | c :: r =>
      match digit_val c with
      | Some d => let '(u, r') := pdigits r in (d_cons d u, r')
      | None => (Nil, l)
      end
  | [] => (Nil, [])
  end.

(** An unsigned integer: [0], or a nonzero digit and more digits. *)
Definition pnat (l : list ascii) : option (uint * list ascii) :=
  match l with
  | c :: r =>
      if Ascii.eqb c "0" then Some (D0 Nil, r)
      else match digit_val c with
           | Some d => let '(u, r') := pdigits r in Some (d_cons d u, r')
           | None => None
           end
  | [] => None
  end.

Definition pnumber (l : list ascii) : option (Z * list ascii) :=
  match l with
  | c :: r =>
      if Ascii.eqb c "-" then
        match pnat r with Some (u, r') => Some (Z.of_int (Decimal.Neg u), r') | None => None end
      else match pnat l with Some (u, r') => Some (Z.of_int (Decimal.Pos u), r') | None => None end
  | [] => None
  end.

(** Elements parsed by [p], separated by commas, up to [close]; at most
    [m] of them. *)
Fixpoint p_elems {A} (p : list ascii -> option (A * list ascii)) (close : ascii) (m : nat)
    (r : list ascii) : option (list A * list ascii) :=
  match m with
  | O => None
  | S m' =>
      match p r with
      | Some (x, r1) =>
          match skip_ws r1 with
          | c :: r2 =>
              if Ascii.eqb c "," then cons_fst x (p_elems p close m' r2)
              else if Ascii.eqb c close then Some ([x], r2) else None
          | [] => None
          end
      | None => None
      end
  end.

Definition pmember (pv : list ascii -> option (json * list ascii)) (r : list ascii)
    : option ((string * json) * list ascii) :=
  match skip_ws r with
  | c :: r1 =>
      if Ascii.eqb c "034" then
        match pstring r1 with
        | Some (ks, r2) =>
            match skip_ws r2 with
            | c2 :: r3 =>
                if Ascii.eqb c2 ":" then
                  match pv r3 with
                  | Some (v, r4) => Some ((String.string_of_list_ascii ks, v), r4)
                  | None => None
                  end
                else None
            | [] => None
            end
        | None => None
        end
      else None
  | [] => None
  end.

Fixpoint pvalue (n : nat) (l : list ascii) : option (json * list ascii) :=
  match n with
  | O => None
  | S n' =>
      match skip_ws l with
      | [] => None
      | c :: r =>
          if Ascii.eqb c "n" then
            match strip ["u"; "l"; "l"] r with Some r' => Some (JNull, r') | None => None end
          else if Ascii.eqb c "t" then
            match strip ["r"; "u"; "e"] r with Some r' => Some (JBool true, r') | None => None end
          else if Ascii.eqb c "f" then
            match strip ["a"; "l"; "s"; "e"] r with Some r' => Some (JBool false, r') | None => None end
          else if Ascii.eqb c "034" then
            match pstring r with
            | Some (s, r') => Some (JStr (String.string_of_list_ascii s), r')
            | None => None
            end
          else if Ascii.eqb c "[" then
            match skip_ws r with
            | [] => None
            | c' :: r' =>
                if Ascii.eqb c' "]" then Some (JArr [], r')
                else match p_elems (pvalue n') "]" n' (c' :: r') with
                     | Some (vs, r'') => Some (JArr vs, r'')
                     | None => None
                     end
            end
          else if Ascii.eqb c "{" then
            match skip_ws r with
            | [] => None
            | c' :: r' =>
                if Ascii.eqb c' "}" then Some (JObj [], r')
                else match p_elems (pmember (pvalue n')) "}" n' (c' :: r') with
                     | Some (fs, r'') => Some (JObj fs, r'')
                     | None => None
                     end
            end
          else match pnumber (c :: r) with
               | Some (z, r') => Some (JNum z, r')
               | None => None
               end
      end
  end.

(** [JSON.parse(s)]: [None] is the [SyntaxError] it throws. *)
Definition JSON_parse (s : string) : option json :=
  let l := String.list_ascii_of_string s in
  match pvalue (S (length l)) l with
  | Some (v, r) => match skip_ws r with [] => Some v | _ :: _ => None end
  | None => None
  end.

(** The size that bounds the parser's fuel: one per value and per element. *)
Definition sum_sizes {A} (f : A -> nat) (l : list A) : nat :=
  fold_right (fun y acc => S (f y + acc)) 0%nat l.

Fixpoint jsize (v : json) : nat :=
  match v with
  | JArr l => S ((fix elems (l : list json) : nat :=
                    match l with [] => 0 | y :: l' => S (jsize y + elems l') end) l)
  | JObj fs => S ((fix members (fs : list (string * json)) : nat :=
                     match fs with [] => 0 | (_, y) :: fs' => S (jsize y + members fs') end) fs)
  | _ => 1
  end%nat.

(** Induction on JSON values with a hypothesis for every element. *)
Fixpoint json_ind' (P : json -> Prop) (HN : P JNull) (HB : forall b, P (JBool b))
    (HZ : forall n, P (JNum n)) (HS : forall s, P (JStr s))
    (HA : forall l, Forall P l -> P (JArr l))
    (HO : forall fs, Forall (fun kv => P kv.2) fs -> P (JObj fs)) (v : json) {struct v} : P v :=
  match v with
  | JNull => HN
  | JBool b => HB b
  | JNum n => HZ n
  | JStr s => HS s
  | JArr l => HA l ((fix elems (l : list json) : Forall P l :=
                       match l with
                       | [] => @List.Forall_nil json P
                       | y :: l' => @List.Forall_cons json P y l' (json_ind' P HN HB HZ HS HA HO y) (elems l')
                       end) l)
  | JObj fs => HO fs ((fix members (fs : list (string * json)) : Forall (fun kv => P kv.2) fs :=
                         match fs with
                         | [] => @List.Forall_nil (string * json) (fun kv => P kv.2)
                         | (key, y) :: fs' =>
                             @List.Forall_cons (string * json) (fun kv => P kv.2) (key, y) fs'
                               (json_ind' P HN HB HZ HS HA HO y) (members fs')
                         end) fs)
  end.

(** What may follow a number: anything but a digit. *)
Definition stops (k : list ascii) : Prop :=
  match k with c :: _ => digit_val c = None | [] => True end.

(** ** Lemmas *)

Lemma emit_arr x l k : emit (JArr (x :: l)) k = "[" :: emit x (sep_list emit "]" l k).
Proof. simpl. do 2 f_equal. induction l as [|y l IH]; simpl; congruence. Qed.

Lemma emit_obj kv fs k :
  emit (JObj (kv :: fs)) k = "{" :: emit_member kv (sep_list emit_member "}" fs k).
Proof.
  destruct kv as [key x]. simpl. unfold emit_member. simpl. do 4 f_equal.
  induction fs as [|[key' y] fs IH]; simpl; congruence.
Qed.

Lemma jsize_arr l : jsize (JArr l) = S (sum_sizes jsize l).
Proof. simpl. f_equal. Qed.

Lemma jsize_obj fs : jsize (JObj fs) = S (sum_sizes (fun kv => jsize kv.2) fs).
Proof. simpl. f_equal. induction fs as [|[key y] fs IH]; simpl; congruence. Qed.

Lemma sum_sizes_bound {A} (f : A -> nat) l :
  (length l <= sum_sizes f l)%nat /\ Forall (fun y => f y < sum_sizes f l)%nat l.
Proof.
  unfold sum_sizes. induction l as [|y l [IH1 IH2]]; simpl; [split; [lia|constructor]|].
  split; [lia|]. constructor; [lia|]. eapply Forall_impl; [exact IH2|]. intros z Hz. simpl in *. lia.
Qed.

(** The per-character step of string escaping, by evaluation over all characters. *)
Lemma pstring_escape_char c r : pstring (escape_char c ++ r) = cons_fst c (pstring r).
Proof. destruct c as [[] [] [] [] [] [] [] []]; reflexivity. Qed.

Lemma pstring_escape l k : pstring (escape_k l ("034" :: k)) = Some (l, k).
Proof.
  induction l as [|c l IH]; [reflexivity|].
  cbn [escape_k fold_right]. rewrite pstring_escape_char. fold (escape_k l ("034" :: k)).
  by rewrite IH.
Qed.

Lemma pdigits_chars u k : stops k -> pdigits (uint_chars_k u k) = (u, k).
Proof.
  intros Hk. induction u; cbn [uint_chars_k pdigits]; try (rewrite IHu; reflexivity).
  destruct k as [|c k]; [done|]. simpl in Hk. simpl. by rewrite Hk.
Qed.

(** [Pos.to_uint] has no leading zero. *)
Lemma to_uint_not_D0 p u : Pos.to_uint p <> D0 u.
Proof.
  intros E. pose proof (DecimalPos.Unsigned.to_of (Pos.to_uint p)) as H.
  rewrite DecimalPos.Unsigned.of_to in H. change (N.to_uint (N.pos p)) with (Pos.to_uint p) in H.
  rewrite E, unorm_D0 in H.
  assert (Hu : u = Nil \/ u <> Nil) by (destruct u; [left|right..]; congruence).
  destruct Hu as [->|Hu].
  - apply (DecimalPos.Unsigned.to_uint_nonzero p). by rewrite E.
  - pose proof (nb_digits_unorm u Hu) as Hn. rewrite <-H in Hn. simpl in Hn. lia.
Qed.

(** Cases on the digits of a positive number: it starts with 1 to 9. *)
Ltac to_uint_cases p :=
  pose proof (to_uint_not_D0 p) as ?; pose proof (DecimalPos.Unsigned.to_uint_nonnil p) as ?;
  destruct (Pos.to_uint p); try congruence.

Lemma pvalue_num n z k : stops k -> pvalue (S n) (num_chars_k z k) = Some (JNum z, k).
Proof.
  intros Hk. pose proof (DecimalZ.of_to z) as Hz. unfold num_chars_k.
  destruct z as [|p|p]; [reflexivity| |]; simpl Z.to_int in *; to_uint_cases p;
    cbn [uint_chars_k pvalue skip_ws]; simpl; rewrite pdigits_chars by done; rewrite <-Hz; reflexivity.
Qed.

(** The first character of a printed value opens a value. *)
Lemma emit_head v k :
  exists c r, emit v k = c :: r /\ is_ws c = false /\ Ascii.eqb c "]" = false /\ Ascii.eqb c "}" = false.
Proof.
  destruct v as [| [] |z| |[]|[|[]]]; try (eexists _, _; split; [reflexivity|done]).
  unfold emit, num_chars_k. destruct z as [|p|p]; simpl Z.to_int;
    [|to_uint_cases p|]; (eexists _, _; split; [reflexivity|done]).
Qed.

Lemma skip_ws_emit v k : skip_ws (emit v k) = emit v k.
Proof. destruct (emit_head v k) as (c & r & -> & Hws & _). simpl. by rewrite Hws. Qed.

Lemma p_elems_sep {A} (p : list ascii -> option (A * list ascii)) f close x l k m :
  is_ws close = false -> Ascii.eqb close "," = false -> digit_val close = None ->
  Forall (fun y => forall k', stops k' -> p (f y k') = Some (y, k')) (x :: l) ->
  (length l < m)%nat ->
  p_elems p close m (f x (sep_list f close l k)) = Some (x :: l, k).
Proof.
  intros Hws Hcomma Hdig Hall. revert x m Hall.
  induction l as [|y l IH]; intros x m Hall Hm; simpl in Hm; destruct m as [|m]; [lia| |lia|];
    apply Forall_cons in Hall as [Hx Hall]; simpl; rewrite Hx by done.
  - simpl. rewrite Hws, Hcomma. by rewrite Ascii.eqb_refl.
  - simpl. rewrite IH by (done || lia). done.
Qed.

Lemma pmember_emit pv kv k :
  pv (emit kv.2 k) = Some (kv.2, k) -> pmember pv (emit_member kv k) = Some (kv, k).
Proof.
  destruct kv as [key x]. simpl. intros Hx. unfold pmember, emit_member, quote_k. simpl.
  rewrite pstring_escape. simpl. rewrite Hx. by rewrite String.string_of_list_ascii_of_string.
Qed.

Lemma emit_member_head kv k : exists r, emit_member kv k = "034" :: r.
Proof. eexists. reflexivity. Qed.

(** Parsing a printed value gives it back and stops right after it. *)
Lemma pvalue_emit v : forall n k, (jsize v < n)%nat -> stops k -> pvalue n (emit v k) = Some (v, k).
Proof.
  induction v as [|b|z|s|l IH|fs IH] using json_ind'; intros n k Hn Hk;
    (destruct n as [|n]; [by apply Nat.nlt_0_r in Hn|]).
  - reflexivity.
  - by destruct b.
  - by apply pvalue_num.
  - simpl. rewrite pstring_escape. by rewrite String.string_of_list_ascii_of_string.
  - destruct l as [|x l]; [reflexivity|]. rewrite emit_arr. rewrite jsize_arr in Hn.
    destruct (sum_sizes_bound jsize (x :: l)) as [Hlen Hall].
    destruct (emit_head x (sep_list emit "]" l k)) as (c & r & He & Hws & Hc & _).
    simpl. rewrite He. simpl. rewrite Hws, Hc, <-He.
    rewrite p_elems_sep; [reflexivity|done|done|done| |unfold sum_sizes in *; simpl in *; lia].
    eapply Forall_impl; [apply Forall_and; split; [exact IH|exact Hall]|].
    intros y [Hy1 Hy2] k' Hk'. apply Hy1; [lia|done].
  - destruct fs as [|kv fs]; [reflexivity|]. rewrite emit_obj. rewrite jsize_obj in Hn.
    destruct (sum_sizes_bound (fun kv => jsize kv.2) (kv :: fs)) as [Hlen Hall].
    destruct (emit_member_head kv (sep_list emit_member "}" fs k)) as [r He].
    rewrite He. simpl. rewrite <-He.
    rewrite p_elems_sep; [reflexivity|done|done|done| |unfold sum_sizes in *; simpl in *; lia].
    eapply Forall_impl; [apply Forall_and; split; [exact IH|exact Hall]|].
    intros y [Hy1 Hy2] k' Hk'. apply pmember_emit, Hy1; [lia|done].
Qed.

Lemma escape_k_length l k : (length k <= length (escape_k l k))%nat.
Proof. induction l as [|c l IH]; simpl; [lia|]. rewrite length_app. lia. Qed.

Lemma uint_chars_length u k : (length k <= length (uint_chars_k u k))%nat.
Proof. induction u; simpl; lia. Qed.

Lemma sep_list_length {A} (f : A -> list ascii -> list ascii) (g : A -> nat) close l k :
  Forall (fun y => forall k', g y + length k' <= length (f y k'))%nat l ->
  (sum_sizes g l + 1 + length k <= length (sep_list f close l k))%nat.
Proof.
  induction l as [|y l IH]; intros Hall; simpl; [lia|].
  apply Forall_cons in Hall as [Hy Hall]. specialize (Hy (sep_list f close l k)).
  specialize (IH Hall). unfold sum_sizes in *. simpl. lia.
Qed.

(** A printed value is at least as long as its size. *)
Lemma jsize_emit v : forall k, (jsize v + length k <= length (emit v k))%nat.
Proof.
  induction v as [|b|z|s|l IH|fs IH] using json_ind'; intros k.
  - simpl. lia.
  - destruct b; simpl; lia.
  - unfold emit, num_chars_k. destruct z as [|p|p]; simpl Z.to_int; [simpl; lia| |];
      to_uint_cases p; simpl; pose proof (uint_chars_length u k); lia.
  - simpl. unfold quote_k. simpl. pose proof (escape_k_length (String.list_ascii_of_string s) ("034" :: k)).
    simpl in *. lia.
  - destruct l as [|x l]; [simpl; lia|]. rewrite emit_arr, jsize_arr.
    apply Forall_cons in IH as [Hx IH].
    pose proof (sep_list_length emit jsize "]" l k IH) as Hs.
    specialize (Hx (sep_list emit "]" l k)). unfold sum_sizes in *. simpl in *. lia.
  - destruct fs as [|[key x] fs]; [simpl; lia|]. rewrite emit_obj, jsize_obj.
    assert (Hm : Forall (fun kv => forall k', jsize kv.2 + length k' <= length (emit_member kv k'))%nat
                   ((key, x) :: fs)).
    { eapply Forall_impl; [exact IH|]. intros [key' y] Hy k'. unfold emit_member, quote_k. simpl.
      pose proof (escape_k_length (String.list_ascii_of_string key') ("034" :: ":" :: emit y k')).
      specialize (Hy k'). simpl in *. lia. }
    apply Forall_cons in Hm as [Hx Hm].
    pose proof (sep_list_length emit_member (fun kv => jsize kv.2) "}" fs k Hm) as Hs.
    specialize (Hx (sep_list emit_member "}" fs k)). unfold sum_sizes in *. simpl in *. lia.
Qed.

Lemma parse_stringify v : JSON_parse (JSON_stringify v) = Some v.
Proof.
  unfold JSON_parse, JSON_stringify. rewrite String.list_ascii_of_string_of_list_ascii.
  pose proof (jsize_emit v []) as Hs. simpl in Hs.
  rewrite pvalue_emit by (done || lia). reflexivity.
Qed.

Lemma stringify_nonempty v : String.eqb (JSON_stringify v) "" = false.
Proof.
  unfold JSON_stringify. destruct (emit_head v []) as (c & r & -> & _). reflexivity.
Qed.

(** [JSON.parse(JSON.stringify(v))] gives [v] back for every JSON
    value of the model, whatever its strings, numbers and nesting: the
    user the auth context caches in AsyncStorage is restored as it was
    stored. *)
Theorem JSON_roundtrip v : JSON_parse (JSON_stringify v) = Some v.
Proof. apply parse_stringify. Qed.
