(* ===== verification/Contexts.v ===== *)
(** * The auth and reservation contexts ([contexts/auth-context.tsx],
      [contexts/reservation-context.tsx])

    The two providers hold React state that their handlers update and
    that survives a handler's rejection: the auth context's [user],
    [token] and [loading], the reservation context's [reservations].  The
    handlers run in the monad [App], whose state is the [World] of the
    API layer together with this [Session]; [api] runs an API-layer
    computation on the world, [upd] is a state setter.  A setter's update
    is kept when a later [await] rejects, as React keeps it.

    [AsyncStorage.setItem(key, value)] stores a string; it rejects null
    and undefined, and the model takes it to reject the other non-string
    values as well.  The functional updaters of the reservation context
    ([[...prev, r]] and [prev.map(...)]) are applied to an array; when
    the backend's answer was not an array they throw while React renders,
    outside the handlers, and the model leaves the list unchanged. *)

From S2P Require Import Prelude Json Http Endpoint ApiService JsonCodec.

Definition is_null (v : json) : bool := match v with JNull => true | _ => false end.

Record Session := mkSession {
  ss_user : option json;       (** [user] of AuthProvider *)
  ss_token : option json;      (** [token] *)
  ss_loading : bool;           (** [loading] *)
  ss_reservations : json;      (** [reservations] of ReservationProvider *)
}.

(** The [useState] initial values. *)
Definition session_initial : Session := mkSession None None true (JArr []).

Definition set_user (u : option json) (s : Session) : Session :=
  mkSession u (ss_token s) (ss_loading s) (ss_reservations s).
Definition set_token (t : option json) (s : Session) : Session :=
  mkSession (ss_user s) t (ss_loading s) (ss_reservations s).
Definition set_loading (b : bool) (s : Session) : Session :=
  mkSession (ss_user s) (ss_token s) b (ss_reservations s).
Definition set_reservations (v : json) (s : Session) : Session :=
  mkSession (ss_user s) (ss_token s) (ss_loading s) v.

Definition App (Store A : Type) : Type := ST (World Store * Session) Exn A.

Section App.
Context {Store : Type} `{!KVStore Store}.

Definition api {A} (c : Api Store A) : App Store A :=
  fun ws => let '(r, w') := c ws.1 in (r, (w', ws.2)).

Definition upd (f : Session -> Session) : App Store unit := fun ws => (Ok tt, (ws.1, f ws.2)).

Definition session : App Store Session := fun ws => (Ok ws.2, ws).

(** [v.k]: reading a property of [null] throws. *)
Definition read_prop (k : string) (v : json) : App Store (option json) :=
  if is_null v then sthrow (TypeError ("Cannot read property '" +:+ k +:+ "' of null"))
  else sret (json_get k v).

(** [AsyncStorage.setItem(k, v)]: the JavaScript side throws for
    [null]/[undefined] and only warns for another non-string, which the
    native module then cannot store; the model takes every non-string
    as a rejection.  The auth context passes [JSON.stringify(...)] and
    the token, strings for every answer of the declared types. *)
Definition storage_set (k : string) (v : option json) : Api Store unit :=
  match v with
  | Some (JStr s) => setItem k s
  | _ => sthrow (JsError "[AsyncStorage] Passing null/undefined as value is not supported.")
  end.

(** [JSON.stringify(v)]; [undefined] stays [undefined]. *)
Definition stringify_opt (v : option json) : option json :=
  match v with Some x => Some (JStr (JSON_stringify x)) | None => None end.

(** ** AuthProvider *)

(** [loadUserFromStorage] (lines 57-80), run by the mount effect. *)
Definition loadUserFromStorage : App Store unit :=
  (scatch
     (storedUser <- api (getItem "user") ;;
      storedToken <- api (getItem "token") ;;
      if str_truthy storedUser && str_truthy storedToken then
        match storedUser, storedToken with
        | Some su, Some st =>
            tokenValid <- api (verifyToken st) ;;
            valid <- read_prop "valid" tokenValid ;;
            if truthy valid then
              match JSON_parse su with
              | Some user => upd (set_user (Some user)) ;; upd (set_token (Some (JStr st)))
              | None => sthrow (JsError "JSON Parse error")
              end
            else api (removeItem "user") ;; api (removeItem "token")
        | _, _ => sret tt
        end
      else sret tt)
     (fun _ => sret tt) ;;
   upd (set_loading false))%st.

(** [login] (lines 85-100); its catch rethrows. *)
Definition auth_login (identifier password : string) : App Store unit :=
  (response <- api (login identifier password) ;;
   u <- read_prop "user" response ;;
   upd (set_user u) ;;
   t <- read_prop "token" response ;;
   upd (set_token t) ;;
   api (storage_set "user" (stringify_opt u)) ;;
   api (storage_set "token" t))%st.

Definition clear_session : App Store unit :=
  (upd (set_user None) ;; upd (set_token None) ;;
   api (removeItem "user") ;; api (removeItem "token"))%st.

(** [logout] (lines 102-127): [token] is the value of the render the
    handler belongs to. *)
Definition auth_logout : App Store unit :=
  (s <- session ;;
   scatch
     ((if truthy (ss_token s) then api (logout (template (ss_token s))) else sret tt) ;;
      clear_session)
     (fun error => clear_session ;; sthrow error))%st.

(** ** ReservationProvider *)

Definition require_token : App Store string :=
  (s <- session ;;
   if truthy (ss_token s) then sret (template (ss_token s))
   else sthrow (JsError "Authentication token is required"))%st.

(** [fetchReservations] (lines 51-63). *)
Definition fetchReservations (userId : string) : App Store unit :=
  (token <- require_token ;;
   data <- api (getUserReservations userId token) ;;
   upd (set_reservations data))%st.

Definition append_json (prev r : json) : json :=
  match prev with JArr l => JArr (l ++ [r]) | _ => prev end.

(** [createReservation] (lines 65-78). *)
Definition ctx_createReservation (data : json) : App Store json :=
  (token <- require_token ;;
   r <- api (createReservation data token) ;;
   upd (fun s => set_reservations (append_json (ss_reservations s) r) s) ;;
   sret r)%st.

(** [{ ...o, k: x }] on an object: an existing key keeps its place. *)
Definition obj_set (k : string) (x : json) (fs : list (string * json)) : list (string * json) :=
  if existsb (fun kv => String.eqb kv.1 k) fs
  then map (fun kv => if String.eqb kv.1 k then (k, x) else kv) fs
  else fs ++ [(k, x)].

Definition mark_cancelled (reservationId : string) (v : json) : json :=
  match v with
  | JObj fs => if field_is "_id" reservationId v then JObj (obj_set "status" (JStr "cancelled") fs) else v
  | _ => v
  end.

Definition map_json (f : json -> json) (v : json) : json :=
  match v with JArr l => JArr (map f l) | _ => v end.

(** [cancelReservation] (lines 80-100). *)
Definition ctx_cancelReservation (reservationId : string) : App Store json :=
  (token <- require_token ;;
   r <- api (cancelReservation reservationId token) ;;
   upd (fun s => set_reservations (map_json (mark_cancelled reservationId) (ss_reservations s)) s) ;;
   sret r)%st.
End App.

(** ** Requests *)

Definition verify_request (base token : string) : Request :=
  axios_config base 15000 GET "/auth/verify" None (Some token).

Definition logout_request (base token : string) : Request :=
  axios_config base 15000 POST "/auth/logout" (Some (JObj [])) (Some token).

Definition valid_false : json := JObj [("valid", JBool false)].

(** ** Run lemmas *)

Section Runs.
Context {Store : Type} `{!KVStore Store}.

Lemma verifyToken_run t (w : World Store) :
  verifyToken t w =
  (Ok (match axios_settle 15000 (w_net w (length (w_sent w)) (verify_request (w_base w) t)) with
       | Ok d => d | Err _ => valid_false end),
   push_sent (verify_request (w_base w) t) w).
Proof.
  unfold verifyToken, api_request, axios_send, send, of_res, scatch, sbind, sget. simpl.
  by destruct (axios_settle _ _).
Qed.

Lemma logout_run t (w : World Store) :
  logout t w = (Ok tt, push_sent (logout_request (w_base w) t) w).
Proof.
  unfold logout, api_request, axios_send, send, of_res, scatch, sbind, sget, sret. simpl.
  by destruct (axios_settle _ _).
Qed.

Lemma api_run {A} (c : Api Store A) w s : api c (w, s) = let '(r, w') := c w in (r, (w', s)).
Proof. reflexivity. Qed.

Lemma clear_session_run (w : World Store) s :
  clear_session (w, s) =
  (Ok tt, (set_store (kv_remove "token" (kv_remove "user" (w_store w))) w,
           set_token None (set_user None s))).
Proof. reflexivity. Qed.
End Runs.

#[local] Arguments verifyToken : simpl never.
#[local] Arguments logout : simpl never.
#[local] Arguments verify_request : simpl never.
#[local] Arguments logout_request : simpl never.
#[local] Arguments is_2xx : simpl never.
#[local] Arguments cancelReservation : simpl never.

Ltac app_unfold := unfold sbind, scatch, api, upd, session, read_prop, sret, sthrow; cbn.

Lemma eqb_nonempty (t : string) : t <> "" -> String.eqb t "" = false.
Proof. intros H. by apply String.eqb_neq. Qed.

Section AuthTheorems.
Context {Store : Type} `{!KVStore Store} `{!KVStoreLaws Store}.

(** What a successful [login] leaves: the user and a string token in the
    state, and both cached in AsyncStorage. *)
Lemma auth_login_ok id pw (w : World Store) s w1 s1 :
  auth_login id pw (w, s) = (Ok tt, (w1, s1)) ->
  exists u t, ss_user s1 = Some u /\ ss_token s1 = Some (JStr t) /\
    kv_get (w_store w1) "user" = Some (JSON_stringify u) /\ kv_get (w_store w1) "token" = Some t.
Proof.
  unfold auth_login, sbind, api, upd, read_prop, storage_set, stringify_opt. cbn.
  destruct (login id pw w) as [[resp|e] w'] eqn:E; [|intros [=]]. cbn.
  unfold read_prop. destruct (is_null resp); [intros [=]|]. cbn.
  destruct (json_get "user" resp) as [u|]; [|intros [=]]. cbn.
  destruct (json_get "token" resp) as [[| | |t| |]|]; try (intros [=]; fail). cbn.
  intros [= <- <-]. exists u, t. cbn. rewrite kv_get_set_ne, !kv_get_set_eq by done. done.
Qed.

(** The backend confirms a token: the verify request gets a 2xx answer
    whose [valid] field is truthy. *)
Definition confirms (o : Outcome) : Prop :=
  exists code b, o = Answer code b /\ is_2xx code = true /\ is_null (axios_data b) = false /\
    truthy (json_get "valid" (axios_data b)) = true.

(** C24. A session saved by [login] is restored at the next start: after
    a successful login with a non-empty token, a restart of the app (same
    AsyncStorage, fresh state) whose verify request the backend confirms
    ends [loadUserFromStorage] with the same user and token as the login
    left, and [loading] false. *)
Theorem session_restored id pw (w : World Store) s w1 s1 net lat :
  auth_login id pw (w, s) = (Ok tt, (w1, s1)) ->
  ss_token s1 <> Some (JStr "") ->
  confirms (net 0%nat (verify_request API_URLS_localNetwork (template (ss_token s1)))) ->
  let '(r, (w2, s2)) := loadUserFromStorage (initial_world (w_store w1) net lat, session_initial) in
  r = Ok tt /\ ss_user s2 = ss_user s1 /\ ss_token s2 = ss_token s1 /\ ss_loading s2 = false.
Proof.
  intros Hl Hne Hnet. destruct (auth_login_ok id pw w s w1 s1 Hl) as (u & t & Hu & Ht & Hsu & Hst).
  rewrite Ht in Hne, Hnet |- *. rewrite Hu. simpl in Hnet.
  destruct Hnet as (code & b & Hnet & H2 & Hnull & Hvalid).
  unfold loadUserFromStorage. app_unfold. rewrite Hsu, Hst. cbn.
  rewrite stringify_nonempty, eqb_nonempty by congruence. cbn.
  rewrite verifyToken_run. cbn. rewrite Hnet. cbn. rewrite H2, Hnull. cbn.
  rewrite Hvalid, parse_stringify. cbn. done.
Qed.

(** C25. [verifyToken] turns every failure into [{valid: false}] and
    [loadUserFromStorage] then deletes the cached session: at a start
    where the verify request (sent to the default [baseURL], before the
    startup task has adopted a persisted URL) gets no answer, times out or
    gets a status outside 2xx, the user is signed out and "user" and
    "token" are removed from AsyncStorage. *)
Theorem offline_start_erases_session (st : Store) net lat su tok :
  kv_get st "user" = Some su -> kv_get st "token" = Some tok -> su <> "" -> tok <> "" ->
  match net 0%nat (verify_request API_URLS_localNetwork tok) with
  | Answer code _ => is_2xx code = false
  | _ => True
  end ->
  let '(r, (w', s')) := loadUserFromStorage (initial_world st net lat, session_initial) in
  r = Ok tt /\ kv_get (w_store w') "user" = None /\ kv_get (w_store w') "token" = None /\
  ss_user s' = None /\ ss_loading s' = false.
Proof.
  intros Hu Ht Hsu Hst Hnet. unfold loadUserFromStorage. app_unfold. rewrite Hu, Ht. cbn.
  rewrite !eqb_nonempty by done. cbn. rewrite verifyToken_run. cbn.
  destruct (net 0%nat _) as [| |code b]; [| |unfold axios_settle; rewrite Hnet]; cbn;
    (split; [done|]); rewrite kv_get_remove_ne, !kv_get_remove_eq by done; done.
Qed.

(** C18. [logout] always signs out: whatever the network does, it
    resolves, clears [user] and [token], removes both keys from
    AsyncStorage, and sends exactly one logout request when there was a
    token, none otherwise. *)
Theorem logout_clears_session (w : World Store) s :
  let '(r, (w', s')) := auth_logout (w, s) in
  r = Ok tt /\ ss_user s' = None /\ ss_token s' = None /\
  kv_get (w_store w') "user" = None /\ kv_get (w_store w') "token" = None /\
  w_sent w' = w_sent w ++ (if truthy (ss_token s) then [logout_request (w_base w) (template (ss_token s))]
                          else []).
Proof.
  unfold auth_logout. app_unfold.
  destruct (truthy (ss_token s)); [rewrite logout_run|]; cbn;
    rewrite kv_get_remove_ne, !kv_get_remove_eq by done; rewrite ?app_nil_r; done.
Qed.
End AuthTheorems.

(** ** The reservation context *)

Section ReservationTheorems.
Context {Store : Type} `{!KVStore Store}.

Lemma fold_map_set k k' (x : json) (fs : list (string * json)) (acc : option json) :
  fold_left (fun acc kv => if String.eqb kv.1 k then Some kv.2 else acc)
    (map (fun kv => if String.eqb kv.1 k' then (k', x) else kv) fs) acc =
  if String.eqb k k' then (if existsb (fun kv => String.eqb kv.1 k') fs then Some x else acc)
  else fold_left (fun acc kv => if String.eqb kv.1 k then Some kv.2 else acc) fs acc.
Proof.
  revert acc. induction fs as [|[a y] fs IH]; intros acc; simpl; [by destruct (String.eqb k k')|].
  rewrite IH. destruct (String.eqb_spec k k') as [<-|Hk].
  - destruct (String.eqb_spec a k) as [->|Ha]; simpl; rewrite ?String.eqb_refl;
      [by destruct (existsb _ fs)|]. by rewrite (proj2 (String.eqb_neq a k) Ha).
  - destruct (String.eqb_spec a k') as [->|Ha]; simpl; [|done].
    by rewrite (proj2 (String.eqb_neq k' k)) by congruence.
Qed.

Lemma obj_get_obj_set k k' x fs :
  obj_get k (obj_set k' x fs) = if String.eqb k k' then Some x else obj_get k fs.
Proof.
  unfold obj_set. destruct (existsb _ fs) eqn:E.
  - unfold obj_get. rewrite fold_map_set, E. done.
  - rewrite obj_get_app. simpl. rewrite String.eqb_sym. by destruct (String.eqb k k').
Qed.

(** What [cancelReservation] of the context does to its list: on
    success every reservation is mapped by [mark_cancelled]; when the
    request fails (both API paths rejected) the state is unchanged. *)
Theorem ctx_cancel_state reservationId (w : World Store) s :
  let '(r, (w', s')) := ctx_cancelReservation reservationId (w, s) in
  match r with
  | Ok _ => s' = set_reservations (map_json (mark_cancelled reservationId) (ss_reservations s)) s
  | Err _ => s' = s
  end.
Proof.
  unfold ctx_cancelReservation, require_token. app_unfold.
  destruct (truthy (ss_token s)); [|done]. cbn.
  by destruct (cancelReservation reservationId (template (ss_token s)) w) as [[r|e] w'].
Qed.

(** [{ ...reservation, status: "cancelled" }] for the reservation
    whose [_id] is the id: its [status] reads "cancelled" and every other
    field reads as before; a reservation with another id is unchanged. *)
Theorem mark_cancelled_get reservationId v k :
  json_get k (mark_cancelled reservationId v) =
  if field_is "_id" reservationId v && String.eqb k "status" then Some (JStr "cancelled")
  else json_get k v.
Proof.
  destruct v as [| | | | |fs]; try reflexivity.
  unfold mark_cancelled. destruct (field_is "_id" reservationId (JObj fs)); [|done].
  simpl. apply obj_get_obj_set.
Qed.

(** C23. Without a token the three handlers of the reservation context
    throw "Authentication token is required" before sending anything
    and leave the state as it was. *)
Theorem no_token_no_request (w : World Store) s userId data reservationId :
  truthy (ss_token s) = false ->
  fetchReservations userId (w, s) = (Err (JsError "Authentication token is required"), (w, s)) /\
  ctx_createReservation data (w, s) = (Err (JsError "Authentication token is required"), (w, s)) /\
  ctx_cancelReservation reservationId (w, s) = (Err (JsError "Authentication token is required"), (w, s)).
Proof.
  intros H. unfold fetchReservations, ctx_createReservation, ctx_cancelReservation, require_token.
  app_unfold. rewrite H. done.
Qed.
End ReservationTheorems.

(** ** Runs *)

Definition auth_body : json :=
  JObj [("user", JObj [("_id", JStr "u1"); ("name", JStr "Ann")]); ("token", JStr "tok");
        ("valid", JBool true)].

(** A backend that accepts every request. *)
Definition auth_net (_ : nat) (_ : Request) : Outcome := Answer 200 (BJson auth_body).

Definition auth_world : World (gmap string string) := initial_world ∅ auth_net (fun _ => 0%nat).

Lemma session_restored_witness :
  match auth_login "ann@example.com" "pw" (auth_world, session_initial) with
  | (Ok _, (w1, s1)) =>
      let '(r, (w2, s2)) :=
        loadUserFromStorage (initial_world (w_store w1) auth_net (fun _ => 0%nat), session_initial) in
      r = Ok tt /\ ss_user s2 = ss_user s1 /\ ss_token s2 = ss_token s1 /\ ss_loading s2 = false
  | _ => False
  end.
Proof.
  destruct (auth_login _ _ _) as [[[]|e] [w1 s1]] eqn:E; [|vm_compute in E; discriminate].
  assert (Hs := E). vm_compute in Hs. injection Hs as _ Hs1.
  apply (session_restored _ _ _ _ w1 s1 auth_net _ E); rewrite <-Hs1.
  - discriminate.
  - exists 200%Z, (BJson auth_body). vm_compute. repeat split.
Defined.

(** Offline: nothing answers. *)
Lemma offline_start_erases_session_witness :
  let '(r, (w', s')) :=
    loadUserFromStorage (initial_world (<["token":="tok"]> (<["user":="{}"]> (∅ : gmap string string)))
                           (fun _ _ => NoResponse) (fun _ => 0%nat), session_initial) in
  r = Ok tt /\ kv_get (w_store w') "user" = None /\ kv_get (w_store w') "token" = None /\
  ss_user s' = None /\ ss_loading s' = false.
Proof.
  apply (offline_start_erases_session _ _ _ "{}" "tok"); try reflexivity; try discriminate; exact I.
Defined.

Lemma no_token_no_request_witness :
  fetchReservations "u1" (auth_world, session_initial) =
    (Err (JsError "Authentication token is required"), (auth_world, session_initial)) /\
  ctx_createReservation JNull (auth_world, session_initial) =
    (Err (JsError "Authentication token is required"), (auth_world, session_initial)) /\
  ctx_cancelReservation "r1" (auth_world, session_initial) =
    (Err (JsError "Authentication token is required"), (auth_world, session_initial)).
Proof. apply no_token_no_request. reflexivity. Defined.

Definition signed_in : Session := set_token (Some (JStr "tok")) session_initial.

Lemma logout_clears_session_witness :
  let '(r, (w', s')) := auth_logout (auth_world, signed_in) in
  r = Ok tt /\ ss_user s' = None /\ ss_token s' = None /\
  kv_get (w_store w') "user" = None /\ kv_get (w_store w') "token" = None /\
  w_sent w' = w_sent auth_world ++ [logout_request (w_base auth_world) "tok"].
Proof. exact (logout_clears_session auth_world signed_in). Defined.
