(* ===== verification/ReservationModal.v ===== *)
(** * The create-reservation wizard ([components/create-reservation-modal.tsx])

    The modal's React state is the record [Wizard]; each handler of the
    component is a function from the wizard state to an [Api] computation
    returning the next wizard state, so that its alerts and its requests
    ([fetchFacilities], [getAvailableTimeSlots], [createReservation]) land
    in the same [World].  The effect that fetches time slots runs when
    [step], [selectedFacility] or [date] changed and the wizard is on step
    2 with a facility ([after_change]).  A [Date] is a time value in ms
    ([Calendar]); the date chips are [now + i] days, i = 0..6 (daylight
    saving time is not modelled).  The footer's primary button is disabled
    while offline, loading or showing success, and the back button while
    loading or showing success; a disabled button's press does nothing. *)

From S2P Require Import Prelude Json Http Endpoint ApiService Calendar.
From Stdlib Require Import Ascii ZArith.

Record Facility := mkFacility {
  fac_id : option json;       (** [facility._id] *)
  fac_name : option json;
  fac_type : option json;
}.

(** What the modal reads from the auth and network contexts. *)
Record WizardEnv := mkEnv {
  env_token : option string;
  env_user_id : option json;   (** [user?._id] *)
  env_connected : option bool;
  env_tz : Z;                  (** the local zone, minutes east of UTC *)
}.

Record Wizard := mkWizard {
  wz_step : nat;
  wz_loading : bool;
  wz_loadingSlots : bool;
  wz_success : bool;
  wz_facilities : list Facility;
  wz_selected : option Facility;
  wz_date : Z;
  wz_slots : option json;          (** [availableTimeSlots] *)
  wz_slot : option string;         (** [selectedTimeSlot] *)
  wz_attendees : string;
  wz_notes : string;
  wz_closed : bool;                (** [onClose()] was called *)
}.

(** ** Strings: [trim] and [parseInt(s, 10)] *)

Definition is_js_space (c : ascii) : bool :=
  let n := nat_of_ascii c in (n =? 32)%nat || ((9 <=? n)%nat && (n <=? 13)%nat).

Fixpoint drop_space (l : list ascii) : list ascii :=
  match l with c :: l' => if is_js_space c then drop_space l' else l | [] => [] end.

Definition trim (s : string) : string :=
  String.string_of_list_ascii
    (rev (drop_space (rev (drop_space (String.list_ascii_of_string s))))).

Fixpoint digits_prefix (acc : option Z) (l : list ascii) : option Z :=
  match l with
  | c :: l' => match char_digit c with
               | Some v => digits_prefix (Some (match acc with Some a => a * 10 + v | None => v end)) l'
               | None => acc
               end
  | [] => acc
  end.

(** [parseInt(s, 10)]: [None] is [NaN]. *)
Definition parseInt (s : string) : option Z :=
  match drop_space (String.list_ascii_of_string s) with
  | "-"%char :: l => Z.opp <$> digits_prefix None l
  | "+"%char :: l => digits_prefix None l
  | l => digits_prefix None l
  end.

(** ** The reservation sent *)

(** [JSON.stringify] drops a property whose value is [undefined]. *)
Definition opt_field (k : string) (v : option json) : list (string * json) :=
  match v with Some x => [(k, x)] | None => [] end.

Definition reservation_data (f : Facility) (slot : string) (wz : Wizard) : json :=
  JObj (opt_field "facilityId" (fac_id f) ++ opt_field "facilityName" (fac_name f) ++
        [("date", JStr (iso_date (wz_date wz))); ("timeSlot", JStr slot);
         ("attendees", match parseInt (wz_attendees wz) with Some n => JNum n | None => JNull end)] ++
        (if String.eqb (trim (wz_notes wz)) "" then [] else [("notes", JStr (trim (wz_notes wz)))])).

(** ** Equality of facilities, for the effect's dependency check

    React compares [selectedFacility] with [Object.is], by reference.  The
    facilities of one fetch are distinct objects and a selection is one of
    them, so comparing by content agrees with it unless two listed
    facilities have identical fields. *)

Fixpoint json_eqb (a b : json) : bool :=
  match a, b with
  | JNull, JNull => true
  | JBool x, JBool y => Bool.eqb x y
  | JNum x, JNum y => Z.eqb x y
  | JStr x, JStr y => String.eqb x y
  | JArr xs, JArr ys =>
      (fix go (xs ys : list json) : bool :=
         match xs, ys with
         | [], [] => true
         | x :: xs', y :: ys' => json_eqb x y && go xs' ys'
         | _, _ => false
         end) xs ys
  | JObj xs, JObj ys =>
      (fix go (xs ys : list (string * json)) : bool :=
         match xs, ys with
         | [], [] => true
         | (k, x) :: xs', (k', y) :: ys' => String.eqb k k' && json_eqb x y && go xs' ys'
         | _, _ => false
         end) xs ys
  | _, _ => false
  end.

Definition opt_json_eqb (a b : option json) : bool :=
  match a, b with Some x, Some y => json_eqb x y | None, None => true | _, _ => false end.

Definition fac_eqb (a b : Facility) : bool :=
  opt_json_eqb (fac_id a) (fac_id b) && opt_json_eqb (fac_name a) (fac_name b) &&
  opt_json_eqb (fac_type a) (fac_type b).

Definition opt_fac_eqb (a b : option Facility) : bool :=
  match a, b with Some x, Some y => fac_eqb x y | None, None => true | _, _ => false end.

(** ** Setters *)

Definition set_step (n : nat) (wz : Wizard) : Wizard :=
  mkWizard n (wz_loading wz) (wz_loadingSlots wz) (wz_success wz) (wz_facilities wz)
    (wz_selected wz) (wz_date wz) (wz_slots wz) (wz_slot wz) (wz_attendees wz) (wz_notes wz) (wz_closed wz).
Definition set_loading (b : bool) (wz : Wizard) : Wizard :=
  mkWizard (wz_step wz) b (wz_loadingSlots wz) (wz_success wz) (wz_facilities wz)
    (wz_selected wz) (wz_date wz) (wz_slots wz) (wz_slot wz) (wz_attendees wz) (wz_notes wz) (wz_closed wz).
Definition set_success (b : bool) (wz : Wizard) : Wizard :=
  mkWizard (wz_step wz) (wz_loading wz) (wz_loadingSlots wz) b (wz_facilities wz)
    (wz_selected wz) (wz_date wz) (wz_slots wz) (wz_slot wz) (wz_attendees wz) (wz_notes wz) (wz_closed wz).
Definition set_facilities (l : list Facility) (wz : Wizard) : Wizard :=
  mkWizard (wz_step wz) (wz_loading wz) (wz_loadingSlots wz) (wz_success wz) l
    (wz_selected wz) (wz_date wz) (wz_slots wz) (wz_slot wz) (wz_attendees wz) (wz_notes wz) (wz_closed wz).
Definition set_selected (f : option Facility) (wz : Wizard) : Wizard :=
  mkWizard (wz_step wz) (wz_loading wz) (wz_loadingSlots wz) (wz_success wz) (wz_facilities wz)
    f (wz_date wz) (wz_slots wz) (wz_slot wz) (wz_attendees wz) (wz_notes wz) (wz_closed wz).
Definition set_date (t : Z) (wz : Wizard) : Wizard :=
  mkWizard (wz_step wz) (wz_loading wz) (wz_loadingSlots wz) (wz_success wz) (wz_facilities wz)
    (wz_selected wz) t (wz_slots wz) (wz_slot wz) (wz_attendees wz) (wz_notes wz) (wz_closed wz).
Definition set_slots (v : option json) (wz : Wizard) : Wizard :=
  mkWizard (wz_step wz) (wz_loading wz) (wz_loadingSlots wz) (wz_success wz) (wz_facilities wz)
    (wz_selected wz) (wz_date wz) v (wz_slot wz) (wz_attendees wz) (wz_notes wz) (wz_closed wz).
Definition set_slot (s : option string) (wz : Wizard) : Wizard :=
  mkWizard (wz_step wz) (wz_loading wz) (wz_loadingSlots wz) (wz_success wz) (wz_facilities wz)
    (wz_selected wz) (wz_date wz) (wz_slots wz) s (wz_attendees wz) (wz_notes wz) (wz_closed wz).
Definition set_attendees (s : string) (wz : Wizard) : Wizard :=
  mkWizard (wz_step wz) (wz_loading wz) (wz_loadingSlots wz) (wz_success wz) (wz_facilities wz)
    (wz_selected wz) (wz_date wz) (wz_slots wz) (wz_slot wz) s (wz_notes wz) (wz_closed wz).
Definition set_notes (s : string) (wz : Wizard) : Wizard :=
  mkWizard (wz_step wz) (wz_loading wz) (wz_loadingSlots wz) (wz_success wz) (wz_facilities wz)
    (wz_selected wz) (wz_date wz) (wz_slots wz) (wz_slot wz) (wz_attendees wz) s (wz_closed wz).
Definition set_closed (b : bool) (wz : Wizard) : Wizard :=
  mkWizard (wz_step wz) (wz_loading wz) (wz_loadingSlots wz) (wz_success wz) (wz_facilities wz)
    (wz_selected wz) (wz_date wz) (wz_slots wz) (wz_slot wz) (wz_attendees wz) (wz_notes wz) b.

(** The component's initial state ([useState] defaults) at time [now]. *)
Definition wizard_initial (now : Z) : Wizard :=
  mkWizard 1 false false false [] None now (Some (JArr [])) None "1" "" false.

(** The visible-effect's reset. *)
Definition reset_form (now : Z) (wz : Wizard) : Wizard :=
  mkWizard 1 (wz_loading wz) (wz_loadingSlots wz) (wz_success wz) (wz_facilities wz)
    None now (Some (JArr [])) None "1" "" (wz_closed wz).

(** ** Handlers *)

Definition facility_of (v : json) : Facility :=
  mkFacility (json_get "_id" v) (json_get "name" v) (json_get "type" v).

(** [timeSlots.length]: reading it on [undefined] or [null] throws. *)
Definition slots_length (v : option json) : res Exn (option nat) :=
  match v with
  | None | Some JNull => Err (TypeError "Cannot read property 'length' of undefined")
  | Some (JArr l) => Ok (Some (length l))
  | Some (JStr s) => Ok (Some (String.length s))
  | Some _ => Ok None
  end.

Definition no_connection_message : string :=
  "Please check your internet connection and try again.".

Section Handlers.
Context {Store : Type} `{!KVStore Store}.
Variable env : WizardEnv.

Definition connected : bool := bool_decide (env_connected env = Some true).

(** [fetchFacilities] (lines 42-66). *)
Definition fetchFacilities (token : string) : Api Store (list Facility) :=
  (w <- sget ;;
   resp <- fetch_send GET (w_active w +:+ "/facilities") (Some token) None ;;
   let '(st, b) := resp in
   if is_2xx st then
     (data <- response_json b ;;
      match data with
      | JArr l => if has_null l then sthrow (TypeError "Cannot read property '_id' of null")
                  else sret (map facility_of l)
      | _ => sthrow (TypeError "data.map is not a function")
      end)
   else sthrow (JsError "Failed to fetch facilities"))%st.

(** The effect on [visible]: load the facilities (lines 91-108), then
    reset the form (lines 146-156). *)
Definition open_modal (now : Z) (wz : Wizard) : Api Store Wizard :=
  (wz1 <- (if str_truthy (env_token env) then
             match env_token env with
             | Some tok =>
                 scatch (l <- fetchFacilities tok ;; sret (set_facilities l wz))
                   (fun _ => alert "Error" "Failed to load facilities. Please try again." ;; sret wz)
             | None => sret wz
             end
           else sret wz) ;;
   sret (reset_form now wz1))%st.

(** [fetchTimeSlots] (lines 111-136). *)
Definition fetchTimeSlots (wz : Wizard) : Api Store Wizard :=
  match wz_selected wz, env_token env with
  | Some f, Some tok =>
      if negb (str_truthy (Some tok)) then sret wz
      else if negb connected then
        (alert "No Connection" no_connection_message ;; sret wz)%st
      else
        scatch
          (slots <- getAvailableTimeSlots (template (fac_id f)) (iso_date (wz_date wz)) tok ;;
           n <- of_res (slots_length slots) ;;
           (if decide (n = Some 0%nat) then
              alert "No Available Times"
                "There are no available time slots for this date. Please try another date."
            else sret tt) ;;
           sret (set_slots slots wz))
          (fun _ => alert "Error" "Failed to load available time slots" ;;
                    sret (set_slots (Some (JArr [])) wz))
  | _, _ => sret wz
  end%st.

(** The effect on [[selectedFacility, date, step]] (lines 139-144). *)
Definition after_change (old new : Wizard) : Api Store Wizard :=
  if (Nat.eqb (wz_step new) (wz_step old) && opt_fac_eqb (wz_selected new) (wz_selected old)
      && Z.eqb (wz_date new) (wz_date old))%bool
  then sret new
  else if Nat.eqb (wz_step new) 2 && bool_decide (is_Some (wz_selected new)) then fetchTimeSlots new
  else sret new.

(** [newReservation._id] and the other reads before
    [scheduleReservationReminder], which catches its own errors. *)
Definition schedule_reminder (r : json) : Api Store unit :=
  match r with JNull => sthrow (TypeError "Cannot read property '_id' of null") | _ => sret tt end.

(** [handleSubmit] (lines 184-236). *)
Definition handleSubmit (wz : Wizard) : Api Store Wizard :=
  match wz_selected wz, wz_slot wz, env_token env with
  | Some f, Some slot, Some tok =>
      if negb (str_truthy (Some slot) && str_truthy (Some tok) && truthy (env_user_id env)) then
        (alert "Error" "Please fill all required fields" ;; sret wz)%st
      else if negb connected then
        (alert "No Connection" no_connection_message ;; sret wz)%st
      else
        (ok <- scatch (r <- createReservation (reservation_data f slot wz) tok ;;
                       schedule_reminder r ;; sret true)
                 (fun _ => alert "Error" "Failed to create reservation" ;; sret false) ;;
         sret (set_loading false (if ok then set_success true wz else wz)))%st
  | _, _, _ => (alert "Error" "Please fill all required fields" ;; sret wz)%st
  end.

(** [handleNextStep] (lines 158-174). *)
Definition handleNextStep (wz : Wizard) : Api Store Wizard :=
  if Nat.eqb (wz_step wz) 1 && negb (bool_decide (is_Some (wz_selected wz))) then
    (alert "Error" "Please select a facility" ;; sret wz)%st
  else if Nat.eqb (wz_step wz) 2 && negb (str_truthy (wz_slot wz)) then
    (alert "Error" "Please select a time slot" ;; sret wz)%st
  else if (wz_step wz <? 3)%nat then after_change wz (set_step (S (wz_step wz)) wz)
  else handleSubmit wz.

(** [handlePrevStep] (lines 176-182). *)
Definition handlePrevStep (wz : Wizard) : Api Store Wizard :=
  if (1 <? wz_step wz)%nat then after_change wz (set_step (pred (wz_step wz)) wz)
  else sret (set_closed true wz).
End Handlers.

(** ** The wizard as a reducer over UI events *)

Inductive WizardEvent :=
| Open (now : Z)                   (** [visible] becomes true at time [now] *)
| PressNext                        (** the footer's primary button *)
| PressFooterBack                  (** the footer's Back/Cancel button *)
| PressHeaderBack                  (** the header's back chevron (never disabled) *)
| PressClose                       (** the header's close button *)
| SelectFacility (i : nat)         (** the [i]-th facility of step 1 *)
| SelectDate (now : Z) (i : nat)   (** the [i]-th date chip of step 2, rendered at [now] *)
| SelectSlot (s : string)          (** a listed time slot of step 2 *)
| TypeAttendees (s : string)
| TypeNotes (s : string)
| SuccessTimeout.                  (** the 2 s timer after a success *)

(** Whether [s] is one of the rendered slots. *)
Definition slot_listed (s : string) (v : option json) : bool :=
  match v with
  | Some (JArr l) => existsb (fun x => match x with JStr s' => String.eqb s s' | _ => false end) l
  | _ => false
  end.

Section Reducer.
Context {Store : Type} `{!KVStore Store}.
Variable env : WizardEnv.

Definition wizard_event (e : WizardEvent) (wz : Wizard) : Api Store Wizard :=
  match e with
  | Open now => open_modal env now wz
  | PressNext =>
      if negb (connected env) || wz_loading wz || wz_success wz then sret wz
      else handleNextStep env wz
  | PressFooterBack => if wz_loading wz || wz_success wz then sret wz else handlePrevStep env wz
  | PressHeaderBack => handlePrevStep env wz
  | PressClose => sret (set_closed true wz)
  | SelectFacility i =>
      if Nat.eqb (wz_step wz) 1 then
        match wz_facilities wz !! i with
        | Some f => after_change env wz (set_selected (Some f) wz)
        | None => sret wz
        end
      else sret wz
  | SelectDate now i =>
      if Nat.eqb (wz_step wz) 2 && (i <? 7)%nat then
        after_change env wz (set_slot None (set_date (now + Z.of_nat i * ms_per_day) wz))
      else sret wz
  | SelectSlot s =>
      if Nat.eqb (wz_step wz) 2 && slot_listed s (wz_slots wz) then sret (set_slot (Some s) wz)
      else sret wz
  | TypeAttendees s => if Nat.eqb (wz_step wz) 3 then sret (set_attendees s wz) else sret wz
  | TypeNotes s => if Nat.eqb (wz_step wz) 3 then sret (set_notes s wz) else sret wz
  | SuccessTimeout =>
      if wz_success wz then
        (alert "Success" "Reservation created successfully" ;; sret (set_success false wz))%st
      else sret wz
  end.

Fixpoint run_wizard (es : list WizardEvent) (wz : Wizard) : Api Store Wizard :=
  match es with
  | [] => sret wz
  | e :: es' => (wz' <- wizard_event e wz ;; run_wizard es' wz')%st
  end.

(** The wizard states reachable from the initial one by UI events. *)
Inductive wz_reachable : World Store -> Wizard -> Prop :=
| wz_reach_init w now : wz_reachable w (wizard_initial now)
| wz_reach_step w wz e wz' w' :
    wz_reachable w wz -> wizard_event e wz w = (Ok wz', w') -> wz_reachable w' wz'.

(** ** Where the step goes *)

Lemma fetchTimeSlots_step wz :
  returns (fun v => wz_step v = wz_step wz) (fetchTimeSlots (Store:=Store) env wz).
Proof. unfold fetchTimeSlots. returns_solve; reflexivity. Qed.

Lemma after_change_step old new :
  returns (fun v => wz_step v = wz_step new) (after_change (Store:=Store) env old new).
Proof.
  unfold after_change. destruct (_ && _)%bool; [by apply returns_ret|].
  destruct (_ && _)%bool; [apply fetchTimeSlots_step|by apply returns_ret].
Qed.

Lemma handleSubmit_step wz :
  returns (fun v => wz_step v = wz_step wz) (handleSubmit (Store:=Store) env wz).
Proof.
  unfold handleSubmit. returns_solve;
    repeat match goal with |- context [if ?b then _ else _] => destruct b end; reflexivity.
Qed.

Definition step_ok (v : Wizard) : Prop := (1 <= wz_step v <= 3)%nat.

Lemma wizard_event_step e wz : step_ok wz -> returns step_ok (wizard_event e wz).
Proof.
  intros Hwz. unfold step_ok in *.
  assert (Hac : forall new, (1 <= wz_step new <= 3)%nat ->
            returns step_ok (after_change (Store:=Store) env wz new)).
  { intros new Hn s. pose proof (after_change_step wz new s) as Hs.
    destruct (fst _); [unfold step_ok; lia|done]. }
  assert (Hprev : returns step_ok (handlePrevStep (Store:=Store) env wz)).
  { unfold handlePrevStep. destruct (Nat.ltb_spec 1 (wz_step wz)).
    - apply Hac. simpl. lia.
    - apply returns_ret. unfold step_ok. simpl. lia. }
  destruct e; simpl.
  - unfold open_modal. returns_solve; unfold step_ok; simpl; lia.
  - destruct (negb (connected env) || wz_loading wz || wz_success wz)%bool;
      [apply returns_ret; done|]. unfold handleNextStep.
    destruct (Nat.eqb _ 1 && _)%bool; [returns_solve; done|].
    destruct (Nat.eqb _ 2 && _)%bool; [returns_solve; done|].
    destruct (Nat.ltb_spec (wz_step wz) 3).
    + apply Hac. simpl. lia.
    + intros s. pose proof (handleSubmit_step wz s) as Hs.
      destruct (fst _); [unfold step_ok; lia|done].
  - destruct (_ || _)%bool; [apply returns_ret; done|exact Hprev].
  - exact Hprev.
  - apply returns_ret. done.
  - destruct (Nat.eqb _ _); [|by apply returns_ret].
    destruct (_ !! i); [apply Hac; done|by apply returns_ret].
  - destruct (_ && _)%bool; [apply Hac; done|by apply returns_ret].
  - destruct (_ && _)%bool; by apply returns_ret.
  - destruct (Nat.eqb _ _); by apply returns_ret.
  - destruct (Nat.eqb _ _); by apply returns_ret.
  - destruct (wz_success wz); returns_solve; done.
Qed.

(** C19. In every reachable state of the wizard the step is 1, 2 or 3:
    Next only advances below step 3 and Back only goes back above step 1,
    whatever the network answers. *)
Theorem wizard_step_bounds w wz : wz_reachable w wz -> (1 <= wz_step wz <= 3)%nat.
Proof.
  induction 1 as [w now|w wz e wz' w' _ IH Hrun]; [simpl; lia|].
  exact (returns_run _ _ _ _ _ (wizard_event_step e wz IH) Hrun).
Qed.
End Reducer.

(** ** The date the server receives *)

Lemma json_get_date f slot wz :
  json_get "date" (reservation_data f slot wz) = Some (JStr (iso_date (wz_date wz))).
Proof.
  unfold reservation_data, json_get, opt_field.
  destruct (fac_id f), (fac_name f), (String.eqb (trim (wz_notes wz)) ""); reflexivity.
Qed.

(** Early in the local day, east of UTC, the local day is the UTC day plus one. *)
Lemma local_day_next tz t :
  0 < tz * 60000 < ms_per_day -> (t + tz * 60000) mod ms_per_day < tz * 60000 ->
  local_day tz t = t / ms_per_day + 1.
Proof.
  unfold local_day, ms_per_day. intros Hz Hm.
  pose proof (Z.div_mod t 86400000) as Ht. pose proof (Z.mod_pos_bound t 86400000) as Hr.
  pose proof (Z.div_mod (t + tz * 60000) 86400000) as Ht'.
  pose proof (Z.mod_pos_bound (t + tz * 60000) 86400000) as Hr'. lia.
Qed.

(** C20. The wizard shows the date chips in local time but sends
    [date.toISOString().split('T')[0]], the UTC date: in a zone east of
    UTC, during the first [tz] minutes of the local day, the date sent
    parses to the day before the one the user picked. *)
Theorem submitted_date_is_previous_day f slot wz tz :
  let t := wz_date wz in
  0 < tz * 60000 < ms_per_day ->
  (t + tz * 60000) mod ms_per_day < tz * 60000 ->
  (let '(y, _, _) := civil_from_days (t / ms_per_day) in 0 <= y <= 9999) ->
  exists ds, json_get "date" (reservation_data f slot wz) = Some (JStr ds) /\
    parse_iso_date ds = Some ((local_day tz t - 1) * ms_per_day).
Proof.
  intros t Hz Hm Hy. exists (iso_date t). split; [apply json_get_date|].
  rewrite (local_day_next tz t Hz Hm), Z.add_simpl_r.
  pose proof (iso_date_roundtrip t) as Hrt.
  destruct (civil_from_days (t / ms_per_day)) as [[y m] d]. by apply Hrt.
Qed.

(** ** Submitting *)

Lemma createReservation_sent {Store} `{!KVStore Store} d tok (w : World Store) :
  w_sent (snd (createReservation d tok w)) =
  w_sent w ++ [mkRequest POST (w_active w +:+ "/reservations") (Some (bearer tok)) (Some d) None].
Proof.
  unfold createReservation, fetch_send, send, sget, sbind. cbn.
  destruct (w_net w _ _) as [| |st b]; [done|done|].
  cbn. destruct (is_2xx st); [|done]. unfold response_json. by destruct b.
Qed.

Section Submit.
Context {Store : Type} `{!KVStore Store}.
Variable env : WizardEnv.

(** C22. [handleSubmit] sends a request only when a facility, a
    non-empty time slot, a non-empty token and a user id are present and
    the device is online; it then sends exactly one request, the POST of
    [reservation_data] to [ACTIVE_API_URL + "/reservations"]. *)
Theorem submit_requires_fields wz (w : World Store) :
  w_sent (snd (handleSubmit env wz w)) = w_sent w \/
  exists f slot tok,
    wz_selected wz = Some f /\ wz_slot wz = Some slot /\ env_token env = Some tok /\
    str_truthy (Some slot) = true /\ str_truthy (Some tok) = true /\
    truthy (env_user_id env) = true /\ connected env = true /\
    w_sent (snd (handleSubmit env wz w)) =
      w_sent w ++ [mkRequest POST (w_active w +:+ "/reservations") (Some (bearer tok))
                     (Some (reservation_data f slot wz)) None].
Proof.
  unfold handleSubmit.
  destruct (wz_selected wz) as [f|] eqn:Hf, (wz_slot wz) as [slot|] eqn:Hs,
    (env_token env) as [tok|] eqn:Ht; try (left; reflexivity).
  destruct (str_truthy (Some slot) && str_truthy (Some tok) && truthy (env_user_id env))%bool
    eqn:Hg; [|left; reflexivity]. simpl negb. cbv iota.
  destruct (connected env) eqn:Hc; [|left; reflexivity]. simpl negb. cbv iota.
  right. exists f, slot, tok. rewrite !andb_true_iff in Hg. destruct Hg as [[Hg1 Hg2] Hg3].
  do 7 (split; [done|]).
  set (X := w_sent w ++ _). set (P := fun w' : World Store => w_sent w' = X).
  assert (Hal : forall t m, preserves P (alert t m)) by (intros t m w' Hw; exact Hw).
  apply (preserves_bind_from P); [apply (preserves_catch_from P); [apply (preserves_bind_from P)|]|];
    [apply createReservation_sent|..]; intros; unfold schedule_reminder; preserves_solve.
Qed.
End Submit.

(** ** A slot chosen for one facility survives the choice of another *)

Section StaleSlot.
Context {Store : Type} `{!KVStore Store}.
Variable env : WizardEnv.

(** [fetchTimeSlots] always returns, with only [availableTimeSlots]
    changed: its request and its parsing are in a [try] whose [catch]
    returns. *)
Lemma fetchTimeSlots_succeeds wz :
  succeeds (fun v => exists sl, v = set_slots sl wz) (fetchTimeSlots (Store:=Store) env wz).
Proof.
  assert (Hid : wz = set_slots (wz_slots wz) wz) by (by destruct wz).
  unfold fetchTimeSlots, alert.
  destruct (wz_selected wz), (env_token env); try (apply succeeds_ret; by eexists).
  destruct (negb _); [apply succeeds_ret; by eexists|].
  destruct (negb _); [apply (succeeds_bind (fun _ => True)); [apply succeeds_modify|intros; apply succeeds_ret; by eexists]|].
  apply succeeds_catch; [returns_solve; by eexists|].
  intros e. apply (succeeds_bind (fun _ => True)); [apply succeeds_modify|]. intros _ _. apply succeeds_ret. by eexists.
Qed.

Lemma after_change_sret old new :
  (wz_step new =? 2)%nat = false -> after_change (Store:=Store) env old new = sret new.
Proof. intros H. unfold after_change. rewrite H. by destruct (_ && _)%bool. Qed.

(** C21. Changing the facility keeps the time slot chosen for the
    previous one.  From step 2 with a slot [t] selected, Back, the choice
    of any other facility [g] and Next twice reach the confirmation step
    with [g] and still [t], whatever the backend lists as [g]'s free
    slots: the slot is never checked against them, so the reservation
    the next press submits is for a slot the backend may not offer. *)
Theorem stale_slot_kept wz (w : World Store) i g t :
  connected env = true -> wz_step wz = 2%nat -> wz_loading wz = false -> wz_success wz = false ->
  wz_slot wz = Some t -> t <> "" -> wz_facilities wz !! i = Some g ->
  exists wz' w',
    run_wizard env [PressFooterBack; SelectFacility i; PressNext; PressNext] wz w = (Ok wz', w') /\
    wz_step wz' = 3%nat /\ wz_selected wz' = Some g /\ wz_slot wz' = Some t.
Proof.
  intros Hc Hs Hl Hsu Ht Hne Hg.
  set (wz1 := set_step 1 wz). set (wz2 := set_selected (Some g) wz1).
  assert (E1 : wizard_event env PressFooterBack wz w = (Ok wz1, w)).
  { cbn [wizard_event]. rewrite Hl, Hsu. unfold handlePrevStep. rewrite Hs. cbn.
    by rewrite after_change_sret. }
  assert (E2 : wizard_event env (SelectFacility i) wz1 w = (Ok wz2, w)).
  { cbn [wizard_event]. cbn [wz1 set_step wz_step wz_facilities]. rewrite Hg. cbn.
    by rewrite after_change_sret. }
  destruct (succeeds_run _ (fetchTimeSlots (Store:=Store) env (set_step 2 wz2)) w
              (fetchTimeSlots_succeeds _)) as (wz3 & w3 & E3f & sl & ->).
  assert (E3 : wizard_event env PressNext wz2 w = (Ok (set_slots sl (set_step 2 wz2)), w3)).
  { cbn [wizard_event]. rewrite Hc. cbn [wz2 wz1 set_selected set_step wz_loading wz_success].
    rewrite Hl, Hsu. unfold handleNextStep. cbn. unfold after_change. cbn. exact E3f. }
  assert (E4 : wizard_event env PressNext (set_slots sl (set_step 2 wz2)) w3 =
               (Ok (set_step 3 (set_slots sl (set_step 2 wz2))), w3)).
  { cbn [wizard_event]. rewrite Hc. cbn [wz2 wz1 set_slots set_selected set_step wz_loading wz_success wz_slot].
    rewrite Hl, Hsu. unfold handleNextStep. cbn [wz_step wz_slot set_slots set_step wz2 wz1 set_selected].
    rewrite Ht. cbn. replace (String.eqb t "") with false by (symmetry; by apply String.eqb_neq).
    cbn. reflexivity. }
  do 2 eexists. split.
  - cbn [run_wizard]. rewrite (sbind_ok _ _ _ _ _ E1), (sbind_ok _ _ _ _ _ E2), (sbind_ok _ _ _ _ _ E3),
      (sbind_ok _ _ _ _ _ E4). reflexivity.
  - cbn. by rewrite Ht.
Qed.
End StaleSlot.

(** ** A run: two facilities with different free slots *)

Definition court (id name : string) : json :=
  JObj [("_id", JStr id); ("name", JStr name); ("type", JStr "tennis")].

(** The backend answers, in order: the facility list, the free slots of
    court A, those of court B, and the created reservation. *)
Definition wizard_net (n : nat) (_ : Request) : Outcome :=
  match n with
  | 0 => Answer 200 (BJson (JArr [court "A" "Court A"; court "B" "Court B"]))
  | 1 => Answer 200 (BJson (JObj [("availableSlots", JArr [JStr "10:00"])]))
  | 2 => Answer 200 (BJson (JObj [("availableSlots", JArr [JStr "11:00"])]))
  | 3 => Answer 201 (BJson (JObj [("_id", JStr "r1")]))
  | _ => NoResponse
  end%nat.

Definition wizard_world : World (gmap string string) := initial_world ∅ wizard_net (fun _ => 0%nat).

Definition wizard_env : WizardEnv := mkEnv (Some "tok") (Some (JStr "u1")) (Some true) 300.

(** Pick court A and its 10:00 slot, go back, pick court B, go on and submit. *)
Definition stale_events : list WizardEvent :=
  [Open 0; SelectFacility 0; PressNext; SelectSlot "10:00"; PressFooterBack;
   SelectFacility 1; PressNext; PressNext; PressNext].

(** Choosing another facility keeps the time slot chosen for the
    previous one: after picking court A at 10:00, going back and picking
    court B, whose only free slot is 11:00, Next passes the slot check and
    the wizard submits a reservation of court B at 10:00, a slot the
    backend never offered for it. *)
Example stale_slot_submitted :
  let '(r, w) := run_wizard wizard_env stale_events (wizard_initial 0) wizard_world in
  match r, last (w_sent w) with
  | Ok wz, Some req =>
      match rq_body req with
      | Some b =>
          json_get "facilityId" b = Some (JStr "B") /\ json_get "timeSlot" b = Some (JStr "10:00") /\
          slot_listed "10:00" (wz_slots wz) = false /\ wz_success wz = true
      | None => False
      end
  | _, _ => False
  end.
Proof. vm_compute. repeat split. Qed.

Lemma wizard_step_bounds_witness :
  match wizard_event wizard_env (Open 0) (wizard_initial 0) wizard_world with
  | (Ok wz, _) => (1 <= wz_step wz <= 3)%nat
  | (Err _, _) => False
  end.
Proof.
  destruct (wizard_event _ _ _ _) as [[wz|e] w'] eqn:E; [|vm_compute in E; discriminate].
  apply (wizard_step_bounds wizard_env w'). eapply wz_reach_step; [apply wz_reach_init|exact E].
Defined.

(** 02:00 in Karachi (UTC+5) is 21:00 UTC the day before. *)
Definition late_wizard : Wizard :=
  set_date (19700 * ms_per_day + 21 * 3600000) (wizard_initial 0).

Lemma submitted_date_is_previous_day_witness :
  exists ds, json_get "date" (reservation_data (facility_of (court "A" "Court A")) "10:00" late_wizard)
               = Some (JStr ds) /\
    parse_iso_date ds = Some ((local_day 300 (wz_date late_wizard) - 1) * ms_per_day).
Proof.
  apply (submitted_date_is_previous_day (facility_of (court "A" "Court A")) "10:00" late_wizard 300);
    vm_compute; [split; reflexivity|reflexivity|split; discriminate].
Defined.

(** Court A's 10:00 slot chosen at step 2. *)
Definition slot_a_chosen : Wizard :=
  match run_wizard wizard_env [Open 0; SelectFacility 0; PressNext; SelectSlot "10:00"]
          (wizard_initial 0) wizard_world with
  | (Ok wz, _) => wz
  | (Err _, _) => wizard_initial 0
  end.

Lemma stale_slot_kept_witness :
  exists wz' w',
    run_wizard wizard_env [PressFooterBack; SelectFacility 1; PressNext; PressNext] slot_a_chosen wizard_world =
      (Ok wz', w') /\
    wz_step wz' = 3%nat /\ wz_selected wz' = Some (facility_of (court "B" "Court B")) /\ wz_slot wz' = Some "10:00".
Proof. apply stale_slot_kept; vm_compute; try reflexivity. discriminate. Defined.
