(* ===== verification/ReservationsScreen.v ===== *)
(** * The reservations screen and its list item
      ([screens/reservations-screen.tsx], [components/reservation-item.tsx])

    The screen lists the reservation context's [reservations] in two tabs,
    "upcoming" and "past", by comparing [new Date(reservation.date)] with
    [new Date()] ([in_tab]); each item shows a cancel button unless the
    list is the past tab or the reservation is cancelled
    ([cancel_visible]).  Its handlers run in the contexts' monad [App]:
    [loadReservations] (lines 20-35) and the confirmation's "Yes" branch
    of [handleCancelReservation] (lines 55-81).  The screen's own
    [loading] and [refreshing] flags, its events and its JSX are in
    [ReservationsView].  Dates are [Calendar]'s time values; the item's
    [toLocaleDateString] shows the local calendar date of the parsed
    value ([local_civil]). *)

From S2P Require Import Prelude Json Http Endpoint ApiService Calendar Contexts.
From Stdlib Require Import Ascii ZArith.

Inductive Tab := Upcoming | Past.

(** [new Date(reservation.date)]. *)
Definition res_date (r : json) : option Z := js_date (json_get "date" r).

(** The callback of [reservations.filter] (lines 86-96) at time [now]; a
    comparison with an invalid date is false. *)
Definition in_tab (tab : Tab) (now : Z) (r : json) : bool :=
  match tab with
  | Upcoming =>
      match res_date r with Some d => (now <=? d)%Z | None => false end &&
      negb (field_is "status" "cancelled" r)
  | Past =>
      match res_date r with Some d => (d <? now)%Z | None => false end ||
      field_is "status" "cancelled" r
  end.

Definition filteredReservations (tab : Tab) (now : Z) (l : list json) : list json :=
  List.filter (in_tab tab now) l.

(** [ReservationItem]'s cancel button (lines 75-79). *)
Definition cancel_visible (isPast : bool) (r : json) : bool :=
  negb isPast && negb (field_is "status" "cancelled" r).

(** [getStatusColor] of the item (lines 20-31). *)
Definition item_status_color (status : option json) : string :=
  match status with
  | Some (JStr s) =>
      if String.eqb s "confirmed" then "#10b981"
      else if String.eqb s "pending" then "#f59e0b"
      else if String.eqb s "cancelled" then "#ef4444"
      else "#6b7280"
  | _ => "#6b7280"
  end.

(** [s.charAt(0).toUpperCase() + s.slice(1)] on ASCII text. *)
Definition ascii_upper (c : ascii) : ascii :=
  let n := nat_of_ascii c in if (97 <=? n)%nat && (n <=? 122)%nat then ascii_of_nat (n - 32) else c.

Definition capitalize (s : string) : string :=
  match s with EmptyString => EmptyString | String c s' => String (ascii_upper c) s' end.

(** The date the item and the dashboard show for a reservation: the
    local calendar date of [new Date(date)] in a zone [tz] minutes east
    of UTC. *)
Definition shown_date (tz : Z) (r : json) : option (Z * Z * Z) :=
  match res_date r with Some t => Some (local_civil tz t) | None => None end.

(** ** Handlers *)

(** [user._id] as [fetchReservations] passes it on: a falsy id takes the
    [!userId] branch of [getUserReservations], as the empty string does. *)
Definition user_id_arg (v : option json) : string := if truthy v then template v else "".

Section Handlers.
Context {Store : Type} `{!KVStore Store}.

(** [loadReservations] (lines 20-35): [user] is the auth context's. *)
Definition loadReservations (user : option json) : App Store unit :=
  if truthy user then
    scatch (fetchReservations (user_id_arg (user ≫= json_get "_id")))
      (fun _ => api (alert "Error" "Failed to load reservations"))
  else sret tt.

Definition cancel_failed_message : string :=
  "Failed to cancel reservation on the server. The reservation has been marked as cancelled locally.".

(** The "Yes" button of [handleCancelReservation] (lines 55-81). *)
Definition handleCancelReservation (user : option json) (reservationId : string) : App Store unit :=
  scatch
    (result <- ctx_cancelReservation reservationId ;;
     (if field_is "status" "cancelled" result
      then api (alert "Success" "Reservation cancelled successfully")
      else api (alert "Note" "Reservation status updated locally. Changes will sync when connection is restored.")) ;;
     loadReservations user)%st
    (fun _ => api (alert "Error" cancel_failed_message) ;; loadReservations user)%st.
End Handlers.

(** ** Theorems *)

Lemma iso_date_length t : length (String.list_ascii_of_string (iso_date t)) = 10%nat.
Proof.
  unfold iso_date. rewrite String.list_ascii_of_string_of_list_ascii. unfold iso_date_chars.
  destruct (civil_from_days _) as [[? ?] ?]. rewrite !length_app, !length_dec_digits. done.
Qed.

(** C30. A reservation dated the current local day is listed under
    "past" as soon as UTC midnight of that date has passed, whatever its
    time slot: [new Date("YYYY-MM-DD")] is UTC midnight and the filter
    compares it with the current instant.  In UTC and west of it this is
    the whole day. *)
Theorem todays_reservation_past tz now r :
  json_get "date" r = Some (JStr (iso_date (now + tz * 60000))) ->
  (let '(y, _, _) := civil_from_days ((now + tz * 60000) / ms_per_day) in 0 <= y <= 9999) ->
  local_day tz now * ms_per_day < now ->
  in_tab Past now r = true /\ in_tab Upcoming now r = false.
Proof.
  intros Hd Hy Hlt. unfold in_tab, res_date, js_date. rewrite Hd.
  pose proof (iso_date_roundtrip (now + tz * 60000)) as Hrt.
  destruct (civil_from_days _) as [[y m] d]. specialize (Hrt Hy).
  unfold parse_iso_date in Hrt. unfold parse_date_chars. rewrite iso_date_length, Hrt. unfold local_day in Hlt. split; [apply orb_true_intro; left|]; apply Z.ltb_lt || apply andb_false_intro1, Z.leb_gt; lia.
Qed.

(** For a valid date, every reservation is in exactly one of the two tabs. *)
Theorem tabs_partition now r :
  res_date r <> None -> in_tab Upcoming now r = negb (in_tab Past now r).
Proof.
  intros H. unfold in_tab. destruct (res_date r) as [d|]; [|congruence].
  destruct (field_is "status" "cancelled" r), (Z.leb_spec now d), (Z.ltb_spec d now); simpl; lia || done.
Qed.

(** The cancel button appears exactly on the items of the upcoming tab. *)
Theorem cancel_button_upcoming_only tab now r :
  in_tab tab now r = true ->
  cancel_visible (match tab with Past => true | Upcoming => false end) r =
  match tab with Upcoming => true | Past => false end.
Proof.
  unfold cancel_visible. destruct tab; simpl; [|done]. intros H. apply andb_true_iff in H as [_ H]. exact H.
Qed.

(** C31. West of UTC a reservation's date is shown as the day before:
    the item and the dashboard format [new Date("YYYY-MM-DD")], UTC
    midnight of day [D], in local time, which is a date of day [D - 1],
    different from the reservation's. *)
Theorem shown_date_west tz r D :
  res_date r = Some (D * ms_per_day) -> -1440 < tz < 0 ->
  shown_date tz r = Some (civil_from_days (D - 1)) /\ civil_from_days (D - 1) <> civil_from_days D.
Proof.
  intros Hr Hz. unfold shown_date, local_civil, local_day. rewrite Hr. split.
  - do 2 f_equal. symmetry. apply Z.div_unique with (r := ms_per_day + tz * 60000);
      unfold ms_per_day in *; lia.
  - intros E. pose proof (civil_from_days_spec (D - 1)) as H1. pose proof (civil_from_days_spec D) as H2.
    rewrite E in H1. destruct (civil_from_days D) as [[y m] d]. lia.
Qed.

(** ** Handlers when the backend is unreachable *)

Definition offline {Store} (w : World Store) : Prop := forall n r, w_net w n r = NoResponse.

Section Offline.
Context {Store : Type} `{!KVStore Store}.

#[local] Arguments cancelReservation : simpl never.
#[local] Arguments getUserReservations : simpl never.

Lemma fetch_send_offline (w : World Store) m url tok body :
  offline w -> fetch_send m url tok body w = (Err FetchFailed, push_sent (mkRequest m url (bearer <$> tok) body None) w).
Proof. intros H. unfold fetch_send, send, sbind. simpl. by rewrite H. Qed.

(** A world that only gained requests or alerts is still offline. *)
Lemma offline_push_sent (w : World Store) r : offline w -> offline (push_sent r w).
Proof. done. Qed.

Lemma offline_push_alert (w : World Store) a : offline w -> offline (push_alert a w).
Proof. done. Qed.

Lemma cancelReservation_offline id tok (w : World Store) :
  offline w -> exists w', cancelReservation id tok w = (Err FetchFailed, w') /\ offline w' /\
    w_alerts w' = w_alerts w.
Proof.
  intros H. unfold cancelReservation, sbind, sget. simpl. rewrite fetch_send_offline by done.
  eexists. split; [reflexivity|]. split; [by apply offline_push_sent|done].
Qed.

Lemma getUserReservations_offline uid tok (w : World Store) :
  uid <> "" -> offline w -> exists w', getUserReservations uid tok w = (Err FetchFailed, w') /\
    w_alerts w' = w_alerts w.
Proof.
  intros Hu H. unfold getUserReservations. rewrite eqb_nonempty by done.
  unfold sbind, sget. simpl. rewrite fetch_send_offline by done. eexists. split; [reflexivity|done].
Qed.

(** C32. When the cancel request cannot reach the server, the screen
    tells the user "The reservation has been marked as cancelled
    locally", but the reservation context only marks a reservation
    cancelled after the server accepted it: the list is left as it was,
    and the reload fails with a second alert. *)
Theorem cancel_failure_not_local user uid reservationId (w : World Store) s :
  offline w -> truthy (ss_token s) = true -> truthy user = true ->
  (user ≫= json_get "_id") = Some (JStr uid) -> uid <> "" ->
  let '(r, (w', s')) := handleCancelReservation user reservationId (w, s) in
  r = Ok tt /\ ss_reservations s' = ss_reservations s /\
  w_alerts w' = w_alerts w ++ [("Error", cancel_failed_message); ("Error", "Failed to load reservations")].
Proof.
  intros Hoff Htok Huser Hid Huid.
  destruct (cancelReservation_offline reservationId (template (ss_token s)) w Hoff) as (w1 & Hc & Hoff1 & Ha1).
  unfold handleCancelReservation, ctx_cancelReservation, require_token, loadReservations, fetchReservations.
  app_unfold. rewrite Htok. cbn. rewrite Hc. cbn. rewrite Huser, Hid. cbn.
  unfold user_id_arg. simpl. rewrite eqb_nonempty by done. simpl. rewrite Htok. cbn.
  destruct (getUserReservations_offline uid (template (ss_token s)) (push_alert ("Error", cancel_failed_message) w1)
              Huid (offline_push_alert _ _ Hoff1)) as (w2 & Hg & Ha2).
  rewrite Hg. cbn. split; [done|]. split; [done|]. rewrite Ha2. simpl. rewrite Ha1, <-app_assoc. done.
Qed.
End Offline.

(** ** Runs *)

(** 10:00 UTC on 2025-04-10 (day 20188). *)
Definition morning : Z := 20188 * ms_per_day + 10 * 3600000.

Definition today_res : json :=
  JObj [("_id", JStr "r1"); ("date", JStr "2025-04-10"); ("timeSlot", JStr "18:00");
        ("status", JStr "confirmed")].

Lemma todays_reservation_past_witness :
  in_tab Past morning today_res = true /\ in_tab Upcoming morning today_res = false.
Proof.
  apply (todays_reservation_past 0 morning today_res); vm_compute; [reflexivity|split; discriminate|reflexivity].
Defined.

Lemma tabs_partition_witness :
  in_tab Upcoming morning today_res = negb (in_tab Past morning today_res).
Proof. apply tabs_partition. vm_compute. discriminate. Defined.

(** New York, UTC-5. *)
Lemma shown_date_west_witness :
  shown_date (-300) today_res = Some (civil_from_days (20188 - 1)) /\
  civil_from_days (20188 - 1) <> civil_from_days 20188.
Proof. apply shown_date_west; [vm_compute; reflexivity|lia]. Defined.

Definition offline_world : World (gmap string string) :=
  initial_world ∅ (fun _ _ => NoResponse) (fun _ => 0%nat).

Definition member : json := JObj [("_id", JStr "u1"); ("name", JStr "Ann")].

Lemma cancel_failure_not_local_witness :
  let '(r, (w', s')) := handleCancelReservation (Some member) "r1"
                          (offline_world, set_reservations (JArr [today_res]) signed_in) in
  r = Ok tt /\ ss_reservations s' = JArr [today_res] /\
  w_alerts w' = [("Error", cancel_failed_message); ("Error", "Failed to load reservations")].
Proof.
  apply (cancel_failure_not_local (Some member) "u1"); try reflexivity; [intros n r; reflexivity|discriminate].
Defined.
