(* ===== verification/View.v ===== *)
(** * Rendering: what a React Native screen shows

    A screen's JSX is modelled as a list of [Elem]s, in the order they
    appear: texts, icons, buttons with the action their [onPress]
    performs ([None] for a touchable without one), text inputs with the
    action their [onChangeText] performs, switches, badges, spinners and
    modals.  Styling is not modelled.  The JavaScript values a [Text]
    shows are [jsx_text]: rendering an object throws. *)

From S2P Require Import Prelude Json.
From stdpp Require Import pretty.

(** What a [Text] shows of a value: strings and numbers as text, [null]
    and booleans as nothing, arrays as the concatenation of their
    elements; an object is not a valid child and throws. *)
Fixpoint jsx_text (v : json) : option string :=
  match v with
  | JStr s => Some s
  | JNum n => Some (pretty n)
  | JNull | JBool _ => Some ""
  | JArr l =>
      (fix go (l : list json) : option string :=
         match l with
         | [] => Some ""
         | x :: l' => s1 ← jsx_text x; s2 ← go l'; Some (s1 +:+ s2)
         end) l
  | JObj _ => None
  end.

(** [{v}] of a possibly-undefined value. *)
Definition jsx_child (v : option json) : option string :=
  match v with Some x => jsx_text x | None => Some "" end.

(** [{v || dflt}] *)
Definition jsx_or (v : option json) (dflt : string) : option string :=
  if truthy v then jsx_child v else Some dflt.

(** [a?.k1?.k2...] *)
Fixpoint opt_path (keys : list string) (v : option json) : option json :=
  match keys with
  | [] => v
  | k :: ks => opt_path ks (match v with Some x => json_get k x | None => None end)
  end.

Inductive Elem (A : Type) :=
| Spinner (message : string)                     (** [LoadingSpinner], [ActivityIndicator] *)
| RefreshFlag (refreshing : bool)                (** [RefreshControl] *)
| Label (text : string)
| DateLabel (day : option (Z * Z * Z)) (suffix : string)   (** a formatted local date *)
| Icon (name : string)
| Button (label : string) (on : option A)
| Input (value placeholder : string) (on : string -> A)
| Toggle (value : bool) (on : A)                 (** [Switch] *)
| Badge (color : string) (text : string)
| Highlight (on : bool)                          (** the selected style of the next element *)
| Dot                                            (** a small styled [View], e.g. an unread indicator *)
| ModalShown (visible : bool).
Arguments Spinner {A} message. Arguments RefreshFlag {A} refreshing. Arguments Label {A} text.
Arguments DateLabel {A} day suffix. Arguments Icon {A} name. Arguments Button {A} label on.
Arguments Input {A} value placeholder on. Arguments Toggle {A} value on.
Arguments Badge {A} color text. Arguments Highlight {A} on. Arguments Dot {A}. Arguments ModalShown {A} visible.

(** The actions a rendered list lets the user perform: a button's
    [onPress] when it has one, a text input's [onChangeText] with any
    text, a switch's [onValueChange]. *)
Definition elem_offers {A} (a : A) (e : Elem A) : Prop :=
  match e with
  | Button _ (Some a') => a = a'
  | Input _ _ on => exists text, a = on text
  | Toggle _ on => a = on
  | _ => False
  end.

Definition offered {A} (a : A) (els : list (Elem A)) : Prop := Exists (elem_offers a) els.

(** The number of elements of a rendered list with a property. *)
Definition count_elems {A} (p : Elem A -> bool) (els : list (Elem A)) : nat := length (List.filter p els).

Lemma count_app {A} (p : Elem A -> bool) l1 l2 : count_elems p (l1 ++ l2) = count_elems p l1 + count_elems p l2.
Proof. unfold count_elems. induction l1 as [|e l1 IH]; simpl; [done|]. destruct (p e); simpl; lia. Qed.

Definition is_badge {A} (e : Elem A) : bool := match e with Badge _ _ => true | _ => false end.

Definition is_button {A} (label : string) (e : Elem A) : bool :=
  match e with Button l _ => String.eqb l label | _ => false end.

(** The number of status badges of a rendered list. *)
Definition badges {A} (els : list (Elem A)) : nat := count_elems is_badge els.

Lemma badges_app {A} (l1 l2 : list (Elem A)) : badges (l1 ++ l2) = badges l1 + badges l2.
Proof. apply count_app. Qed.

(** A list built element by element, no element counted. *)
Lemma count_mapM_none {A B} (p : Elem A -> bool) (f : B -> option (Elem A)) l es :
  (forall x e, f x = Some e -> p e = false) -> mapM f l = Some es -> count_elems p es = 0.
Proof.
  intros Hf Hm. apply mapM_Some in Hm. unfold count_elems.
  induction Hm as [|x e l es He _ IH]; simpl; [done|]. by rewrite (Hf x e He).
Qed.

(** A list built block by block: the counts add up. *)
Lemma count_mapM_concat {A B} (p : Elem A -> bool) (f : B -> option (list (Elem A))) (n : B -> nat) l items :
  (forall x es, f x = Some es -> count_elems p es = n x) -> mapM f l = Some items ->
  count_elems p (concat items) = sum_list (map n l).
Proof.
  intros Hf Hm. apply mapM_Some in Hm.
  induction Hm as [|x es l items He _ IH]; simpl; [done|]. by rewrite count_app, (Hf x es He), IH.
Qed.

Lemma offered_app {A} (a : A) l1 l2 : offered a (l1 ++ l2) <-> offered a l1 \/ offered a l2.
Proof. apply Exists_app. Qed.


