(* ===== verification/Dashboard.v ===== *)
(** * The dashboard screen ([screens/dashboard-screen.tsx])

    The dashboard loads [fetchUserDashboardData] ([loadDashboardData],
    lines 79-94) and shows, under "Your Upcoming Reservations", the
    reservations whose status is confirmed or pending, sorted by
    [new Date(date)] and cut to four ([upcomingReservations], lines
    132-135), each with an icon chosen from the facility's name
    ([getCourtIcon], lines 310-320) and a badge colour ([getStatusColor],
    lines 323-336).

    [Array.prototype.sort] is stable; with a comparator that is
    consistent (every date valid) its result is the unique stable order,
    which [sort_by_date], an insertion sort that places an element after
    every element not later than it, computes.  With an invalid date the
    comparator returns [NaN], which [sort] reads as "equal"; the order an
    engine produces is then implementation-defined, and the model's is
    one of them. *)

From S2P Require Import Prelude Json Http Endpoint ApiService Calendar Contexts ReservationsScreen.
From Stdlib Require Import Ascii ZArith Sorted.

(** [res.status === "confirmed" || res.status === "pending"] (line 133). *)
Definition is_upcoming_status (r : json) : bool :=
  field_is "status" "confirmed" r || field_is "status" "pending" r.

(** The comparator of line 134 is negative: [a] comes before [b]. *)
Definition date_before (a b : json) : bool :=
  match res_date a, res_date b with Some x, Some y => (x <? y)%Z | _, _ => false end.

Fixpoint insert_by_date (x : json) (l : list json) : list json :=
  match l with
  | [] => [x]
  | y :: l' => if date_before x y then x :: l else y :: insert_by_date x l'
  end.

Definition sort_by_date (l : list json) : list json :=
  fold_left (fun acc x => insert_by_date x acc) l [].

(** Lines 132-135. *)
Definition upcomingReservations (l : list json) : list json :=
  firstn 4 (sort_by_date (List.filter is_upcoming_status l)).

(** ** Display helpers *)

Definition ascii_lower (c : ascii) : ascii :=
  let n := nat_of_ascii c in if (65 <=? n)%nat && (n <=? 90)%nat then ascii_of_nat (n + 32) else c.

Fixpoint to_lower (s : string) : string :=
  match s with EmptyString => EmptyString | String c s' => String (ascii_lower c) (to_lower s') end.

Fixpoint str_prefix (p s : string) : bool :=
  match p, s with
  | EmptyString, _ => true
  | String a p', String b s' => Ascii.eqb a b && str_prefix p' s'
  | String _ _, EmptyString => false
  end.

(** [s.includes(p)]. *)
Fixpoint str_includes (p s : string) : bool :=
  match s with
  | EmptyString => str_prefix p s
  | String _ s' => str_prefix p s || str_includes p s'
  end.

(** [getCourtIcon] (lines 310-320). *)
Definition getCourtIcon (title : string) : string :=
  let facilityName := to_lower title in
  if str_includes "squash" facilityName then "tennisball-outline"
  else if str_includes "tennis" facilityName then "tennisball-outline"
  else if str_includes "basketball" facilityName then "basketball-outline"
  else if str_includes "badminton" facilityName then "tennisball-outline"
  else if str_includes "gym" facilityName then "barbell-outline"
  else if str_includes "swim" facilityName then "water-outline"
  else if str_includes "table" facilityName then "disc-outline"
  else "tennisball-outline".

(** [getStatusColor] (lines 323-336). *)
Definition getStatusColor (status : string) : string :=
  let s := to_lower status in
  if String.eqb s "confirmed" then "#e6f7ed"
  else if String.eqb s "completed" then "#e6f2fe"
  else if String.eqb s "cancelled" then "#fee2e2"
  else if String.eqb s "pending" then "#fff7ed"
  else "#f3f4f6".

(** [formatMembershipType] (lines 127-129). *)
Definition formatMembershipType (type : string) : string := capitalize type +:+ " Membership".

(** ** Loading *)

(** The screen's state (lines 72-76). *)
Record DashState := mkDash {
  ds_data : option DashboardData;
  ds_loading : bool;
  ds_refreshing : bool;
  ds_notif : bool;                 (** [notificationModalVisible] *)
}.

Definition dash_initial : DashState := mkDash None true false false.

Definition set_dash_data d (st : DashState) := mkDash (Some d) (ds_loading st) (ds_refreshing st) (ds_notif st).
Definition set_dash_loading b (st : DashState) := mkDash (ds_data st) b (ds_refreshing st) (ds_notif st).
Definition set_dash_refreshing b (st : DashState) := mkDash (ds_data st) (ds_loading st) b (ds_notif st).
Definition set_dash_notif b (st : DashState) := mkDash (ds_data st) (ds_loading st) (ds_refreshing st) b.

Section Load.
Context {Store : Type} `{!KVStore Store}.

(** [loadDashboardData] (lines 79-94): without a user id it returns
    before [setLoading(true)]; otherwise [finally] clears [loading]. *)
Definition loadDashboardData (user token : option json) (isConnected : option bool)
    (st : DashState) : Api Store DashState :=
  let uid := user ≫= json_get "_id" in
  if truthy uid then
    let st1 := set_dash_loading true st in
    scatch
      (data <- fetchUserDashboardData (template uid)
                 (if truthy token then Some (template token) else None) ;;
       sret (set_dash_loading false (set_dash_data data st1)))%st
      (fun _ =>
         (if isConnected is Some true
          then alert "Error" "Failed to load dashboard data. Please try again."
          else sret tt) ;;
         sret (set_dash_loading false st1))%st
  else sret st.

(** [onRefresh] (lines 99-108). *)
Definition onRefresh (user token : option json) (isConnected : option bool)
    (st : DashState) : Api Store DashState :=
  if isConnected is Some true then
    (st' <- loadDashboardData user token isConnected (set_dash_refreshing true st) ;;
     sret (set_dash_refreshing false st'))%st
  else
    (alert "No Connection" "Please check your internet connection and try again." ;; sret st)%st.
End Load.

(** ** The upcoming list *)

(** [b] does not come strictly before [a]. *)
Definition date_le (a b : json) : Prop := date_before b a = false.

Lemma date_before_asym a b : date_before a b = true -> date_before b a = false.
Proof.
  unfold date_before. destruct (res_date a) as [x|], (res_date b) as [y|]; try done.
  intros H. apply Z.ltb_lt in H. apply Z.ltb_ge. lia.
Qed.

Lemma insert_by_date_perm x l : insert_by_date x l ≡ₚ x :: l.
Proof.
  induction l as [|y l IH]; simpl; [done|]. destruct (date_before x y); [done|].
  rewrite IH. apply perm_swap.
Qed.

Lemma sort_by_date_perm l : sort_by_date l ≡ₚ l.
Proof.
  unfold sort_by_date. cut (forall acc, fold_left (fun acc x => insert_by_date x acc) l acc ≡ₚ l ++ acc).
  { intros H. rewrite H. by rewrite app_nil_r. }
  induction l as [|x l IH]; intros acc; simpl; [done|].
  rewrite IH, insert_by_date_perm. symmetry. apply Permutation_middle.
Qed.

Lemma insert_by_date_sorted x l : Sorted date_le l -> Sorted date_le (insert_by_date x l).
Proof.
  induction 1 as [|y l Hl IH Hy]; simpl; [repeat constructor|].
  destruct (date_before x y) eqn:E.
  - constructor; [by constructor|]. constructor. by apply date_before_asym.
  - constructor; [exact IH|]. destruct l as [|z l]; simpl; [by constructor|].
    destruct (date_before x z); constructor; [exact E|]. by inversion Hy.
Qed.

Lemma sort_by_date_sorted l : Sorted date_le (sort_by_date l).
Proof.
  unfold sort_by_date. cut (forall acc, Sorted date_le acc ->
    Sorted date_le (fold_left (fun acc x => insert_by_date x acc) l acc)); [intros H; by apply H|].
  induction l as [|x l IH]; intros acc Hacc; simpl; [done|]. by apply IH, insert_by_date_sorted.
Qed.

Lemma Sorted_firstn {A} (R : A -> A -> Prop) n l : Sorted R l -> Sorted R (firstn n l).
Proof.
  revert l. induction n as [|n IH]; intros l Hl; [constructor|].
  destruct Hl as [|x l Hl Hx]; simpl; [constructor|]. constructor; [by apply IH|].
  destruct n, Hx; simpl; constructor; done.
Qed.

Lemma elem_of_firstn {A} n (l : list A) x : x ∈ firstn n l -> x ∈ l.
Proof.
  revert l. induction n as [|n IH]; intros [|y l] Hx; simpl in *; try by apply elem_of_nil in Hx.
  apply elem_of_cons in Hx as [->|Hx]; apply elem_of_cons; [by left|right; by apply IH].
Qed.

(** An entry of the upcoming list is a confirmed or pending reservation
    of the loaded list. *)
Lemma elem_of_upcoming r l : r ∈ upcomingReservations l -> r ∈ l /\ is_upcoming_status r = true.
Proof.
  unfold upcomingReservations. intros Hr. apply elem_of_firstn in Hr.
  rewrite sort_by_date_perm in Hr. apply list_elem_of_In, filter_In in Hr as [Hr Hs].
  split; [by apply list_elem_of_In|done].
Qed.

(** The upcoming status, read off the reservation as the spec states it. *)
Definition confirmed_or_pending (r : json) : Prop :=
  json_get "status" r = Some (JStr "confirmed") \/ json_get "status" r = Some (JStr "pending").

(** [a]'s date is valid and not later than [b]'s. *)
Definition date_leq (a b : json) : Prop :=
  match res_date a, res_date b with Some x, Some y => (x <= y)%Z | _, _ => False end.

Lemma is_upcoming_status_spec r : is_upcoming_status r = true <-> confirmed_or_pending r.
Proof.
  unfold is_upcoming_status, confirmed_or_pending, field_is.
  destruct (json_get "status" r) as [[| | | s | |]|]; rewrite ?orb_true_iff, ?String.eqb_eq;
    naive_solver.
Qed.

Lemma sublist_list_filter {A} (f : A -> bool) l : List.filter f l `sublist_of` l.
Proof. induction l as [|x l IH]; simpl; [done|]. destruct (f x); by constructor. Qed.

Lemma date_le_trans a b c : is_Some (res_date b) -> date_le a b -> date_le b c -> date_le a c.
Proof.
  unfold date_le, date_before. intros [y Hb]. rewrite Hb.
  destruct (res_date a) as [x|], (res_date c) as [z|]; try done. rewrite !Z.ltb_ge. lia.
Qed.

Lemma date_le_leq a b : is_Some (res_date a) -> is_Some (res_date b) -> date_le a b -> date_leq a b.
Proof.
  unfold date_le, date_leq, date_before. intros [x ->] [y ->]. rewrite Z.ltb_ge. lia.
Qed.

Lemma sorted_le_all a l :
  Forall (fun r => is_Some (res_date r)) l -> Sorted date_le l -> HdRel date_le a l -> Forall (date_le a) l.
Proof.
  revert a. induction l as [|b l IH]; intros a Hv Hs Hh; [done|].
  inversion Hs as [|? ? Hs' Hbl]; inversion Hh as [|? ? Hab]; subst.
  apply Forall_cons in Hv as [Hb Hv]. constructor; [done|]. apply IH; [done|done|].
  destruct l as [|c l]; [constructor|]. inversion Hbl; subst. constructor. by apply (date_le_trans a b c).
Qed.

(** With valid dates, the insertion order is strongly sorted by date. *)
Lemma sorted_valid_strongly l :
  Forall (fun r => is_Some (res_date r)) l -> Sorted date_le l -> StronglySorted date_leq l.
Proof.
  induction l as [|a l IH]; intros Hv Hs; [constructor|].
  inversion Hs as [|? ? Hs' Ha]; subst. pose proof Hv as Hv'. apply Forall_cons in Hv' as [Hva Hvl].
  constructor; [by apply IH|].
  pose proof (sorted_le_all a l Hvl Hs' Ha) as Hle.
  apply Forall_forall. intros x Hx. apply date_le_leq; [done| |].
  - by apply (Forall_forall _ l) with x in Hvl.
  - by apply (Forall_forall _ l) with x in Hle.
Qed.

Lemma StronglySorted_app_rel {A} (R : A -> A -> Prop) l1 l2 x y :
  StronglySorted R (l1 ++ l2) -> x ∈ l1 -> y ∈ l2 -> R x y.
Proof.
  induction l1 as [|z l1 IH]; intros Hs Hx Hy; [by apply elem_of_nil in Hx|].
  apply StronglySorted_inv in Hs as [Hs Hz]. apply elem_of_cons in Hx as [->|Hx]; [|by apply IH].
  apply (Forall_forall _ _) with y in Hz; [done|]. apply elem_of_app. by right.
Qed.

Lemma StronglySorted_app_l {A} (R : A -> A -> Prop) l1 l2 :
  StronglySorted R (l1 ++ l2) -> StronglySorted R l1.
Proof.
  induction l1 as [|x l1 IH]; intros Hs; [constructor|].
  apply StronglySorted_inv in Hs as [Hs Hx]. constructor; [by apply IH|].
  apply Forall_forall. intros y Hy. rewrite Forall_forall in Hx. apply Hx, elem_of_app. by left.
Qed.

(** C34. What "Your Upcoming Reservations" shows: a sub-multiset of the
    loaded list of at most four entries, each with status "confirmed" or
    "pending"; and when every such reservation has a valid date, the
    entries are in increasing date order and are the earliest ones: a
    confirmed or pending reservation left out comes after four entries
    that are all no later than it. *)
Theorem upcoming_spec l :
  (upcomingReservations l ⊆+ l) /\ (length (upcomingReservations l) <= 4)%nat /\
  Forall confirmed_or_pending (upcomingReservations l) /\
  (Forall (fun r => confirmed_or_pending r -> is_Some (res_date r)) l ->
   StronglySorted date_leq (upcomingReservations l) /\
   forall r, r ∈ l -> confirmed_or_pending r -> r ∉ upcomingReservations l ->
     length (upcomingReservations l) = 4%nat /\ Forall (fun x => date_leq x r) (upcomingReservations l)).
Proof.
  unfold upcomingReservations.
  set (f := List.filter is_upcoming_status l). set (s := sort_by_date f).
  assert (Hs : s ≡ₚ f) by apply sort_by_date_perm.
  assert (Hf : forall r, r ∈ f <-> r ∈ l /\ confirmed_or_pending r).
  { intros r. unfold f. rewrite list_elem_of_In, filter_In, <-list_elem_of_In, is_upcoming_status_spec. done. }
  split; [|split; [rewrite length_firstn; lia|split]].
  - etrans; [apply sublist_submseteq, sublist_take|]. rewrite Hs.
    apply sublist_submseteq, sublist_list_filter.
  - apply Forall_forall. intros r Hr%elem_of_firstn. rewrite Hs, Hf in Hr. by destruct Hr.
  - intros Hv. assert (Hvs : Forall (fun r => is_Some (res_date r)) s).
    { apply Forall_forall. intros r Hr. rewrite Hs, Hf in Hr. destruct Hr as [Hr Hc].
      rewrite Forall_forall in Hv. by apply Hv. }
    pose proof (sorted_valid_strongly s Hvs (sort_by_date_sorted f)) as Hss.
    split.
    + rewrite <-(take_drop 4 s) in Hss. by apply StronglySorted_app_l in Hss.
    + intros r Hr Hc Hn. assert (Hrs : r ∈ drop 4 s).
      { assert (Hr' : r ∈ s) by (rewrite Hs, Hf; done). rewrite <-(take_drop 4 s) in Hr'.
        apply elem_of_app in Hr' as [?|?]; [done|done]. }
      split.
      * rewrite length_take. destruct (decide (length s <= 4)%nat); [|lia].
        rewrite drop_ge in Hrs by lia. by apply elem_of_nil in Hrs.
      * apply Forall_forall. intros x Hx. rewrite <-(take_drop 4 s) in Hss.
        by apply (StronglySorted_app_rel _ _ _ _ _ Hss).
Qed.


(** A facility named for table tennis gets the tennis-ball icon:
    "tennis" is tested before "table", so the [disc-outline] branch
    written for table tennis is never reached for such a name. *)
Theorem table_tennis_icon title :
  str_includes "tennis" (to_lower title) = true -> getCourtIcon title = "tennisball-outline".
Proof. intros H. unfold getCourtIcon. rewrite H. by destruct (str_includes "squash" _). Qed.

Lemma table_tennis_icon_witness : getCourtIcon "Table Tennis Hall" = "tennisball-outline".
Proof. apply table_tennis_icon. reflexivity. Defined.

(** ** A run *)

Definition old_res : json :=
  JObj [("_id", JStr "r0"); ("date", JStr "2020-01-01"); ("status", JStr "confirmed")].
Definition next_res : json :=
  JObj [("_id", JStr "r2"); ("date", JStr "2030-01-05"); ("status", JStr "pending")].
Definition gone_res : json :=
  JObj [("_id", JStr "r3"); ("date", JStr "2029-06-01"); ("status", JStr "cancelled")].

(** "Your Upcoming Reservations" does not look at the date: a
    confirmed reservation of 2020, which the reservations screen lists
    under "past" on 2025-04-10, is the first entry, ahead of a pending
    one in 2030. *)
Example past_reservation_upcoming :
  upcomingReservations [next_res; gone_res; old_res] = [old_res; next_res] /\
  in_tab Past morning old_res = true.
Proof. vm_compute. split; reflexivity. Qed.

Lemma upcoming_spec_witness :
  Forall (fun r => confirmed_or_pending r -> is_Some (res_date r)) [next_res; gone_res; old_res] /\
  StronglySorted date_leq (upcomingReservations [next_res; gone_res; old_res]).
Proof.
  assert (H : Forall (fun r => confirmed_or_pending r -> is_Some (res_date r)) [next_res; gone_res; old_res]).
  { repeat constructor; intros _; vm_compute; eauto. }
  split; [exact H|]. exact (proj1 (proj2 (proj2 (proj2 (upcoming_spec _))) H)).
Defined.
