(* ===== verification/DashboardView.v ===== *)
(** * What the dashboard shows ([screens/dashboard-screen.tsx], lines 122-279)

    The JSX of [DashboardScreen] as a function [dashboard_view] from the
    screen's state (and [user], [isConnected] and the refresh hook's flag)
    to the list of elements it renders, in order: texts, icons, buttons
    with the action their [onPress] performs, the status badges, the
    pull-to-refresh flag and the notification modal.  Rendering throws
    ([None]) where the code calls a string method on a value that is not a
    string ([formatMembershipType], [game.charAt], [toLowerCase]) or puts
    an object in a [Text].  A date is shown as the local calendar day
    ([DateLabel]; [None] there is "Invalid Date"); [formatDate] is the
    en-GB text printed for it, which reads back as that day
    ([formatDate_shown_date]).

    [DashEvent] and [dash_step] are the screen's handlers: the mount
    effect, pull to refresh, the refresh hook's call and the notification
    modal's buttons. *)

From S2P Require Import Prelude Json Http Endpoint ApiService Calendar Contexts ReservationsScreen Dashboard View.
From Stdlib Require Import Ascii ZArith.
From stdpp Require Import pretty.

Inductive Action := GoReservations | OpenNotifications | CloseNotifications.

(** [formatMembershipType(user.membershipType)]: [charAt] needs a string. *)
Definition membership_title (u : json) : option string :=
  match json_get "membershipType" u with
  | Some (JStr t) => Some (formatMembershipType t)
  | _ => None
  end.

(** The games list (lines 193-203): [games && games.length > 0] and
    [game.charAt(0).toUpperCase() + game.slice(1)] for each game.  A
    non-empty string has a length but no [map]; an object is read as
    having no [length] (an object with a numeric [length] key is not
    modelled). *)
Definition games_elems (games : option json) : option (list (Elem Action)) :=
  match games with
  | Some (JArr ((_ :: _) as l)) =>
      mapM (fun g => match g with JStr s => Some (Label ("• " +:+ capitalize s)) | _ => None end) l
  | Some (JStr s) => if String.eqb s "" then Some [Label "No games selected"] else None
  | _ => Some [Label "No games selected"]
  end.

(** One entry of the upcoming list (lines 235-253). *)
Definition upcoming_elems (tz : Z) (r : json) : option (list (Elem Action)) :=
  match json_get "facilityName" r with
  | Some (JStr name) =>
      slot ← jsx_child (json_get "timeSlot" r);
      status ← jsx_child (json_get "status" r);
      Some [Icon (getCourtIcon name); Label name; Icon "time-outline";
            DateLabel (shown_date tz r) (" at " +:+ slot);
            Badge (getStatusColor (template (json_get "status" r))) status]
  | _ => None
  end.

Definition status_row (label : string) (done : bool) : list (Elem Action) :=
  [Label label; Label (if done then "Completed" else "Pending")].

(** The "Reservations Overview" section (lines 273-287): the two counts,
    [0] without data. *)
Definition overview_elems (data : option DashboardData) : list (Elem Action) :=
  [Label "Reservations Overview";
   Label (pretty (Z.of_nat (match data with Some d => dd_activeReservations d | None => 0%nat end)));
   Label "Active";
   Label (pretty (Z.of_nat (match data with Some d => dd_completedReservations d | None => 0%nat end)));
   Label "Completed"].

(** [formatDate] (lines 299-306): [new Date(dateString)] printed by
    [toLocaleDateString('en-GB', {day, month, year: 'numeric'})], the
    local calendar date as DD/MM/YYYY (en-GB pads day and month to two
    digits; the year is written with four, as [numeric] prints the
    years 1000 to 9999). *)
Definition en_gb_chars (c : Z * Z * Z) : list ascii :=
  let '(y, m, d) := c in dec_digits 2 d ++ ["/"%char] ++ dec_digits 2 m ++ ["/"%char] ++ dec_digits 4 y.

Definition formatDate (tz : Z) (dateString : option json) : string :=
  match js_date dateString with
  | Some t => String.string_of_list_ascii (en_gb_chars (local_civil tz t))
  | None => "Invalid Date"
  end.

(** Reading a DD/MM/YYYY string back into (year, month, day). *)
Definition parse_en_gb (s : string) : option (Z * Z * Z) :=
  match String.list_ascii_of_string s with
  | [d1; d2; "/"; m1; m2; "/"; y1; y2; y3; y4]%char =>
      match parse_digits_acc 0 [d1; d2], parse_digits_acc 0 [m1; m2],
            parse_digits_acc 0 [y1; y2; y3; y4] with
      | Some d, Some m, Some y => Some (y, m, d)
      | _, _, _ => None
      end
  | _ => None
  end.

(** The JSX returned by [DashboardScreen] (lines 122-279). *)
Definition dashboard_view (tz : Z) (user : option json) (isConnected : option bool)
    (networkRefreshing : bool) (st : DashState) : option (list (Elem Action)) :=
  if ds_loading st && (if ds_data st is Some _ then false else true) then Some [Spinner "Loading dashboard..."]
  else
    let du := (fun d => dd_user d) <$> ds_data st in
    let approval := opt_path ["membershipApproval"] du in
    welcome ← jsx_or (user ≫= json_get "name") "User";
    title ← (match du with Some u => if truthy (Some u) then membership_title u else Some "Membership"
                          | None => Some "Membership" end);
    status ← jsx_or (opt_path ["approvalStatus"] approval) "Pending";
    number ← jsx_or (opt_path ["membershipNumber"] du) "N/A";
    games ← games_elems (opt_path ["games"] du);
    fee ← jsx_or (opt_path ["membershipFee"; "status"] approval) "Pending";
    let upcoming := match ds_data st with Some d => upcomingReservations (dd_reservations d) | None => [] end in
    items ← mapM (upcoming_elems tz) upcoming;
    Some ([RefreshFlag (ds_refreshing st || networkRefreshing);
           Label ("Welcome, " +:+ welcome); Button "notifications-outline" (Some OpenNotifications);
           Button "Book a facility" (Some GoReservations)] ++
          (if isConnected is Some true then []
           else [Icon "cloud-offline-outline";
                 Label "You're offline. Pull down to try again when connected."]) ++
          [Label "Your Membership"; Label title; Label status; Label ("Membership: " +:+ number);
           Label "Games Included"] ++ games ++
          status_row "Form Purchase" (truthy (opt_path ["formPurchased"; "status"] approval)) ++
          status_row "Interview" (truthy (opt_path ["interview"; "status"] approval)) ++
          [Label "Membership Fee"; Label fee; Label "Your Upcoming Reservations"] ++
          (match upcoming with
           | [] => [Label "No upcoming reservations"; Button "Book a facility" (Some GoReservations)]
           | _ => concat items
           end) ++
          [Button "View all reservations" (Some GoReservations)] ++ overview_elems (ds_data st) ++
          [ModalShown (ds_notif st)]).

(** ** The screen's handlers *)

Inductive DashEvent :=
| DMount                 (** the [useEffect] on [user] (lines 110-112) *)
| DPullRefresh           (** [onRefresh] *)
| DNetworkRefresh        (** [useNetworkRefresh]'s call of [loadDashboardData] *)
| DPress (a : Action).   (** the notification modal's buttons *)

Section Handlers.
Context {Store : Type} `{!KVStore Store}.

Definition dash_step (user token : option json) (isConnected : option bool) (ev : DashEvent)
    (st : DashState) : Api Store DashState :=
  match ev with
  | DMount | DNetworkRefresh => loadDashboardData user token isConnected st
  | DPullRefresh => onRefresh user token isConnected st
  | DPress OpenNotifications => sret (set_dash_notif true st)
  | DPress CloseNotifications => sret (set_dash_notif false st)
  | DPress GoReservations => sret st
  end.

Fixpoint dash_run user token isConnected (evs : list DashEvent) (st : DashState) : Api Store DashState :=
  match evs with
  | [] => sret st
  | ev :: evs' => (st' <- dash_step user token isConnected ev st ;; dash_run user token isConnected evs' st')%st
  end.
End Handlers.

(** ** Theorems *)

(** The spinner is shown: still loading, nothing loaded. *)
Definition spinner_only (st : DashState) : Prop := ds_loading st = true /\ ds_data st = None.

Section NoUserId.
Context {Store : Type} `{!KVStore Store}.
Variables (user token : option json) (isConnected : option bool).
Hypothesis no_id : truthy (user ≫= json_get "_id") = false.

Lemma dash_step_no_id ev st :
  spinner_only st -> returns spinner_only (dash_step (Store:=Store) user token isConnected ev st).
Proof.
  intros [Hl Hd] w. destruct ev as [| | |[]];
    unfold dash_step, onRefresh, loadDashboardData, sbind, sret, alert, smodify; rewrite ?no_id;
    repeat case_match; simplify_eq/=; try done.
Qed.

Lemma dash_run_no_id evs st :
  spinner_only st -> returns spinner_only (dash_run (Store:=Store) user token isConnected evs st).
Proof.
  revert st. induction evs as [|ev evs IH]; intros st Hst; simpl; [by apply returns_ret|].
  apply (returns_bind_from spinner_only); [by apply dash_step_no_id|exact IH].
Qed.

(** C4. A signed-in user whose record has no [_id] sees "Loading
    dashboard..." forever: [loadDashboardData] returns before its [try],
    so the [finally] that clears [loading] never runs, whatever the
    screen does afterwards (mounting again, pulling to refresh, the
    network coming back, the notification buttons). *)
Theorem dashboard_spinner_forever tz networkRefreshing evs :
  returns (fun st => dashboard_view tz user isConnected networkRefreshing st = Some [Spinner "Loading dashboard..."])
    (dash_run (Store:=Store) user token isConnected evs dash_initial).
Proof.
  intros w. pose proof (dash_run_no_id evs dash_initial (conj eq_refl eq_refl) w) as H.
  destruct (fst _) as [st|]; [|done]. destruct H as [Hl Hd].
  unfold dashboard_view. by rewrite Hl, Hd.
Qed.
End NoUserId.

(** ** The upcoming list agrees with the "Active" count *)


Lemma games_badges g es : games_elems g = Some es -> badges es = 0.
Proof.
  unfold games_elems. intros H. destruct g as [[| | |s|[|y l]|]|]; try by simplify_eq/=.
  - destruct (String.eqb s ""); by simplify_eq/=.
  - eapply count_mapM_none; [|exact H]. intros [] e ?; simplify_eq/=; done.
Qed.

Lemma upcoming_badges tz r es : upcoming_elems tz r = Some es -> badges es = 1.
Proof.
  unfold upcoming_elems. repeat case_match; try discriminate.
  destruct (jsx_child (json_get "timeSlot" r)); [|done]. simpl.
  destruct (jsx_child (json_get "status" r)); [|done]. by intros [= <-].
Qed.

Lemma items_badges tz l items :
  mapM (upcoming_elems tz) l = Some items -> badges (concat items) = length l.
Proof.
  intros Hm. apply mapM_Some in Hm.
  induction Hm as [|r es l items He _ IH]; simpl; [done|].
  by rewrite badges_app, (upcoming_badges tz r es He), IH.
Qed.

Lemma length_filter_bool {A} (f : A -> bool) l :
  length (List.filter f l) = length (filter (fun x => f x = true) l).
Proof. induction l as [|x l IH]; simpl; [done|]. rewrite filter_cons. destruct (f x); simpl; auto. Qed.

(** What [dashboard_of] builds: the upcoming list has the "Active"
    count's entries, cut to four. *)
Lemma dashboard_of_upcoming p rs d :
  dashboard_of p rs = Ok d -> length (upcomingReservations (dd_reservations d)) = Nat.min 4 (dd_activeReservations d).
Proof.
  unfold dashboard_of. destruct rs as [| | | |l|]; try discriminate.
  destruct (has_null l); [discriminate|]. intros [= <-]. simpl.
  unfold upcomingReservations. rewrite length_firstn, (Permutation_length (sort_by_date_perm _)).
  by rewrite length_filter_bool.
Qed.

Lemma dashboard_view_badges tz user c nr st els :
  dashboard_view tz user c nr st = Some els ->
  badges els = length (match ds_data st with Some d => upcomingReservations (dd_reservations d) | None => [] end).
Proof.
  unfold dashboard_view. destruct (_ && _) eqn:Hsp.
  { intros [= <-]. apply andb_true_iff in Hsp as [_ Hn]. by destruct (ds_data st). }
  intros H. apply bind_Some in H as (welcome & _ & H). apply bind_Some in H as (title & _ & H).
  apply bind_Some in H as (status & _ & H). apply bind_Some in H as (number & _ & H).
  apply bind_Some in H as (games & Hg & H). apply bind_Some in H as (fee & _ & H).
  apply bind_Some in H as (items & Hi & H). apply (inj Some) in H. subst els.
  rewrite !badges_app, (games_badges _ _ Hg).
  destruct (match ds_data st with Some d => _ | None => [] end) as [|r up]; simpl.
  - by destruct c as [[]|].
  - rewrite (items_badges _ _ _ Hi). destruct c as [[]|]; simpl. all: cbn [badges count_elems List.filter is_badge length]; lia.
Qed.

(** Any dashboard in the screen's state was built by [dashboard_of]. *)
Definition data_ok (st : DashState) : Prop :=
  forall d, ds_data st = Some d -> exists p rs, dashboard_of p rs = Ok d.

Section DataOk.
Context {Store : Type} `{!KVStore Store}.
Variables (user token : option json) (isConnected : option bool).

Lemma fetch_dashboard_of u t :
  returns (fun d => exists p rs, dashboard_of p rs = Ok d) (fetchUserDashboardData (Store:=Store) u t).
Proof.
  intros w. unfold fetchUserDashboardData, scatch, sbind, sget, send, of_res, sthrow.
  destruct (promise_all2 _ _ _ _) as [[p rs]|e]; simpl; [|done].
  destruct (dashboard_of p rs) eqn:Hd; simpl; eauto.
Qed.

Lemma load_data_ok c st :
  data_ok st -> returns data_ok (loadDashboardData (Store:=Store) user token c st).
Proof.
  intros Hst. unfold loadDashboardData. destruct (truthy _); [|by apply returns_ret].
  apply returns_catch.
  - apply (returns_bind_from _ _ _ _ (fetch_dashboard_of _ _)). intros d Hd.
    apply returns_ret. by intros d' [= <-].
  - intros e. apply returns_bind. intros _. by apply returns_ret.
Qed.

Lemma dash_step_data_ok ev st :
  data_ok st -> returns data_ok (dash_step (Store:=Store) user token isConnected ev st).
Proof.
  intros Hst. destruct ev as [| | |[]]; simpl; try (by apply returns_ret); try by apply load_data_ok.
  unfold onRefresh. destruct isConnected as [[]|];
    try (apply returns_bind; intros _; by apply returns_ret).
  apply (returns_bind_from data_ok); [by apply load_data_ok|]. intros st' Hst'. by apply returns_ret.
Qed.

Lemma dash_run_data_ok evs st :
  data_ok st -> returns data_ok (dash_run (Store:=Store) user token isConnected evs st).
Proof.
  revert st. induction evs as [|ev evs IH]; intros st Hst; simpl; [by apply returns_ret|].
  apply (returns_bind_from data_ok); [by apply dash_step_data_ok|exact IH].
Qed.

(** C27. Whatever the screen has been through, when it renders, "Your
    Upcoming Reservations" lists as many entries as the "Active" count
    it shows, cut to four: both come from the same filter of the same
    loaded list. *)
Theorem dashboard_upcoming_matches_active tz networkRefreshing evs :
  returns (fun st => forall els,
             dashboard_view tz user isConnected networkRefreshing st = Some els ->
             badges els = Nat.min 4 (match ds_data st with Some d => dd_activeReservations d | None => 0%nat end))
    (dash_run (Store:=Store) user token isConnected evs dash_initial).
Proof.
  intros w. pose proof (dash_run_data_ok evs dash_initial (fun d H => ltac:(discriminate)) w) as Hok.
  destruct (fst _) as [st|]; [|done]. intros els Hv. rewrite (dashboard_view_badges _ _ _ _ _ _ Hv).
  destruct (ds_data st) as [d|] eqn:Hd; [|done].
  destruct (Hok d Hd) as (p & rs & Hpr). by apply (dashboard_of_upcoming p rs).
Qed.
End DataOk.

(** ** Runs *)

(** A user record that names its id [id] instead of [_id]. *)
Definition no_id_user : json := JObj [("id", JStr "u1"); ("name", JStr "Ann")].

Lemma dashboard_spinner_forever_witness :
  truthy (Some no_id_user ≫= json_get "_id") = false /\
  returns (fun st => dashboard_view 0 (Some no_id_user) (Some true) false st = Some [Spinner "Loading dashboard..."])
    (dash_run (Store:=gmap string string) (Some no_id_user) None (Some true)
       [DMount; DPullRefresh; DNetworkRefresh; DPress OpenNotifications] dash_initial).
Proof. split; [reflexivity|]. apply dashboard_spinner_forever. reflexivity. Defined.

(** A loaded profile without [membershipType] makes the render throw:
    [formatMembershipType(undefined)] calls [charAt] on [undefined]. *)
Example dashboard_crash_no_membership_type :
  dashboard_view 0 (Some member) (Some true) false
    (mkDash (Some (mkDashboard (JObj [("_id", JStr "u1"); ("name", JStr "Ann")]) [] 0 0)) false false false)
  = None.
Proof. reflexivity. Qed.

(** The dashboard prints the day its upcoming list stands for: the text
    [formatDate] shows for a reservation's [date] reads back as the local
    calendar day [shown_date] of that reservation (years 1000 to 9999),
    and is "Invalid Date" exactly when there is none. *)
Lemma formatDate_shown_date tz r :
  match shown_date tz r with
  | Some c => (1000 <= c.1.1 <= 9999)%Z -> parse_en_gb (formatDate tz (json_get "date" r)) = Some c
  | None => formatDate tz (json_get "date" r) = "Invalid Date"
  end.
Proof.
  unfold shown_date, res_date, formatDate. destruct (js_date _) as [t|]; [|done].
  unfold parse_en_gb. rewrite String.list_ascii_of_string_of_list_ascii.
  pose proof (civil_from_days_spec (local_day tz t)) as Hspec. unfold local_civil, en_gb_chars.
  destruct (civil_from_days (local_day tz t)) as [[y m] d]. cbn [fst]. intros Hy.
  destruct Hspec as (Hm & Hd & _).
  remember (dec_digits 4 y) as ly eqn:Ey. remember (dec_digits 2 m) as lm eqn:Em.
  remember (dec_digits 2 d) as ld eqn:Ed.
  split_digits Ey. split_digits Em. split_digits Ed.
  cbn [app]. rewrite Ey, Em, Ed, !parse_dec_digits_exact by (simpl; lia). reflexivity.
Qed.
