(* ===== verification/WizardView.v ===== *)
(** * What the create-reservation modal shows
      ([components/create-reservation-modal.tsx], lines 238-547)

    [wizard_view] is the modal's JSX as a list of [View.Elem]s whose
    actions are the reducer's [WizardEvent]s: the header, the step
    indicator, the step's content, the footer (a disabled button has no
    action) and the two overlays.  Dates are shown in en-US through
    [toLocaleDateString] in the local zone [env_tz]: the weekday and the
    month as their three-letter names, the day as a number.  The render
    throws ([None]) where the code calls [toLowerCase] on a facility type
    that is not a string, reads [length] of [availableTimeSlots] while it
    is [undefined] or [null], maps over a string, or shows an object.  A
    time slot that is not a string is shown, but the model's reducer only
    selects string slots, so its button has no action here. *)

From S2P Require Import Prelude Json Http Endpoint ApiService Calendar ReservationModal Dashboard View.
From Stdlib Require Import ZArith.
From stdpp Require Import pretty.

Local Open Scope Z_scope.

(** ** en-US dates *)

Definition weekday_short (day : Z) : string :=
  nth (Z.to_nat ((day + 4) mod 7)) ["Sun"; "Mon"; "Tue"; "Wed"; "Thu"; "Fri"; "Sat"] "".

Definition month_short (m : Z) : string :=
  nth (Z.to_nat (m - 1)) ["Jan"; "Feb"; "Mar"; "Apr"; "May"; "Jun"; "Jul"; "Aug"; "Sep"; "Oct"; "Nov"; "Dec"] "".

(** [date.toLocaleDateString('en-US', {weekday, month: 'short', day})],
    e.g. "Mon, Jan 5" (lines 417-421). *)
Definition summary_date (tz t : Z) : string :=
  let '(_, m, d) := local_civil tz t in
  weekday_short (local_day tz t) +:+ ", " +:+ month_short m +:+ " " +:+ pretty d.

(** ** Pieces *)

(** [getFacilityIcon] (lines 437-449). *)
Definition getFacilityIcon (type : string) : string :=
  let t := to_lower type in
  if String.eqb t "tennis" || String.eqb t "badminton" then "tennisball-outline"
  else if String.eqb t "basketball" then "basketball-outline"
  else if String.eqb t "squash" then "fitness-outline"
  else "calendar-outline".

(** [a === b] on the JSON values of two ids; objects are compared by
    content (the ids of one fetch are distinct objects). *)
Definition js_strict_eq (a b : option json) : bool := opt_json_eqb a b.

(** One facility of step 1 (lines 253-277). *)
Definition facility_elems (sel : option Facility) (i : nat) (f : Facility)
    : option (list (Elem WizardEvent)) :=
  let selected := match sel with Some s => js_strict_eq (fac_id s) (fac_id f)
                                 | None => js_strict_eq None (fac_id f) end in
  match fac_type f with
  | Some (JStr type) =>
      name ← jsx_child (fac_name f);
      Some ([Highlight selected; Icon (getFacilityIcon type); Button name (Some (SelectFacility i))] ++
            (if selected then [Icon "checkmark-circle"] else []))
  | _ => None
  end.

(** [renderStep1] (lines 248-280). *)
Definition render_step1 (wz : Wizard) : option (list (Elem WizardEvent)) :=
  items ← mapM (fun '(i, f) => facility_elems (wz_selected wz) i f) (imap pair (wz_facilities wz));
  Some (Label "Select Facility" :: concat items).

(** One date chip of step 2 (lines 286-336): the [i]-th of the seven days
    from [now]. *)
Definition date_chip (tz now : Z) (wz : Wizard) (i : nat) : list (Elem WizardEvent) :=
  let t := now + Z.of_nat i * ms_per_day in
  let '(_, m, d) := local_civil tz t in
  [Highlight (bool_decide (local_civil tz t = local_civil tz (wz_date wz)));
   Button (weekday_short (local_day tz t) +:+ " " +:+ pretty d +:+ " " +:+ month_short m)
     (Some (SelectDate now i))].

(** One time slot (lines 353-368). *)
Definition slot_elems (wz : Wizard) (v : json) : option (list (Elem WizardEvent)) :=
  text ← jsx_text v;
  Some [Highlight (match v, wz_slot wz with JStr s, Some s' => String.eqb s s' | _, _ => false end);
        Button text (match v with JStr s => Some (SelectSlot s) | _ => None end)].

(** The time slot area (lines 345-374). *)
Definition slots_area (wz : Wizard) : option (list (Elem WizardEvent)) :=
  if wz_loadingSlots wz then Some [Spinner ""]
  else match wz_slots wz with
       | Some (JArr ((_ :: _) as l)) => (fun xs => concat xs) <$> mapM (slot_elems wz) l
       | Some (JArr []) => Some [Label "No available time slots for this date"]
       | Some (JStr s) => if String.eqb s "" then Some [Label "No available time slots for this date"] else None
       | None | Some JNull => None
       | Some _ => Some [Label "No available time slots for this date"]
       end.

(** [renderStep2] (lines 282-378). *)
Definition render_step2 (tz now : Z) (wz : Wizard) : option (list (Elem WizardEvent)) :=
  slots ← slots_area wz;
  Some ([Label "Select Date & Time"; Label "Date"] ++ concat (map (date_chip tz now wz) (seq 0 7)) ++
        [Label "Time Slot"] ++ slots).

(** [renderStep3] (lines 380-434). *)
Definition render_step3 (tz : Z) (wz : Wizard) : option (list (Elem WizardEvent)) :=
  name ← jsx_child (wz_selected wz ≫= fac_name);
  Some [Label "Additional Information";
        Label "Number of Attendees"; Input (wz_attendees wz) "Enter number of attendees" TypeAttendees;
        Label "Notes (Optional)";
        Input (wz_notes wz) "Any special requests or additional information" TypeNotes;
        Label "Reservation Summary";
        Label "Facility:"; Label name;
        Label "Date:"; Label (summary_date tz (wz_date wz));
        Label "Time:"; Label (default "" (wz_slot wz));
        Label "Attendees:"; Label (wz_attendees wz)].

Definition modal_title (step : nat) : string :=
  if Nat.eqb step 1 then "New Reservation" else if Nat.eqb step 2 then "Select Time" else "Confirm Details".

(** The component's JSX (lines 452-546): nothing while not [visible]. *)
Definition wizard_view (env : WizardEnv) (visible : bool) (now : Z) (wz : Wizard)
    : option (list (Elem WizardEvent)) :=
  if negb visible then Some []
  else
    let step := wz_step wz in
    content ← (if Nat.eqb step 1 then render_step1 wz
               else if Nat.eqb step 2 then render_step2 (env_tz env) now wz
               else if Nat.eqb step 3 then render_step3 (env_tz env) wz
               else Some []);
    let next_enabled := connected env && negb (wz_loading wz) && negb (wz_success wz) in
    Some ([Button "chevron-back" (Some PressHeaderBack); Label (modal_title step);
           Button "close" (Some PressClose);
           Highlight (1 <=? step)%nat; Highlight (2 <=? step)%nat; Highlight (3 <=? step)%nat] ++
          content ++
          [Button (if Nat.eqb step 1 then "Cancel" else "Back")
             (if wz_loading wz || wz_success wz then None else Some PressFooterBack)] ++
          (if wz_loadingSlots wz && Nat.eqb step 2 then [Spinner ""] else []) ++
          [Button (if wz_loadingSlots wz && Nat.eqb step 2 then ""
                   else if (step <? 3)%nat then "Next" else "Confirm Reservation")
             (if next_enabled then Some PressNext else None)] ++
          (if wz_loading wz then [Spinner "Creating reservation..."] else []) ++
          (if wz_success wz then [Icon "checkmark-circle"; Label "Reservation Confirmed!"] else [])).

(** ** Theorems *)

(** How the summary names the local day [D]. *)
Definition day_text (D : Z) : string :=
  let '(_, m, d) := civil_from_days D in weekday_short D +:+ ", " +:+ month_short m +:+ " " +:+ pretty d.

Lemma summary_date_day tz t : summary_date tz t = day_text (local_day tz t).
Proof. reflexivity. Qed.

Lemma render_step3_summary tz wz els :
  render_step3 tz wz = Some els -> Label (summary_date tz (wz_date wz)) ∈ els.
Proof.
  unfold render_step3. destruct (jsx_child _); [|done]. intros [= <-].
  rewrite !elem_of_cons. tauto.
Qed.

(** East of UTC, during the first [tz] minutes of the local day, the
    confirm step's summary shows the local day [D] while the reservation
    the button sends is dated, once parsed, the day before. *)
Theorem confirm_shows_other_day env now wz els f slot :
  let tz := env_tz env in
  let D := local_day tz (wz_date wz) in
  wz_step wz = 3%nat -> wizard_view env true now wz = Some els ->
  0 < tz * 60000 < ms_per_day -> (wz_date wz + tz * 60000) mod ms_per_day < tz * 60000 ->
  (let '(y, _, _) := civil_from_days (wz_date wz / ms_per_day) in 0 <= y <= 9999) ->
  Label (day_text D) ∈ els /\
  exists ds, json_get "date" (reservation_data f slot wz) = Some (JStr ds) /\
    parse_iso_date ds = Some ((D - 1) * ms_per_day).
Proof.
  intros tz D Hs Hv Hz Hm Hy. split.
  - unfold wizard_view in Hv. rewrite Hs in Hv. simpl in Hv.
    apply bind_Some in Hv as (content & Hc & Hv). apply (inj Some) in Hv. subst els.
    change (day_text D) with (summary_date tz (wz_date wz)).
    do 6 (apply elem_of_cons; right). apply elem_of_app. left.
    by apply render_step3_summary.
  - exists (iso_date (wz_date wz)). split; [apply json_get_date|].
    unfold D. rewrite (local_day_next tz (wz_date wz) Hz Hm), Z.add_simpl_r.
    pose proof (iso_date_roundtrip (wz_date wz)) as Hrt.
    destruct (civil_from_days (wz_date wz / ms_per_day)) as [[y m] d]. by apply Hrt.
Qed.

(** Facilities whose records carry no [_id]: before any is selected,
    [undefined === undefined] marks every row of step 1 as selected. *)
Example all_rows_selected_without_ids :
  render_step1 (set_step 1 (set_facilities
     [mkFacility None (Some (JStr "Court A")) (Some (JStr "tennis"));
      mkFacility None (Some (JStr "Court B")) (Some (JStr "squash"))] (wizard_initial 0)))
  = Some [Label "Select Facility";
          Highlight true; Icon "tennisball-outline"; Button "Court A" (Some (SelectFacility 0));
          Icon "checkmark-circle";
          Highlight true; Icon "fitness-outline"; Button "Court B" (Some (SelectFacility 1));
          Icon "checkmark-circle"].
Proof. reflexivity. Qed.
