(* ===== verification/ReservationsView.v ===== *)
(** * The reservations screen's state, events and rendering
      ([screens/reservations-screen.tsx], [components/reservation-item.tsx])

    The screen's own state is [RsState]: the create modal's visibility,
    [loading], [refreshing] and the active tab.  [rs_event] runs the
    screen's UI events on it and on the contexts ([App]): the mount
    effect, pull to refresh, the tabs, the add buttons, the modal's
    [onClose] and [onSuccess], an item's cancel button (which asks for
    confirmation) and the confirmation's "Yes".  [reservations_view] is the
    screen's JSX over the reservation context's list, [item_view] the
    list item's.  The item shows its date in en-US like the wizard's
    summary.  In [{reservation.attendees && (...)}] a falsy number is
    rendered as a bare number inside a [View], which React Native refuses
    ("Text strings must be rendered within a <Text> component"): the
    render throws, as it does for a status that is not a string. *)

From S2P Require Import Prelude Json Http Endpoint ApiService Calendar Contexts ReservationsScreen View WizardView.
From Stdlib Require Import ZArith.
From stdpp Require Import pretty.

(** ** The list item ([components/reservation-item.tsx]) *)

Inductive RsAction :=
| RMount | RPullRefresh
| RSetTab (t : Tab)
| ROpenModal | RCloseModal | RModalSuccess
| RCancel (reservationId : string)          (** an item's cancel button *)
| RConfirmCancel (reservationId : string).  (** "Yes" in the confirmation *)

(** [formatDate] of the item (lines 34-41). *)
Definition item_date (tz : Z) (r : json) : string :=
  match res_date r with Some t => summary_date tz t | None => "Invalid Date" end.

(** The attendees line (lines 67-72). *)
Definition attendees_elems (v : option json) : option (list (Elem RsAction)) :=
  if truthy v then
    text ← jsx_child v;
    Some [Icon "people-outline";
          Label (text +:+ " " +:+ (if v is Some (JNum 1%Z) then "person" else "people"))]
  else match v with
       | Some (JNum _) => None
       | _ => Some []
       end.

(** [ReservationItem] (lines 43-82). *)
Definition item_view (tz : Z) (isPast : bool) (r : json) : option (list (Elem RsAction)) :=
  title ← jsx_child (json_get "facilityName" r);
  status ← (match json_get "status" r with Some (JStr s) => Some s | _ => None end);
  slot ← jsx_child (json_get "timeSlot" r);
  people ← attendees_elems (json_get "attendees" r);
  Some ([Label title; Badge (item_status_color (json_get "status" r) +:+ "20") (capitalize status);
         Icon "calendar-outline"; Label (item_date tz r);
         Icon "time-outline"; Label slot;
         Icon "location-outline"; Label title] ++ people ++
        (if cancel_visible isPast r
         then [Button "Cancel Reservation" (Some (RCancel (template (json_get "_id" r))))]
         else [])).

(** ** The screen *)

Record RsState := mkRs {
  rs_modal : bool;
  rs_loading : bool;
  rs_refreshing : bool;
  rs_tab : Tab;
}.

(** The [useState] initial values (lines 15-18). *)
Definition rs_initial : RsState := mkRs false true false Upcoming.

Definition set_rs_modal b (st : RsState) := mkRs b (rs_loading st) (rs_refreshing st) (rs_tab st).
Definition set_rs_loading b (st : RsState) := mkRs (rs_modal st) b (rs_refreshing st) (rs_tab st).
Definition set_rs_tab t (st : RsState) := mkRs (rs_modal st) (rs_loading st) (rs_refreshing st) t.

Definition tab_name (t : Tab) : string := match t with Upcoming => "upcoming" | Past => "past" end.

Section Events.
Context {Store : Type} `{!KVStore Store}.

(** [loadReservations] with its [loading] flag: set and cleared around
    the fetch unless there is no [user]. *)
Definition load_flagged (user : option json) (st : RsState) : App Store RsState :=
  if truthy user then (loadReservations user ;; sret (set_rs_loading false st))%st else sret st.

Definition rs_event (user : option json) (ev : RsAction) (st : RsState) : App Store RsState :=
  match ev with
  | RMount => load_flagged user st
  | RPullRefresh => load_flagged user st
  | RSetTab t => sret (set_rs_tab t st)
  | ROpenModal => sret (set_rs_modal true st)
  | RCloseModal => sret (set_rs_modal false st)
  | RModalSuccess => load_flagged user (set_rs_modal false st)
  | RCancel _ =>
      (api (alert "Cancel Reservation" "Are you sure you want to cancel this reservation?") ;; sret st)%st
  | RConfirmCancel id => (handleCancelReservation user id ;; sret (set_rs_loading false st))%st
  end.
End Events.

(** The screen's JSX (lines 98-163) over the context's [reservations],
    at time [now] in zone [tz].  [reservations.filter] (line 84) runs
    first: it needs an array, and its callback reads [date] and [status]
    of every element, which throws on [null]. *)
Definition reservations_view (tz now : Z) (reservations : json) (st : RsState)
    : option (list (Elem RsAction)) :=
  match reservations with
  | JArr l =>
      if has_null l then None
      else if rs_loading st && (if l is [] then true else false) then Some [Spinner "Loading reservations..."]
      else
        let shown := filteredReservations (rs_tab st) now l in
        items ← mapM (item_view tz (match rs_tab st with Past => true | Upcoming => false end)) shown;
        Some ([Label "My Reservations"; Button "add" (Some ROpenModal);
               Highlight (if rs_tab st is Upcoming then true else false);
               Button "Upcoming" (Some (RSetTab Upcoming));
               Highlight (if rs_tab st is Past then true else false);
               Button "Past" (Some (RSetTab Past));
               RefreshFlag (rs_refreshing st)] ++
              (match shown with
               | [] => [Icon "calendar-outline";
                        Label (if rs_loading st then "Loading reservations..."
                               else "No " +:+ tab_name (rs_tab st) +:+ " reservations found")] ++
                       (if negb (rs_loading st) && (if rs_tab st is Upcoming then true else false)
                        then [Button "Make a Reservation" (Some ROpenModal)] else [])
               | _ => concat items
               end) ++
              [ModalShown (rs_modal st)])
  | _ => None
  end.

(** ** Theorems *)

Definition cancel_buttons (els : list (Elem RsAction)) : nat := count_elems (is_button "Cancel Reservation") els.

Lemma attendees_no_button v es : attendees_elems v = Some es -> cancel_buttons es = 0.
Proof.
  unfold attendees_elems. destruct (truthy v).
  - destruct (jsx_child v); [|done]. by intros [= <-].
  - destruct v as [[]|]; try (by intros [= <-]); done.
Qed.

Lemma item_cancel_buttons tz isPast r es :
  item_view tz isPast r = Some es -> cancel_buttons es = if cancel_visible isPast r then 1 else 0.
Proof.
  unfold item_view. intros H.
  apply bind_Some in H as (title & _ & H). apply bind_Some in H as (status & _ & H).
  apply bind_Some in H as (slot & _ & H). apply bind_Some in H as (people & Hp & H).
  apply (inj Some) in H. subst es. unfold cancel_buttons.
  pose proof (attendees_no_button _ _ Hp) as Hp0. unfold cancel_buttons in Hp0.
  rewrite !count_app, Hp0. by destruct (cancel_visible isPast r).
Qed.

Lemma sum_cancel_upcoming now l :
  sum_list (map (fun r => if cancel_visible false r then 1%nat else 0%nat) (filteredReservations Upcoming now l)) =
  length (filteredReservations Upcoming now l).
Proof.
  unfold filteredReservations. induction l as [|r l IH]; [done|]. cbn [List.filter].
  destruct (in_tab Upcoming now r) eqn:Hr; [|exact IH].
  cbn [map sum_list length]. rewrite (cancel_button_upcoming_only Upcoming now r Hr), IH. done.
Qed.

Lemma sum_cancel_past (l : list json) :
  sum_list (map (fun r => if cancel_visible true r then 1%nat else 0%nat) l) = 0%nat.
Proof. induction l as [|r l IH]; [done|]. by simpl. Qed.

(** C33. Every reservation listed under "upcoming" gets its cancel button and
    nothing listed under "past" does: the list shows exactly as many
    "Cancel Reservation" buttons as the upcoming tab has items. *)
Theorem cancel_buttons_upcoming tz now l st els :
  reservations_view tz now (JArr l) st = Some els ->
  cancel_buttons els =
  match rs_tab st with Upcoming => length (filteredReservations Upcoming now l) | Past => 0%nat end.
Proof.
  unfold reservations_view. destruct (has_null l); [done|].
  destruct (rs_loading st && _) eqn:Hsp.
  { intros [= <-]. apply andb_true_iff in Hsp as [_ Hl]. destruct l; [|done].
    by destruct (rs_tab st). }
  intros H. apply bind_Some in H as (items & Hi & H). apply (inj Some) in H. subst els.
  set (isPast := match rs_tab st with Past => true | Upcoming => false end) in *.
  assert (Hsum : sum_list (map (fun r => if cancel_visible isPast r then 1%nat else 0%nat)
                          (filteredReservations (rs_tab st) now l)) =
                 match rs_tab st with Upcoming => length (filteredReservations Upcoming now l) | Past => 0%nat end).
  { unfold isPast. destruct (rs_tab st); [apply sum_cancel_upcoming|apply sum_cancel_past]. }
  rewrite <-Hsum.
  pose proof (count_mapM_concat (is_button "Cancel Reservation") _
                (fun r => if cancel_visible isPast r then 1%nat else 0%nat) _ _ (item_cancel_buttons tz isPast) Hi) as Hc.
  destruct (filteredReservations (rs_tab st) now l) as [|r0 rest].
  - cbn [app]. unfold cancel_buttons, count_elems. destruct (rs_loading st), (rs_tab st); reflexivity.
  - unfold cancel_buttons. rewrite !count_app, Hc. cbn -[sum_list map]. lia.
Qed.

(** A reservation with [attendees: n] dated after [morning]. *)
Definition booked (n : Z) : json :=
  JObj [("_id", JStr "r1"); ("facilityName", JStr "Court A"); ("date", JStr "2030-01-05");
        ("timeSlot", JStr "10:00"); ("status", JStr "confirmed"); ("attendees", JNum n)].

(** The wizard sends [parseInt("0")], that is [0], for "0" attendees; a
    reservation stored with 0 attendees makes the list throw, while 2
    attendees render as "2 people". *)
Example zero_attendees_crash :
  reservations_view 0 morning (JArr [booked 0]) (mkRs false false false Upcoming) = None /\
  is_Some (reservations_view 0 morning (JArr [booked 2]) (mkRs false false false Upcoming)).
Proof. split; [reflexivity|eexists; reflexivity]. Qed.

Lemma cancel_buttons_upcoming_witness :
  match reservations_view 0 morning (JArr [booked 2]) (mkRs false false false Upcoming) with
  | Some els => cancel_buttons els = length (filteredReservations Upcoming morning [booked 2])
  | None => False
  end.
Proof.
  destruct (reservations_view _ _ _ _) as [els|] eqn:E; [|vm_compute in E; discriminate].
  exact (cancel_buttons_upcoming 0 morning [booked 2] (mkRs false false false Upcoming) els E).
Defined.
