(* ===== verification/ReservationsLoop.v ===== *)
(** * The reservations screen on the event loop ([screens/reservations-screen.tsx])

    The screen's handlers split at their [await]s, as tasks of [Tasks]
    over the contexts' world and session together with the screen's own
    state [RsState].  A handler's synchronous prefix runs when the user
    presses ([spawn]); what follows each [await] is one later action of
    its task:
    - the mount effect and pull to refresh: [loadReservations] sets
      [loading] (and [onRefresh] [refreshing]), then, once
      [fetchReservations] has settled, clears them;
    - the confirmation's "Yes" ([handleCancelReservation], lines 55-81):
      [setLoading(true)]; once the context's [cancelReservation] has
      settled, the alert and the start of [loadReservations]; once that
      has settled, the two [finally]s.
    As in [EventLoop], a request is sent and answered in one action.
    [rl_step] is the mounted screen: a task runs its next action, the
    user presses a button the render offers ([View.offered]) while no
    dialog is open, or answers the confirmation dialog.  [rl_exec] is the
    same as a function of an input, for runs that evaluate.

    [double_cancel]: the list, which [loading] hides only when it is
    empty, still offers the cancel button of a reservation whose
    cancellation is in flight, so from any state offering that button a
    second cancellation of the same reservation can start before the
    first settles; [double_cancel_run] runs both against a backend, which
    receives two cancellations and the screen announces success twice. *)

From S2P Require Import Prelude Json Http Endpoint ApiService Contexts ReservationsScreen View ReservationsView Tasks.
From Stdlib Require Import ZArith.

#[export] Instance Tab_eq_dec : EqDecision Tab.
Proof. solve_decision. Defined.
#[export] Instance RsAction_eq_dec : EqDecision RsAction.
Proof. solve_decision. Defined.

Definition set_rs_refreshing b (st : RsState) := mkRs (rs_modal st) (rs_loading st) b (rs_tab st).

Section Loop.
Context {Store : Type} `{!KVStore Store}.

(** The state the screen's tasks share. *)
Local Abbreviation RsWorld := ((World Store * Session) * RsState)%type.
Local Abbreviation Job := (Res RsWorld Exn unit).

Definition on_app {A} (c : App Store A) : ST RsWorld Exn A :=
  fun s => let '(r, ws') := c s.1 in (r, (ws', s.2)).

Definition on_screen (f : RsState -> RsState) : ST RsWorld Exn unit :=
  fun s => (Ok tt, (s.1, f s.2)).

(** [loadReservations] up to its [await] (lines 20-27) and after it
    (lines 27-34), for a signed-in [user]. *)
Definition load_start : ST RsWorld Exn unit := on_screen (set_rs_loading true).

Definition load_end (user : option json) : ST RsWorld Exn unit :=
  (scatch (on_app (fetchReservations (user_id_arg (user ≫= json_get "_id"))))
     (fun _ => on_app (api (alert "Error" "Failed to load reservations"))) ;;
   on_screen (set_rs_loading false))%st.

(** The mount effect (lines 43-47). *)
Definition mount_task (user : option json) : Job :=
  if truthy user then RAct load_start (fun _ => atomic (load_end user)) else rret tt.

(** [onRefresh] (lines 37-41); without a user [loadReservations]
    returns at once. *)
Definition refresh_task (user : option json) : Job :=
  if truthy user then
    RAct (on_screen (set_rs_refreshing true) ;; load_start)%st
      (fun _ => atomic (load_end user ;; on_screen (set_rs_refreshing false))%st)
  else atomic (on_screen (set_rs_refreshing true) ;; on_screen (set_rs_refreshing false))%st.

(** The alerts after the context's [cancelReservation] (lines 58-78). *)
Definition cancel_settled (reservationId : string) : ST RsWorld Exn unit :=
  scatch
    (result <- on_app (ctx_cancelReservation reservationId) ;;
     on_app (api (if field_is "status" "cancelled" result
                  then alert "Success" "Reservation cancelled successfully"
                  else alert "Note" "Reservation status updated locally. Changes will sync when connection is restored.")))%st
    (fun _ => on_app (api (alert "Error" cancel_failed_message))).

(** The "Yes" button (lines 55-81) after its [setLoading(true)]: the
    cancellation in flight. *)
Definition yes_rest (user : option json) (reservationId : string) : Job :=
  if truthy user then
    RAct (cancel_settled reservationId ;; load_start)%st
      (fun _ => atomic (load_end user ;; on_screen (set_rs_loading false))%st)
  else atomic (cancel_settled reservationId ;; on_screen (set_rs_loading false))%st.

Definition yes_task (user : option json) (reservationId : string) : Job :=
  RAct (on_screen (set_rs_loading true)) (fun _ => yes_rest user reservationId).

(** A handler's synchronous prefix runs when it is called; the rest of
    it waits in the event loop. *)
Definition spawn (t : Job) (s : RsWorld) : RsWorld * list Job :=
  match t with
  | RAct c k => let '(r, s') := c s in (s', [k r])
  | RDone _ => (s, [])
  end.

Variables (user : option json) (tz now : Z).

Definition rs_render (s : RsWorld) : option (list (Elem RsAction)) :=
  reservations_view tz now (ss_reservations s.1.2) s.2.

Definition rs_offers (a : RsAction) (s : RsWorld) : Prop :=
  match rs_render s with Some els => offered a els | None => False end.

(** A press on a button of the list: the new state, the tasks it adds
    and the confirmation dialog it opens. *)
Definition rs_press (a : RsAction) (s : RsWorld) : RsWorld * list Job * option string :=
  match a with
  | RPullRefresh => let '(s', ts) := spawn (refresh_task user) s in (s', ts, None)
  | RSetTab t => (snd (on_screen (set_rs_tab t) s), [], None)
  | ROpenModal => (snd (on_screen (set_rs_modal true) s), [], None)
  | RCloseModal => (snd (on_screen (set_rs_modal false) s), [], None)
  | RCancel id =>
      (snd (on_app (api (alert "Cancel Reservation" "Are you sure you want to cancel this reservation?")) s),
       [], Some id)
  | _ => (s, [], None)
  end.

Record RlCfg := mkRl {
  rl_state : RsWorld;
  rl_tasks : list Job;
  rl_dialog : option string;     (** the confirmation dialog of a reservation *)
}.

Inductive rl_step : RlCfg -> RlCfg -> Prop :=
| RlRun s ts s' ts' d :
    pstep (s, ts) (s', ts') -> rl_step (mkRl s ts d) (mkRl s' ts' d)
| RlPress s ts a s' new d' :
    rs_offers a s -> rs_press a s = (s', new, d') ->
    rl_step (mkRl s ts None) (mkRl s' (ts ++ new) d')
| RlYes s ts id s' new :
    spawn (yes_task user id) s = (s', new) ->
    rl_step (mkRl s ts (Some id)) (mkRl s' (ts ++ new) None)
| RlNo s ts id : rl_step (mkRl s ts (Some id)) (mkRl s ts None).

(** The screen once mounted: the mount effect's prefix has run. *)
Definition rl_start (ws : World Store * Session) : RlCfg :=
  let '(s, ts) := spawn (mount_task user) (ws, rs_initial) in mkRl s ts None.

(** ** Runs that evaluate *)

Inductive RlInput := IRun (i : nat) | IPress (a : RsAction) | IYes | INo.

Definition button_offered (a : RsAction) (els : list (Elem RsAction)) : bool :=
  existsb (fun e => match e with Button _ (Some a') => bool_decide (a = a') | _ => false end) els.

Definition rl_exec (inp : RlInput) (c : RlCfg) : option RlCfg :=
  match inp, c with
  | IRun i, mkRl s ts d =>
      match ts !! i with
      | Some (RAct c k) => Some (mkRl (snd (c s)) (<[i := k (fst (c s))]> ts) d)
      | _ => None
      end
  | IPress a, mkRl s ts None =>
      match rs_render s with
      | Some els => if button_offered a els
                    then let '(s', new, d') := rs_press a s in Some (mkRl s' (ts ++ new) d')
                    else None
      | None => None
      end
  | IYes, mkRl s ts (Some id) => let '(s', new) := spawn (yes_task user id) s in Some (mkRl s' (ts ++ new) None)
  | INo, mkRl s ts (Some id) => Some (mkRl s ts None)
  | _, _ => None
  end.

Fixpoint rl_run (inps : list RlInput) (c : RlCfg) : option RlCfg :=
  match inps with
  | [] => Some c
  | i :: rest => c' ← rl_exec i c; rl_run rest c'
  end.
End Loop.

(** ** Theorems *)

Lemma button_offered_sound a (els : list (Elem RsAction)) : button_offered a els = true -> offered a els.
Proof.
  unfold button_offered, offered. intros H. apply existsb_exists in H as (e & He & Hb).
  apply Exists_exists. exists e. split; [by apply list_elem_of_In|].
  destruct e as [| | | | |l [a'|]| | | | | |]; try done. cbn. by apply bool_decide_eq_true in Hb.
Qed.

(** ** The cancel button while a cancellation is in flight *)

Ltac no_offer H :=
  repeat (apply Exists_cons in H as [H|H];
          [cbn in H; first [discriminate | contradiction | destruct H as [? H]; discriminate]|]);
  apply Exists_nil in H; contradiction.

Section Runs.
Context {Store : Type} `{!KVStore Store}.
Variables (user : option json) (tz now : Z).

Lemma rl_exec_sound inp (c c' : RlCfg (Store:=Store)) :
  rl_exec user tz now inp c = Some c' -> rl_step user tz now c c'.
Proof.
  destruct inp as [i|a| |], c as [s ts [d|]]; cbn; try discriminate.
  - destruct (ts !! i) as [[r|B c k]|] eqn:Hi; intros; simplify_eq. by constructor; constructor.
  - destruct (ts !! i) as [[r|B c k]|] eqn:Hi; intros; simplify_eq. by constructor; constructor.
  - destruct (rs_render tz now s) as [els|] eqn:Hr; [|discriminate].
    destruct (button_offered a els) eqn:Hb; [|discriminate].
    destruct (rs_press user a s) as [[s' new] d'] eqn:Hp. intros [= <-].
    eapply RlPress; [|exact Hp]. unfold rs_offers. rewrite Hr. by apply button_offered_sound.
  - destruct (spawn (yes_task user d) s) as [s' new] eqn:Hs. intros [= <-]. by constructor.
  - intros [= <-]. constructor.
Qed.

Lemma rl_run_rtc inps (c c' : RlCfg (Store:=Store)) :
  rl_run user tz now inps c = Some c' -> rtc (rl_step user tz now) c c'.
Proof.
  revert c. induction inps as [|i inps IH]; intros c; cbn; [intros [= <-]; constructor|].
  destruct (rl_exec user tz now i c) as [c1|] eqn:E; [|discriminate]. cbn. intros H.
  eapply rtc_l; [exact (rl_exec_sound i c c1 E)|]. by apply IH.
Qed.

(** While the list is empty, [loading] replaces the screen by the
    spinner and nothing can be pressed. *)
Lemma rs_spinner_no_action (s : (World Store * Session) * RsState) a :
  rs_loading s.2 = true -> ss_reservations s.1.2 = JArr [] -> ~ rs_offers tz now a s.
Proof.
  intros Hl Hr. unfold rs_offers, rs_render. rewrite Hr. cbn. rewrite Hl. cbn.
  intros Hx. inversion Hx as [? ? Hy|? ? Hy]; [exact Hy|inversion Hy].
Qed.
(** Setting [loading] changes nothing of a list that shows a cancel
    button: the spinner replaces only an empty list. *)
Lemma view_cancel_loading res st els id b :
  reservations_view tz now res st = Some els -> offered (RCancel id) els ->
  reservations_view tz now res (set_rs_loading b st) = Some els.
Proof.
  unfold reservations_view. destruct res as [| | | |l|]; try done.
  destruct (has_null l); [done|]. cbn [set_rs_loading rs_loading rs_tab rs_refreshing rs_modal].
  destruct (rs_loading st && _)%bool eqn:Hsp.
  { intros [= <-] Hx. unfold offered in Hx. no_offer Hx. }
  destruct (mapM _ _) as [items|]; [|done]. cbn.
  destruct (filteredReservations (rs_tab st) now l) as [|x xs] eqn:Hsh.
  - intros [= <-] Hx. unfold offered in Hx.
    destruct (negb (rs_loading st) && _)%bool; cbn in Hx; no_offer Hx.
  - intros [= <-] _. destruct l as [|y l']; [by cbn in Hsh|]. by rewrite andb_false_r.
Qed.

Lemma rs_offers_alert (s : (World Store * Session) * RsState) a t m :
  rs_offers tz now a (snd (on_app (api (alert t m)) s)) <-> rs_offers tz now a s.
Proof. destruct s as [[w ss] st]. done. Qed.

Lemma rs_offers_loading (s : (World Store * Session) * RsState) id b :
  rs_offers tz now (RCancel id) s -> rs_offers tz now (RCancel id) (s.1, set_rs_loading b s.2).
Proof.
  unfold rs_offers, rs_render. cbn [fst snd].
  destruct (reservations_view _ _ _ s.2) as [els|] eqn:E; [|done]. intros H.
  by rewrite (view_cancel_loading _ _ _ _ _ E H).
Qed.

(** C39. Confirming a cancellation does not take the reservation's
    cancel button away: from any state of the mounted screen that offers
    the cancel button of [id], the user can press it, confirm, press it
    again and confirm again, leaving two cancellations of [id] in flight
    at once; [loading] is set, and the button is still offered. *)
Theorem double_cancel (c : RlCfg (Store:=Store)) id :
  rl_dialog c = None -> rs_offers tz now (RCancel id) (rl_state c) ->
  exists c', rtc (rl_step user tz now) c c' /\ rl_dialog c' = None /\
    rl_tasks c' = rl_tasks c ++ [yes_rest user id; yes_rest user id] /\
    rs_loading (rl_state c').2 = true /\ rs_offers tz now (RCancel id) (rl_state c').
Proof.
  destruct c as [s ts d]; cbn [rl_dialog rl_state rl_tasks]. intros -> Hoff.
  set (ask := alert (Store:=Store) "Cancel Reservation" "Are you sure you want to cancel this reservation?").
  set (s1 := snd (on_app (api ask) s)). set (s2 := (s1.1, set_rs_loading true s1.2)).
  set (s3 := snd (on_app (api ask) s2)). set (s4 := (s3.1, set_rs_loading true s3.2)).
  assert (H1 : rs_offers tz now (RCancel id) s1) by (by apply rs_offers_alert).
  assert (H2 : rs_offers tz now (RCancel id) s2) by (by apply rs_offers_loading).
  assert (H3 : rs_offers tz now (RCancel id) s3) by (by apply rs_offers_alert).
  exists (mkRl s4 ((((ts ++ []) ++ [yes_rest user id]) ++ []) ++ [yes_rest user id]) None).
  split; [|split; [done|split; [by rewrite !app_nil_r, <-app_assoc|split; [done|by apply rs_offers_loading]]]].
  eapply rtc_l; [by eapply RlPress|]. eapply rtc_l; [by eapply RlYes|].
  eapply rtc_l; [by eapply RlPress|]. eapply rtc_l; [by eapply RlYes|]. apply rtc_refl.
Qed.

End Runs.

(** Run without interruption, the split "Yes" handler does to the
    contexts what the atomic [handleCancelReservation] does, and leaves
    [loading] cleared. *)
Lemma run_seq_yes_task {Store} `{!KVStore Store} user reservationId (ws : World Store * Session) st :
  truthy user = true ->
  let '(r, (ws', st')) := run_seq (yes_task user reservationId) (ws, st) in
  (r, ws') = handleCancelReservation user reservationId ws /\ rs_loading st' = false.
Proof.
  intros Hu. unfold yes_task, yes_rest, handleCancelReservation, loadReservations. rewrite Hu. cbn.
  unfold cancel_settled, load_start, load_end, on_app, on_screen, scatch, sbind. cbn.
  destruct (ctx_cancelReservation reservationId ws) as [[res|e] ws1]; cbn;
    [destruct (field_is "status" "cancelled" res)|]; cbn;
    match goal with |- context [fetchReservations ?u ?w] => destruct (fetchReservations u w) as [[[]|e'] ws2] end;
    cbn; split; reflexivity.
Qed.

(** ** A reservation cancelled twice *)

(** A backend that lists one upcoming reservation and accepts every
    cancellation. *)
Definition cancel_net (_ : nat) (r : Request) : Outcome :=
  match rq_method r with
  | GET => Answer 200 (BJson (JArr [booked 2]))
  | _ => Answer 200 (BJson (JObj [("_id", JStr "r1"); ("status", JStr "cancelled")]))
  end.

Definition cancel_world : World (gmap string string) := initial_world ∅ cancel_net (fun _ => 0%nat).

(** The cancellation requests of [r1] sent so far. *)
Definition cancel_requests (w : World (gmap string string)) : nat :=
  length (List.filter (fun r => String.eqb (rq_url r) (API_URLS_localNetwork +:+ "/reservations/r1/cancel"))
            (w_sent w)).

(** The list loads; the user cancels [r1] and confirms.  While that
    request is in flight [loading] is set, but the list is not empty, so
    the screen still shows it with [r1]'s cancel button; the user presses
    it again and confirms again.  Both tasks then send their request:
    [r1] is cancelled twice, and the screen announces success twice. *)
Example double_cancel_run :
  exists c, rtc (rl_step (Some member) 0 morning) (rl_start (Some member) (cancel_world, signed_in)) c /\
    rs_loading (rl_state c).2 = true /\ length (rl_tasks c) = 3%nat /\
    cancel_requests (rl_state c).1.1 = 2%nat /\
    w_alerts (rl_state c).1.1 =
      [("Cancel Reservation", "Are you sure you want to cancel this reservation?");
       ("Cancel Reservation", "Are you sure you want to cancel this reservation?");
       ("Success", "Reservation cancelled successfully"); ("Success", "Reservation cancelled successfully")].
Proof.
  set (sched := [IRun 0; IPress (RCancel "r1"); IYes; IPress (RCancel "r1"); IYes; IRun 1; IRun 2]).
  assert (Hp : (fun c => (rs_loading (rl_state c).2, length (rl_tasks c), cancel_requests (rl_state c).1.1,
                          w_alerts (rl_state c).1.1)) <$>
                 rl_run (Some member) 0 morning sched (rl_start (Some member) (cancel_world, signed_in)) =
               Some (true, 3%nat, 2%nat,
                     [("Cancel Reservation", "Are you sure you want to cancel this reservation?");
                      ("Cancel Reservation", "Are you sure you want to cancel this reservation?");
                      ("Success", "Reservation cancelled successfully");
                      ("Success", "Reservation cancelled successfully")])) by (vm_compute; reflexivity).
  destruct (rl_run (Some member) 0 morning sched (rl_start (Some member) (cancel_world, signed_in)))
    as [c|] eqn:Hrun; [|discriminate].
  exists c. split; [exact (rl_run_rtc _ _ _ _ _ _ Hrun)|].
  injection Hp as -> -> -> ->. done.
Qed.

(** The screen once the list has loaded from [cancel_net]. *)
Definition loaded_cfg : RlCfg (Store:=gmap string string) :=
  match rl_run (Some member) 0 morning [IRun 0] (rl_start (Some member) (cancel_world, signed_in)) with
  | Some c => c
  | None => rl_start (Some member) (cancel_world, signed_in)
  end.

Lemma double_cancel_witness :
  exists c', rtc (rl_step (Some member) 0 morning) loaded_cfg c' /\ rl_dialog c' = None /\
    rl_tasks c' = rl_tasks loaded_cfg ++ [yes_rest (Some member) "r1"; yes_rest (Some member) "r1"] /\
    rs_loading (rl_state c').2 = true /\ rs_offers 0 morning (RCancel "r1") (rl_state c').
Proof.
  apply double_cancel; [vm_compute; reflexivity|].
  unfold rs_offers. destruct (rs_render 0 morning (rl_state loaded_cfg)) as [els|] eqn:E;
    [|vm_compute in E; discriminate].
  apply button_offered_sound. revert E. vm_compute. intros [= <-]. reflexivity.
Defined.
