(* ===== verification/LoginProfile.v ===== *)
(** * The login and profile screens ([screens/login-screen.tsx],
      [screens/profile-screen.tsx])

    [handleLogin] (login screen, lines 24-39) checks the two fields,
    calls the auth context's [login] and replaces the navigation stack by
    the main tabs on success; the model returns whether it navigated.
    The profile screen keeps a form ([Profile]: name, email, phone, the
    edit mode and the notification switch) initialised from the auth
    context's [user]; [fetchUserProfile] (lines 50-67) fills it from the
    backend, [handleSaveProfile] (lines 110-145) validates and sends it,
    [handleCancelEdit] (lines 100-108) reverts it to [user].  The form's
    fields are the strings the backend sends for them; a field of
    another type (on which the code's [trim()] would throw) is outside the
    model.  The [loading]/[refreshing] flags only choose a spinner. *)

From S2P Require Import Prelude Json Http Endpoint ApiService JsonCodec Contexts ReservationModal Dashboard.

(** ** The login screen *)

Definition nonempty (s : string) : bool := negb (String.eqb s "").

Section Login.
Context {Store : Type} `{!KVStore Store}.

(** [handleLogin]: [true] when it called [navigation.replace("MainTabs")]. *)
Definition handleLogin (email password : string) : App Store bool :=
  if negb (nonempty email && nonempty password) then
    (api (alert "Error" "Please enter both email and password") ;; sret false)%st
  else
    scatch (auth_login email password ;; sret true)%st
      (fun error =>
         api (alert "Login Failed"
                (if nonempty (exn_message error) then exn_message error else "Invalid credentials")) ;;
         sret false)%st.
End Login.

(** ** The profile screen *)

Record Profile := mkProfile {
  pf_name : string;
  pf_email : string;
  pf_phone : string;
  pf_edit : bool;            (** [editMode] *)
  pf_notifications : bool;   (** [notificationsEnabled] *)
}.

(** [v || ""] for a string field.  The form holds strings: for a truthy
    value that is not a string the code keeps the value itself, which
    the model replaces by its text; the two agree on every value the
    declared [User] types admit (their [name], [email] and [phone] are
    strings), and differ only on ill-typed answers, where the code's
    later [trim] and [charAt] would throw. *)
Definition field_or_empty (v : option json) : string := if truthy v then template v else "".

Definition form_of (v : option json) : string * string * string :=
  (field_or_empty (v ≫= json_get "name"), field_or_empty (v ≫= json_get "email"),
   field_or_empty (v ≫= json_get "phone")).

Definition set_form (f : string * string * string) (p : Profile) : Profile :=
  let '(n, e, ph) := f in mkProfile n e ph (pf_edit p) (pf_notifications p).
Definition set_edit (b : bool) (p : Profile) : Profile :=
  mkProfile (pf_name p) (pf_email p) (pf_phone p) b (pf_notifications p).

(** The [useState] initial values (lines 35-43). *)
Definition profile_initial (user : option json) : Profile :=
  set_form (form_of user) (mkProfile "" "" "" false true).

(** [toggleNotifications] (lines 91-94). *)
Definition toggleNotifications (p : Profile) : Profile :=
  mkProfile (pf_name p) (pf_email p) (pf_phone p) (pf_edit p) (negb (pf_notifications p)).

(** [handleEditProfile] (lines 96-98). *)
Definition handleEditProfile (p : Profile) : Profile := set_edit true p.

(** The name field's [onChangeText] (line 183). *)
Definition type_name (text : string) (p : Profile) : Profile :=
  mkProfile text (pf_email p) (pf_phone p) (pf_edit p) (pf_notifications p).

(** [handleCancelEdit] (lines 100-108): back to the auth context's [user]. *)
Definition handleCancelEdit (user : option json) (p : Profile) : Profile :=
  set_edit false (set_form (form_of user) p).

(** The body [handleSaveProfile] sends. *)
Definition profile_body (p : Profile) : json :=
  JObj [("name", JStr (pf_name p)); ("email", JStr (pf_email p)); ("phone", JStr (pf_phone p))].

(** The validation of lines 117-126. *)
Definition profile_valid (p : Profile) : bool :=
  nonempty (trim (pf_name p)) && nonempty (trim (pf_email p)) && str_includes "@" (pf_email p).

Section Profile.
Context {Store : Type} `{!KVStore Store}.

(** [fetchUserProfile] (lines 50-67): [token] is the auth context's. *)
Definition fetchUserProfile (token : option json) (p : Profile) : App Store Profile :=
  if truthy token then
    scatch
      (userData <- api (getUserProfile (template token)) ;;
       _ <- read_prop "name" userData ;;
       sret (set_form (form_of (Some userData)) p))%st
      (fun _ => api (alert "Error" "Failed to load profile data") ;; sret p)%st
  else sret p.

(** [handleSaveProfile] (lines 110-145). *)
Definition handleSaveProfile (token : option json) (p : Profile) : App Store Profile :=
  if truthy token then
    if negb (nonempty (trim (pf_name p))) then
      (api (alert "Error" "Name cannot be empty") ;; sret p)%st
    else if negb (nonempty (trim (pf_email p)) && str_includes "@" (pf_email p)) then
      (api (alert "Error" "Please enter a valid email") ;; sret p)%st
    else
      scatch
        (_ <- api (updateUserProfile (profile_body p) (template token)) ;;
         api (alert "Success" "Profile updated successfully") ;;
         fetchUserProfile token (set_edit false p))%st
        (fun _ => api (alert "Error" "Failed to update profile") ;; sret p)%st
  else sret p.

(** [handleLogout] (lines 69-82): [true] when it reset the navigation to
    the login screen. *)
Definition handleLogout : App Store bool :=
  scatch (auth_logout ;; sret true)%st
    (fun _ => api (alert "Error" "Failed to log out") ;; sret false)%st.

(** [handleChangePassword] (lines 147-150). *)
Definition handleChangePassword : App Store unit :=
  api (alert "Coming Soon" "Password change functionality will be available in a future update.").
End Profile.

(** ** The log of requests only grows *)

Section Log.
Context {Store : Type} `{!KVStore Store}.

Definition log_from (pre : list Request) (w : World Store) : Prop := exists rest, w_sent w = pre ++ rest.
Definition app_log_from (pre : list Request) (ws : World Store * Session) : Prop := log_from pre ws.1.

Lemma send_log pre r : preserves (log_from pre) (@send Store r).
Proof. intros w [rest H]. exists (rest ++ [r]). simpl. by rewrite H, app_assoc. Qed.
Lemma of_res_log pre {A} (x : res Exn A) : preserves (log_from pre) (@of_res Store A x).
Proof. by intros w H. Qed.
Lemma alert_log pre t m : preserves (log_from pre) (@alert Store t m).
Proof. by intros w H. Qed.

Lemma api_log pre {A} (c : Api Store A) : preserves (log_from pre) c -> preserves (app_log_from pre) (api c).
Proof. intros Hc [w s] H. unfold api. simpl. specialize (Hc w H). by destruct (c w). Qed.
Lemma upd_log pre f : preserves (app_log_from pre) (@upd Store f).
Proof. by intros ws H. Qed.
End Log.

#[export] Hint Resolve send_log of_res_log alert_log upd_log : st.

Section LoginProfileTheorems.
Context {Store : Type} `{!KVStore Store} `{!KVStoreLaws Store}.

Lemma getUserProfile_log pre t : preserves (log_from pre) (@getUserProfile Store t).
Proof. unfold getUserProfile, api_request, axios_send. preserves_solve. Qed.

Lemma fetchUserProfile_log pre token p : preserves (app_log_from pre) (@fetchUserProfile Store token p).
Proof.
  unfold fetchUserProfile, read_prop. preserves_solve; apply api_log; [apply getUserProfile_log|].
  preserves_solve.
Qed.

Lemma updateUserProfile_world b t (w : World Store) :
  snd (updateUserProfile b t w) = push_sent (axios_config (w_base w) 15000 PUT "/users/profile" (Some b) (Some t)) w.
Proof. unfold updateUserProfile, api_request, axios_send, scatch, sbind, sget, of_res. simpl. by destruct (axios_settle _ _). Qed.

(** C37. The login screen navigates to the main tabs only after a
    successful [login], and then the session holds a user and a string
    token, both cached in AsyncStorage; otherwise it ends with an "Error"
    or "Login Failed" alert whose message is not empty.  It never
    rejects. *)
Theorem handleLogin_outcome email password (w : World Store) s :
  let '(r, (w', s')) := handleLogin email password (w, s) in
  match r with
  | Ok true => exists u t, ss_user s' = Some u /\ ss_token s' = Some (JStr t) /\
      kv_get (w_store w') "user" = Some (JSON_stringify u) /\ kv_get (w_store w') "token" = Some t
  | Ok false => exists title msg, last (w_alerts w') = Some (title, msg) /\
      (title = "Error" \/ title = "Login Failed") /\ msg <> ""
  | Err _ => False
  end.
Proof.
  unfold handleLogin. destruct (negb _) eqn:G.
  - app_unfold. rewrite last_snoc. do 2 eexists. split; [reflexivity|]. split; [by left|done].
  - unfold scatch, sbind at 1.
    destruct (auth_login email password (w, s)) as [[[]|e] [w1 s1]] eqn:E; cbn.
    + exact (auth_login_ok _ _ _ _ _ _ E).
    + rewrite last_snoc. do 2 eexists. split; [reflexivity|]. split; [by right|].
      destruct (nonempty (exn_message e)) eqn:N; [|discriminate].
      unfold nonempty in N. apply negb_true_iff, String.eqb_neq in N. exact N.
Qed.

(** C38. [handleSaveProfile] sends nothing unless there is a token and
    the form passes the validation (a name and an email that are not
    blank, the email containing "@"); it then sends first the PUT of the
    form's fields as typed, untrimmed. *)
Theorem save_sends_only_valid token p (w : World Store) s :
  let ws' := snd (handleSaveProfile token p (w, s)) in
  w_sent ws'.1 = w_sent w \/
  (truthy token = true /\ profile_valid p = true /\
   exists rest, w_sent ws'.1 =
     w_sent w ++ axios_config (w_base w) 15000 PUT "/users/profile" (Some (profile_body p))
                   (Some (template token)) :: rest).
Proof.
  unfold handleSaveProfile, profile_valid. destruct (truthy token); [|by left].
  destruct (nonempty (trim (pf_name p))); simpl; [|by left].
  destruct (nonempty (trim (pf_email p)) && str_includes "@" (pf_email p)) eqn:V; simpl; [|by left].
  right. split; [done|]. split; [done|].
  set (pre := w_sent w ++ [axios_config (w_base w) 15000 PUT "/users/profile" (Some (profile_body p))
                            (Some (template token))]).
  assert (H : app_log_from pre (snd (scatch (_ <- api (updateUserProfile (profile_body p) (template token)) ;;
                 api (alert "Success" "Profile updated successfully") ;;
                 fetchUserProfile token (set_edit false p))%st
               (fun _ => api (alert "Error" "Failed to update profile") ;; sret p)%st (w, s)))).
  { apply preserves_catch_from; [apply preserves_bind_from|].
    - unfold api. simpl. pose proof (updateUserProfile_world (profile_body p) (template token) w) as Hw.
      destruct (updateUserProfile _ _ w) as [r w1]. simpl in *. subst w1.
      exists []. unfold pre. simpl. by rewrite app_nil_r.
    - intros _. preserves_solve; [apply api_log, alert_log|apply fetchUserProfile_log].
    - intros _. preserves_solve. apply api_log, alert_log. }
  destruct H as [rest Hr]. exists rest. rewrite Hr. unfold pre. by rewrite <-app_assoc.
Qed.
End LoginProfileTheorems.

(** ** Runs *)

Lemma handleLogin_outcome_witness :
  let '(r, (w', s')) := handleLogin "ann@example.com" "pw" (auth_world, session_initial) in
  match r with
  | Ok true => exists u t, ss_user s' = Some u /\ ss_token s' = Some (JStr t) /\
      kv_get (w_store w') "user" = Some (JSON_stringify u) /\ kv_get (w_store w') "token" = Some t
  | Ok false => exists title msg, last (w_alerts w') = Some (title, msg) /\
      (title = "Error" \/ title = "Login Failed") /\ msg <> ""
  | Err _ => False
  end.
Proof. exact (handleLogin_outcome "ann@example.com" "pw" auth_world session_initial). Defined.

Definition ann : json := JObj [("_id", JStr "u1"); ("name", JStr "Ann"); ("email", JStr "ann@example.com")].

(** The backend answers every request with the updated profile. *)
Definition profile_net (_ : nat) (_ : Request) : Outcome :=
  Answer 200 (BJson (JObj [("_id", JStr "u1"); ("name", JStr "Anna"); ("email", JStr "ann@example.com")])).

Definition profile_world : World (gmap string string) := initial_world ∅ profile_net (fun _ => 0%nat).

Definition ann_session : Session := set_user (Some ann) signed_in.

(** Edit the name to "Anna". *)
Definition edited : Profile := type_name "Anna" (handleEditProfile (profile_initial (Some ann))).

Lemma save_sends_only_valid_witness :
  let ws' := snd (handleSaveProfile (Some (JStr "tok")) edited (profile_world, ann_session)) in
  w_sent ws'.1 = w_sent profile_world \/
  (truthy (Some (JStr "tok")) = true /\ profile_valid edited = true /\
   exists rest, w_sent ws'.1 =
     w_sent profile_world ++ axios_config (w_base profile_world) 15000 PUT "/users/profile"
       (Some (profile_body edited)) (Some (template (Some (JStr "tok")))) :: rest).
Proof. exact (save_sends_only_valid (Some (JStr "tok")) edited profile_world ann_session). Defined.

(** Cancelling an edit after a save brings back the name the user
    had at login: the save updates the backend and the form, but not the
    auth context's [user], to which [handleCancelEdit] reverts. *)
Example cancel_after_save_stale :
  let '(r, (w', s')) := handleSaveProfile (Some (JStr "tok")) edited (profile_world, ann_session) in
  match r with
  | Ok p => pf_name p = "Anna" /\ ss_user s' = Some ann /\
            pf_name (handleCancelEdit (ss_user s') (handleEditProfile p)) = "Ann"
  | Err _ => False
  end.
Proof. vm_compute. repeat split. Qed.
