(* ===== verification/ProfileView.v ===== *)
(** * The profile screen's events and rendering ([screens/profile-screen.tsx])

    [profile_event] dispatches the screen's UI events to the handlers of
    [LoginProfile]: the two "Edit Profile" entries, the three text
    inputs, Cancel and Save, the notification switch, "Change Password",
    the logout button (which asks for confirmation, [confirmLogout]) and
    the confirmation's "Logout" button.  [profile_view] is the JSX (lines
    152-326): the initial in the avatar, the name and email or the edit
    form, the settings, the membership block read from the auth
    context's [user], and the app links, which have no [onPress].  The
    [loading] overlay is an argument: the handlers set it only while they
    await.  [refreshing] is set by [fetchUserProfile] but never rendered. *)

From S2P Require Import Prelude Json Http Endpoint ApiService Contexts ReservationsScreen View LoginProfile.
From Stdlib Require Import Ascii.

(** The email and phone fields' [onChangeText] (lines 191, 201). *)
Definition type_email (text : string) (p : Profile) : Profile :=
  mkProfile (pf_name p) text (pf_phone p) (pf_edit p) (pf_notifications p).
Definition type_phone (text : string) (p : Profile) : Profile :=
  mkProfile (pf_name p) (pf_email p) text (pf_edit p) (pf_notifications p).

Inductive ProfileAction :=
| PEdit | PName (text : string) | PEmail (text : string) | PPhone (text : string)
| PCancel | PSave | PToggle | PChangePassword
| PLogout                 (** the logout button: [confirmLogout] *)
| PConfirmLogout.         (** "Logout" in the confirmation dialog: [handleLogout] *)

Section Events.
Context {Store : Type} `{!KVStore Store}.

(** [confirmLogout] (lines 84-89). *)
Definition confirmLogout : App Store unit := api (alert "Logout" "Are you sure you want to log out?").

(** One UI event: the new form, and whether the screen reset the
    navigation to the login screen. *)
Definition profile_event (user token : option json) (ev : ProfileAction) (p : Profile)
    : App Store (Profile * bool) :=
  match ev with
  | PEdit => sret (handleEditProfile p, false)
  | PName t => sret (type_name t p, false)
  | PEmail t => sret (type_email t p, false)
  | PPhone t => sret (type_phone t p, false)
  | PCancel => sret (handleCancelEdit user p, false)
  | PSave => (p' <- handleSaveProfile token p ;; sret (p', false))%st
  | PToggle => sret (toggleNotifications p, false)
  | PChangePassword => (handleChangePassword ;; sret (p, false))%st
  | PLogout => (confirmLogout ;; sret (p, false))%st
  | PConfirmLogout => (nav <- handleLogout ;; sret (p, nav))%st
  end.
End Events.

(** [name ? name.charAt(0).toUpperCase() : 'U'] (line 163). *)
Definition avatar_initial (name : string) : string :=
  match name with String c _ => String (ascii_upper c) EmptyString | EmptyString => "U" end.

(** [user?.membershipType ? capitalised : "N/A"] (lines 270-274). *)
Definition membership_type_text (user : option json) : option string :=
  let t := user ≫= json_get "membershipType" in
  if truthy t then match t with Some (JStr s) => Some (capitalize s) | _ => None end
  else Some "N/A".

Definition chevron_item (icon label : string) (on : option ProfileAction) : list (Elem ProfileAction) :=
  [Icon icon; Button label on; Icon "chevron-forward"].

(** The JSX returned by [ProfileScreen] (lines 152-326). *)
Definition profile_view (user : option json) (loading : bool) (p : Profile)
    : option (list (Elem ProfileAction)) :=
  number ← jsx_or (user ≫= json_get "membershipNumber") "N/A";
  type ← membership_type_text user;
  let active := truthy (user ≫= json_get "isActive") in
  Some ((if loading then [Spinner ""] else []) ++
        [Label (avatar_initial (pf_name p))] ++
        (if pf_edit p then
           [Label "Name"; Input (pf_name p) "Your name" PName;
            Label "Email"; Input (pf_email p) "Your email" PEmail;
            Label "Phone"; Input (pf_phone p) "Your phone number" PPhone;
            Button "Cancel" (Some PCancel); Button "Save" (Some PSave)]
         else
           [Label (if nonempty (pf_name p) then pf_name p else "User"); Label (pf_email p);
            Button "Edit Profile" (Some PEdit)]) ++
        [Label "Account Settings"] ++
        (if pf_edit p then [] else chevron_item "person-outline" "Edit Profile" (Some PEdit)) ++
        chevron_item "lock-closed-outline" "Change Password" (Some PChangePassword) ++
        [Icon "notifications-outline"; Label "Notifications"; Toggle (pf_notifications p) PToggle;
         Label "Membership"; Label "Member ID"; Label number; Label "Type"; Label type;
         Label "Status";
         Badge (if active then "#e6f7ed" else "#fee2e2") (if active then "Active" else "Inactive");
         Label "App"] ++
        chevron_item "help-circle-outline" "Help & Support" None ++
        chevron_item "document-text-outline" "Terms & Privacy Policy" None ++
        chevron_item "information-circle-outline" "About" None ++
        [Button "Logout" (Some PLogout)]).

(** ** Theorems *)

(** The auth context's [user] as the render needs it: a truthy
    [membershipType] is a string ([charAt]), a truthy [membershipNumber]
    is something a [Text] can show. *)
Definition profile_user_ok (user : option json) : bool :=
  let t := user ≫= json_get "membershipType" in
  let n := user ≫= json_get "membershipNumber" in
  (negb (truthy t) || (if t is Some (JStr _) then true else false)) &&
  (negb (truthy n) || (if jsx_child n is Some _ then true else false)).

(** C16. The profile screen renders, in every state of its form and with or
    without the overlay, exactly when the signed-in user's record has
    the shape [profile_user_ok] describes; otherwise the render throws. *)
Theorem profile_view_total user loading p :
  is_Some (profile_view user loading p) <-> profile_user_ok user = true.
Proof.
  unfold profile_view, profile_user_ok, jsx_or, membership_type_text.
  destruct (truthy (user ≫= json_get "membershipNumber")), (jsx_child (user ≫= json_get "membershipNumber"));
    destruct (truthy (user ≫= json_get "membershipType")), (user ≫= json_get "membershipType") as [[]|];
    simpl; split; intros H; try done; try (by destruct H); eauto.
Qed.
