(* ===== verification/LoginView.v ===== *)
(** * The login screen's state, rendering and handler on the event loop
      ([screens/login-screen.tsx], [components/loading-spinner.tsx])

    The screen's state is [LoginState]: the two fields and [loading].
    [login_view] is its JSX: [LoadingSpinner] alone while [loading]
    (the early return of line 41), the form otherwise.  [handleLogin]
    awaits the auth context's [login], so it is split at the [await]:
    [login_press] is its synchronous prefix (the field check, and
    [setLoading(true)] before the call), [login_settle] what happens when
    the call settles (navigation or the alert, then the [finally]).  The
    configuration [LoginCfg] of the mounted screen adds the contexts'
    world, the credentials of the login in flight and whether the
    navigation left the screen; [login_step] is its step relation, in
    which the user can only perform an action the rendered screen
    offers.  The login call itself runs as one step here: how its own
    awaits interleave with the rest of the API module is the subject of
    [EventLoop]. *)

From S2P Require Import Prelude Json Http Endpoint ApiService Contexts LoginProfile View.

(** ** The screen *)

Record LoginState := mkLoginState {
  ls_email : string;
  ls_password : string;
  ls_loading : bool;
}.

(** The [useState] initial values (lines 19-21). *)
Definition login_initial : LoginState := mkLoginState "" "" false.

Definition set_ls_loading (b : bool) (st : LoginState) : LoginState :=
  mkLoginState (ls_email st) (ls_password st) b.

Inductive LoginAction :=
| LTypeEmail (text : string)       (** the email input's [onChangeText] *)
| LTypePassword (text : string)    (** the password input's [onChangeText] *)
| LPressLogin.                     (** the button's [onPress] *)

(** [LoadingSpinner] with its default message (lines 7-14). *)
Definition loading_spinner {A} (message : option string) : list (Elem A) :=
  [Spinner (default "Loading..." message)].

(** The component's JSX (lines 41-74). *)
Definition login_view (st : LoginState) : list (Elem LoginAction) :=
  if ls_loading st then loading_spinner (Some "Logging in...")
  else [Label "FDA-1 Mobile";
        Input (ls_email st) "Email" LTypeEmail;
        Input (ls_password st) "Password" LTypePassword;
        Button (if ls_loading st then "Logging in..." else "Login")
               (if ls_loading st then None else Some LPressLogin)].

Section Handlers.
Context {Store : Type} `{!KVStore Store}.

(** [handleLogin] up to its [await] (lines 24-32): the credentials of
    the login it starts, if it starts one. *)
Definition login_press (st : LoginState) : App Store (LoginState * option (string * string)) :=
  if negb (nonempty (ls_email st) && nonempty (ls_password st)) then
    (api (alert "Error" "Please enter both email and password") ;; sret (st, None))%st
  else sret (set_ls_loading true st, Some (ls_email st, ls_password st)).

(** [handleLogin] after its [await] (lines 32-38): whether it navigated. *)
Definition login_settle (email password : string) (st : LoginState) : App Store (LoginState * bool) :=
  (nav <- scatch (auth_login email password ;; sret true)%st
            (fun error =>
               api (alert "Login Failed"
                      (if nonempty (exn_message error) then exn_message error else "Invalid credentials")) ;;
               sret false) ;;
   sret (set_ls_loading false st, nav))%st.

(** A UI event: the new state and the login it starts. *)
Definition login_ui (a : LoginAction) (st : LoginState) : App Store (LoginState * option (string * string)) :=
  match a with
  | LTypeEmail text => sret (mkLoginState text (ls_password st) (ls_loading st), None)
  | LTypePassword text => sret (mkLoginState (ls_email st) text (ls_loading st), None)
  | LPressLogin => login_press st
  end.

(** ** The mounted screen *)

Record LoginCfg := mkLoginCfg {
  lc_ws : World Store * Session;
  lc_screen : LoginState;
  lc_inflight : option (string * string);   (** the [login] call awaited *)
  lc_left : bool;                           (** [navigation.replace("MainTabs")] ran *)
}.

Definition login_start (ws : World Store * Session) : LoginCfg := mkLoginCfg ws login_initial None false.

Inductive login_step : LoginCfg -> LoginCfg -> Prop :=
| LsUI c a st' started ws' :
    lc_left c = false -> offered a (login_view (lc_screen c)) ->
    login_ui a (lc_screen c) (lc_ws c) = (Ok (st', started), ws') ->
    login_step c (mkLoginCfg ws' st' (match started with Some cr => Some cr | None => lc_inflight c end) false)
| LsSettle c email password st' nav ws' :
    lc_inflight c = Some (email, password) ->
    login_settle email password (lc_screen c) (lc_ws c) = (Ok (st', nav), ws') ->
    login_step c (mkLoginCfg ws' st' None (lc_left c || nav)).
End Handlers.

(** ** Theorems *)

Lemma login_view_loading st a : ls_loading st = true -> ~ offered a (login_view st).
Proof. unfold login_view. intros -> Hx. inversion Hx as [? ? Hy|? ? Hy]; [exact Hy|inversion Hy]. Qed.

Section Props.
Context {Store : Type} `{!KVStore Store}.

(** The split handler run without interruption is [handleLogin] of
    [LoginProfile], and it leaves [loading] as it found it. *)
Lemma login_press_settle st (ws : World Store * Session) :
  ls_loading st = false ->
  sbind (login_press st) (fun r => match r.2 with
                                   | Some (e, p) => login_settle e p r.1
                                   | None => sret (r.1, false)
                                   end) ws =
  sbind (handleLogin (ls_email st) (ls_password st)) (fun nav => sret (st, nav)) ws.
Proof.
  destruct st as [e p l]. cbn. intros ->.
  unfold login_press, login_settle, handleLogin. cbn. destruct (negb _); [by app_unfold|].
  app_unfold. by destruct (auth_login e p ws) as [[]] eqn:E.
Qed.

(** Every call that settles lets the screen go on. *)
Lemma login_settle_ok email password st (ws : World Store * Session) :
  exists nav ws', login_settle email password st ws = (Ok (set_ls_loading false st, nav), ws').
Proof. unfold login_settle. app_unfold. destruct (auth_login _ _ ws) as [[]]; cbn; eauto. Qed.

Lemma login_ui_loading a st (ws : World Store * Session) st' started ws' :
  offered a (login_view st) -> login_ui a st ws = (Ok (st', started), ws') ->
  (ls_loading st' = ls_loading st /\ started = None) \/
  (ls_loading st = false /\ ls_loading st' = true /\ is_Some started).
Proof.
  intros Hoff. destruct a as [t|t|]; cbn; [intros [= <- <-]; by left|intros [= <- <-]; by left|].
  destruct (ls_loading st) eqn:Hl; [by destruct (login_view_loading st LPressLogin Hl)|].
  unfold login_press. destruct (negb _).
  - app_unfold. intros [= <- <-]. by left.
  - intros [= <- <-]. right. eauto.
Qed.

(** What the mounted screen keeps true: [loading] is set exactly while
    a login is in flight. *)
Definition login_inv (c : LoginCfg (Store:=Store)) : Prop :=
  ls_loading (lc_screen c) = bool_decide (is_Some (lc_inflight c)).

Lemma login_step_inv c c' : login_inv c -> login_step c c' -> login_inv c'.
Proof.
  unfold login_inv. intros Hinv Hs. destruct Hs as [c a st' started ws' _ Hoff Hui|c e p st' nav ws' _ Hse]; cbn.
  - destruct (login_ui_loading _ _ _ _ _ _ Hoff Hui) as [[-> ->]|(Hl & -> & [cr ->])]; [done|].
    by rewrite bool_decide_eq_true_2 by eauto.
  - destruct (login_settle_ok e p (lc_screen c) (lc_ws c)) as (nav' & ws'' & E).
    rewrite Hse in E. by simplify_eq.
Qed.

Lemma login_reach_inv ws c : rtc login_step (login_start ws) c -> login_inv c.
Proof. intros H. by apply (rtc_inv _ _ login_step_inv _ _ H). Qed.
End Props.

(** C17. On the mounted login screen, whatever the user has typed and
    pressed, [loading] is set exactly while a login is in flight; the
    screen then shows only the spinner and offers no action, so a second
    login cannot start, and the pending login can always settle. *)
Theorem login_single_flight {Store} `{!KVStore Store} (ws : World Store * Session) c :
  rtc login_step (login_start ws) c ->
  (is_Some (lc_inflight c) <-> ls_loading (lc_screen c) = true) /\
  (is_Some (lc_inflight c) ->
   (forall a, ~ offered a (login_view (lc_screen c))) /\ exists c', login_step c c').
Proof.
  intros H. pose proof (login_reach_inv ws c H) as Hinv. unfold login_inv in Hinv.
  split; [rewrite Hinv; by case_bool_decide|].
  intros Hin. split; [intros a; apply login_view_loading; rewrite Hinv; by case_bool_decide|].
  destruct (lc_inflight c) as [[e p]|] eqn:Hf; [|by destruct Hin].
  destruct (login_settle_ok e p (lc_screen c) (lc_ws c)) as (nav & ws' & E).
  eexists. by eapply LsSettle.
Qed.

(** Type an email and a password, press "Login": one login is in flight. *)
Definition login_pressed : LoginCfg (Store:=gmap string string) :=
  mkLoginCfg (auth_world, session_initial) (mkLoginState "ann@example.com" "pw" true)
    (Some ("ann@example.com", "pw")) false.

Lemma login_single_flight_witness :
  rtc login_step (login_start (auth_world, session_initial)) login_pressed /\
  ((is_Some (lc_inflight login_pressed) <-> ls_loading (lc_screen login_pressed) = true) /\
   (is_Some (lc_inflight login_pressed) ->
    (forall a, ~ offered a (login_view (lc_screen login_pressed))) /\ exists c', login_step login_pressed c')).
Proof.
  assert (Hr : rtc login_step (login_start (auth_world, session_initial)) login_pressed).
  { eapply rtc_l; [eapply (LsUI _ (LTypeEmail "ann@example.com")); [done| |reflexivity]|].
    { constructor 2. constructor 1. by eexists. }
    eapply rtc_l; [eapply (LsUI _ (LTypePassword "pw")); [done| |reflexivity]|].
    { constructor 2. constructor 2. constructor 1. by eexists. }
    eapply rtc_l; [eapply (LsUI _ LPressLogin); [done| |reflexivity]|]; [|apply rtc_refl].
    do 3 constructor 2. by constructor 1. }
  split; [exact Hr|]. exact (login_single_flight _ _ Hr).
Defined.

(** The button's ["Logging in..."] label and its [disabled={loading}]
    are never rendered: while [loading] the early return shows the
    spinner instead of the form. *)
Lemma login_button_label_unreachable st :
  (count_elems (is_button "Logging in...") (login_view st) = 0)%nat /\
  Forall (fun e => match e with Button _ on => is_Some on | _ => True end) (login_view st).
Proof. unfold login_view. destruct (ls_loading st); cbn; split; repeat constructor; eauto. Qed.
