(* ===== verification/Interfaces.v ===== *)
(** * The TypeScript interfaces of the responses and what they guarantee
      ([services/api-service.ts] lines 148-214, [contexts/auth-context.tsx]
      lines 8-46, [components/create-reservation-modal.tsx] lines 28-33)

    The code declares the shapes of the backend's answers ([User],
    [Reservation], [LoginResponse], [DashboardData]) and of the request it
    builds ([ReservationCreateData]) but never checks them at run time:
    [response.data] is used as it comes.  A declared type is modelled as
    a [ty] and its meaning as the decidable predicate [has_type] on the
    JSON value, with TypeScript's structural reading: an object may carry
    more fields than its interface names, an optional field ([k?: T]) may
    be absent, a string literal union is the list of its members.

    The theorems say what the declarations buy: a user and reservations
    of the declared types make the dashboard and the profile screen
    render; a reservation list of the declared type renders exactly when
    no shown reservation has [attendees: 0], a value the type admits; and
    the wizard's request has the declared [ReservationCreateData] type
    exactly when the facility's fields are strings and the attendees text
    parses as a number.  [login_answers] states what the backend answers
    to login requests; against a backend that answers with the declared
    [LoginResponse], the login screen's navigation leaves a signed-in
    user of the declared type, for whom the profile screen renders. *)

From S2P Require Import Prelude Json TsTypes Http Endpoint ApiError ApiService Calendar Contexts ReservationModal ReservationsScreen View Dashboard DashboardView ReservationsView LoginProfile ProfileView.
From Stdlib Require Import ZArith.

(** ** Declared types *)

(** [familyMembers?: {...}[]] and [membershipApproval] of both [User]
    interfaces. *)
Definition FamilyMember_ty : ty :=
  TObj [("name", false, TString); ("relationship", false, TString); ("dateOfBirth", false, TString)].

Definition MembershipApproval_ty : ty :=
  TObj [("formPurchased", false, TObj [("status", false, TBool); ("formPrice", false, TNumber)]);
        ("interview", false, TObj [("status", false, TBool); ("date", false, TString)]);
        ("membershipFee", false, TObj [("amount", false, TNumber); ("status", false, TString)]);
        ("approvalStatus", false, TString)].

(** [interface User] of the API module (lines 148-179). *)
Definition User_ty : ty :=
  TObj [("_id", false, TString); ("name", false, TString); ("email", false, TString);
        ("phone", true, TString); ("membershipNumber", false, TString);
        ("membershipType", false, TString); ("games", false, TArr TString);
        ("familyMembers", true, TArr FamilyMember_ty); ("role", false, TString);
        ("isActive", false, TBool); ("isPaused", false, TBool);
        ("membershipApproval", false, MembershipApproval_ty)].

(** [interface User] of the auth context (auth-context.tsx, lines 8-38):
    the same without [phone]. *)
Definition AuthUser_ty : ty :=
  TObj [("_id", false, TString); ("name", false, TString); ("email", false, TString);
        ("membershipNumber", false, TString);
        ("membershipType", false, TString); ("games", false, TArr TString);
        ("familyMembers", true, TArr FamilyMember_ty); ("role", false, TString);
        ("isActive", false, TBool); ("isPaused", false, TBool);
        ("membershipApproval", false, MembershipApproval_ty)].

(** [interface LoginResponse] (lines 181-184). *)
Definition LoginResponse_ty : ty := TObj [("user", false, User_ty); ("token", false, TString)].

(** [interface Reservation] (lines 186-199). *)
Definition Reservation_ty : ty :=
  TObj [("_id", false, TString); ("userId", false, TString); ("facilityId", false, TString);
        ("facilityName", false, TString); ("date", false, TString); ("timeSlot", false, TString);
        ("duration", true, TNumber);
        ("status", false, TLit ["pending"; "confirmed"; "cancelled"; "completed"]);
        ("createdAt", false, TString); ("updatedAt", false, TString);
        ("notes", true, TString); ("attendees", true, TNumber)].

(** [interface ReservationCreateData] (lines 201-208). *)
Definition ReservationCreateData_ty : ty :=
  TObj [("facilityId", false, TString); ("facilityName", false, TString); ("date", false, TString);
        ("timeSlot", false, TString); ("attendees", true, TNumber); ("notes", true, TString)].

(** The reservation context's own copies (reservation-context.tsx,
    lines 13-26 and 29-36). *)
Definition CtxReservation_ty : ty :=
  TObj [("_id", false, TString); ("userId", false, TString); ("facilityId", false, TString);
        ("facilityName", false, TString); ("date", false, TString); ("timeSlot", false, TString);
        ("duration", true, TNumber);
        ("status", false, TLit ["pending"; "confirmed"; "cancelled"; "completed"]);
        ("createdAt", false, TString); ("updatedAt", false, TString);
        ("notes", true, TString); ("attendees", true, TNumber)].

Definition CtxReservationCreateData_ty : ty :=
  TObj [("facilityId", false, TString); ("facilityName", false, TString); ("date", false, TString);
        ("timeSlot", false, TString); ("attendees", true, TNumber); ("notes", true, TString)].

(** The dashboard screen's own declarations (dashboard-screen.tsx,
    lines 16-30 and 32-59): a [Reservation] whose status is any string,
    and the [user] of its [DashboardData]. *)
Definition DashReservation_ty : ty :=
  TObj [("_id", false, TString); ("userId", false, TString); ("facilityId", false, TString);
        ("facilityName", false, TString); ("date", false, TString); ("timeSlot", false, TString);
        ("duration", true, TNumber); ("status", false, TString); ("notes", true, TString);
        ("attendees", true, TNumber); ("equipment", true, TArr TString);
        ("createdAt", false, TString); ("updatedAt", false, TString)].

Definition DashUser_ty : ty :=
  TObj [("_id", false, TString); ("name", false, TString); ("email", false, TString);
        ("membershipNumber", false, TString); ("membershipType", false, TString);
        ("games", false, TArr TString); ("membershipApproval", false, MembershipApproval_ty)].

(** The list item's [reservation] prop (reservation-item.tsx, lines 4-13). *)
Definition ItemReservation_ty : ty :=
  TObj [("_id", false, TString); ("facilityId", false, TString); ("facilityName", false, TString);
        ("date", false, TString); ("timeSlot", false, TString); ("status", false, TString);
        ("notes", true, TString); ("attendees", true, TNumber)].

(** [interface DashboardData] (lines 210-215), of the parsed record. *)
Definition dashboard_typed (d : DashboardData) : Prop :=
  has_type User_ty (dd_user d) = true /\ Forall (fun r => has_type Reservation_ty r = true) (dd_reservations d).

(** The dashboard screen's [interface DashboardData] (dashboard-screen.tsx,
    lines 32-59), of the parsed record. *)
Definition screen_dashboard_typed (d : DashboardData) : Prop :=
  has_type DashUser_ty (dd_user d) = true /\ Forall (fun r => has_type DashReservation_ty r = true) (dd_reservations d).

(** [interface Facility] of the wizard (create-reservation-modal.tsx,
    lines 28-33), of the record built from a fetched facility. *)
Definition facility_typed (f : Facility) : Prop :=
  (exists s, fac_id f = Some (JStr s)) /\ (exists s, fac_name f = Some (JStr s)) /\
  (exists s, fac_type f = Some (JStr s)).

Lemma typed_no_null t l : Forall (fun r => has_type (TObj t) r = true) l -> has_null l = false.
Proof.
  unfold has_null. induction 1 as [|r l Hr _ IH]; [done|]. cbn. by destruct r.
Qed.

(** The context declares the same shapes as the API module, so a value
    passes between them with its type. *)
Lemma ctx_interfaces_agree : CtxReservation_ty = Reservation_ty /\ CtxReservationCreateData_ty = ReservationCreateData_ty.
Proof. split; reflexivity. Qed.

(** ** What the declarations guarantee to the screens *)

(** The attendees line of an absent or numeric [attendees]. *)
Lemma attendees_elems_some v :
  v = None \/ (exists n, v = Some (JNum n)) -> is_Some (attendees_elems v) <-> v <> Some (JNum 0).
Proof.
  intros [->|[n ->]]; unfold attendees_elems; cbn; [split; [done|by eexists]|].
  destruct (Z.eqb_spec n 0) as [->|Hn0]; cbn.
  - split; [by intros [? ?]|done].
  - split; [intros _; congruence|by eexists].
Qed.

(** A reservation of the declared type: its list item renders exactly
    when its attendees are not [0]. *)
Lemma typed_item_view tz isPast r :
  has_type Reservation_ty r = true ->
  is_Some (item_view tz isPast r) <-> json_get "attendees" r <> Some (JNum 0).
Proof.
  intros H. rewrite <-attendees_elems_some by (apply (typed_opt_number _ _ _ H); field_in).
  unfold item_view.
  destruct (typed_string _ _ "facilityName" H) as [name Hn]; [field_in|].
  destruct (typed_lit _ _ "status" ["pending"; "confirmed"; "cancelled"; "completed"] H) as [st Hs]; [field_in|].
  destruct (typed_string _ _ "timeSlot" H) as [slot Ht]; [field_in|].
  rewrite Hn, Hs, Ht. cbn [jsx_child jsx_text mbind option_bind].
  destruct (attendees_elems _); cbn; split; intros [? ?]; try done; by eexists.
Qed.

(** The list's [.then] of [is_Some]: the rest of the JSX always renders. *)
Lemma is_Some_bind_Some {A B} (m : option A) (f : A -> B) : is_Some (m ≫= fun a => Some (f a)) <-> is_Some m.
Proof. destruct m; cbn; split; intros [? ?]; try done; by eexists. Qed.

(** C35. A reservation list of the declared type [Reservation[]] renders
    exactly when no reservation of the shown tab has [attendees: 0]:
    the type allows that value ([attendees?: number]) and the item's
    [{reservation.attendees && ...}] then puts a bare [0] outside a
    [Text], which throws. *)
Theorem typed_reservations_render tz now l st :
  Forall (fun r => has_type Reservation_ty r = true) l ->
  is_Some (reservations_view tz now (JArr l) st) <->
  Forall (fun r => json_get "attendees" r <> Some (JNum 0)) (filteredReservations (rs_tab st) now l).
Proof.
  intros H. unfold reservations_view. rewrite (typed_no_null _ l H).
  destruct (rs_loading st && _) eqn:Hsp.
  { apply andb_true_iff in Hsp as [_ Hl]. destruct l; [|done]. split; [constructor|by eexists]. }
  rewrite is_Some_bind_Some, mapM_is_Some.
  apply (Forall_list_filter _ (in_tab (rs_tab st) now)) in H. fold (filteredReservations (rs_tab st) now l) in H.
  induction H as [|r rest Hr _ IH]; [split; constructor|].
  rewrite !Forall_cons, IH. cbn. by rewrite typed_item_view.
Qed.

Lemma bind_is_Some {A B} (m : option A) (f : A -> option B) :
  is_Some m -> (forall a, m = Some a -> is_Some (f a)) -> is_Some (m ≫= f).
Proof. intros [a Ha] Hf. rewrite Ha. cbn. by apply Hf. Qed.

(** [{v || dflt}] of an absent value or a string renders. *)
Lemma jsx_or_str v dflt : v = None \/ (exists s, v = Some (JStr s)) -> is_Some (jsx_or v dflt).
Proof. intros [->|[s ->]]; unfold jsx_or; cbn; [by eexists|]. destruct (negb _); by eexists. Qed.

Lemma typed_games g : has_type (TArr TString) g = true -> is_Some (games_elems (Some g)).
Proof.
  destruct g as [| | | |l|]; try done. intros Hl%has_type_arr. unfold games_elems.
  destruct l as [|y l]; [by eexists|]. apply mapM_is_Some. eapply Forall_impl; [exact Hl|].
  intros [] Hx; try done. cbn. by eexists.
Qed.

Lemma typed_upcoming_elems tz r : has_type ItemReservation_ty r = true -> is_Some (upcoming_elems tz r).
Proof.
  intros H. unfold upcoming_elems.
  destruct (typed_string _ _ "facilityName" H) as [name Hn]; [field_in|].
  destruct (typed_string _ _ "status" H) as [st Hs]; [field_in|].
  destruct (typed_string _ _ "timeSlot" H) as [slot Ht]; [field_in|].
  rewrite Hn, Hs, Ht. cbn. by eexists.
Qed.

(** C29. With a signed-in user of the auth context's declared [User]
    type and loaded dashboard data whose [user] has the type the screen
    declares for it and whose reservations have the list item's
    declared type (true of both declarations of [DashboardData],
    [declared_dashboard_renderable]), the dashboard renders in every
    state of the screen: each string method and [Text] it applies gets a
    value of the type it needs. *)
Theorem typed_dashboard_renders tz u isConnected networkRefreshing st :
  has_type AuthUser_ty u = true ->
  (forall d, ds_data st = Some d ->
     has_type DashUser_ty (dd_user d) = true /\
     Forall (fun r => has_type ItemReservation_ty r = true) (dd_reservations d)) ->
  is_Some (dashboard_view tz (Some u) isConnected networkRefreshing st).
Proof.
  intros Hu Hd. unfold dashboard_view. destruct (_ && _); [by eexists|].
  destruct (typed_string _ _ "name" Hu) as [nm Hnm]; [field_in|].
  apply bind_is_Some; [apply jsx_or_str; cbn; rewrite Hnm; eauto|intros welcome _].
  destruct (ds_data st) as [d|] eqn:Ed; cbn [fmap option_fmap option_map opt_path].
  2: { cbn. repeat (apply bind_is_Some; [by eexists|intros ? _]). by eexists. }
  destruct (Hd d eq_refl) as [Hu' Hrs].
  destruct (typed_string _ _ "membershipType" Hu') as [mt Hmt]; [field_in|].
  destruct (typed_string _ _ "membershipNumber" Hu') as [mn Hmn]; [field_in|].
  destruct (has_type_required _ _ "games" (TArr TString) Hu') as (g & Hg & Htg); [field_in|].
  destruct (has_type_required _ _ "membershipApproval" MembershipApproval_ty Hu') as (a & Ha & Hta); [field_in|].
  destruct (typed_string _ _ "approvalStatus" Hta) as [ast Hast]; [field_in|].
  destruct (has_type_required _ _ "membershipFee"
                      (TObj [("amount", false, TNumber); ("status", false, TString)]) Hta) as (f & Hf & Htf); [field_in|].
  destruct (typed_string _ _ "status" Htf) as [fs Hfs]; [field_in|].
  rewrite (typed_object _ _ Hu').
  apply bind_is_Some; [unfold membership_title; rewrite Hmt; by eexists|intros ? _].
  apply bind_is_Some; [apply jsx_or_str; cbn; rewrite Ha; cbn; rewrite Hast; eauto|intros ? _].
  apply bind_is_Some; [apply jsx_or_str; cbn; rewrite Hmn; eauto|intros ? _].
  apply bind_is_Some; [cbn; rewrite Hg; by apply typed_games|intros ? _].
  apply bind_is_Some; [apply jsx_or_str; cbn; rewrite Ha; cbn; rewrite Hf; cbn; rewrite Hfs; eauto|intros ? _].
  apply bind_is_Some; [|intros ? _; by eexists].
  apply mapM_is_Some, Forall_forall. intros r Hr%elem_of_upcoming.
  apply typed_upcoming_elems. exact (proj1 (Forall_forall _ _) Hrs r (proj1 Hr)).
Qed.

(** The fields of the body [handleSubmit] builds. *)
Lemma reservation_data_get f slot wz :
  let v := reservation_data f slot wz in
  json_get "facilityId" v = fac_id f /\ json_get "facilityName" v = fac_name f /\
  json_get "date" v = Some (JStr (iso_date (wz_date wz))) /\ json_get "timeSlot" v = Some (JStr slot) /\
  json_get "attendees" v = Some (match parseInt (wz_attendees wz) with Some n => JNum n | None => JNull end) /\
  (json_get "notes" v = None \/ exists s, json_get "notes" v = Some (JStr s)).
Proof.
  unfold reservation_data. cbn zeta.
  destruct (fac_id f), (fac_name f), (String.eqb _ _); cbn; eauto 10.
Qed.

(** The body [handleSubmit] posts has the declared type
    [ReservationCreateData] exactly when the selected facility's [id] and
    [name] are strings and the attendees text parses as a number: for an
    empty or non-numeric text [parseInt] gives [NaN], which the request
    carries as [null]. *)
Theorem reservation_data_typed f slot wz :
  has_type ReservationCreateData_ty (reservation_data f slot wz) = true <->
  (exists s, fac_id f = Some (JStr s)) /\ (exists s, fac_name f = Some (JStr s)) /\
  is_Some (parseInt (wz_attendees wz)).
Proof.
  destruct (reservation_data_get f slot wz) as (Hid & Hname & Hdate & Hslot & Hatt & Hnotes).
  unfold ReservationCreateData_ty. rewrite has_type_obj, !Forall_cons.
  rewrite Hid, Hname, Hdate, Hslot, Hatt, !opt_string_typed.
  assert (Hn : match json_get "notes" (reservation_data f slot wz) with
               | Some x => has_type TString x = true | None => true = true end)
    by (destruct Hnotes as [->|[s ->]]; done).
  assert (Hobj : exists kvs, reservation_data f slot wz = JObj kvs) by (eexists; reflexivity).
  destruct (parseInt _); cbn; [intuition eauto|split; [intros (_ & _ & _ & _ & _ & ? & _); done|intros (_ & _ & []); done]].
Qed.

(** A signed-in user of the declared type renders the profile screen,
    in every state of its form. *)
Lemma typed_profile_renders u loading p :
  has_type AuthUser_ty u = true -> is_Some (profile_view (Some u) loading p).
Proof.
  intros Hu. unfold profile_view.
  destruct (typed_string _ _ "membershipNumber" Hu) as [mn Hmn]; [field_in|].
  destruct (typed_string _ _ "membershipType" Hu) as [mt Hmt]; [field_in|].
  apply bind_is_Some; [apply jsx_or_str; cbn; rewrite Hmn; eauto|intros ? _].
  apply bind_is_Some; [|intros ? _; by eexists].
  unfold membership_type_text. cbn. rewrite Hmt. destruct (truthy _); by eexists.
Qed.

(** The API module's [User] is an auth context [User]: it only adds the
    optional [phone]. *)
(** How the declarations relate: the API module's [User] is assignable
    to the auth context's and to the dashboard's; its [Reservation] to
    the list item's prop, as is the dashboard's; the context's copies to
    the module's.  The auth context's [User] is not assignable to the
    module's, which declares [phone], nor is the module's [Reservation]
    to the dashboard's, which declares [equipment]: a value of the
    first may carry those fields with any content. *)
Lemma interfaces_subtypes :
  subtype User_ty AuthUser_ty = true /\ subtype User_ty DashUser_ty = true /\
  subtype AuthUser_ty DashUser_ty = true /\
  subtype Reservation_ty ItemReservation_ty = true /\ subtype DashReservation_ty ItemReservation_ty = true /\
  subtype CtxReservation_ty Reservation_ty = true /\
  subtype AuthUser_ty User_ty = false /\ subtype Reservation_ty DashReservation_ty = false.
Proof. vm_compute. repeat split. Qed.

(** Dashboard data of either declaration of [DashboardData] has what the
    dashboard's render needs. *)
Lemma declared_dashboard_renderable d :
  dashboard_typed d \/ screen_dashboard_typed d ->
  has_type DashUser_ty (dd_user d) = true /\
  Forall (fun r => has_type ItemReservation_ty r = true) (dd_reservations d).
Proof.
  destruct interfaces_subtypes as (_ & HU & _ & HR & HD & _).
  intros [[Hu Hr]|[Hu Hr]].
  - split; [exact (subtype_sound _ _ _ HU Hu)|]. eapply Forall_impl; [exact Hr|]. intros r. apply (subtype_sound _ _ _ HR).
  - split; [exact Hu|]. eapply Forall_impl; [exact Hr|]. intros r. apply (subtype_sound _ _ _ HD).
Qed.

(** The API module's [User] is an auth context [User]. *)
Lemma User_is_AuthUser u : has_type User_ty u = true -> has_type AuthUser_ty u = true.
Proof. apply subtype_sound. apply interfaces_subtypes. Qed.

(** ** Values of the declared types *)

Definition typed_approval : json :=
  JObj [("formPurchased", JObj [("status", JBool true); ("formPrice", JNum 100)]);
        ("interview", JObj [("status", JBool true); ("date", JStr "2030-01-02")]);
        ("membershipFee", JObj [("amount", JNum 500); ("status", JStr "paid")]);
        ("approvalStatus", JStr "approved")].

Definition typed_user : json :=
  JObj [("_id", JStr "u1"); ("name", JStr "Ann"); ("email", JStr "ann@example.com");
        ("phone", JStr "555"); ("membershipNumber", JStr "M-1"); ("membershipType", JStr "family");
        ("games", JArr [JStr "tennis"; JStr "squash"]); ("role", JStr "member");
        ("isActive", JBool true); ("isPaused", JBool false); ("membershipApproval", typed_approval)].

(** A reservation of the declared type with [attendees: n]. *)
Definition typed_reservation (n : Z) : json :=
  JObj [("_id", JStr "r1"); ("userId", JStr "u1"); ("facilityId", JStr "f1");
        ("facilityName", JStr "Court A"); ("date", JStr "2030-01-05"); ("timeSlot", JStr "10:00");
        ("status", JStr "confirmed"); ("createdAt", JStr "2030-01-01"); ("updatedAt", JStr "2030-01-01");
        ("attendees", JNum n)].

Definition typed_dash : DashState :=
  mkDash (Some (mkDashboard typed_user [typed_reservation 2] 1 0)) false false false.

Lemma typed_dashboard_renders_witness :
  has_type AuthUser_ty typed_user = true /\
  is_Some (dashboard_view 0 (Some typed_user) (Some true) false typed_dash).
Proof.
  assert (Hu : has_type AuthUser_ty typed_user = true) by reflexivity.
  split; [exact Hu|]. apply (typed_dashboard_renders 0 typed_user (Some true) false typed_dash Hu).
  intros d [= <-]. split; [reflexivity|]. repeat constructor.
Defined.

(** With 2 attendees the upcoming tab renders; with 0 it throws. *)
Lemma typed_reservations_render_witness :
  is_Some (reservations_view 0 morning (JArr [typed_reservation 2]) (mkRs false false false Upcoming)) /\
  ~ is_Some (reservations_view 0 morning (JArr [typed_reservation 0]) (mkRs false false false Upcoming)).
Proof.
  split.
  - apply (typed_reservations_render 0 morning [typed_reservation 2] (mkRs false false false Upcoming));
      [repeat constructor|]. vm_compute. repeat constructor. discriminate.
  - rewrite (typed_reservations_render 0 morning [typed_reservation 0] (mkRs false false false Upcoming))
      by repeat constructor.
    vm_compute. intros H. inversion H. auto.
Defined.

(** ** A backend that answers logins with the declared type *)

(** Every 2xx answer to a login request with these credentials, to any
    base URL, satisfies [P]. *)
Definition login_answers (P : json -> Prop) (net : nat -> Request -> Outcome) (identifier password : string) : Prop :=
  forall n base st b, net n (login_request base identifier password) = Answer st b -> is_2xx st = true ->
  P (axios_data b).

Definition login_answers_typed := login_answers (fun r => has_type LoginResponse_ty r = true).

Section TypedLogin.
Context {Store : Type} `{!KVStore Store}.
Variable P : json -> Prop.

Lemma login_post_answers identifier password (w : World Store) :
  login_answers P (w_net w) identifier password ->
  match fst (login_post identifier password w) with Ok r => P r | Err _ => True end.
Proof.
  intros H. rewrite login_post_run. cbn.
  destruct (w_net w _ _) as [| |st b] eqn:E; cbn; try done.
  destruct (is_2xx st) eqn:H2; cbn; [by eapply H|done].
Qed.

(** A successful login attempt resolves with the answer to a login post
    made in a world with the same network: the first one or the retry. *)
Lemma login_attempt_post identifier password (w : World Store) r w1 :
  login_attempt identifier password w = (Ok r, w1) ->
  exists w', w_net w' = w_net w /\ fst (login_post (Store:=Store) identifier password w') = Ok r.
Proof.
  unfold login_attempt, scatch.
  destruct (login_post identifier password w) as [[r0|e0] w0] eqn:Ep.
  { intros [= -> _]. exists w. by rewrite Ep. }
  assert (Hw0 : w_net w0 = w_net w) by (rewrite login_post_run in Ep; by injection Ep as _ <-).
  destruct (is_network_error e0); [|discriminate]. unfold sbind at 1.
  destruct (findWorkingApiUrl w0) as [[[u|]|e'] w2] eqn:Ef; try discriminate.
  destruct (String.eqb u ""); [discriminate|]. unfold sbind. rewrite updateApiBaseUrl_run.
  intros Hr. exists (set_urls u u w2). split; [|by rewrite Hr].
  unfold findWorkingApiUrl in Ef. rewrite find_working_eq in Ef. injection Ef as _ <-.
  cbn. by rewrite push_sents_net.
Qed.

(** What [login] resolves with is an answer to a login request. *)
Lemma login_answers_result identifier password (w : World Store) :
  login_answers P (w_net w) identifier password ->
  match fst (login identifier password w) with Ok r => P r | Err _ => True end.
Proof.
  intros H. unfold login, scatch.
  destruct (login_attempt identifier password w) as [[r|e] w1] eqn:E; cbn;
    [|by destruct (login_handler_run e w1) as (e' & w' & -> & _)].
  destruct (login_attempt_post _ _ _ _ _ E) as (w' & Hn & Hr).
  pose proof (login_post_answers identifier password w') as Hp. rewrite Hr in Hp. apply Hp. by rewrite Hn.
Qed.
End TypedLogin.

Section AuthTyped.
Context {Store : Type} `{!KVStore Store}.

(** After a successful [login] of the auth context, its [user] is the
    answer's [user], of the declared type. *)
Lemma auth_login_typed identifier password (w : World Store) s w1 s1 :
  login_answers_typed (w_net w) identifier password ->
  auth_login identifier password (w, s) = (Ok tt, (w1, s1)) ->
  exists u, ss_user s1 = Some u /\ has_type User_ty u = true.
Proof.
  intros H. pose proof (login_answers_result _ identifier password w H) as Ht.
  unfold auth_login, sbind, api, upd, read_prop, storage_set, stringify_opt. cbn.
  destruct (login identifier password w) as [[resp|e] w'] eqn:E; [|intros [=]]. cbn [fst] in Ht. cbn.
  destruct (is_null resp); [intros [=]|]. cbn.
  destruct (has_type_required _ _ "user" User_ty Ht) as (u & Hu & Htu); [field_in|]. rewrite Hu.
  destruct (json_get "token" resp) as [[| | |t| |]|]; try (intros [=]; fail). cbn.
  intros [= <- <-]. by exists u.
Qed.
End AuthTyped.

(** C26. From the login screen to the profile screen: against a backend
    whose login answers have the declared [LoginResponse] type, when
    [handleLogin] navigates to the main tabs, the auth context's [user]
    has the declared [User] type and the profile screen renders, in every
    state of its form.  The path goes through the login screen, the auth
    context, the API module's login with its retry, and the render. *)
Theorem login_navigates_profile_renders {Store} `{!KVStore Store} email password (w : World Store) s :
  login_answers_typed (w_net w) email password ->
  let '(r, (w', s')) := handleLogin email password (w, s) in
  r = Ok true ->
  (exists u, ss_user s' = Some u /\ has_type AuthUser_ty u = true) /\
  forall loading p, is_Some (profile_view (ss_user s') loading p).
Proof.
  intros H. unfold handleLogin. destruct (negb _); [by app_unfold|].
  unfold scatch, sbind at 1. destruct (auth_login email password (w, s)) as [[[]|e] [w1 s1]] eqn:E.
  - cbn. intros _. destruct (auth_login_typed _ _ _ _ _ _ H E) as (u & Hu & Ht).
    apply User_is_AuthUser in Ht. split; [eauto|]. rewrite Hu. intros. by apply typed_profile_renders.
  - app_unfold. discriminate.
Qed.

(** A backend that answers every request with a user of the declared type. *)
Definition typed_login_net (_ : nat) (_ : Request) : Outcome :=
  Answer 200 (BJson (JObj [("user", typed_user); ("token", JStr "t1")])).

Definition typed_login_world : World (gmap string string) := initial_world ∅ typed_login_net (fun _ => 0%nat).

Lemma login_navigates_profile_renders_witness :
  fst (handleLogin "ann@example.com" "pw" (typed_login_world, session_initial)) = Ok true /\
  let '(r, (w', s')) := handleLogin "ann@example.com" "pw" (typed_login_world, session_initial) in
  r = Ok true ->
  (exists u, ss_user s' = Some u /\ has_type AuthUser_ty u = true) /\
  forall loading p, is_Some (profile_view (ss_user s') loading p).
Proof.
  split; [vm_compute; reflexivity|].
  apply login_navigates_profile_renders. intros n base st b [= <- <-] _. reflexivity.
Defined.

(** The declarations agree where values flow between them: a [User]
    of the API module's type (what [login] and [getUserProfile] return) is
    a [User] of the auth context and of the dashboard; a [Reservation] of
    the module, of the dashboard or of the reservation context is a
    valid prop of the list item; the context's [Reservation] is the
    module's. *)
Theorem interfaces_assignable v :
  (has_type User_ty v = true -> has_type AuthUser_ty v = true /\ has_type DashUser_ty v = true) /\
  (has_type Reservation_ty v = true -> has_type ItemReservation_ty v = true) /\
  (has_type DashReservation_ty v = true -> has_type ItemReservation_ty v = true) /\
  (has_type CtxReservation_ty v = true -> has_type Reservation_ty v = true /\ has_type ItemReservation_ty v = true).
Proof.
  destruct interfaces_subtypes as (HA & HU & _ & HR & HD & HC & _).
  pose proof (subtype_sound _ _ v HR) as HR'.
  split; [|split; [|split]]; intros H.
  - exact (conj (subtype_sound _ _ _ HA H) (subtype_sound _ _ _ HU H)).
  - exact (HR' H).
  - exact (subtype_sound _ _ _ HD H).
  - pose proof (subtype_sound _ _ _ HC H) as Hr. exact (conj Hr (HR' Hr)).
Qed.

Lemma interfaces_assignable_witness :
  has_type User_ty typed_user = true /\ has_type AuthUser_ty typed_user = true /\ has_type DashUser_ty typed_user = true.
Proof.
  assert (H : has_type User_ty typed_user = true) by reflexivity.
  split; [exact H|]. exact (proj1 (interfaces_assignable typed_user) H).
Defined.
