(* ===== verification/Notifications.v ===== *)
(** * Notifications ([utils/notifications.tsx],
      [components/notification-center.tsx], and the dashboard's
      [handleNotificationPress])

    [scheduleReservationReminder] shows one local notification whose
    [data] is [{type: 'reservation_confirmation', reservationId}]
    ([reminder_content]).  The notification center keeps a list of
    [Notif]s in its state: the received-listener puts a new unread one in
    front with a random id, the response-listener (a tap on a system
    notification) marks as read the notifications whose id is
    [data.id || random] and hands a copy to the screen's
    [onNotificationPress], the list's own buttons mark as read or clear
    everything.  The dashboard's [onNotificationPress] navigates to the
    reservations screen for [data.type === 'reservation_reminder'].

    The random ids ([Math.random().toString(36)...]) are arguments of the
    listeners, the expo-notifications calls are the events that invoke
    them, and [toLocaleDateString] is a parameter [locale_date] of the
    content: the model does not fix a locale.  The list's own buttons
    ([handleNotificationPress], "Clear All") and its JSX are [nc_view];
    [registerForPushNotifications] is a function of what the platform and
    expo answer ([PushEnv]) giving the calls it makes and its result. *)

From S2P Require Import Prelude Json Calendar View.
From stdpp Require Import pretty.

Local Open Scope Z_scope.

(** What expo-notifications gives a listener: [request.content]. *)
Record Content := mkContent {
  c_title : option string;
  c_body : option string;
  c_data : json;
}.

Record Notif := mkNotif {
  n_id : string;
  n_title : string;
  n_body : string;
  n_read : bool;
  n_time : Z;          (** [timestamp], a time value *)
  n_data : json;
}.

(** [s || dflt] for an optional string. *)
Definition or_default (o : option string) (dflt : string) : string :=
  match o with Some s => if String.eqb s "" then dflt else s | None => dflt end.

(** ** [scheduleReservationReminder] (notifications.tsx, lines 96-111) *)

Section Reminder.
Variable locale_date : Z -> string.

(** [new Date(date).toLocaleDateString()]. *)
Definition date_text (date : string) : string :=
  match js_date (Some (JStr date)) with Some t => locale_date t | None => "Invalid Date" end.

Definition reminder_content (reservationId facilityName date timeSlot : string) : Content :=
  mkContent (Some "Reservation Confirmed")
    (Some ("Your reservation at " +:+ facilityName +:+ " on " +:+ date_text date +:+ " at " +:+
           timeSlot +:+ " has been confirmed."))
    (JObj [("type", JStr "reservation_confirmation"); ("reservationId", JStr reservationId)]).
End Reminder.

(** ** The notification center (notification-center.tsx) *)

Definition mark_read_if (matches : Notif -> bool) (l : list Notif) : list Notif :=
  map (fun n => if matches n then mkNotif (n_id n) (n_title n) (n_body n) true (n_time n) (n_data n) else n) l.

(** The received-listener (lines 25-36), with the random id [rid] and
    the time [now]. *)
Definition on_received (c : Content) (rid : string) (now : Z) (l : list Notif) : list Notif :=
  mkNotif rid (or_default (c_title c) "New Notification") (or_default (c_body c) "") false now (c_data c) :: l.

(** [notificationData.id || random]. *)
Definition response_id (data : json) (rid : string) : json :=
  if truthy (json_get "id" data) then match json_get "id" data with Some v => v | None => JStr rid end
  else JStr rid.

(** The response-listener (lines 39-62): the new list, and the copy
    passed to [onNotificationPress]; reading [id] of a null [data] throws
    ([None]). *)
Definition on_response (c : Content) (rid : string) (now : Z) (l : list Notif)
    : option (list Notif * Notif) :=
  match c_data c with
  | JNull => None
  | data =>
      let nid := response_id data rid in
      Some (mark_read_if (fun n => match nid with JStr s => String.eqb (n_id n) s | _ => false end) l,
            mkNotif (match nid with JStr s => s | v => js_String v end)
              (or_default (c_title c) "Notification") (or_default (c_body c) "") true now data)
  end.

(** [markAsRead] (lines 71-75). *)
Definition markAsRead (id : string) (l : list Notif) : list Notif :=
  mark_read_if (fun n => String.eqb (n_id n) id) l.

(** [clearAllNotifications] (lines 87-89). *)
Definition clearAllNotifications (l : list Notif) : list Notif := [].

(** [formatTimestamp] (lines 91-105): [None] stands for the locale date. *)
Definition formatTimestamp (now t : Z) : option string :=
  let diffInMinutes := (now - t) / 60000 in
  if diffInMinutes <? 1 then Some "Just now"
  else if diffInMinutes <? 60 then Some (pretty diffInMinutes +:+ "m ago")
  else
    let diffInHours := diffInMinutes / 60 in
    if diffInHours <? 24 then Some (pretty diffInHours +:+ "h ago")
    else
      let diffInDays := diffInHours / 24 in
      if diffInDays <? 7 then Some (pretty diffInDays +:+ "d ago") else None.

Definition unread_count (l : list Notif) : nat := length (List.filter (fun n => negb (n_read n)) l).

(** ** The dashboard's [handleNotificationPress] (dashboard-screen.tsx, lines 115-120) *)

(** Whether it navigates to the reservations screen. *)
Definition dashboard_navigates (n : Notif) : bool := field_is "type" "reservation_reminder" (n_data n).

(** ** The list's own buttons and its JSX (notification-center.tsx, lines 77-172) *)

Inductive NcAction := NPressItem (n : Notif) | NClearAll | NClose.

(** [handleNotificationPress] (lines 77-85): the new list, the
    notification handed to [onNotificationPress] (as it was before being
    marked), and [onClose] is called. *)
Definition handleNotificationPress (n : Notif) (l : list Notif) : list Notif * Notif :=
  (markAsRead (n_id n) l, n).

(** One row of the list (lines 131-158), at time [now] in zone [tz]. *)
Definition notif_elems (tz now : Z) (n : Notif) : list (Elem NcAction) :=
  [Highlight (negb (n_read n)); Icon "notifications-outline"; Button (n_title n) (Some (NPressItem n));
   Label (n_body n);
   match formatTimestamp now (n_time n) with
   | Some s => Label s
   | None => DateLabel (Some (local_civil tz (n_time n))) ""
   end] ++
  (if n_read n then [] else [Dot]).

(** The modal's content (lines 107-172); [Modal] shows nothing while not
    [visible]. *)
Definition nc_view (tz now : Z) (visible : bool) (l : list Notif) : list (Elem NcAction) :=
  if negb visible then []
  else [Label "Notifications"; Button "close" (Some NClose)] ++
       match l with
       | [] => [Icon "notifications-off-outline"; Label "No notifications yet"]
       | _ => Button "Clear All" (Some NClearAll) :: concat (map (notif_elems tz now) l)
       end.

(** ** [registerForPushNotifications] (notifications.tsx, lines 22-76) *)

(** What the platform and expo answer. *)
Record PushEnv := mkPushEnv {
  pe_android : bool;                 (** [Platform.OS === 'android'] *)
  pe_channel_ok : bool;              (** [setNotificationChannelAsync] resolves *)
  pe_device : bool;                  (** [Device.isDevice] *)
  pe_existing : string;              (** [getPermissionsAsync().status] *)
  pe_requested : string;             (** [requestPermissionsAsync().status] *)
  pe_projectId : option json;        (** [Constants.expoConfig?.extra?.eas?.projectId] *)
  pe_token : option string;          (** [getExpoPushTokenAsync] resolves with [data], or [None]: it rejects *)
}.

Inductive PushCall := SetChannel | GetPermissions | RequestPermissions | GetPushToken.

(** What the function resolves with. *)
Inductive PushResult := PushNull | PushUndefined | PushToken (token : string).

(** The calls made, in order, and the result. *)
Definition registerForPushNotifications (e : PushEnv) : list PushCall * PushResult :=
  let chan := if pe_android e then [SetChannel] else [] in
  if pe_android e && negb (pe_channel_ok e) then (chan, PushNull)
  else if negb (pe_device e) then (chan, PushUndefined)
  else
    let ask := negb (String.eqb (pe_existing e) "granted") in
    let finalStatus := if ask then pe_requested e else pe_existing e in
    let perms := chan ++ GetPermissions :: (if ask then [RequestPermissions] else []) in
    if negb (String.eqb finalStatus "granted") then (perms, PushNull)
    else if negb (truthy (pe_projectId e)) then (perms, PushNull)
    else match pe_token e with
         | Some t => (perms ++ [GetPushToken], PushToken t)
         | None => (perms ++ [GetPushToken], PushNull)
         end.

(** [scheduleNotification]'s content (lines 79-88): [data || {}]. *)
Definition schedule_content (title body : string) (data : option json) : Content :=
  mkContent (Some title) (Some body) (if truthy data then default (JObj []) data else JObj []).

(** ** Theorems *)

Lemma mark_read_if_none matches l :
  Forall (fun n => matches n = false) l -> mark_read_if matches l = l.
Proof.
  unfold mark_read_if. induction 1 as [|n l Hn _ IH]; simpl; [done|]. by rewrite Hn, IH.
Qed.

(** A tap on a notification whose [data] has no [id] marks nothing as
    read: it looks for the fresh random id, which no listed notification
    has.  The app's own notifications carry no [id] in their data. *)
Theorem tap_marks_nothing c rid now l l' n :
  json_get "id" (c_data c) = None -> Forall (fun m => n_id m <> rid) l ->
  on_response c rid now l = Some (l', n) -> l' = l.
Proof.
  intros Hid Hl. unfold on_response, response_id.
  destruct (c_data c); try discriminate; rewrite Hid; simpl; intros [= <- _]; apply mark_read_if_none;
    (eapply Forall_impl; [exact Hl|]); intros m Hm; by apply String.eqb_neq.
Qed.

(** The dashboard navigates to the reservations screen for a
    notification of type 'reservation_reminder', but the only
    notification the app schedules, the confirmation of a new
    reservation, has type 'reservation_confirmation': neither the listed
    notification nor a tap on it ever navigates. *)
Theorem own_notification_never_navigates locale_date reservationId facilityName date timeSlot rid now l :
  let c := reminder_content locale_date reservationId facilityName date timeSlot in
  (exists n, on_received c rid now l = n :: l /\ dashboard_navigates n = false) /\
  (forall l' n, on_response c rid now l = Some (l', n) -> dashboard_navigates n = false).
Proof.
  split; [eexists; split; reflexivity|]. intros l' n. simpl. intros [= _ <-]. reflexivity.
Qed.

(** Pressing a row of the list marks every notification with its id as
    read, while a tap on the system notification marks none
    ([tap_marks_nothing]): the unread dots of the rows with that id are
    gone. *)
Theorem press_marks_read n l :
  Forall (fun m => n_id m = n_id n -> n_read m = true) (handleNotificationPress n l).1.
Proof.
  unfold handleNotificationPress, markAsRead, mark_read_if. simpl.
  apply Forall_forall. intros m Hm. apply list_elem_of_In, in_map_iff in Hm as (m' & <- & _).
  cbv beta. destruct (String.eqb_spec (n_id m') (n_id n)); simpl; [done|]. intros Heq. by destruct (n0 Heq).
Qed.

Definition is_dot {A} (e : Elem A) : bool := if e is Dot then true else false.

Lemma dots_rows tz now l : count_elems is_dot (concat (map (notif_elems tz now) l)) = unread_count l.
Proof.
  unfold unread_count. induction l as [|m l IH]; [done|]. cbn [map concat List.filter].
  rewrite count_app, IH. unfold notif_elems. rewrite count_app.
  destruct (formatTimestamp now (n_time m)), (n_read m); reflexivity.
Qed.

(** The open list shows one unread dot per unread notification. *)
Theorem nc_view_dots tz now l : count_elems is_dot (nc_view tz now true l) = unread_count l.
Proof.
  unfold nc_view. simpl negb. cbn iota. rewrite count_app.
  destruct l as [|n l]; [reflexivity|].
  change (count_elems is_dot (Button "Clear All" (Some NClearAll) :: concat (map (notif_elems tz now) (n :: l))))
    with (count_elems is_dot ([Button "Clear All" (Some NClearAll)] ++ concat (map (notif_elems tz now) (n :: l)))).
  rewrite count_app, dots_rows. reflexivity.
Qed.

(** C28. A push token comes back only from a device whose permission is, or
    after asking becomes, "granted" and whose app config has a project
    id; permission is asked for exactly when it was not granted yet. *)
Theorem register_push_token e t :
  (registerForPushNotifications e).2 = PushToken t ->
  pe_device e = true /\ truthy (pe_projectId e) = true /\ pe_token e = Some t /\
  (pe_existing e = "granted" \/ pe_requested e = "granted") /\
  (RequestPermissions ∈ (registerForPushNotifications e).1 <-> pe_existing e <> "granted").
Proof.
  destruct e as [and ch dev ex req pid tok]. unfold registerForPushNotifications. cbn zeta.
  intros Hres. repeat case_match; cbn in *; simplify_eq/=.
  all: rewrite ?negb_true_iff, ?negb_false_iff in *;
    repeat match goal with
    | H : (_ =? _)%string = true |- _ => apply String.eqb_eq in H
    | H : (_ =? _)%string = false |- _ => apply String.eqb_neq in H
    end;
    split_and!; try done; try tauto;
    rewrite !elem_of_cons, ?elem_of_nil; split; intros Hin; [repeat destruct Hin as [Hin|Hin]; try discriminate; try done|];
    try tauto.
Qed.

(** A device on which permission is already granted. *)
Definition granted_env : PushEnv :=
  mkPushEnv false true true "granted" "denied" (Some (JStr "p1")) (Some "ExponentPushToken[x]").

Lemma register_push_token_witness :
  (registerForPushNotifications granted_env).2 = PushToken "ExponentPushToken[x]" /\
  pe_device granted_env = true /\ truthy (pe_projectId granted_env) = true /\
  pe_token granted_env = Some "ExponentPushToken[x]" /\
  (pe_existing granted_env = "granted" \/ pe_requested granted_env = "granted") /\
  (RequestPermissions ∈ (registerForPushNotifications granted_env).1 <-> pe_existing granted_env <> "granted").
Proof.
  assert (H : (registerForPushNotifications granted_env).2 = PushToken "ExponentPushToken[x]") by reflexivity.
  split; [exact H|]. exact (register_push_token _ _ H).
Defined.
