(* ===== verification/Navigation.v ===== *)
(** * Navigation ([App.tsx], [navigation/main-tabs.tsx],
      [components/network-alert-banner.tsx])

    The root stack has the routes Login and MainTabs and always starts at
    Login ([initialRouteName]); the login screen replaces it by MainTabs
    after a successful login ([LoginProfile.handleLogin]) and the profile
    screen resets it to Login after a logout ([root_step]).  [MainTabs]
    renders the offline banner above the tab navigator ([main_tabs_view]):
    the focused tab's header title and, for each tab, the icon
    [tabBarIcon] chooses from the route's name and focus.  The providers'
    nesting in [App.tsx] (network, auth, reservations) is the order in
    which the model's state records are composed ([Contexts.Session] over
    [Http.World]).  [DashboardCard] ([components/dashboard-card.tsx]),
    which no screen uses, is a touchable card that can only be pressed
    when it is given an [onPress]. *)

From S2P Require Import Prelude Json View NetworkStatus.
From stdpp Require Import pretty.

Inductive Route := Login | MainTabs.

(** [initialRouteName="Login"] (App.tsx, line 38). *)
Definition initialRouteName : Route := Login.

(** What moves the root stack: [navigation.replace("MainTabs")] after a
    login, [navigation.reset({index: 0, routes: [{name: "Login"}]})] after
    a logout. *)
Inductive RootEvent := LoginSucceeded | LoggedOut.

Definition root_step (stack : list Route) (e : RootEvent) : list Route :=
  match e with
  | LoginSucceeded => match stack with _ :: rest => MainTabs :: rest | [] => [MainTabs] end
  | LoggedOut => [Login]
  end.

(** [tabBarIcon] (main-tabs.tsx, lines 25-37). *)
Definition tabBarIcon (route : string) (focused : bool) : string :=
  if String.eqb route "Dashboard" then (if focused then "home" else "home-outline")
  else if String.eqb route "Reservations" then (if focused then "calendar" else "calendar-outline")
  else if String.eqb route "Profile" then (if focused then "person" else "person-outline")
  else "help-circle".

(** The [Tab.Screen]s (lines 47-49). *)
Definition tab_routes : list string := ["Dashboard"; "Reservations"; "Profile"].

(** [NetworkAlertBanner]'s JSX (network-alert-banner.tsx, lines 32-44). *)
Definition banner_view {A} (visible : bool) : list (Elem A) :=
  if visible then [Icon "cloud-offline-outline"; Label "No internet connection"] else [].

(** [MainTabs] (lines 19-53) with the tab [focused] on screen: the
    banner, the header ([headerShown]) with the route's name, and the tab
    bar, whose buttons select a route. *)
Definition main_tabs_view (bannerVisible : bool) (focused : string) : list (Elem string) :=
  banner_view bannerVisible ++ [Label focused] ++
  concat (map (fun r => [Highlight (String.eqb r focused); Icon (tabBarIcon r (String.eqb r focused));
                         Button r (Some r)]) tab_routes).

(** [DashboardCard] (dashboard-card.tsx, lines 12-22): the icon, the
    number and the title inside a [TouchableOpacity] with
    [disabled={!onPress}]; the colour is styling only. *)
Definition DashboardCard {A} (title : string) (value : Z) (icon color : string) (onPress : option A) :
    list (Elem A) :=
  [Icon icon; Label (pretty value); Label title; Button title onPress].

(** ** Theorems *)

(** The three tabs of the navigator each get their own pair of icons. *)
Lemma tabBarIcon_distinct :
  NoDup (map (fun r => tabBarIcon r false) tab_routes) /\
  NoDup (map (fun r => tabBarIcon r true) tab_routes).
Proof. split; vm_compute; repeat constructor; set_solver. Qed.

(** The root stack holds one route whatever happens, so "back" never
    leaves the main tabs for the login screen nor the other way round. *)
Lemma root_stack_single evs :
  exists r, foldl root_step [initialRouteName] evs = [r].
Proof.
  enough (H : forall r0, exists r, foldl root_step [r0] evs = [r]) by apply H.
  induction evs as [|[] evs IH]; intros r0; cbn; [eauto|apply IH|apply IH].
Qed.

(** On every tab, on any sequence of NetInfo updates without a [null]
    report, the banner is rendered whenever the device is offline. *)
Lemma tabs_banner_offline es focused :
  Forall (fun e => no_null e = true) es ->
  ns_connected (run_events net_initial es) = Some false ->
  main_tabs_view (bn_visible (run_events net_initial es)) focused =
  [Icon "cloud-offline-outline"; Label "No internet connection"; Label focused] ++
  concat (map (fun r => [Highlight (String.eqb r focused); Icon (tabBarIcon r (String.eqb r focused));
                         Button r (Some r)]) tab_routes).
Proof.
  intros Hes Hoff. destruct (run_banner_inv net_initial es Hes) as [H _].
  - split; [done|]. intros; discriminate.
  - unfold main_tabs_view, banner_view. by rewrite (proj1 (H Hoff)).
Qed.


(** A card offers exactly the action it is given, and none without one. *)
Lemma dashboard_card_offers {A} title value icon color (onPress : option A) a :
  offered a (DashboardCard title value icon color onPress) <-> onPress = Some a.
Proof.
  unfold DashboardCard, offered. rewrite !Exists_cons, Exists_nil. cbn.
  destruct onPress as [f|]; cbn; naive_solver.
Qed.
