(* ===== verification/BuildTools.v ===== *)
(** * Build tooling ([check-install.js], [metro.config.js])

    [check-install.js] is a Node script: it loads [chalk], checks that
    four directories, seven files and five dependencies exist, runs
    [node -v] and [npm -v], and prints a report.  The file system, the
    two commands and [require] of a [package.json] are the oracle
    [InstallEnv]; the report is the list of [console.log] lines with the
    colour [chalk] gives them.  [path.join(__dirname, p)] is the relative
    path [p].

    [metro.config.js] configures the bundler; the model has the dev
    server's middleware ([middleware], lines 48-62) and the worker count
    ([maxWorkers], line 66).  [Number(s)] of the environment variable is
    read for decimal integers with optional spaces and sign; other
    numeric forms are outside the model. *)

From S2P Require Import Prelude Json ApiError ReservationModal Dashboard.
From Stdlib Require Import Ascii ZArith.

Local Open Scope Z_scope.

(** ** check-install.js *)

Inductive Color := Blue | Green | Red | Yellow | Plain.

Record InstallEnv := mkInstallEnv {
  chalk_loads : bool;                          (** [require('chalk')] returns *)
  fs_exists : string -> bool;                  (** [fs.existsSync] *)
  node_v : option string;                      (** output of [node -v], [None]: it throws *)
  npm_v : option string;
  require_json : string -> res string json;    (** [require(path)] of a JSON file *)
}.

Definition requiredDirs : list string := ["node_modules"; "assets"; "assets/images"; "src"].

Definition requiredFiles : list string :=
  ["app.json"; "App.tsx"; "package.json"; "metro.config.js"; "assets/images/icon.png";
   "assets/images/splash-icon.png"; "assets/images/adaptive-icon.png"].

Definition criticalDeps : list string :=
  ["react-native"; "expo"; "react"; "@react-navigation/native"; "@react-native-async-storage/async-storage"].

Definition ok_mark : string := "✅ ".
Definition ko_mark : string := "❌ ".

Definition dir_line (env : InstallEnv) (dir : string) : Color * string :=
  if fs_exists env dir then (Green, ok_mark +:+ dir +:+ " directory exists")
  else (Red, ko_mark +:+ dir +:+ " directory is missing").

Definition file_line (env : InstallEnv) (file : string) : Color * string :=
  if fs_exists env file then (Green, ok_mark +:+ file +:+ " exists")
  else (Red, ko_mark +:+ file +:+ " is missing").

Definition package_path (dep : string) : string := "node_modules/" +:+ dep +:+ "/package.json".

(** One dependency (lines 84-96): its line, and whether it counts as installed. *)
Definition dep_check (env : InstallEnv) (dep : string) : (Color * string) * bool :=
  if fs_exists env (package_path dep) then
    match require_json env (package_path dep) with
    | Ok JNull =>
        ((Red, ko_mark +:+ "Error checking " +:+ dep +:+ ": Cannot read properties of null (reading 'version')"),
         false)
    | Ok pj => ((Green, ok_mark +:+ dep +:+ ": " +:+ template (json_get "version" pj)), true)
    | Err msg => ((Red, ko_mark +:+ "Error checking " +:+ dep +:+ ": " +:+ msg), false)
    end
  else ((Red, ko_mark +:+ dep +:+ " is not installed"), false).

Definition command_line (name : string) (out : option string) : Color * string :=
  match out with
  | Some v => (Green, ok_mark +:+ name +:+ ": " +:+ trim v)
  | None => (Red, ko_mark +:+ "Could not detect " +:+ name)
  end.

Definition summary (dirs files deps : bool) : list (Color * string) :=
  if dirs && files && deps then
    [(Green, newline +:+ "All checks passed! Your installation looks good.");
     (Plain, "To start the app, run:"); (Blue, "  npx expo start --clear")]
  else
    [(Yellow, newline +:+ "Some checks failed. Try these fixes:")] ++
    (if deps then [] else [(Blue, "• Reinstall dependencies:"); (Plain, "  npm install")]) ++
    (if files then [] else [(Blue, "• Fix missing files mentioned above")]) ++
    [(Blue, "• Try cleaning the project:"); (Plain, "  npm run clean");
     (Blue, "• If issues persist, try with new dependencies:"); (Plain, "  rm -rf node_modules");
     (Plain, "  npm install")].

(** The whole script: its output, or the error that stops it (line 11:
    [require] throws when [chalk] cannot be loaded, before [||] is
    evaluated). *)
Definition check_install (env : InstallEnv) : res string (list (Color * string)) :=
  if negb (chalk_loads env) then Err "Cannot find module 'chalk'"
  else
    let allDirsExist := forallb (fs_exists env) requiredDirs in
    let allFilesExist := forallb (fs_exists env) requiredFiles in
    let deps := map (dep_check env) criticalDeps in
    let allDepsInstalled := forallb snd deps in
    Ok ([(Blue, "===== FDA Mobile App Installation Check =====");
         (Blue, newline +:+ "Checking directory structure:")] ++
        map (dir_line env) requiredDirs ++
        [(Blue, newline +:+ "Checking important files:")] ++
        map (file_line env) requiredFiles ++
        [(Blue, newline +:+ "Checking environment:");
         command_line "Node.js" (node_v env); command_line "npm" (npm_v env);
         (Blue, newline +:+ "Checking critical dependencies:")] ++
        map fst deps ++
        [(Blue, newline +:+ "===== Installation Check Summary =====")] ++
        summary allDirsExist allFilesExist allDepsInstalled ++
        [(Blue, newline +:+ "=======================================")]).

(** ** metro.config.js *)

Inductive MiddlewareResult :=
| Respond404                 (** [res.statusCode = 404; res.end()] *)
| PassWithCORS.              (** the CORS header set, then the default middleware *)

(** [enhanceMiddleware] (lines 48-62) on a request URL. *)
Definition middleware (url : string) : MiddlewareResult :=
  if str_includes "hot" url then Respond404 else PassWithCORS.

Fixpoint digits_value (acc : Z) (l : list ascii) : option Z :=
  match l with
  | [] => Some acc
  | c :: l' =>
      let n := Z.of_nat (nat_of_ascii c) in
      if (48 <=? n)%Z && (n <=? 57)%Z then digits_value (acc * 10 + (n - 48))%Z l' else None
  end.

(** [Number(s)] for a decimal integer; [None] is [NaN]. *)
Definition js_Number (s : string) : option Z :=
  match String.list_ascii_of_string (trim s) with
  | [] => Some 0
  | "-"%char :: ((_ :: _) as digits) => Z.opp <$> digits_value 0 digits
  | "+"%char :: ((_ :: _) as digits) => digits_value 0 digits
  | l => digits_value 0 l
  end.

(** [Math.max(2, (process.env.NUMBER_OF_PROCESSORS || 4) - 1)] (line 66). *)
Definition maxWorkers (nproc : option string) : option Z :=
  let n := match nproc with Some s => if String.eqb s "" then Some 4 else js_Number s | None => Some 4 end in
  match n with Some k => Some (Z.max 2 (k - 1)) | None => None end.

(** ** Theorems *)

(** [require('chalk') || fallback] never uses its fallback: when [chalk]
    cannot be loaded the script stops before printing anything. *)
Theorem check_install_needs_chalk env :
  chalk_loads env = false -> check_install env = Err "Cannot find module 'chalk'".
Proof. intros H. unfold check_install. by rewrite H. Qed.






(** The dev server answers 404 to every URL containing "hot", not only
    to hot-reload requests: an image named [screenshot.png] cannot be
    loaded. *)
Example middleware_blocks_screenshot : middleware "/assets/images/screenshot.png" = Respond404.
Proof. reflexivity. Qed.

(** When it is a number, the worker count is at least 2. *)
Theorem maxWorkers_bound nproc n : maxWorkers nproc = Some n -> 2 <= n.
Proof.
  unfold maxWorkers. destruct (match nproc with Some s => _ | None => _ end) as [k|]; [|discriminate].
  intros [= <-]. lia.
Qed.

Example maxWorkers_nan : maxWorkers (Some "four") = None.
Proof. reflexivity. Qed.


